(** * ArcRelay: payment verification, nonce registry and gateway transfers

    A shallow embedding of the TypeScript sources of the ArcRelay
    repository (facilitator, paywall proxy, gateway service and gateway
    routes), and the properties its specification states about them.

    Conventions of the embedding.
    - A JavaScript string is a [string]: a sequence of code units, of which
      the embedding covers the ones below 256.
    - A [bigint] is a [Z].  A JavaScript [number] that the code uses as an
      integer (a unix time in seconds, a version, the recovery id [v]) is a
      [Z] as well.
    - A function that may throw returns a [Result]: [Ok] with its value, or
      [Throw] with the message of the [Error] it throws.
    - What the code obtains from the outside world (the clock, the Circle
      API, the chain, viem's hashing and signature recovery) is an argument
      of the embedded function. *)

From Stdlib Require Import ZArith String Ascii List Bool Lia DecimalString HexadecimalString
  Permutation Sorted.
From stdpp Require Import gmap strings list.

Open Scope string_scope.
Open Scope list_scope.
Open Scope Z_scope.

(** ** Results of functions that may throw *)

Inductive Result (A : Type) : Type :=
| Ok (value : A)
| Throw (message : string).

Arguments Ok {A} value.
Arguments Throw {A} message.

Definition bind {A B : Type} (r : Result A) (k : A -> Result B) : Result B :=
  match r with
  | Ok a => k a
  | Throw m => Throw m
  end.

Notation "'let*' x ':=' r 'in' k" := (bind r (fun x => k))
  (at level 10, x name, r at level 100, k at level 200).

Definition isOk {A : Type} (r : Result A) : bool :=
  match r with Ok _ => true | Throw _ => false end.

Definition Result_value {A : Type} (r : Result A) : option A :=
  match r with Ok a => Some a | Throw _ => None end.

(** ** Calls to the outside world

    An asynchronous function of the sources awaits answers of services it
    does not control.  Its embedding is a function of the history of the
    calls made so far, and returns the longer history with its result.  A
    world gives, for each kind of call, the answer as a function of the
    history up to and including the call: the answers may depend on
    everything that happened before, and on nothing else. *)

Section Runs.
Context {Call : Type}.

Definition Run (A : Type) : Type := list Call -> Result A * list Call.

Definition ret {A : Type} (a : A) : Run A := fun h => (Ok a, h).

Definition raise {A : Type} (message : string) : Run A := fun h => (Throw message, h).

Definition lift {A : Type} (r : Result A) : Run A := fun h => (r, h).

Definition andThen {A B : Type} (r : Run A) (k : A -> Run B) : Run B :=
  fun h =>
    match r h with
    | (Ok a, h') => k a h'
    | (Throw m, h') => (Throw m, h')
    end.

(** [try { r } catch (err) { handler(err.message) }] *)
Definition tryCatch {A : Type} (r : Run A) (handler : string -> Run A) : Run A :=
  fun h =>
    match r h with
    | (Ok a, h') => (Ok a, h')
    | (Throw m, h') => handler m h'
    end.

(** A call: it enters the history, newest first, and the world answers. *)
Definition call {A : Type} (c : Call) (answer : list Call -> Result A) : Run A :=
  fun h => (answer (c :: h), c :: h).

End Runs.

Notation "x <- r ;; k" := (andThen r (fun x => k))
  (at level 100, r at next level, right associativity).
Notation "r ;;; k" := (andThen r (fun _ => k))
  (at level 100, right associativity).

(** ** The JavaScript primitives the sources use *)

Module JS.

(** [!s] for a string: the empty string is the only falsy one. *)
Definition isEmpty (s : string) : bool :=
  match s with EmptyString => true | String _ _ => false end.

(** [a || b] on strings. *)
Definition orElse (a b : string) : string := if isEmpty a then b else a.

Definition code (c : ascii) : nat := nat_of_ascii c.

(** The class [[0-9]] of a regular expression. *)
Definition isDigit (c : ascii) : bool := (48 <=? code c)%nat && (code c <=? 57)%nat.

(** White space and line terminators, as [String.prototype.trim] and the
    string-to-number conversions skip them (tab, line feed, vertical tab,
    form feed, carriage return, space, no-break space). *)
Definition isWhite (c : ascii) : bool :=
  ((9 <=? code c)%nat && (code c <=? 13)%nat) || (code c =? 32)%nat || (code c =? 160)%nat.

Definition digitVal (c : ascii) : Z := Z.of_nat (code c) - 48.

(** [s.replace(/[^0-9]/g, '')] *)
Fixpoint keepDigits (s : string) : string :=
  match s with
  | EmptyString => EmptyString
  | String c s' => if isDigit c then String c (keepDigits s') else keepDigits s'
  end.

Fixpoint allDigits (s : string) : bool :=
  match s with
  | EmptyString => true
  | String c s' => isDigit c && allDigits s'
  end.

Fixpoint allWhite (s : string) : bool :=
  match s with
  | EmptyString => true
  | String c s' => isWhite c && allWhite s'
  end.

Fixpoint trimStart (s : string) : string :=
  match s with
  | EmptyString => EmptyString
  | String c s' => if isWhite c then trimStart s' else s
  end.

Fixpoint trimEnd (s : string) : string :=
  match s with
  | EmptyString => EmptyString
  | String c s' =>
      let t := trimEnd s' in
      if isWhite c && isEmpty t then EmptyString else String c t
  end.

(** [s.trim()] *)
Definition trim (s : string) : string := trimEnd (trimStart s).

(** [s.split(sep)] for a separator of one code unit; the result is never
    empty. *)
Fixpoint split (sep : ascii) (s : string) : list string :=
  match s with
  | EmptyString => [EmptyString]
  | String c s' =>
      if Ascii.eqb c sep then EmptyString :: split sep s'
      else match split sep s' with
           | h :: t => String c h :: t
           | [] => [String c EmptyString]
           end
  end.

(** [s.slice(a, b)] for [0 <= a <= b]. *)
Definition slice (a b : nat) (s : string) : string := substring a (b - a) s.

(** [prefix p s]: [s.startsWith(p)]. *)
Fixpoint startsWith (p s : string) : bool :=
  match p, s with
  | EmptyString, _ => true
  | String _ _, EmptyString => false
  | String a p', String b s' => Ascii.eqb a b && startsWith p' s'
  end.

(** [s.includes(p)] *)
Fixpoint includes (p s : string) : bool :=
  startsWith p s ||
  match s with
  | EmptyString => false
  | String _ s' => includes p s'
  end.

(** [c] is one of the code units of [s]. *)
Fixpoint occurs (c : ascii) (s : string) : bool :=
  match s with
  | EmptyString => false
  | String x s' => Ascii.eqb x c || occurs c s'
  end.

(** The value of a string of decimal digits, most significant first. *)
Fixpoint decimalFrom (acc : Z) (s : string) : Z :=
  match s with
  | EmptyString => acc
  | String c s' => decimalFrom (acc * 10 + digitVal c) s'
  end.

Definition decimalValue (s : string) : Z := decimalFrom 0 s.

(** Digits of a radix up to 16, for the [0x], [0o] and [0b] literals. *)
Definition radixDigit (radix : nat) (c : ascii) : option Z :=
  let n := code c in
  let v := if (48 <=? n)%nat && (n <=? 57)%nat then Some (n - 48)%nat
           else if (97 <=? n)%nat && (n <=? 102)%nat then Some (n - 87)%nat
           else if (65 <=? n)%nat && (n <=? 70)%nat then Some (n - 55)%nat
           else None in
  match v with
  | Some d => if (d <? radix)%nat then Some (Z.of_nat d) else None
  | None => None
  end.

Fixpoint radixFrom (radix : nat) (acc : Z) (s : string) : option Z :=
  match s with
  | EmptyString => Some acc
  | String c s' =>
      match radixDigit radix c with
      | Some d => radixFrom radix (acc * Z.of_nat radix + d) s'
      | None => None
      end
  end.

Definition radixLiteral (radix : nat) (digits : string) : option Z :=
  if isEmpty digits then None else radixFrom radix 0 digits.

Definition decimalLiteral (digits : string) : option Z :=
  if isEmpty digits then None
  else if allDigits digits then Some (decimalValue digits) else None.

(** [s.slice(n)]: [s] without its first [n] code units. *)
Fixpoint drop (n : nat) (s : string) : string :=
  match n, s with
  | O, _ => s
  | S _, EmptyString => EmptyString
  | S n', String _ s' => drop n' s'
  end.

(** The integer literal of [StringToBigInt], white space already removed:
    empty, a [0x], [0o] or [0b] literal, or decimal digits with an optional
    sign. *)
Definition integerLiteral (t : string) : option Z :=
  if isEmpty t then Some 0
  else if startsWith "0x" t || startsWith "0X" t then radixLiteral 16 (drop 2 t)
  else if startsWith "0o" t || startsWith "0O" t then radixLiteral 8 (drop 2 t)
  else if startsWith "0b" t || startsWith "0B" t then radixLiteral 2 (drop 2 t)
  else if startsWith "-" t then option_map Z.opp (decimalLiteral (drop 1 t))
  else if startsWith "+" t then decimalLiteral (drop 1 t)
  else decimalLiteral t.

(** [BigInt(s)] for a string [s]: a [SyntaxError] when [s] is no integer
    literal. *)
Definition BigInt (s : string) : Result Z :=
  match integerLiteral (trim s) with
  | Some z => Ok z
  | None => Throw ("Cannot convert " +:+ s +:+ " to a BigInt")
  end.

(** [z.toString()] for a bigint. *)
Definition toString (z : Z) : string := DecimalString.NilZero.string_of_int (Z.to_int z).

(** [n.toString(16)] for an integer. *)
Definition toStringHex (z : Z) : string :=
  HexadecimalString.NilZero.string_of_int (Z.to_hex_int z).

(** [s.padStart(2, '0')] *)
Definition padStart2 (s : string) : string :=
  match s with
  | EmptyString => "00"
  | String c EmptyString => String "0" s
  | _ => s
  end.

(** [parseInt(s, 16)]: white space, a sign and a [0x] may come first, then
    the hexadecimal digits count up to the first code unit that is none;
    [None] is NaN. *)
Fixpoint hexPrefix (acc : option Z) (s : string) : option Z :=
  match s with
  | EmptyString => acc
  | String c s' =>
      match radixDigit 16 c with
      | Some d => hexPrefix (Some (default 0 acc * 16 + d)) s'
      | None => acc
      end
  end.

Definition parseInt16 (s : string) : option Z :=
  let t := trimStart s in
  let negative := startsWith "-" t in
  let t := if startsWith "-" t || startsWith "+" t then drop 1 t else t in
  let t := if startsWith "0x" t || startsWith "0X" t then drop 2 t else t in
  (fun n => if negative then - n else n) <$> hexPrefix None t.

(** [s.toLowerCase()] on the code units the embedding covers: the letters
    A-Z and the capital letters of Latin-1 (U+00C0-U+00DE but U+00D7). *)
Definition lowerChar (c : ascii) : ascii :=
  let n := code c in
  if ((65 <=? n)%nat && (n <=? 90)%nat)
     || ((192 <=? n)%nat && (n <=? 222)%nat && negb (n =? 215)%nat)
  then ascii_of_nat (n + 32) else c.

Fixpoint toLowerCase (s : string) : string :=
  match s with
  | EmptyString => EmptyString
  | String c s' => String (lowerChar c) (toLowerCase s')
  end.

End JS.

(** ** The gateway service ([backend/src/services/gatewayService.ts]) *)

Module GatewayService.
Import JS.

(** *** Amounts in base units *)

(** The destructuring [[intPartRaw, fracPartRaw = ''] = trimmed.split('.')]:
    the first and the second piece, the second being [''] when there is
    none. *)
Definition piece (i : nat) (s : string) : string := nth i (split "." s) EmptyString.

Definition parseUsdcAmountToBaseUnits (amount : string) : Result Z :=
  let trimmed := trim amount in
  if isEmpty trimmed then Ok 0
  else
    let intPartRaw := piece 0 trimmed in
    let fracPartRaw := piece 1 trimmed in
    let intPart := orElse (keepDigits intPartRaw) "0" in
    let fracPartPadded := slice 0 6 (keepDigits fracPartRaw +:+ "000000") in
    let full := intPart +:+ fracPartPadded in
    BigInt full.

(** What the parse reads of its argument: the digits before the first dot,
    the digits between the first and the second dot, and the latter padded
    with zeros and cut to six digits. *)
Definition integerDigits (amount : string) : string := keepDigits (piece 0 amount).
Definition fractionDigits (amount : string) : string := keepDigits (piece 1 amount).
Definition sixDigits (fraction : string) : string := slice 0 6 (fraction +:+ "000000").

(** The loop of [getWalletUsdcBalance] over the wallet's USDC-like token
    balances, each given by its [amount] as the Circle API reports it
    ([None] when the field is missing: [String(tb.amount ?? '0')]). *)
Fixpoint sumUsdcBaseUnits (totalBaseUnits : Z) (usdcTokens : list (option string)) : Result Z :=
  match usdcTokens with
  | [] => Ok totalBaseUnits
  | tbAmount :: rest =>
      let rawAmount := default "0" tbAmount in
      let* units := parseUsdcAmountToBaseUnits rawAmount in
      sumUsdcBaseUnits (totalBaseUnits + units) rest
  end.

(** The last steps of [getGatewayUsdcBalanceForDepositor]: the balance
    string of the first entry of the Gateway API's answer, when there is
    one. *)
Definition gatewayBalanceOfEntry (balanceStr : option string) : Result Z :=
  match balanceStr with
  | None => Ok 0
  | Some s => if isEmpty s then Ok 0 else parseUsdcAmountToBaseUnits s
  end.

(** *** Token balances and their selection *)

Record TokenBalance : Type := mkTokenBalance {
  walletId : string;
  blockchain : string;
  address : string;
  tokenAddress : string;
  amount : Z;
  decimals : Z
}.

(** A [SelectedToken] has the fields of a [TokenBalance]; its [amount] is
    the amount drawn. *)
Definition SelectedToken : Type := TokenBalance.

(** [{ ...balance, amount: amountToUse }] *)
Definition withAmount (balance : TokenBalance) (amountToUse : Z) : SelectedToken :=
  {| walletId := walletId balance;
     blockchain := blockchain balance;
     address := address balance;
     tokenAddress := tokenAddress balance;
     amount := amountToUse;
     decimals := decimals balance |}.

(** The comparison function handed to [sort]. *)
Definition compareAmounts (a b : TokenBalance) : Z :=
  if amount a >? amount b then -1
  else if amount a <? amount b then 1
  else 0.

(** [Array.prototype.sort] is stable: an element stays before the later
    elements it does not compare greater than.  The sorted copy is built
    from the right, each element entering the sorted rest of the array. *)
Fixpoint sortInsert (x : TokenBalance) (sorted : list TokenBalance) : list TokenBalance :=
  match sorted with
  | [] => [x]
  | y :: rest =>
      if compareAmounts x y >? 0 then y :: sortInsert x rest
      else x :: sorted
  end.

Definition sortBalances (balances : list TokenBalance) : list TokenBalance :=
  fold_right sortInsert [] balances.

(** The [for ... of] loop over the sorted balances, with its [break]. *)
Fixpoint selectLoop (sortedBalances : list TokenBalance)
    (selected : list SelectedToken) (remaining : Z) : list SelectedToken * Z :=
  match sortedBalances with
  | [] => (selected, remaining)
  | balance :: rest =>
      if remaining <=? 0 then (selected, remaining)
      else if amount balance >? 0 then
        let amountToUse :=
          if amount balance >? remaining then remaining else amount balance in
        selectLoop rest (selected ++ [withAmount balance amountToUse])
                   (remaining - amountToUse)
      else selectLoop rest selected remaining
  end.

Definition insufficientMessage (requestedAmount remaining : Z) : string :=
  "Insufficient balance. Need " +:+ toString requestedAmount +:+
  ", have " +:+ toString (requestedAmount - remaining).

Definition selectTokensForTransfer (balances : list TokenBalance) (requestedAmount : Z)
    : Result (list SelectedToken) :=
  let sortedBalances := sortBalances balances in
  let '(selected, remaining) := selectLoop sortedBalances [] requestedAmount in
  if remaining >? 0 then Throw (insufficientMessage requestedAmount remaining)
  else Ok selected.

(** *** Gateway domains *)

Definition GATEWAY_WALLET_ADDRESS : string := "0x0077777d7EBA4688BDeF3E311b846F25870A19B9".
Definition GATEWAY_MINTER_ADDRESS : string := "0x0022222ABE238Cc2C7Bb1f21003F0a260052475B".

(** The token addresses are the defaults of the source; the environment of
    the process may set others. *)
Definition AVAX_FUJI_USDC_ADDRESS : string := "0x5425890298aed601595a70AB815c96711a31Bc65".
Definition HYPEREVM_TESTNET_USDC_ADDRESS : string := "0x2B3370eE501B4a559b57D449569354196457D8Ab".
Definition ARC_TESTNET_USDC_ADDRESS : string := "0x3600000000000000000000000000000000000000".

Module GatewayDomainConfig.
Record t : Type := mk {
  chain : string;
  network : string;
  blockchain : string;
  domain : Z;
  walletContractAddress : string;
  minterContractAddress : string;
  usdcAddress : string
}.
End GatewayDomainConfig.

Definition GATEWAY_DOMAIN_CONFIGS : list (string * GatewayDomainConfig.t) :=
  [ ("Avalanche:Fuji",
     GatewayDomainConfig.mk "Avalanche" "Fuji" "AVAX-FUJI" 1
       GATEWAY_WALLET_ADDRESS GATEWAY_MINTER_ADDRESS AVAX_FUJI_USDC_ADDRESS);
    ("HyperEVM:Testnet",
     GatewayDomainConfig.mk "HyperEVM" "Testnet" "HYPEREVM-TESTNET" 19
       GATEWAY_WALLET_ADDRESS GATEWAY_MINTER_ADDRESS HYPEREVM_TESTNET_USDC_ADDRESS);
    ("ARC:Testnet",
     GatewayDomainConfig.mk "ARC" "Testnet" "ARC-TESTNET" 26
       GATEWAY_WALLET_ADDRESS GATEWAY_MINTER_ADDRESS ARC_TESTNET_USDC_ADDRESS) ].

(** [GATEWAY_DOMAIN_CONFIGS[key]] *)
Definition domainConfigOfKey (key : string) : option GatewayDomainConfig.t :=
  snd <$> List.find (fun entry => String.eqb (fst entry) key) GATEWAY_DOMAIN_CONFIGS.

Definition getDomainConfigByBlockchain (blockchain : string) : option GatewayDomainConfig.t :=
  List.find (fun c => String.eqb (GatewayDomainConfig.blockchain c) blockchain)
            (map snd GATEWAY_DOMAIN_CONFIGS).

Definition totalAmount (tokens : list TokenBalance) : Z :=
  fold_right (fun t acc => amount t + acc) 0 tokens.

(** The balances the loop draws from: the ones with a positive amount. *)
Definition hasFunds (balance : TokenBalance) : bool := amount balance >? 0.

Definition fundedBalances (balances : list TokenBalance) : list TokenBalance :=
  List.filter hasFunds balances.

(** The order the sort gives: no balance is smaller than a later one. *)
Definition descending (a b : TokenBalance) : Prop := amount b <= amount a.

(** What is drawn from a balance: the balance with the amount drawn. *)
Definition draw (d : TokenBalance * Z) : SelectedToken := withAmount (fst d) (snd d).

(** An error message names an amount when the amount's decimal digits stand
    in it. *)
Definition namesAmount (message : string) (value : Z) : bool :=
  includes (toString value) message.

(** *** Deposits into the Gateway wallet contract *)

(** The transaction of an answer of [circleClient.getTransaction]: its
    [state] and its [errorReason], each [""] when the answer has none. *)
Record CircleTransaction : Type := mkCircleTransaction {
  state : string;
  errorReason : string
}.

(** The answer of the Gateway balances API: not [ok], or the [balance] of the
    first entry of [balances], when there is one. *)
Inductive GatewayBalances : Type :=
| ResponseNotOk
| ResponseOk (balance : option string).

(** The calls [depositToGateway] makes. *)
Inductive Call : Type :=
| GetWallet (id : string)
| FetchGatewayBalances (domain : Z) (depositor : string)
| Prefund (walletId blockchain contractAddress abiFunctionSignature : string)
          (abiParameters : list string)
| CreateContractExecutionTransaction
    (walletId contractAddress abiFunctionSignature : string)
    (abiParameters : list string)
| GetTransaction (id : string)
| Sleep (ms : Z).

(** The world of a deposit.  [getWallet] answers [data?.wallet?.address];
    [createContractExecutionTransaction] answers [data?.id];
    [getTransaction] answers [data?.transaction]; [prefund] is the outcome of
    [prefundForContractExecution]. *)
Record World : Type := mkWorld {
  getWallet : list Call -> Result (option string);
  fetchGatewayBalances : list Call -> Result GatewayBalances;
  prefund : list Call -> Result unit;
  createContractExecutionTransaction : list Call -> Result (option string);
  getTransaction : list Call -> Result (option CircleTransaction)
}.

Definition sleep (ms : Z) : Run unit := call (Sleep ms) (fun _ => Ok tt).

Definition getGatewayUsdcBalanceForDepositor (w : World) (domain : Z) (depositor : string)
    : Run Z :=
  resp <- call (FetchGatewayBalances domain depositor) (fetchGatewayBalances w) ;;
  match resp with
  | ResponseNotOk => ret 0
  | ResponseOk balanceStr => lift (gatewayBalanceOfEntry balanceStr)
  end.

Definition isConfirmedState (state : string) : bool :=
  String.eqb state "CONFIRMED" || String.eqb state "COMPLETE" || String.eqb state "CLEARED".

Definition isFailedState (state : string) : bool :=
  String.eqb state "FAILED" || String.eqb state "DENIED" || String.eqb state "CANCELLED".

Definition failedMessage (transactionId : string) (tx : CircleTransaction) : string :=
  "Transaction " +:+ transactionId +:+ " failed with state=" +:+ state tx +:+
  (if isEmpty (errorReason tx) then "" else " reason=" +:+ errorReason tx).

Definition timeoutMessage (transactionId : string) : string :=
  "Transaction " +:+ transactionId +:+ " not confirmed within timeout window".

(** The polling loop of [waitForTransactionConfirmed], by the attempts that
    are left. *)
Fixpoint pollTransaction (w : World) (transactionId : string) (pollIntervalMs : Z)
    (attemptsLeft : nat) : Run unit :=
  match attemptsLeft with
  | O => raise (timeoutMessage transactionId)
  | S attemptsLeft' =>
      tx <- call (GetTransaction transactionId) (getTransaction w) ;;
      match tx with
      | Some tx =>
          if isEmpty (state tx) then
            sleep pollIntervalMs ;;; pollTransaction w transactionId pollIntervalMs attemptsLeft'
          else if isConfirmedState (state tx) then ret tt
          else if isFailedState (state tx) then raise (failedMessage transactionId tx)
          else sleep pollIntervalMs ;;; pollTransaction w transactionId pollIntervalMs attemptsLeft'
      | None =>
          sleep pollIntervalMs ;;; pollTransaction w transactionId pollIntervalMs attemptsLeft'
      end
  end.

Record PollOptions : Type := mkPollOptions {
  maxAttempts : option nat;
  pollIntervalMs : option Z
}.

Definition waitForTransactionConfirmed (w : World) (transactionId : string)
    (options : option PollOptions) : Run unit :=
  let maxAttempts := default 80%nat (options ≫= maxAttempts) in
  let pollIntervalMs := default 400 (options ≫= pollIntervalMs) in
  pollTransaction w transactionId pollIntervalMs maxAttempts.

Definition balanceTimeoutMessage (domain : Z) (depositor : string) : string :=
  "[Gateway][balances] USDC balance did not increase by expected delta " +:+
  "within timeout (domain=" +:+ toString domain +:+ " depositor=" +:+ depositor +:+ ")".

Fixpoint pollGatewayBalance (w : World) (domain : Z) (depositor : string)
    (expectedDelta startingBalance : Z) (pollIntervalMs : Z) (attemptsLeft : nat) : Run unit :=
  match attemptsLeft with
  | O => raise (balanceTimeoutMessage domain depositor)
  | S attemptsLeft' =>
      sleep pollIntervalMs ;;;
      currentBalance <- getGatewayUsdcBalanceForDepositor w domain depositor ;;
      if currentBalance >=? startingBalance + expectedDelta then ret tt
      else pollGatewayBalance w domain depositor expectedDelta startingBalance
             pollIntervalMs attemptsLeft'
  end.

Definition waitForGatewayBalanceIncrease (w : World) (domain : Z) (depositor : string)
    (expectedDelta startingBalance : Z) (options : option PollOptions) : Run unit :=
  let maxAttempts := default 60%nat (options ≫= maxAttempts) in
  let pollIntervalMs := default 1000 (options ≫= pollIntervalMs) in
  pollGatewayBalance w domain depositor expectedDelta startingBalance pollIntervalMs maxAttempts.

Definition maxRetries : nat := 3.

(** The text the handlers of [depositToGateway] look for in the message of
    the error they caught. *)
Definition failedMarker : string := "state=FAILED".

(** The two retry loops of [depositToGateway] are one loop, run for the
    approval and run for the deposit: prefund, submit the contract execution,
    wait for it; an error of the wait is thrown again unless its message
    holds [state=FAILED] and an attempt is left.  The loop counts [attempt]
    from 1 while [attempt <= maxRetries]; [attemptsLeft] is
    [maxRetries + 1 - attempt].  The result is the id of the transaction that
    was confirmed. *)
Fixpoint executeWithRetries (w : World) (walletId blockchain : string)
    (contractAddress abiFunctionSignature : string) (abiParameters : list string)
    (creationError : string) (attemptsLeft : nat) (attempt : nat) : Run (option string) :=
  match attemptsLeft with
  | O => ret None
  | S attemptsLeft' =>
      call (Prefund walletId blockchain contractAddress abiFunctionSignature abiParameters)
           (prefund w) ;;;
      tx <- call (CreateContractExecutionTransaction walletId contractAddress
                    abiFunctionSignature abiParameters)
                 (createContractExecutionTransaction w) ;;
      match tx with
      | None => raise creationError
      | Some id =>
          if isEmpty id then raise creationError
          else
            tryCatch
              (waitForTransactionConfirmed w id None ;;; ret (Some id))
              (fun msg =>
                 if negb (includes failedMarker msg) || (attempt =? maxRetries)%nat
                 then raise msg
                 else executeWithRetries w walletId blockchain contractAddress
                        abiFunctionSignature abiParameters creationError
                        attemptsLeft' (S attempt))
      end
  end.

Definition approveSignature : string := "approve(address,uint256)".
Definition depositSignature : string := "deposit(address,uint256)".

(** Step 1 of [depositToGateway]. *)
Definition approveWithRetries (w : World) (walletId blockchain tokenAddress : string)
    (amount : Z) : Run (option string) :=
  executeWithRetries w walletId blockchain tokenAddress approveSignature
    [GATEWAY_WALLET_ADDRESS; toString amount]
    "Failed to create approval transaction" maxRetries 1.

(** Step 2 of [depositToGateway]. *)
Definition depositWithRetries (w : World) (walletId blockchain : string)
    (walletContractAddress tokenAddress : string) (amount : Z) : Run (option string) :=
  executeWithRetries w walletId blockchain walletContractAddress depositSignature
    [tokenAddress; toString amount]
    "Failed to create deposit transaction" maxRetries 1.

(** [depositToGateway] returns [lastDepositTxId]: the id of the confirmed
    deposit. *)
Definition depositToGateway (w : World) (walletId blockchain tokenAddress : string)
    (amount : Z) : Run (option string) :=
  match getDomainConfigByBlockchain blockchain with
  | None => raise ("Unsupported blockchain for deposit: " +:+ blockchain)
  | Some domainConfig =>
      depositorAddress <- call (GetWallet walletId) (getWallet w) ;;
      match depositorAddress with
      | None => raise ("Unable to resolve wallet address for walletId=" +:+ walletId)
      | Some depositorAddress =>
          if isEmpty depositorAddress
          then raise ("Unable to resolve wallet address for walletId=" +:+ walletId)
          else
            gatewayBalanceBefore <-
              getGatewayUsdcBalanceForDepositor w
                (GatewayDomainConfig.domain domainConfig) depositorAddress ;;
            approveWithRetries w walletId blockchain tokenAddress amount ;;;
            lastDepositTxId <-
              depositWithRetries w walletId blockchain
                (GatewayDomainConfig.walletContractAddress domainConfig) tokenAddress amount ;;
            waitForGatewayBalanceIncrease w (GatewayDomainConfig.domain domainConfig)
              depositorAddress amount gatewayBalanceBefore None ;;;
            ret lastDepositTxId
      end
  end.

(** *** What a wait observed *)

(** How the polling of a transaction ended: a confirmed state, one of the
    three failed states (with the transaction as reported), the attempts
    used up, or an error of the client. *)
Inductive WaitOutcome : Type :=
| Confirmed
| Terminal (tx : CircleTransaction)
| TimedOut
| ClientError (message : string).

Fixpoint pollOutcome (w : World) (transactionId : string) (pollIntervalMs : Z)
    (attemptsLeft : nat) (h : list Call) : WaitOutcome * list Call :=
  match attemptsLeft with
  | O => (TimedOut, h)
  | S attemptsLeft' =>
      let h1 := GetTransaction transactionId :: h in
      match getTransaction w h1 with
      | Throw m => (ClientError m, h1)
      | Ok None => pollOutcome w transactionId pollIntervalMs attemptsLeft' (Sleep pollIntervalMs :: h1)
      | Ok (Some tx) =>
          if isEmpty (state tx)
          then pollOutcome w transactionId pollIntervalMs attemptsLeft' (Sleep pollIntervalMs :: h1)
          else if isConfirmedState (state tx) then (Confirmed, h1)
          else if isFailedState (state tx) then (Terminal tx, h1)
          else pollOutcome w transactionId pollIntervalMs attemptsLeft' (Sleep pollIntervalMs :: h1)
      end
  end.

(** What [waitForTransactionConfirmed] makes of an outcome. *)
Definition outcomeResult (transactionId : string) (o : WaitOutcome) : Result unit :=
  match o with
  | Confirmed => Ok tt
  | Terminal tx => Throw (failedMessage transactionId tx)
  | TimedOut => Throw (timeoutMessage transactionId)
  | ClientError m => Throw m
  end.

(** The contract executions submitted with a given function signature. *)
Definition isSubmission (abiFunctionSignature : string) (c : Call) : bool :=
  match c with
  | CreateContractExecutionTransaction _ _ signature _ => String.eqb signature abiFunctionSignature
  | _ => false
  end.

Definition submissions (abiFunctionSignature : string) (h : list Call) : nat :=
  length (List.filter (isSubmission abiFunctionSignature) h).

(** The retries as the specification words them, by the outcome of the
    wait: a new attempt only after a transaction that ended in the state
    FAILED, and only while an attempt is left; any other failure is thrown
    at once. *)
Fixpoint executeRetryingOnFailedState (w : World) (walletId blockchain : string)
    (contractAddress abiFunctionSignature : string) (abiParameters : list string)
    (creationError : string) (attemptsLeft : nat) (attempt : nat) (h : list Call)
    : Result (option string) * list Call :=
  match attemptsLeft with
  | O => (Ok None, h)
  | S attemptsLeft' =>
      let h0 := Prefund walletId blockchain contractAddress abiFunctionSignature
                  abiParameters :: h in
      match prefund w h0 with
      | Throw m => (Throw m, h0)
      | Ok _ =>
          let h1 := CreateContractExecutionTransaction walletId contractAddress
                      abiFunctionSignature abiParameters :: h0 in
          match createContractExecutionTransaction w h1 with
          | Throw m => (Throw m, h1)
          | Ok None => (Throw creationError, h1)
          | Ok (Some id) =>
              if isEmpty id then (Throw creationError, h1)
              else
                let '(outcome, h2) := pollOutcome w id 400 80 h1 in
                match outcome with
                | Confirmed => (Ok (Some id), h2)
                | Terminal tx =>
                    if String.eqb (state tx) "FAILED" && (attempt <? maxRetries)%nat
                    then executeRetryingOnFailedState w walletId blockchain contractAddress
                           abiFunctionSignature abiParameters creationError
                           attemptsLeft' (S attempt) h2
                    else (Throw (failedMessage id tx), h2)
                | TimedOut => (Throw (timeoutMessage id), h2)
                | ClientError m => (Throw m, h2)
                end
          end
      end
  end.

(** A world whose transaction ids, error reasons and client errors do not
    themselves spell the marker the retry looks for. *)
Definition markerFree (w : World) : Prop :=
  (forall h id, createContractExecutionTransaction w h = Ok (Some id) ->
                includes failedMarker id = false) /\
  (forall h tx, getTransaction w h = Ok (Some tx) ->
                includes failedMarker (errorReason tx) = false) /\
  (forall h m, getTransaction w h = Throw m -> includes failedMarker m = false).

(** A world for examples: every approval but the third ends in the state
    FAILED, and every other transaction is confirmed at its first poll. *)
Definition thirdApprovalWorld : World :=
  {| getWallet := fun _ => Ok (Some "0xD3905fB7a5e5a4a4a0a0b0c0d0e0f00112233445");
     fetchGatewayBalances := fun h =>
       Ok (ResponseOk (Some (if (1 <=? submissions depositSignature h)%nat
                             then "2.5" else "1.5")));
     prefund := fun _ => Ok tt;
     createContractExecutionTransaction := fun h =>
       Ok (Some (nth (submissions approveSignature h + submissions depositSignature h)
                     ["tx-0"; "tx-1"; "tx-2"; "tx-3"; "tx-4"; "tx-5"; "tx-6"] "tx-n"));
     getTransaction := fun h =>
       Ok (Some {| state :=
                     if (submissions approveSignature h <? 3)%nat
                        && (submissions depositSignature h =? 0)%nat
                     then "FAILED" else "CONFIRMED";
                   errorReason := "INSUFFICIENT_TOKEN" |}) |}.

(** A world whose transactions are all denied. *)
Definition deniedWorld : World :=
  {| getWallet := getWallet thirdApprovalWorld;
     fetchGatewayBalances := fetchGatewayBalances thirdApprovalWorld;
     prefund := prefund thirdApprovalWorld;
     createContractExecutionTransaction :=
       createContractExecutionTransaction thirdApprovalWorld;
     getTransaction := fun _ =>
       Ok (Some {| state := "DENIED"; errorReason := "POLICY_VIOLATION" |}) |}.

(** A world whose transactions are all denied for a reason that spells
    the text the retry looks for. *)
Definition deniedForFailureWorld : World :=
  {| getWallet := getWallet thirdApprovalWorld;
     fetchGatewayBalances := fetchGatewayBalances thirdApprovalWorld;
     prefund := prefund thirdApprovalWorld;
     createContractExecutionTransaction :=
       createContractExecutionTransaction thirdApprovalWorld;
     getTransaction := fun _ =>
       Ok (Some {| state := "DENIED"; errorReason := "simulation state=FAILED" |}) |}.

(** A run adds at most [n] submissions of the function [sig] to a history. *)
Definition addsAtMost {A : Type} (sig : string) (n : nat) (r : Run A) : Prop :=
  forall h, (submissions sig (snd (r h)) <= submissions sig h + n)%nat.

End GatewayService.

(** ** The gateway transfer route ([backend/src/routes/gateway.ts])

    The sources hold two versions of the route and of the service it
    calls.  They share the steps (balances, selection, deposits, burn
    intents, submission, mint) and differ in the amounts they pass on. *)

Module GatewayRoutes.
Import JS GatewayService.

Definition maxUint256 : Z := 2 ^ 256 - 1.
Definition zeroAddress : string := "0x0000000000000000000000000000000000000000".

Module TransferSpec.
Record t : Type := mk {
  version : Z;
  sourceDomain : Z;
  destinationDomain : Z;
  sourceContract : string;
  destinationContract : string;
  sourceToken : string;
  destinationToken : string;
  sourceDepositor : string;
  destinationRecipient : string;
  sourceSigner : string;
  destinationCaller : string;
  value : Z;
  salt : string;
  hookData : string
}.
End TransferSpec.

Module BurnIntent.
Record t : Type := mk {
  maxBlockHeight : Z;
  maxFee : Z;
  spec : TransferSpec.t
}.
End BurnIntent.

(** The typed data of a burn intent.  Its [types] are constants of the
    source. *)
Module TypedData.
Record t : Type := mk {
  domainName : string;
  domainVersion : string;
  primaryType : string;
  message : BurnIntent.t
}.
End TypedData.

Module BurnIntentRequest.
Record t : Type := mk {
  burnIntent : BurnIntent.t;
  signature : string
}.
End BurnIntentRequest.

Module Attestation.
Record t : Type := mk {
  attestation : string;
  signature : string
}.
End Attestation.

(** The column of a user's row that the route reads. *)
Record User : Type := mkUser {
  circle_wallet_set_id : option string
}.

(** The calls of the route: the database, the functions of the gateway
    service that reach the Circle API, the chain or the Gateway API, the
    random bytes of a salt, and the mint by the relayer. *)
Inductive Call : Type :=
| GetUserByUuid (uuid : string)
| QueryUserBalances (walletSetId : string) (allowedBlockchains : option (list string))
| DepositToGateway (walletId blockchain tokenAddress : string) (amount : Z)
| GetWalletAddress (walletId : string)
| RandomBytes (size : Z)
| SignBurnIntent (walletId : string) (typedData : TypedData.t)
| SubmitBurnIntentsToGateway (requests : list BurnIntentRequest.t)
| MintOnDestinationChain (destinationBlockchain : string) (attestations : list Attestation.t).

(** The world of a transfer.  [amountToBaseUnits amount] is
    [BigInt(Math.floor(parseFloat(amount) * 1_000_000))] as the platform's
    floating point numbers give it; [pad32] is viem's [pad] to 32 bytes;
    [randomBytes] answers the bytes in hexadecimal. *)
Record World : Type := mkWorld {
  amountToBaseUnits : string -> Result Z;
  pad32 : string -> Result string;
  getUserByUuid : list Call -> Result (option User);
  queryUserBalances : list Call -> Result (list TokenBalance);
  depositToGateway : list Call -> Result string;
  getWalletAddress : list Call -> Result string;
  randomBytes : list Call -> Result string;
  signBurnIntent : list Call -> Result string;
  submitBurnIntentsToGateway : list Call -> Result (list Attestation.t);
  mintOnDestinationChain : list Call -> Result (list string)
}.

Inductive TransferBody : Type :=
| ErrorBody (error : string)
| FailureBody (error details : string)
| InitiatedBody (message : string) (depositTransactions mintTransactions : list string)
                (destinationBlockchain destinationAddress amount : string).

Record HttpResponse : Type := mkHttpResponse {
  status : Z;
  body : TransferBody
}.

Module TransferRequest.
Record t : Type := mk {
  userUuid : option string;
  amount : string;
  destinationAddress : string;
  chain : string;
  network : string;
  sourceWallets : option (list string)
}.
End TransferRequest.

(** [user.circle_wallet_set_id] of a user that is there and has one. *)
Definition walletSetOf (user : option User) : option string :=
  match user with
  | Some u =>
      match circle_wallet_set_id u with
      | Some id => if isEmpty id then None else Some id
      | None => None
      end
  | None => None
  end.

Section Service.
Variable getDomainConfigByBlockchain : string -> option GatewayDomainConfig.t.
Variable w : World.

Definition createBurnIntent
    (sourceBlockchain destinationBlockchain sourceTokenAddress destinationTokenAddress
       sourceDepositor destinationRecipient : string) (value maxFee : Z)
    : Run BurnIntent.t :=
  match getDomainConfigByBlockchain sourceBlockchain,
        getDomainConfigByBlockchain destinationBlockchain with
  | Some sourceConfig, Some destinationConfig =>
      bytes <- call (RandomBytes 32) (randomBytes w) ;;
      ret {| BurnIntent.maxBlockHeight := maxUint256;
             BurnIntent.maxFee := maxFee;
             BurnIntent.spec :=
               {| TransferSpec.version := 1;
                  TransferSpec.sourceDomain := GatewayDomainConfig.domain sourceConfig;
                  TransferSpec.destinationDomain :=
                    GatewayDomainConfig.domain destinationConfig;
                  TransferSpec.sourceContract :=
                    GatewayDomainConfig.walletContractAddress sourceConfig;
                  TransferSpec.destinationContract :=
                    GatewayDomainConfig.minterContractAddress destinationConfig;
                  TransferSpec.sourceToken := sourceTokenAddress;
                  TransferSpec.destinationToken := destinationTokenAddress;
                  TransferSpec.sourceDepositor := sourceDepositor;
                  TransferSpec.destinationRecipient := destinationRecipient;
                  TransferSpec.sourceSigner := sourceDepositor;
                  TransferSpec.destinationCaller := zeroAddress;
                  TransferSpec.value := value;
                  TransferSpec.salt := "0x" +:+ bytes;
                  TransferSpec.hookData := "0x" |} |}
  | _, _ =>
      raise ("Unsupported blockchain: " +:+ sourceBlockchain +:+ " or "
             +:+ destinationBlockchain)
  end.

Definition addressToBytes32 (address : string) : Result string :=
  pad32 w (toLowerCase address).

Definition createBurnIntentTypedData (burnIntent : BurnIntent.t) : Result TypedData.t :=
  let s := BurnIntent.spec burnIntent in
  let* sourceContract := addressToBytes32 (TransferSpec.sourceContract s) in
  let* destinationContract := addressToBytes32 (TransferSpec.destinationContract s) in
  let* sourceToken := addressToBytes32 (TransferSpec.sourceToken s) in
  let* destinationToken := addressToBytes32 (TransferSpec.destinationToken s) in
  let* sourceDepositor := addressToBytes32 (TransferSpec.sourceDepositor s) in
  let* destinationRecipient := addressToBytes32 (TransferSpec.destinationRecipient s) in
  let* sourceSigner := addressToBytes32 (TransferSpec.sourceSigner s) in
  let* destinationCaller := addressToBytes32 (TransferSpec.destinationCaller s) in
  Ok {| TypedData.domainName := "GatewayWallet";
        TypedData.domainVersion := "1";
        TypedData.primaryType := "BurnIntent";
        TypedData.message :=
          {| BurnIntent.maxBlockHeight := BurnIntent.maxBlockHeight burnIntent;
             BurnIntent.maxFee := BurnIntent.maxFee burnIntent;
             BurnIntent.spec :=
               {| TransferSpec.version := TransferSpec.version s;
                  TransferSpec.sourceDomain := TransferSpec.sourceDomain s;
                  TransferSpec.destinationDomain := TransferSpec.destinationDomain s;
                  TransferSpec.sourceContract := sourceContract;
                  TransferSpec.destinationContract := destinationContract;
                  TransferSpec.sourceToken := sourceToken;
                  TransferSpec.destinationToken := destinationToken;
                  TransferSpec.sourceDepositor := sourceDepositor;
                  TransferSpec.destinationRecipient := destinationRecipient;
                  TransferSpec.sourceSigner := sourceSigner;
                  TransferSpec.destinationCaller := destinationCaller;
                  TransferSpec.value := TransferSpec.value s;
                  TransferSpec.salt := TransferSpec.salt s;
                  TransferSpec.hookData := TransferSpec.hookData s |} |} |}.

(** Step 3: the loop of the deposits, each of the amount selected from its
    wallet. *)
Fixpoint depositSelected (selectedTokens : list SelectedToken) : Run (list string) :=
  match selectedTokens with
  | [] => ret []
  | token :: rest =>
      txId <- call (DepositToGateway (walletId token) (blockchain token)
                      (tokenAddress token) (GatewayService.amount token))
                   (depositToGateway w) ;;
      txIds <- depositSelected rest ;;
      ret (txId :: txIds)
  end.

(** Step 4: the loop of the burn intents.  The two versions of the route
    differ in the [value] they give the intent of a token. *)
Fixpoint signSelected (destinationBlockchain destinationUsdcAddress destinationAddress : string)
    (valueOf : SelectedToken -> Z) (maxFee : Z) (selectedTokens : list SelectedToken)
    : Run (list BurnIntentRequest.t) :=
  match selectedTokens with
  | [] => ret []
  | token :: rest =>
      walletAddress <- call (GetWalletAddress (walletId token)) (getWalletAddress w) ;;
      burnIntent <- createBurnIntent (blockchain token) destinationBlockchain
                      (tokenAddress token) destinationUsdcAddress walletAddress
                      destinationAddress (valueOf token) maxFee ;;
      typedData <- lift (createBurnIntentTypedData burnIntent) ;;
      signature <- call (SignBurnIntent (walletId token) typedData) (signBurnIntent w) ;;
      requests <- signSelected destinationBlockchain destinationUsdcAddress
                    destinationAddress valueOf maxFee rest ;;
      ret ({| BurnIntentRequest.burnIntent := TypedData.message typedData;
              BurnIntentRequest.signature := signature |} :: requests)
  end.

(** Steps 2 to 6, from the balances on. *)
Definition transferSelected (req : TransferRequest.t)
    (destinationConfig : GatewayDomainConfig.t) (balances : list TokenBalance)
    (selectionAmount : Z) (valueOf : SelectedToken -> Z) (maxFee : Z)
    : Run HttpResponse :=
  let destinationBlockchain := GatewayDomainConfig.blockchain destinationConfig in
  selectedTokens <- lift (selectTokensForTransfer balances selectionAmount) ;;
  depositTxIds <- depositSelected selectedTokens ;;
  burnIntentRequests <-
    signSelected destinationBlockchain (GatewayDomainConfig.usdcAddress destinationConfig)
      (TransferRequest.destinationAddress req) valueOf maxFee selectedTokens ;;
  attestations <- call (SubmitBurnIntentsToGateway burnIntentRequests)
                       (submitBurnIntentsToGateway w) ;;
  mintTxHashes <- call (MintOnDestinationChain destinationBlockchain attestations)
                       (mintOnDestinationChain w) ;;
  ret {| status := 200;
         body := InitiatedBody "Gateway transfer initiated successfully"
                   depositTxIds mintTxHashes destinationBlockchain
                   (TransferRequest.destinationAddress req) (TransferRequest.amount req) |}.

End Service.

Definition respond (status : Z) (error : string) : Run (Call := Call) HttpResponse :=
  ret {| status := status; body := ErrorBody error |}.

(** The [catch] of the route. *)
Definition transferFailed (message : string) : Run (Call := Call) HttpResponse :=
  ret {| status := 500; body := FailureBody "Failed to process Gateway transfer" message |}.

Definition unsupportedCombination (req : TransferRequest.t) : string :=
  "Unsupported chain/network combination: " +:+ TransferRequest.chain req +:+ " "
  +:+ TransferRequest.network req.

(** [Array.from(new Set(l))]: the first occurrence of each element. *)
Definition distinct (l : list string) : list string :=
  fold_left (fun seen x => if existsb (String.eqb x) seen then seen else seen ++ [x]) l [].

(** What the calls of a history deposited, oldest first, and the burn
    intents they submitted. *)
Definition depositedAmount (c : Call) : list Z :=
  match c with
  | DepositToGateway _ _ _ amount => [amount]
  | _ => []
  end.

Definition deposited (history : list Call) : list Z := flat_map depositedAmount (rev history).

Definition submittedBy (c : Call) : list BurnIntent.t :=
  match c with
  | SubmitBurnIntentsToGateway requests => map BurnIntentRequest.burnIntent requests
  | _ => []
  end.

Definition submitted (history : list Call) : list BurnIntent.t :=
  flat_map submittedBy (rev history).

Definition sumZ (l : list Z) : Z := fold_right Z.add 0 l.

(** What the burn intent made for a selected token says of it: its [value]
    and its [maxFee]. *)
Definition burns (valueOf : SelectedToken -> Z) (maxFee : Z) (token : SelectedToken)
    (burnIntent : BurnIntent.t) : Prop :=
  TransferSpec.value (BurnIntent.spec burnIntent) = valueOf token /\
  BurnIntent.maxFee burnIntent = maxFee.

(** *** The route of [backend/src/routes/gateway.ts] *)

Module Reference.

Definition getDomainConfigByBlockchain := GatewayService.getDomainConfigByBlockchain.

(** The blockchains of the [sourceWallets] of the request: [None] when the
    request names none, and no answer when it names only unknown ones. *)
Definition allowedBlockchainsOf (sourceWallets : option (list string))
    : option (option (list string)) :=
  match sourceWallets with
  | Some (key :: keys) =>
      let configs := omap domainConfigOfKey (key :: keys) in
      if (length configs =? 0)%nat then None
      else Some (Some (distinct (map GatewayDomainConfig.blockchain configs)))
  | _ => Some None
  end.

Definition transfer (w : World) (req : TransferRequest.t) : Run HttpResponse :=
  tryCatch
    (match TransferRequest.userUuid req with
     | None => respond 401 "Unauthorized"
     | Some userUuid =>
         if isEmpty userUuid then respond 401 "Unauthorized"
         else
           user <- call (GetUserByUuid userUuid) (getUserByUuid w) ;;
           match walletSetOf user with
           | None => respond 404 "User has no wallet set"
           | Some walletSetId =>
               amountBigInt <- lift (amountToBaseUnits w (TransferRequest.amount req)) ;;
               let feeBuffer := Z.quot (amountBigInt * 1) 1000 in
               let maxFee := feeBuffer in
               let totalRequired := amountBigInt + maxFee in
               let configKey :=
                 TransferRequest.chain req +:+ ":" +:+ TransferRequest.network req in
               match domainConfigOfKey configKey with
               | None => respond 400 (unsupportedCombination req)
               | Some destinationConfig =>
                   match allowedBlockchainsOf (TransferRequest.sourceWallets req) with
                   | None => respond 400 "No valid sourceWallets provided"
                   | Some allowedBlockchains =>
                       balances <- call (QueryUserBalances walletSetId allowedBlockchains)
                                        (queryUserBalances w) ;;
                       if (length balances =? 0)%nat
                       then respond 400 "No USDC balances found in user wallets"
                       else transferSelected getDomainConfigByBlockchain w req
                              destinationConfig balances totalRequired
                              (fun _ => amountBigInt) maxFee
                   end
               end
           end
     end)
    transferFailed.

End Reference.

(** *** The earlier version of the route and of its service *)

Module Earlier.

Definition ETH_SEPOLIA_USDC_ADDRESS : string := "0x1c7D4B196Cb0C7B01d743Fbc6116a902379C7238".
Definition BASE_SEPOLIA_USDC_ADDRESS : string := "0x036CbD53842c5426634e7929541eC2318f3dCF7e".

Definition GATEWAY_DOMAIN_CONFIGS : list (string * GatewayDomainConfig.t) :=
  [ ("Ethereum:Sepolia",
     GatewayDomainConfig.mk "Ethereum" "Sepolia" "ETH-SEPOLIA" 0
       GATEWAY_WALLET_ADDRESS GATEWAY_MINTER_ADDRESS ETH_SEPOLIA_USDC_ADDRESS);
    ("Base:Sepolia",
     GatewayDomainConfig.mk "Base" "Sepolia" "BASE-SEPOLIA" 6
       GATEWAY_WALLET_ADDRESS GATEWAY_MINTER_ADDRESS BASE_SEPOLIA_USDC_ADDRESS);
    ("ARC:Testnet",
     GatewayDomainConfig.mk "ARC" "Testnet" "ARC-TESTNET" 26
       GATEWAY_WALLET_ADDRESS GATEWAY_MINTER_ADDRESS ARC_TESTNET_USDC_ADDRESS) ].

Definition domainConfigOfKey (key : string) : option GatewayDomainConfig.t :=
  snd <$> List.find (fun entry => String.eqb (fst entry) key) GATEWAY_DOMAIN_CONFIGS.

Definition getDomainConfigByBlockchain (blockchain : string) : option GatewayDomainConfig.t :=
  List.find (fun c => String.eqb (GatewayDomainConfig.blockchain c) blockchain)
            (map snd GATEWAY_DOMAIN_CONFIGS).

Definition transfer (w : World) (req : TransferRequest.t) : Run HttpResponse :=
  tryCatch
    (match TransferRequest.userUuid req with
     | None => respond 401 "Unauthorized"
     | Some userUuid =>
         if isEmpty userUuid then respond 401 "Unauthorized"
         else
           user <- call (GetUserByUuid userUuid) (getUserByUuid w) ;;
           match walletSetOf user with
           | None => respond 404 "User has no wallet set"
           | Some walletSetId =>
               amountBigInt <- lift (amountToBaseUnits w (TransferRequest.amount req)) ;;
               let maxFee := amountBigInt + Z.quot (amountBigInt * 5) 1000 in
               let configKey :=
                 TransferRequest.chain req +:+ ":" +:+ TransferRequest.network req in
               match domainConfigOfKey configKey with
               | None => respond 400 (unsupportedCombination req)
               | Some destinationConfig =>
                   balances <- call (QueryUserBalances walletSetId None)
                                    (queryUserBalances w) ;;
                   if (length balances =? 0)%nat
                   then respond 400 "No USDC balances found in user wallets"
                   else transferSelected getDomainConfigByBlockchain w req
                          destinationConfig balances amountBigInt
                          GatewayService.amount maxFee
               end
           end
     end)
    transferFailed.

End Earlier.

(** *** A transfer for examples

    A user with one wallet on ARC testnet holding 5 USDC asks for 1 USDC to
    be sent; every service answers. *)

Definition wallet : TokenBalance :=
  mkTokenBalance "wallet-1" "ARC-TESTNET" "0xf39Fd6e51aad88F6F4ce6aB8827279cffFb92266"
    ARC_TESTNET_USDC_ADDRESS 5000000 6.

Definition servingWorld : World :=
  {| amountToBaseUnits := parseUsdcAmountToBaseUnits;
     pad32 := fun address => Ok ("0x000000000000000000000000" +:+ drop 2 address);
     getUserByUuid := fun _ => Ok (Some {| circle_wallet_set_id := Some "wallet-set-1" |});
     queryUserBalances := fun _ => Ok [wallet];
     depositToGateway := fun _ => Ok "deposit-1";
     getWalletAddress := fun _ => Ok (address wallet);
     randomBytes := fun _ =>
       Ok "00000000000000000000000000000000000000000000000000000000000000a7";
     signBurnIntent := fun _ => Ok "0xsigned";
     submitBurnIntentsToGateway := fun _ =>
       Ok [{| Attestation.attestation := "0xattested"; Attestation.signature := "0xoperator" |}];
     mintOnDestinationChain := fun _ => Ok ["0xminted"] |}.

(** The same user with two wallets, of 0.7 and of 0.5 USDC. *)
Definition twoWalletWorld : World :=
  {| amountToBaseUnits := amountToBaseUnits servingWorld;
     pad32 := pad32 servingWorld;
     getUserByUuid := getUserByUuid servingWorld;
     queryUserBalances := fun _ =>
       Ok [ mkTokenBalance "wallet-1" "ARC-TESTNET" (address wallet)
              ARC_TESTNET_USDC_ADDRESS 500000 6;
            mkTokenBalance "wallet-2" "ARC-TESTNET"
              "0x3C44CdDdB6a900fa2b585dd299e03d12FA4293BC" ARC_TESTNET_USDC_ADDRESS 700000 6 ];
     depositToGateway := depositToGateway servingWorld;
     getWalletAddress := getWalletAddress servingWorld;
     randomBytes := randomBytes servingWorld;
     signBurnIntent := signBurnIntent servingWorld;
     submitBurnIntentsToGateway := submitBurnIntentsToGateway servingWorld;
     mintOnDestinationChain := mintOnDestinationChain servingWorld |}.

(** The [value] and the [maxFee] of a burn intent. *)
Definition valueAndMaxFee (burnIntent : BurnIntent.t) : Z * Z :=
  (TransferSpec.value (BurnIntent.spec burnIntent), BurnIntent.maxFee burnIntent).

Definition oneUsdc : TransferRequest.t :=
  {| TransferRequest.userUuid := Some "user-1";
     TransferRequest.amount := "1";
     TransferRequest.destinationAddress := "0x70997970C51812dc3A010C7d01b50e0d17dc79C8";
     TransferRequest.chain := "ARC";
     TransferRequest.network := "Testnet";
     TransferRequest.sourceWallets := None |}.

End GatewayRoutes.

(** ** The paywall proxy: pending nonces ([src/gateway/proxy.ts]) *)

Module PaywallProxy.
Import JS.

(** [s.toUpperCase()] on the letters a-z and the small letters of Latin-1
    whose capital is a code unit below 256. *)
Definition upperChar (c : ascii) : ascii :=
  let n := code c in
  if ((97 <=? n)%nat && (n <=? 122)%nat)
     || ((224 <=? n)%nat && (n <=? 254)%nat && negb (n =? 247)%nat)
  then ascii_of_nat (n - 32) else c.

Fixpoint toUpperCase (s : string) : string :=
  match s with
  | EmptyString => EmptyString
  | String c s' => String (upperChar c) (toUpperCase s')
  end.

Record PendingNonce : Type := mkPendingNonce { expiresAt : Z }.

(** The fields of a [LoadedEndpoint] that the nonce registry reads. *)
Record LoadedEndpoint : Type := mkLoadedEndpoint {
  method : string;
  path : string;
  originalPath : string;
  maxTimeoutSeconds : Z
}.

Record NonceInfo : Type := mkNonceInfo {
  nonce : string;
  validAfter : Z;
  validBefore : Z
}.

Definition buildNonceKey (endpoint : LoadedEndpoint) (nonce : string) : string :=
  let route := orElse (originalPath endpoint) (path endpoint) in
  toUpperCase (method endpoint) +:+ "::" +:+ route +:+ "::" +:+ nonce.

(** The loop deletes every entry whose [expiresAt] is not after
    [nowSeconds]; what stays is the rest of the map. *)
Definition cleanupExpiredNonces (nowSeconds : Z) (pendingNonces : gmap string PendingNonce)
    : gmap string PendingNonce :=
  filter (fun entry => ~ (expiresAt entry.2 <= nowSeconds)) pendingNonces.

(** [issueNonce]: the nonce that [generateNonce] drew and the time that the
    clock gave are arguments. *)
Definition issueNonce (endpoint : LoadedEndpoint) (generated : string) (nowSeconds : Z)
    (pendingNonces : gmap string PendingNonce) : NonceInfo * gmap string PendingNonce :=
  let nonce := generated in
  let validAfter := nowSeconds in
  let validBefore := validAfter + maxTimeoutSeconds endpoint in
  let swept := cleanupExpiredNonces validAfter pendingNonces in
  ({| nonce := nonce; validAfter := validAfter; validBefore := validBefore |},
   <[buildNonceKey endpoint nonce := {| expiresAt := validBefore |}]> swept).

(** [consumeNonce]: [Map.prototype.delete] tells whether the key was there. *)
Definition consumeNonce (endpoint : LoadedEndpoint) (nonce : string) (nowSeconds : Z)
    (pendingNonces : gmap string PendingNonce) : bool * gmap string PendingNonce :=
  let swept := cleanupExpiredNonces nowSeconds pendingNonces in
  let key := buildNonceKey endpoint nonce in
  (bool_decide (is_Some (swept !! key)), delete key swept).

End PaywallProxy.

(** ** EIP-3009 payloads ([src/facilitator/payments.ts], [eip3009.ts]) *)

Module Eip3009.
Import JS.

Module EIP3009Authorization.
Record t : Type := mk {
  from : string;
  to : string;
  value : string;
  validAfter : Z;
  validBefore : Z;
  nonce : string
}.
End EIP3009Authorization.

(** The fields of a signature hold what the payload held: [None] is
    [undefined] (the source casts them without a check). *)
Module EIP3009Signature.
Record t : Type := mk {
  v : option Z;
  r : option string;
  s : option string
}.
End EIP3009Signature.

(** The inner [payload] object of a payment payload. *)
Module PayloadFields.
Record t : Type := mk {
  from : string;
  to : string;
  value : string;
  validAfter : Z;
  validBefore : Z;
  nonce : string;
  signature : option string;
  v : option Z;
  r : option string;
  s : option string
}.
End PayloadFields.

Module EIP3009PaymentPayload.
Record t : Type := mk {
  x402Version : Z;
  scheme : string;
  network : string;
  payload : PayloadFields.t
}.
End EIP3009PaymentPayload.

Module PaymentRequirements.
Record t : Type := mk {
  scheme : string;
  network : string;
  token : string;
  amount : string;
  recipient : string;
  description : string;
  maxTimeoutSeconds : Z
}.
End PaymentRequirements.

(** *** The header codec *)

(** [JSON.stringify], [JSON.parse] (at the type the source casts its result
    to) and the two conversions of [Buffer] between a text and its base64
    form are the platform's. *)
Record Platform : Type := mkPlatform {
  JSON_stringify : EIP3009PaymentPayload.t -> string;
  JSON_parse : string -> Result EIP3009PaymentPayload.t;
  toBase64 : string -> string;
  fromBase64 : string -> string
}.

Definition encodePaymentHeader (js : Platform) (payload : EIP3009PaymentPayload.t) : string :=
  toBase64 js (JSON_stringify js payload).

(** [!x] for an optional string and for an optional number. *)
Definition missing (x : option string) : bool :=
  match x with Some s => isEmpty s | None => true end.

Definition missingNumber (x : option Z) : bool :=
  match x with Some n => n =? 0 | None => true end.

(** [sig.replace(/^0x/, '')] *)
Definition stripHexPrefix (s : string) : string :=
  if startsWith "0x" s then drop 2 s else s.

(** [normalizeSignature] answers false ([None]) or true; in the latter case
    the payload is the one it was given, with [r], [s] and [v] written into
    it when it took them from the [signature]. *)
Definition normalizeSignature (payload : EIP3009PaymentPayload.t)
    : option EIP3009PaymentPayload.t :=
  let p := EIP3009PaymentPayload.payload payload in
  if (EIP3009PaymentPayload.x402Version payload =? 0)
     || isEmpty (EIP3009PaymentPayload.scheme payload)
     || isEmpty (EIP3009PaymentPayload.network payload)
  then None
  else if isEmpty (PayloadFields.from p) || isEmpty (PayloadFields.to p)
          || isEmpty (PayloadFields.value p) || isEmpty (PayloadFields.nonce p)
  then None
  else
    let split : option PayloadFields.t :=
      if negb (missing (PayloadFields.signature p))
         && (missingNumber (PayloadFields.v p) || missing (PayloadFields.r p)
             || missing (PayloadFields.s p))
      then
        let hex := stripHexPrefix (default "" (PayloadFields.signature p)) in
        if negb (String.length hex =? 130)%nat then None
        else
          match parseInt16 (slice 128 130 hex) with
          | None => None
          | Some v =>
              Some (PayloadFields.mk
                      (PayloadFields.from p) (PayloadFields.to p) (PayloadFields.value p)
                      (PayloadFields.validAfter p) (PayloadFields.validBefore p)
                      (PayloadFields.nonce p) (PayloadFields.signature p)
                      (Some v)
                      (Some ("0x" +:+ slice 0 64 hex))
                      (Some ("0x" +:+ slice 64 128 hex)))
          end
      else Some p in
    match split with
    | None => None
    | Some p =>
        match PayloadFields.v p with
        | None => None
        | Some v =>
            if missing (PayloadFields.r p) || missing (PayloadFields.s p) then None
            else if negb (v =? 27) && negb (v =? 28) then None
            else Some (EIP3009PaymentPayload.mk
                         (EIP3009PaymentPayload.x402Version payload)
                         (EIP3009PaymentPayload.scheme payload)
                         (EIP3009PaymentPayload.network payload) p)
        end
    end.

Definition decodePaymentHeader (js : Platform) (header : string)
    : option EIP3009PaymentPayload.t :=
  let decoded := fromBase64 js header in
  match JSON_parse js decoded with
  | Ok payload => normalizeSignature payload
  | Throw _ => None
  end.

(** The platform returns the payload it printed: what
    [JSON.parse(JSON.stringify(x))] and the base64 conversions do for a
    value of strings and integers. *)
Definition roundTrips (js : Platform) (payload : EIP3009PaymentPayload.t) : Prop :=
  JSON_parse js (fromBase64 js (toBase64 js (JSON_stringify js payload))) = Ok payload.

(** The payloads that [normalizeSignature] accepts as they are. *)
Definition wellFormed (payload : EIP3009PaymentPayload.t) : bool :=
  let p := EIP3009PaymentPayload.payload payload in
  negb (EIP3009PaymentPayload.x402Version payload =? 0)
  && negb (isEmpty (EIP3009PaymentPayload.scheme payload))
  && negb (isEmpty (EIP3009PaymentPayload.network payload))
  && negb (isEmpty (PayloadFields.from p)) && negb (isEmpty (PayloadFields.to p))
  && negb (isEmpty (PayloadFields.value p)) && negb (isEmpty (PayloadFields.nonce p))
  && negb (missing (PayloadFields.r p)) && negb (missing (PayloadFields.s p))
  && match PayloadFields.v p with
     | Some v => (v =? 27) || (v =? 28)
     | None => false
     end.

(** *** Digests and the recovery of the signer *)

Inductive AbiValue : Type :=
| AbiString (s : string)
| AbiBytes32 (hex : string)
| AbiAddress (address : string)
| AbiUint256 (n : Z).

(** viem's hashing and encoding. *)
Record Viem : Type := mkViem {
  keccak256 : string -> string;
  encodePacked : list AbiValue -> string;
  encodeAbiParameters : list AbiValue -> Result string
}.

(** The calls of a verification: viem's [recoverAddress], and the read of
    [authorizationState] on the token contract. *)
Inductive Call : Type :=
| RecoverAddress (hash signature : string)
| ReadAuthorizationState (token authorizer nonce : string).

Record World : Type := mkWorld {
  recoverAddress : list Call -> Result string;
  authorizationState : list Call -> Result bool
}.

Definition EIP3009_TYPEHASH (viem : Viem) : string :=
  keccak256 viem
    (encodePacked viem
       [AbiString "TransferWithAuthorization(address from,address to,uint256 value,uint256 validAfter,uint256 validBefore,bytes32 nonce)"]).

Definition createDomainSeparator (viem : Viem) (tokenAddress tokenName tokenVersion : string)
    (chainId : Z) : Result string :=
  let domainTypeHash :=
    keccak256 viem
      (encodePacked viem
         [AbiString "EIP712Domain(string name,string version,uint256 chainId,address verifyingContract)"]) in
  let* encoded :=
    encodeAbiParameters viem
      [AbiBytes32 domainTypeHash;
       AbiBytes32 (keccak256 viem (encodePacked viem [AbiString tokenName]));
       AbiBytes32 (keccak256 viem (encodePacked viem [AbiString tokenVersion]));
       AbiUint256 chainId;
       AbiAddress tokenAddress] in
  Ok (keccak256 viem encoded).

Definition secp256k1N : Z :=
  0xFFFFFFFFFFFFFFFFFFFFFFFFFFFFFFFEBAAEDCE6AF48A03BBFD25E8CD0364141.

Definition secp256k1halfN : Z := secp256k1N / 2.

(** [BigInt(x)] for a field that may be [undefined]. *)
Definition BigIntOf (x : option string) : Result Z :=
  match x with
  | Some s => BigInt s
  | None => Throw "Cannot convert undefined to a BigInt"
  end.

Definition recoverAddressFromDigest (w : World) (digest : string)
    (signature : EIP3009Signature.t) : Run (option string) :=
  tryCatch
    (r <- lift (BigIntOf (EIP3009Signature.r signature)) ;;
     s <- lift (BigIntOf (EIP3009Signature.s signature)) ;;
     let v := EIP3009Signature.v signature in
     if s >? secp256k1halfN then ret None
     else if (r =? 0) || (s =? 0) then ret None
     else
       match v with
       | None => raise "Cannot read properties of undefined (reading 'toString')"
       | Some v =>
           let fullSignature :=
             default "" (EIP3009Signature.r signature) +:+
             drop 2 (default "" (EIP3009Signature.s signature)) +:+
             padStart2 (toStringHex v) in
           recoveredAddress <- call (RecoverAddress digest fullSignature) (recoverAddress w) ;;
           ret (Some recoveredAddress)
       end)
    (fun _ => ret None).

(** The two characters of the EIP-712 prefix, [\x19\x01]. *)
Definition eip712Prefix : string :=
  String (ascii_of_nat 25) (String (ascii_of_nat 1) EmptyString).

Definition isRecoveryId (v : option Z) : bool :=
  match v with
  | Some v => (v =? 27) || (v =? 28)
  | None => false
  end.

Definition verifyTransferAuthorization (viem : Viem) (w : World)
    (authorization : EIP3009Authorization.t) (signature : EIP3009Signature.t)
    (tokenAddress tokenName tokenVersion : string) (chainId : Z) : Run (option string) :=
  tryCatch
    (if negb (isRecoveryId (EIP3009Signature.v signature)) then ret None
     else
       value <- lift (BigInt (EIP3009Authorization.value authorization)) ;;
       encoded <- lift (encodeAbiParameters viem
                          [AbiBytes32 (EIP3009_TYPEHASH viem);
                           AbiAddress (EIP3009Authorization.from authorization);
                           AbiAddress (EIP3009Authorization.to authorization);
                           AbiUint256 value;
                           AbiUint256 (EIP3009Authorization.validAfter authorization);
                           AbiUint256 (EIP3009Authorization.validBefore authorization);
                           AbiBytes32 (EIP3009Authorization.nonce authorization)]) ;;
       let structHash := keccak256 viem encoded in
       domainSeparator <- lift (createDomainSeparator viem tokenAddress tokenName
                                  tokenVersion chainId) ;;
       let digest :=
         keccak256 viem
           (encodePacked viem
              [AbiString eip712Prefix; AbiBytes32 domainSeparator; AbiBytes32 structHash]) in
       recoverAddressFromDigest w digest signature)
    (fun _ => ret None).

(** The digest that [verifyTransferAuthorization] recovers the signer from,
    when its encodings succeed. *)
Definition transferAuthorizationDigest (viem : Viem)
    (authorization : EIP3009Authorization.t)
    (tokenAddress tokenName tokenVersion : string) (chainId : Z) : Result string :=
  let* value := BigInt (EIP3009Authorization.value authorization) in
  let* encoded :=
    encodeAbiParameters viem
      [AbiBytes32 (EIP3009_TYPEHASH viem);
       AbiAddress (EIP3009Authorization.from authorization);
       AbiAddress (EIP3009Authorization.to authorization);
       AbiUint256 value;
       AbiUint256 (EIP3009Authorization.validAfter authorization);
       AbiUint256 (EIP3009Authorization.validBefore authorization);
       AbiBytes32 (EIP3009Authorization.nonce authorization)] in
  let* domainSeparator :=
    createDomainSeparator viem tokenAddress tokenName tokenVersion chainId in
  Ok (keccak256 viem
        (encodePacked viem
           [AbiString eip712Prefix; AbiBytes32 domainSeparator;
            AbiBytes32 (keccak256 viem encoded)])).

(** No recovery was attempted along a history. *)
Definition isRecovery (c : Call) : bool :=
  match c with RecoverAddress _ _ => true | _ => false end.

Definition recoveries (h : list Call) : nat := length (List.filter isRecovery h).

End Eip3009.

(** ** The facilitator ([src/facilitator/server.ts] and its multi-network
    twin) *)

(** What the two servers share, word for word. *)
Module FacilitatorCommon.
Import JS Eip3009.

Record VerifyRequestBody : Type := mkVerifyRequestBody {
  paymentPayload : option EIP3009PaymentPayload.t;
  paymentRequirements : option PaymentRequirements.t;
  payer : option string
}.

Record PayloadTemplate : Type := mkPayloadTemplate {
  scheme : string;
  network : string;
  token : string;
  recipient : string;
  amount : string;
  validAfter : Z;
  validBefore : Z;
  nonceHint : string
}.

Record Invoice : Type := mkInvoice {
  reason : string;
  invoiceRequirements : PaymentRequirements.t;
  payloadTemplate : PayloadTemplate
}.

(** The JSON bodies of the answers of [/verify]: [{ error, invoice }],
    [{ valid: false, error, invoice }] and the body of a valid payment. *)
Inductive VerifyBody : Type :=
| ErrorBody (error : string) (invoice : option Invoice)
| InvalidBody (error : string) (invoice : option Invoice)
| ValidBody (payer amount token recipient : string) (validBefore : Z).

Record HttpResponse : Type := mkHttpResponse {
  status : Z;
  body : VerifyBody
}.

(** [valid] of a body, when it has the field. *)
Definition valid (b : VerifyBody) : option bool :=
  match b with
  | ErrorBody _ _ => None
  | InvalidBody _ _ => Some false
  | ValidBody _ _ _ _ _ => Some true
  end.


(** [buildInvoice]; [issuedAt] is what [nowSeconds()] returns. *)
Definition buildInvoice (issuedAt : Z) (requirements : PaymentRequirements.t)
    (reason : string) : Invoice :=
  {| reason := reason;
     invoiceRequirements := requirements;
     payloadTemplate :=
       {| scheme := PaymentRequirements.scheme requirements;
          network := PaymentRequirements.network requirements;
          token := PaymentRequirements.token requirements;
          recipient := PaymentRequirements.recipient requirements;
          amount := PaymentRequirements.amount requirements;
          validAfter := issuedAt;
          validBefore := issuedAt + PaymentRequirements.maxTimeoutSeconds requirements;
          nonceHint := "<client-supplied 32-byte hex>" |} |}.

Definition toAuthorization (payload : EIP3009PaymentPayload.t) : EIP3009Authorization.t :=
  let p := EIP3009PaymentPayload.payload payload in
  {| EIP3009Authorization.from := PayloadFields.from p;
     EIP3009Authorization.to := PayloadFields.to p;
     EIP3009Authorization.value := PayloadFields.value p;
     EIP3009Authorization.validAfter := PayloadFields.validAfter p;
     EIP3009Authorization.validBefore := PayloadFields.validBefore p;
     EIP3009Authorization.nonce := PayloadFields.nonce p |}.

Definition toSignature (payload : EIP3009PaymentPayload.t) : EIP3009Signature.t :=
  let p := EIP3009PaymentPayload.payload payload in
  {| EIP3009Signature.v := PayloadFields.v p;
     EIP3009Signature.r := PayloadFields.r p;
     EIP3009Signature.s := PayloadFields.s p |}.

(** [a.toLowerCase() !== b.toLowerCase()] *)
Definition differs (a b : string) : bool := negb (String.eqb (toLowerCase a) (toLowerCase b)).

(** What [verifyAuthorization] does, in either server, once the fields of
    the payload match: the signer, the replay state on the chain, the
    validity window. *)
Definition checkSignerReplayWindow (viem : Viem) (w : World) (nowTs : Z)
    (auth : EIP3009Authorization.t) (sig : EIP3009Signature.t)
    (token usdcName usdcVersion : string) (chainId : Z)
    : Run (EIP3009Authorization.t * EIP3009Signature.t) :=
  recovered <- verifyTransferAuthorization viem w auth sig token usdcName usdcVersion chainId ;;
  if missing recovered || differs (default "" recovered) (EIP3009Authorization.from auth)
  then raise "Invalid EIP-3009 signature"
  else
    alreadyUsed <-
      call (ReadAuthorizationState token (EIP3009Authorization.from auth)
              (EIP3009Authorization.nonce auth))
           (authorizationState w) ;;
    if alreadyUsed : bool then raise "Authorization already used"
    else if nowTs <=? EIP3009Authorization.validAfter auth
    then raise "Authorization not yet valid"
    else if nowTs >=? EIP3009Authorization.validBefore auth
    then raise "Authorization expired"
    else ret (auth, sig).

(** The [catch] of [/verify]. *)
Definition verificationFailed (issuedAt : Z) (reqBody : option VerifyRequestBody)
    (err : string) : HttpResponse :=
  let invoice :=
    match reqBody ≫= paymentRequirements with
    | Some requirements => Some (buildInvoice issuedAt requirements err)
    | None => None
    end in
  {| status := 200; body := InvalidBody err invoice |}.


End FacilitatorCommon.

(** The facilitator of one network, Arc testnet ([server.ts]). *)
Module Facilitator.
Import JS Eip3009 FacilitatorCommon.

(** What the server reads from its environment when it starts: the address
    of its account, the token, the name and the version of the token's
    EIP-712 domain; [arcTestnet.id] is 5042002. *)
Record Config : Type := mkConfig {
  accountAddress : string;
  activeUsdcAddress : string;
  USDC_NAME : string;
  USDC_VERSION : string
}.

Definition arcTestnetId : Z := 5042002.

Definition ensureRequirements (cfg : Config) (req : PaymentRequirements.t)
    : Result (option string) :=
  if negb (String.eqb (PaymentRequirements.scheme req) "exact")
  then Ok (Some "Unsupported payment scheme")
  else if negb (String.eqb (PaymentRequirements.network req) "arc-testnet")
  then Ok (Some "Unsupported network")
  else if differs (PaymentRequirements.token req) (activeUsdcAddress cfg)
  then Ok (Some "Unsupported token")
  else if differs (PaymentRequirements.recipient req) (accountAddress cfg)
  then Ok (Some "Recipient does not match facilitator payout address")
  else
    let* amount := BigInt (PaymentRequirements.amount req) in
    if amount <=? 0 then Ok (Some "Amount must be positive") else Ok None.

Definition verifyAuthorization (cfg : Config) (viem : Viem) (w : World) (nowTs : Z)
    (paymentPayload : EIP3009PaymentPayload.t) (requirements : PaymentRequirements.t)
    : Run (EIP3009Authorization.t * EIP3009Signature.t) :=
  let auth := toAuthorization paymentPayload in
  let sig := toSignature paymentPayload in
  let p := EIP3009PaymentPayload.payload paymentPayload in
  if negb (String.eqb (EIP3009PaymentPayload.scheme paymentPayload) "exact")
     || negb (String.eqb (EIP3009PaymentPayload.network paymentPayload) "arc-testnet")
  then raise "Payment payload network mismatch"
  else if differs (PayloadFields.to p) (accountAddress cfg)
  then raise "Payment payload recipient mismatch"
  else if negb (String.eqb (PayloadFields.value p) (PaymentRequirements.amount requirements))
  then raise "Payment amount mismatch"
  else if differs (PayloadFields.to p) (PaymentRequirements.recipient requirements)
  then raise "Payment recipient mismatch"
  else
    recovered <- verifyTransferAuthorization viem w auth sig
                   (PaymentRequirements.token requirements)
                   (USDC_NAME cfg) (USDC_VERSION cfg) arcTestnetId ;;
    if missing recovered || differs (default "" recovered) (EIP3009Authorization.from auth)
    then raise "Invalid EIP-3009 signature"
    else
      alreadyUsed <-
        call (ReadAuthorizationState (PaymentRequirements.token requirements)
                (EIP3009Authorization.from auth) (EIP3009Authorization.nonce auth))
             (authorizationState w) ;;
      if alreadyUsed : bool then raise "Authorization already used"
      else if nowTs <=? EIP3009Authorization.validAfter auth
      then raise "Authorization not yet valid"
      else if nowTs >=? EIP3009Authorization.validBefore auth
      then raise "Authorization expired"
      else ret (auth, sig).

(** The fault that the first checks of [verifyAuthorization] find in the
    fields of the payload, if any. *)
Definition fieldMismatch (cfg : Config) (paymentPayload : EIP3009PaymentPayload.t)
    (requirements : PaymentRequirements.t) : option string :=
  let p := EIP3009PaymentPayload.payload paymentPayload in
  if negb (String.eqb (EIP3009PaymentPayload.scheme paymentPayload) "exact")
     || negb (String.eqb (EIP3009PaymentPayload.network paymentPayload) "arc-testnet")
  then Some "Payment payload network mismatch"
  else if differs (PayloadFields.to p) (accountAddress cfg)
  then Some "Payment payload recipient mismatch"
  else if negb (String.eqb (PayloadFields.value p) (PaymentRequirements.amount requirements))
  then Some "Payment amount mismatch"
  else if differs (PayloadFields.to p) (PaymentRequirements.recipient requirements)
  then Some "Payment recipient mismatch"
  else None.

(** [app.post("/verify", ...)]: [reqBody] is [req.body], [None] when the
    request has none; [nowTs] and [issuedAt] are the readings of the clock in
    [verifyAuthorization] and in [buildInvoice]. *)
Definition verify (cfg : Config) (viem : Viem) (w : World) (nowTs issuedAt : Z)
    (reqBody : option VerifyRequestBody) : Run HttpResponse :=
  tryCatch
    (match reqBody with
     | None => raise "Cannot read properties of undefined (reading 'paymentRequirements')"
     | Some body =>
         match paymentRequirements body with
         | None =>
             ret {| status := 400; body := ErrorBody "Missing payment requirements" None |}
         | Some requirements =>
             reqError <- lift (ensureRequirements cfg requirements) ;;
             if negb (missing reqError)
             then ret {| status := 400;
                         body := ErrorBody (default "" reqError)
                                   (Some (buildInvoice issuedAt requirements
                                            (default "" reqError))) |}
             else
               match paymentPayload body with
               | None =>
                   ret {| status := 200;
                          body := InvalidBody "Missing payment payload"
                                    (Some (buildInvoice issuedAt requirements
                                             "Payment payload required")) |}
               | Some payload =>
                   verified <- verifyAuthorization cfg viem w nowTs payload requirements ;;
                   let authorization := fst verified in
                   ret {| status := 200;
                          body := ValidBody (EIP3009Authorization.from authorization)
                                    (EIP3009Authorization.value authorization)
                                    (PaymentRequirements.token requirements)
                                    (PaymentRequirements.recipient requirements)
                                    (EIP3009Authorization.validBefore authorization) |}
               end
         end
     end)
    (fun err => ret (verificationFailed issuedAt reqBody err)).

(** The answer of [/verify], case by case. *)
Definition answer (cfg : Config) (viem : Viem) (w : World)
    (nowTs issuedAt : Z) (reqBody : option VerifyRequestBody) (h : list Call) : HttpResponse :=
  match reqBody with
  | None =>
      verificationFailed issuedAt reqBody
        "Cannot read properties of undefined (reading 'paymentRequirements')"
  | Some body =>
      match paymentRequirements body with
      | None => {| status := 400; body := ErrorBody "Missing payment requirements" None |}
      | Some requirements =>
          match ensureRequirements cfg requirements with
          | Throw m => verificationFailed issuedAt reqBody m
          | Ok reqError =>
              if negb (missing reqError)
              then {| status := 400;
                      body := ErrorBody (default "" reqError)
                                (Some (buildInvoice issuedAt requirements
                                         (default "" reqError))) |}
              else
                match paymentPayload body with
                | None =>
                    {| status := 200;
                       body := InvalidBody "Missing payment payload"
                                 (Some (buildInvoice issuedAt requirements
                                          "Payment payload required")) |}
                | Some payload =>
                    match fst (verifyAuthorization cfg viem w nowTs payload
                                 requirements h) with
                    | Throw m => verificationFailed issuedAt reqBody m
                    | Ok verified =>
                        {| status := 200;
                           body := ValidBody (EIP3009Authorization.from (fst verified))
                                     (EIP3009Authorization.value (fst verified))
                                     (PaymentRequirements.token requirements)
                                     (PaymentRequirements.recipient requirements)
                                     (EIP3009Authorization.validBefore (fst verified)) |}
                    end
                end
          end
      end
  end.

End Facilitator.

(** The facilitator of several networks, with a Circle wallet per network. *)
Module MultiNetworkFacilitator.
Import JS Eip3009 FacilitatorCommon.

Record ChainConfig : Type := mkChainConfig {
  chainId : Z;
  networkName : string;
  usdcAddress : string;
  usdcName : string;
  usdcVersion : string
}.

Record CircleWalletInfo : Type := mkCircleWalletInfo {
  id : string;
  address : string;
  blockchain : string;
  walletSetId : string
}.

Record NetworkContext : Type := mkNetworkContext {
  chain : ChainConfig;
  circleWallet : CircleWalletInfo
}.

(** [networkContexts], as [initializeNetworkContexts] filled it: the own
    properties of the object, by the name of the network. *)
Definition NetworkContexts : Type := gmap string NetworkContext.

(** [networkContexts] is a plain object: looking a name up in it finds the
    context stored under the name, or else what every object inherits from
    [Object.prototype] under that name, a value that is truthy and has no
    [chain]. *)
Definition objectPrototypeKeys : list string :=
  ["constructor"; "__defineGetter__"; "__defineSetter__"; "hasOwnProperty";
   "__lookupGetter__"; "__lookupSetter__"; "isPrototypeOf"; "propertyIsEnumerable";
   "toString"; "valueOf"; "__proto__"; "toLocaleString"].

Inductive Found : Type :=
| FoundContext (context : NetworkContext)
| FoundInherited
| NotFound.

(** [networkContexts[network]] *)
Definition lookupContext (networkContexts : NetworkContexts) (network : string) : Found :=
  match networkContexts !! network with
  | Some context => FoundContext context
  | None => if bool_decide (network ∈ objectPrototypeKeys) then FoundInherited else NotFound
  end.

(** What reading [context.chain.usdcAddress] throws when the context is an
    inherited value. *)
Definition noChainMessage : string :=
  "Cannot read properties of undefined (reading 'usdcAddress')".

Definition ensureRequirements (networkContexts : NetworkContexts)
    (req : PaymentRequirements.t) (context : NetworkContext) : Result (option string) :=
  if negb (String.eqb (PaymentRequirements.scheme req) "exact")
  then Ok (Some "Unsupported payment scheme")
  else if match lookupContext networkContexts (PaymentRequirements.network req) with
          | NotFound => true
          | _ => false
          end
  then Ok (Some "Unsupported network")
  else if differs (PaymentRequirements.token req) (usdcAddress (chain context))
  then Ok (Some "Unsupported token")
  else if differs (PaymentRequirements.recipient req) (address (circleWallet context))
  then Ok (Some "Recipient does not match Circle wallet address")
  else
    let* amount := BigInt (PaymentRequirements.amount req) in
    if amount <=? 0 then Ok (Some "Amount must be positive") else Ok None.

Definition verifyAuthorization (viem : Viem) (w : World) (nowTs : Z)
    (paymentPayload : EIP3009PaymentPayload.t) (requirements : PaymentRequirements.t)
    (context : NetworkContext) : Run (EIP3009Authorization.t * EIP3009Signature.t) :=
  let auth := toAuthorization paymentPayload in
  let sig := toSignature paymentPayload in
  let p := EIP3009PaymentPayload.payload paymentPayload in
  if negb (String.eqb (EIP3009PaymentPayload.scheme paymentPayload) "exact")
     || negb (String.eqb (EIP3009PaymentPayload.network paymentPayload)
                (PaymentRequirements.network requirements))
  then raise "Payment payload network mismatch"
  else if negb (String.eqb (PayloadFields.value p) (PaymentRequirements.amount requirements))
  then raise "Payment amount mismatch"
  else if differs (PayloadFields.to p) (PaymentRequirements.recipient requirements)
  then raise "Payment recipient mismatch"
  else
    recovered <- verifyTransferAuthorization viem w auth sig
                   (PaymentRequirements.token requirements)
                   (usdcName (chain context)) (usdcVersion (chain context))
                   (chainId (chain context)) ;;
    if missing recovered || differs (default "" recovered) (EIP3009Authorization.from auth)
    then raise "Invalid EIP-3009 signature"
    else
      alreadyUsed <-
        call (ReadAuthorizationState (PaymentRequirements.token requirements)
                (EIP3009Authorization.from auth) (EIP3009Authorization.nonce auth))
             (authorizationState w) ;;
      if alreadyUsed : bool then raise "Authorization already used"
      else if nowTs <=? EIP3009Authorization.validAfter auth
      then raise "Authorization not yet valid"
      else if nowTs >=? EIP3009Authorization.validBefore auth
      then raise "Authorization expired"
      else ret (auth, sig).

Definition fieldMismatch (paymentPayload : EIP3009PaymentPayload.t)
    (requirements : PaymentRequirements.t) : option string :=
  let p := EIP3009PaymentPayload.payload paymentPayload in
  if negb (String.eqb (EIP3009PaymentPayload.scheme paymentPayload) "exact")
     || negb (String.eqb (EIP3009PaymentPayload.network paymentPayload)
                (PaymentRequirements.network requirements))
  then Some "Payment payload network mismatch"
  else if negb (String.eqb (PayloadFields.value p) (PaymentRequirements.amount requirements))
  then Some "Payment amount mismatch"
  else if differs (PayloadFields.to p) (PaymentRequirements.recipient requirements)
  then Some "Payment recipient mismatch"
  else None.

(** [app.post("/verify", ...)].  For a network under which
    [networkContexts] finds an inherited value, [ensureRequirements] throws
    as soon as it reads [context.chain.usdcAddress] for its log, and the
    [catch] answers. *)
Definition verify (networkContexts : NetworkContexts) (viem : Viem) (w : World)
    (nowTs issuedAt : Z) (reqBody : option VerifyRequestBody) : Run HttpResponse :=
  tryCatch
    (match reqBody with
     | None => raise "Cannot read properties of undefined (reading 'paymentRequirements')"
     | Some body =>
         match paymentRequirements body with
         | None =>
             ret {| status := 400; body := ErrorBody "Missing payment requirements" None |}
         | Some requirements =>
             match lookupContext networkContexts (PaymentRequirements.network requirements)
             with
             | NotFound =>
                 ret {| status := 400; body := ErrorBody "Unsupported network" None |}
             | FoundInherited => raise noChainMessage
             | FoundContext context =>
                 reqError <- lift (ensureRequirements networkContexts requirements context) ;;
                 if negb (missing reqError)
                 then ret {| status := 400;
                             body := ErrorBody (default "" reqError)
                                       (Some (buildInvoice issuedAt requirements
                                                (default "" reqError))) |}
                 else
                   match paymentPayload body with
                   | None =>
                       ret {| status := 200;
                              body := InvalidBody "Missing payment payload"
                                        (Some (buildInvoice issuedAt requirements
                                                 "Payment payload required")) |}
                   | Some payload =>
                       verified <- verifyAuthorization viem w nowTs payload requirements
                                     context ;;
                       let authorization := fst verified in
                       ret {| status := 200;
                              body := ValidBody (EIP3009Authorization.from authorization)
                                        (EIP3009Authorization.value authorization)
                                        (PaymentRequirements.token requirements)
                                        (PaymentRequirements.recipient requirements)
                                        (EIP3009Authorization.validBefore authorization) |}
                   end
             end
         end
     end)
    (fun err => ret (verificationFailed issuedAt reqBody err)).

(** The answer of [/verify], case by case. *)
Definition answer (networkContexts : NetworkContexts)
    (viem : Viem) (w : World) (nowTs issuedAt : Z) (reqBody : option VerifyRequestBody)
    (h : list Call) : HttpResponse :=
  match reqBody with
  | None =>
      verificationFailed issuedAt reqBody
        "Cannot read properties of undefined (reading 'paymentRequirements')"
  | Some body =>
      match paymentRequirements body with
      | None => {| status := 400; body := ErrorBody "Missing payment requirements" None |}
      | Some requirements =>
          match lookupContext networkContexts (PaymentRequirements.network requirements) with
          | NotFound => {| status := 400; body := ErrorBody "Unsupported network" None |}
          | FoundInherited => verificationFailed issuedAt reqBody noChainMessage
          | FoundContext context =>
              match ensureRequirements networkContexts requirements
                      context with
              | Throw m => verificationFailed issuedAt reqBody m
              | Ok reqError =>
                  if negb (missing reqError)
                  then {| status := 400;
                          body := ErrorBody (default "" reqError)
                                    (Some (buildInvoice issuedAt requirements
                                             (default "" reqError))) |}
                  else
                    match paymentPayload body with
                    | None =>
                        {| status := 200;
                           body := InvalidBody "Missing payment payload"
                                     (Some (buildInvoice issuedAt requirements
                                              "Payment payload required")) |}
                    | Some payload =>
                        match fst (verifyAuthorization viem w nowTs
                                     payload requirements context h) with
                        | Throw m => verificationFailed issuedAt reqBody m
                        | Ok verified =>
                            {| status := 200;
                               body := ValidBody (EIP3009Authorization.from (fst verified))
                                         (EIP3009Authorization.value (fst verified))
                                         (PaymentRequirements.token requirements)
                                         (PaymentRequirements.recipient requirements)
                                         (EIP3009Authorization.validBefore (fst verified)) |}
                        end
                    end
              end
          end
      end
  end.

End MultiNetworkFacilitator.

(** ** A payment for examples *)

Module Scenario.
Import JS Eip3009 FacilitatorCommon.

Definition render (x : AbiValue) : string :=
  match x with
  | AbiString s => s
  | AbiBytes32 hex => hex
  | AbiAddress address => toLowerCase address
  | AbiUint256 n => toString n
  end.

(** Stand-ins for viem's hashing and encoding: they compute, which is all
    the examples ask of them. *)
Definition viem : Viem :=
  {| keccak256 := fun data => "keccak256(" +:+ data +:+ ")";
     encodePacked := fun values => String.concat "" (map render values);
     encodeAbiParameters := fun values => Ok (String.concat "," (map render values)) |}.

Definition payer : string := "0xf39Fd6e51aad88F6F4ce6aB8827279cffFb92266".
Definition payee : string := "0x70997970C51812dc3A010C7d01b50e0d17dc79C8".
Definition stranger : string := "0x3C44CdDdB6a900fa2b585dd299e03d12FA4293BC".
Definition token : string := "0x3600000000000000000000000000000000000000".

(** A chain on which the payer signed and the authorization is unused. *)
Definition honestWorld : World :=
  {| recoverAddress := fun _ => Ok (toLowerCase payer);
     authorizationState := fun _ => Ok false |}.

(** A chain on which somebody else signed. *)
Definition forgedWorld : World :=
  {| recoverAddress := fun _ => Ok stranger;
     authorizationState := fun _ => Ok false |}.

Definition config : Facilitator.Config :=
  {| Facilitator.accountAddress := payee;
     Facilitator.activeUsdcAddress := token;
     Facilitator.USDC_NAME := "USDC";
     Facilitator.USDC_VERSION := "2" |}.

Definition networkContexts : MultiNetworkFacilitator.NetworkContexts :=
  {[ "arc-testnet" :=
       {| MultiNetworkFacilitator.chain :=
            {| MultiNetworkFacilitator.chainId := 5042002;
               MultiNetworkFacilitator.networkName := "arc-testnet";
               MultiNetworkFacilitator.usdcAddress := token;
               MultiNetworkFacilitator.usdcName := "USDC";
               MultiNetworkFacilitator.usdcVersion := "2" |};
          MultiNetworkFacilitator.circleWallet :=
            {| MultiNetworkFacilitator.id := "wallet-1";
               MultiNetworkFacilitator.address := payee;
               MultiNetworkFacilitator.blockchain := "ARC-TESTNET";
               MultiNetworkFacilitator.walletSetId := "set-1" |} |} ]}.

Definition requirements : PaymentRequirements.t :=
  {| PaymentRequirements.scheme := "exact";
     PaymentRequirements.network := "arc-testnet";
     PaymentRequirements.token := token;
     PaymentRequirements.amount := "1000000";
     PaymentRequirements.recipient := payee;
     PaymentRequirements.description := "1 USDC";
     PaymentRequirements.maxTimeoutSeconds := 300 |}.




Definition now : Z := 1700000000.

(** An authorization of 1 USDC, valid from a minute ago for five minutes
    from now, with recovery id [v] and a low [s]. *)
Definition fields (v : option Z) : PayloadFields.t :=
  {| PayloadFields.from := payer;
     PayloadFields.to := payee;
     PayloadFields.value := "1000000";
     PayloadFields.validAfter := now - 60;
     PayloadFields.validBefore := now + 300;
     PayloadFields.nonce :=
       "0x00000000000000000000000000000000000000000000000000000000000000a1";
     PayloadFields.signature := None;
     PayloadFields.v := v;
     PayloadFields.r :=
       Some "0x1c6f5e2b0c3d4a59687766554433221100ffeeddccbbaa998877665544332211";
     PayloadFields.s :=
       Some "0x2a0f1e2d3c4b5a69788796a5b4c3d2e1f00112233445566778899aabbccddeef" |}.

Definition payloadWith (v : option Z) : EIP3009PaymentPayload.t :=
  {| EIP3009PaymentPayload.x402Version := 1;
     EIP3009PaymentPayload.scheme := "exact";
     EIP3009PaymentPayload.network := "arc-testnet";
     EIP3009PaymentPayload.payload := fields v |}.

Definition payload : EIP3009PaymentPayload.t := payloadWith (Some 27).

(** The same authorization carrying its signature as one 65-byte text, the
    recovery id last, and no [v], [r], [s]. *)
Definition signatureBlob : string :=
  "0x1c6f5e2b0c3d4a59687766554433221100ffeeddccbbaa998877665544332211"
  +:+ "2a0f1e2d3c4b5a69788796a5b4c3d2e1f00112233445566778899aabbccddeef" +:+ "1b".

Definition blobPayload : EIP3009PaymentPayload.t :=
  {| EIP3009PaymentPayload.x402Version := 1;
     EIP3009PaymentPayload.scheme := "exact";
     EIP3009PaymentPayload.network := "arc-testnet";
     EIP3009PaymentPayload.payload :=
       {| PayloadFields.from := payer;
          PayloadFields.to := payee;
          PayloadFields.value := "1000000";
          PayloadFields.validAfter := now - 60;
          PayloadFields.validBefore := now + 300;
          PayloadFields.nonce :=
            "0x00000000000000000000000000000000000000000000000000000000000000a1";
          PayloadFields.signature := Some signatureBlob;
          PayloadFields.v := None;
          PayloadFields.r := None;
          PayloadFields.s := None |} |}.

(** What [normalizeSignature] makes of it. *)
Definition splitPayload : EIP3009PaymentPayload.t :=
  {| EIP3009PaymentPayload.x402Version := 1;
     EIP3009PaymentPayload.scheme := "exact";
     EIP3009PaymentPayload.network := "arc-testnet";
     EIP3009PaymentPayload.payload :=
       {| PayloadFields.from := payer;
          PayloadFields.to := payee;
          PayloadFields.value := "1000000";
          PayloadFields.validAfter := now - 60;
          PayloadFields.validBefore := now + 300;
          PayloadFields.nonce :=
            "0x00000000000000000000000000000000000000000000000000000000000000a1";
          PayloadFields.signature := Some signatureBlob;
          PayloadFields.v := Some 27;
          PayloadFields.r :=
            Some "0x1c6f5e2b0c3d4a59687766554433221100ffeeddccbbaa998877665544332211";
          PayloadFields.s :=
            Some "0x2a0f1e2d3c4b5a69788796a5b4c3d2e1f00112233445566778899aabbccddeef" |} |}.

Definition request : option VerifyRequestBody :=
  Some {| paymentPayload := Some payload;
          paymentRequirements := Some requirements;
          FacilitatorCommon.payer := None |}.


End Scenario.

(** ** A platform for examples

    Compact JSON as [JSON.stringify] prints a payment payload, a parser of
    JSON objects of strings and integers, and base64 with the standard
    alphabet, for texts of ASCII code units (which are their own UTF-8
    bytes).  The theorems below are about every platform; this one shows
    their hypotheses at work. *)

Module ExamplePlatform.
Import JS Eip3009.

Definition quote : ascii := ascii_of_nat 34.
Definition backslash : ascii := ascii_of_nat 92.

Definition hexDigit (n : nat) : ascii :=
  if (n <? 10)%nat then ascii_of_nat (48 + n) else ascii_of_nat (87 + n).

Fixpoint escape (s : string) : string :=
  match s with
  | EmptyString => EmptyString
  | String c s' =>
      let n := code c in
      (if Ascii.eqb c quote then String backslash (String quote EmptyString)
       else if Ascii.eqb c backslash then String backslash (String backslash EmptyString)
       else if (n =? 8)%nat then String backslash "b"
       else if (n =? 9)%nat then String backslash "t"
       else if (n =? 10)%nat then String backslash "n"
       else if (n =? 12)%nat then String backslash "f"
       else if (n =? 13)%nat then String backslash "r"
       else if (n <? 32)%nat
       then String backslash
              (String "u" (String "0" (String "0"
                 (String (hexDigit (n / 16)) (String (hexDigit (n mod 16)) EmptyString)))))
       else String c EmptyString)
      +:+ escape s'
  end.

Definition printString (s : string) : string :=
  String quote (escape s) +:+ String quote EmptyString.

Definition member (key value : string) : string := printString key +:+ ":" +:+ value.

Definition optionalMember {A : Type} (key : string) (print : A -> string) (x : option A)
    : list string :=
  match x with
  | Some a => [member key (print a)]
  | None => []
  end.

Definition printObject (members : list string) : string :=
  "{" +:+ String.concat "," members +:+ "}".

Definition stringify (payload : EIP3009PaymentPayload.t) : string :=
  let p := EIP3009PaymentPayload.payload payload in
  printObject
    [ member "x402Version" (toString (EIP3009PaymentPayload.x402Version payload));
      member "scheme" (printString (EIP3009PaymentPayload.scheme payload));
      member "network" (printString (EIP3009PaymentPayload.network payload));
      member "payload"
        (printObject
           ([ member "from" (printString (PayloadFields.from p));
              member "to" (printString (PayloadFields.to p));
              member "value" (printString (PayloadFields.value p));
              member "validAfter" (toString (PayloadFields.validAfter p));
              member "validBefore" (toString (PayloadFields.validBefore p));
              member "nonce" (printString (PayloadFields.nonce p)) ]
            ++ optionalMember "signature" printString (PayloadFields.signature p)
            ++ optionalMember "v" toString (PayloadFields.v p)
            ++ optionalMember "r" printString (PayloadFields.r p)
            ++ optionalMember "s" printString (PayloadFields.s p))) ].

(** *** Parsing *)

#[warnings="-register-all"]
Inductive Json : Type :=
| JNumber (n : Z)
| JString (s : string)
| JObject (members : list (string * Json)).

Definition skipWhite (s : string) : string := trimStart s.

(** The text of a string up to its closing quote, and what follows. *)
Fixpoint parseChars (fuel : nat) (s : string) : option (string * string) :=
  match fuel with
  | O => None
  | S fuel' =>
      match s with
      | EmptyString => None
      | String c rest =>
          if Ascii.eqb c quote then Some (EmptyString, rest)
          else if Ascii.eqb c backslash then
            match rest with
            | EmptyString => None
            | String e rest' =>
                let plain (x : ascii) :=
                  match parseChars fuel' rest' with
                  | Some (text, after) => Some (String x text, after)
                  | None => None
                  end in
                if Ascii.eqb e quote then plain quote
                else if Ascii.eqb e backslash then plain backslash
                else if Ascii.eqb e "/" then plain "/"%char
                else if Ascii.eqb e "b" then plain (ascii_of_nat 8)
                else if Ascii.eqb e "t" then plain (ascii_of_nat 9)
                else if Ascii.eqb e "n" then plain (ascii_of_nat 10)
                else if Ascii.eqb e "f" then plain (ascii_of_nat 12)
                else if Ascii.eqb e "r" then plain (ascii_of_nat 13)
                else if Ascii.eqb e "u" then
                  match radixLiteral 16 (slice 0 4 rest') with
                  | Some n =>
                      if (String.length (slice 0 4 rest') =? 4)%nat && (n <? 256)
                      then match parseChars fuel' (drop 4 rest') with
                           | Some (text, after) =>
                               Some (String (ascii_of_nat (Z.to_nat n)) text, after)
                           | None => None
                           end
                      else None
                  | None => None
                  end
                else None
            end
          else if (code c <? 32)%nat then None
          else match parseChars fuel' rest with
               | Some (text, after) => Some (String c text, after)
               | None => None
               end
      end
  end.

Fixpoint takeDigits (s : string) : string * string :=
  match s with
  | EmptyString => (EmptyString, EmptyString)
  | String c rest =>
      if isDigit c then let '(d, after) := takeDigits rest in (String c d, after)
      else (EmptyString, s)
  end.

Definition parseNumber (s : string) : option (Z * string) :=
  let negative := startsWith "-" s in
  let '(digits, after) := takeDigits (if negative then drop 1 s else s) in
  if isEmpty digits then None
  else if startsWith "." after || startsWith "e" after || startsWith "E" after then None
  else Some (if negative then - decimalValue digits else decimalValue digits, after).

Fixpoint parseValue (fuel : nat) (s : string) : option (Json * string) :=
  match fuel with
  | O => None
  | S fuel' =>
      let s := skipWhite s in
      match s with
      | EmptyString => None
      | String c rest =>
          if Ascii.eqb c quote then
            match parseChars (S (String.length rest)) rest with
            | Some (text, after) => Some (JString text, after)
            | None => None
            end
          else if Ascii.eqb c "{" then
            let rest := skipWhite rest in
            if startsWith "}" rest then Some (JObject [], drop 1 rest)
            else
              (fix parseMembers (n : nat) (s : string) (acc : list (string * Json))
                 : option (Json * string) :=
                 match n with
                 | O => None
                 | S n' =>
                     let s := skipWhite s in
                     match s with
                     | String q afterQuote =>
                         if Ascii.eqb q quote then
                           match parseChars (S (String.length afterQuote)) afterQuote with
                           | Some (key, afterKey) =>
                               let afterKey := skipWhite afterKey in
                               if startsWith ":" afterKey then
                                 match parseValue fuel' (drop 1 afterKey) with
                                 | Some (value, afterValue) =>
                                     let afterValue := skipWhite afterValue in
                                     if startsWith "," afterValue
                                     then parseMembers n' (drop 1 afterValue)
                                            (acc ++ [(key, value)])
                                     else if startsWith "}" afterValue
                                     then Some (JObject (acc ++ [(key, value)]),
                                                drop 1 afterValue)
                                     else None
                                 | None => None
                                 end
                               else None
                           | None => None
                           end
                         else None
                     | EmptyString => None
                     end
                 end) (String.length rest) rest []
          else
            match parseNumber s with
            | Some (n, after) => Some (JNumber n, after)
            | None => None
            end
      end
  end.

(** [object[key]]: of members with the same key the last one counts. *)
Definition field (key : string) (members : list (string * Json)) : option Json :=
  snd <$> List.find (fun m => String.eqb (fst m) key) (rev members).

Definition stringField (key : string) (members : list (string * Json)) : option string :=
  match field key members with Some (JString s) => Some s | _ => None end.

Definition numberField (key : string) (members : list (string * Json)) : option Z :=
  match field key members with Some (JNumber n) => Some n | _ => None end.

Definition payloadOfJson (j : Json) : option EIP3009PaymentPayload.t :=
  match j with
  | JObject top =>
      match field "payload" top with
      | Some (JObject inner) =>
          x402Version ← numberField "x402Version" top;
          scheme ← stringField "scheme" top;
          network ← stringField "network" top;
          from ← stringField "from" inner;
          to ← stringField "to" inner;
          value ← stringField "value" inner;
          validAfter ← numberField "validAfter" inner;
          validBefore ← numberField "validBefore" inner;
          nonce ← stringField "nonce" inner;
          Some (EIP3009PaymentPayload.mk x402Version scheme network
                  (PayloadFields.mk from to value validAfter validBefore nonce
                     (stringField "signature" inner) (numberField "v" inner)
                     (stringField "r" inner) (stringField "s" inner)))
      | _ => None
      end
  | _ => None
  end.

Definition parse (text : string) : Result EIP3009PaymentPayload.t :=
  match parseValue (S (String.length text)) text with
  | Some (j, after) =>
      if isEmpty (skipWhite after)
      then match payloadOfJson j with
           | Some payload => Ok payload
           | None => Throw "the document is no payment payload"
           end
      else Throw "Unexpected non-whitespace character after JSON"
  | None => Throw "Unexpected token in JSON"
  end.

(** *** Base64 *)

Definition alphabet : string :=
  "ABCDEFGHIJKLMNOPQRSTUVWXYZabcdefghijklmnopqrstuvwxyz0123456789+/".

Definition sextetChar (n : nat) : ascii :=
  match String.get n alphabet with Some c => c | None => "="%char end.

Fixpoint indexOf (c : ascii) (s : string) (i : nat) : option nat :=
  match s with
  | EmptyString => None
  | String x s' => if Ascii.eqb x c then Some i else indexOf c s' (S i)
  end.

Fixpoint encodeBytes (fuel : nat) (s : string) : string :=
  match fuel with
  | O => EmptyString
  | S fuel' =>
      match s with
      | EmptyString => EmptyString
      | String a EmptyString =>
          String (sextetChar (code a / 4)) (String (sextetChar (code a mod 4 * 16)) "==")
      | String a (String b EmptyString) =>
          String (sextetChar (code a / 4))
            (String (sextetChar (code a mod 4 * 16 + code b / 16))
               (String (sextetChar (code b mod 16 * 4)) "="))
      | String a (String b (String c rest)) =>
          String (sextetChar (code a / 4))
            (String (sextetChar (code a mod 4 * 16 + code b / 16))
               (String (sextetChar (code b mod 16 * 4 + code c / 64))
                  (String (sextetChar (code c mod 64)) (encodeBytes fuel' rest))))
      end
  end%nat.

Definition toBase64 (text : string) : string := encodeBytes (S (String.length text)) text.

(** The sextets of the code units of the alphabet; the others are skipped, as
    [Buffer.from(text, 'base64')] skips them. *)
Fixpoint sextets (s : string) : list nat :=
  match s with
  | EmptyString => []
  | String c s' =>
      match indexOf c alphabet 0 with
      | Some i => i :: sextets s'
      | None => sextets s'
      end
  end.

Fixpoint decodeSextets (fuel : nat) (l : list nat) : string :=
  match fuel with
  | O => EmptyString
  | S fuel' =>
      match l with
      | a :: b :: c :: d :: rest =>
          String (ascii_of_nat (a * 4 + b / 16))
            (String (ascii_of_nat (b mod 16 * 16 + c / 4))
               (String (ascii_of_nat (c mod 4 * 64 + d)) (decodeSextets fuel' rest)))
      | [a; b; c] =>
          String (ascii_of_nat (a * 4 + b / 16))
            (String (ascii_of_nat (b mod 16 * 16 + c / 4)) EmptyString)
      | [a; b] => String (ascii_of_nat (a * 4 + b / 16)) EmptyString
      | _ => EmptyString
      end
  end%nat.

Definition fromBase64 (text : string) : string :=
  decodeSextets (S (String.length text)) (sextets text).

Definition platform : Platform :=
  {| JSON_stringify := stringify;
     JSON_parse := parse;
     Eip3009.toBase64 := toBase64;
     Eip3009.fromBase64 := fromBase64 |}.

End ExamplePlatform.

(** ** Observations on the histories of the gateway service *)

Module GatewayTrace.
Import JS GatewayService.

Definition isPollOf (transactionId : string) (c : Call) : bool :=
  match c with
  | GetTransaction id => String.eqb id transactionId
  | _ => false
  end.

(** The polls of a transaction in a history. *)
Definition polls (transactionId : string) (h : list Call) : nat :=
  length (List.filter (isPollOf transactionId) h).

Definition sleepOf (c : Call) : Z :=
  match c with
  | Sleep ms => ms
  | _ => 0
  end.

(** The time slept in a history, in milliseconds. *)
Definition slept (h : list Call) : Z := fold_right (fun c total => sleepOf c + total) 0 h.

Definition isBalanceFetch (c : Call) : bool :=
  match c with
  | FetchGatewayBalances _ _ => true
  | _ => false
  end.

Definition balanceFetches (h : list Call) : nat := length (List.filter isBalanceFetch h).

(** The answer of a poll that lets the wait go on: no transaction, or a
    transaction whose state is none of the six final ones. *)
Definition pendingAnswer (answer : Result (option CircleTransaction)) : Prop :=
  answer = Ok None \/
  exists tx, answer = Ok (Some tx) /\
             isConfirmedState (state tx) = false /\ isFailedState (state tx) = false.

(** A history ends with the poll that saw the transaction confirmed. *)
Definition confirmedAt (w : World) (transactionId : string) (h : list Call) : Prop :=
  exists h0 tx,
    h = GetTransaction transactionId :: h0 /\
    getTransaction w h = Ok (Some tx) /\
    isConfirmedState (state tx) = true.

(** A history ends with a read of the Gateway balance that gave [balance]. *)
Definition balanceReadAt (w : World) (domain : Z) (depositor : string) (balance : Z)
    (h : list Call) : Prop :=
  exists h0,
    h = FetchGatewayBalances domain depositor :: h0 /\
    getGatewayUsdcBalanceForDepositor w domain depositor h0 = (Ok balance, h).

(** A world whose transactions are never final, for examples. *)
Definition pendingWorld : World :=
  {| getWallet := getWallet thirdApprovalWorld;
     fetchGatewayBalances := fetchGatewayBalances thirdApprovalWorld;
     prefund := prefund thirdApprovalWorld;
     createContractExecutionTransaction :=
       createContractExecutionTransaction thirdApprovalWorld;
     getTransaction := fun _ => Ok (Some {| state := "QUEUED"; errorReason := "" |}) |}.

End GatewayTrace.

(** ** Signing a transfer authorization ([src/facilitator/eip3009.ts], the
    client's side) *)

Module Eip3009Client.
Import JS Eip3009.

(** What [account.signTypedData] is given: the EIP-712 domain and the
    message. *)
Record TypedAuthorization : Type := mkTypedAuthorization {
  domainName : string;
  domainVersion : string;
  domainChainId : Z;
  verifyingContract : string;
  messageFrom : string;
  messageTo : string;
  messageValue : Z;
  messageValidAfter : Z;
  messageValidBefore : Z;
  messageNonce : string
}.

Inductive Call : Type :=
| SignTypedData (privateKey : string) (typed : TypedAuthorization).

(** viem's [privateKeyToAccount], which throws on a key it cannot read and
    otherwise gives the account (here its address), and the signature of the
    account, a text of hexadecimal digits. *)
Record Signer : Type := mkSigner {
  privateKeyToAccount : string -> Result string;
  signTypedData : list Call -> Result string
}.

(** The parts [signTransferAuthorization] cuts the signature into. *)
Definition splitSignature (signature : string) : EIP3009Signature.t :=
  {| EIP3009Signature.v := parseInt16 (slice 130 132 signature);
     EIP3009Signature.r := Some (slice 0 66 signature);
     EIP3009Signature.s := Some ("0x" +:+ slice 66 130 signature) |}.

Definition signTransferAuthorization (viem : Viem) (signer : Signer)
    (authorization : EIP3009Authorization.t) (tokenAddress tokenName tokenVersion : string)
    (chainId : Z) (privateKey : string) : Run EIP3009Signature.t :=
  account <- lift (privateKeyToAccount signer privateKey) ;;
  value <- lift (BigInt (EIP3009Authorization.value authorization)) ;;
  encoded <- lift (encodeAbiParameters viem
                     [AbiBytes32 (EIP3009_TYPEHASH viem);
                      AbiAddress (EIP3009Authorization.from authorization);
                      AbiAddress (EIP3009Authorization.to authorization);
                      AbiUint256 value;
                      AbiUint256 (EIP3009Authorization.validAfter authorization);
                      AbiUint256 (EIP3009Authorization.validBefore authorization);
                      AbiBytes32 (EIP3009Authorization.nonce authorization)]) ;;
  let structHash := keccak256 viem encoded in
  domainSeparator <- lift (createDomainSeparator viem tokenAddress tokenName tokenVersion
                             chainId) ;;
  let digest :=
    keccak256 viem
      (encodePacked viem
         [AbiString eip712Prefix; AbiBytes32 domainSeparator; AbiBytes32 structHash]) in
  signature <-
    call (SignTypedData privateKey
            {| domainName := tokenName;
               domainVersion := tokenVersion;
               domainChainId := chainId;
               verifyingContract := tokenAddress;
               messageFrom := EIP3009Authorization.from authorization;
               messageTo := EIP3009Authorization.to authorization;
               messageValue := value;
               messageValidAfter := EIP3009Authorization.validAfter authorization;
               messageValidBefore := EIP3009Authorization.validBefore authorization;
               messageNonce := EIP3009Authorization.nonce authorization |})
         (signTypedData signer) ;;
  ret (splitSignature signature).

Definition createX402PaymentPayload (viem : Viem) (signer : Signer)
    (authorization : EIP3009Authorization.t) (tokenAddress tokenName tokenVersion : string)
    (chainId : Z) (privateKey network : string) : Run EIP3009PaymentPayload.t :=
  signature <- signTransferAuthorization viem signer authorization tokenAddress tokenName
                 tokenVersion chainId privateKey ;;
  ret {| EIP3009PaymentPayload.x402Version := 1;
         EIP3009PaymentPayload.scheme := "exact";
         EIP3009PaymentPayload.network := network;
         EIP3009PaymentPayload.payload :=
           {| PayloadFields.from := EIP3009Authorization.from authorization;
              PayloadFields.to := EIP3009Authorization.to authorization;
              PayloadFields.value := EIP3009Authorization.value authorization;
              PayloadFields.validAfter := EIP3009Authorization.validAfter authorization;
              PayloadFields.validBefore := EIP3009Authorization.validBefore authorization;
              PayloadFields.nonce := EIP3009Authorization.nonce authorization;
              PayloadFields.signature := None;
              PayloadFields.v := EIP3009Signature.v signature;
              PayloadFields.r := EIP3009Signature.r signature;
              PayloadFields.s := EIP3009Signature.s signature |} |}.

(** A signature text: [0x], then 64 digits of [r], 64 of [s] and the
    recovery id, [1b] or [1c]. *)
Definition isSignatureText (signature : string) : Prop :=
  startsWith "0x" signature = true /\
  String.length signature = 132%nat /\
  (slice 130 132 signature = "1b" \/ slice 130 132 signature = "1c").

(** A payload that carries its signature as one text. *)
Definition carrying (signature : string) (authorization : EIP3009Authorization.t)
    (network : string) : EIP3009PaymentPayload.t :=
  {| EIP3009PaymentPayload.x402Version := 1;
     EIP3009PaymentPayload.scheme := "exact";
     EIP3009PaymentPayload.network := network;
     EIP3009PaymentPayload.payload :=
       {| PayloadFields.from := EIP3009Authorization.from authorization;
          PayloadFields.to := EIP3009Authorization.to authorization;
          PayloadFields.value := EIP3009Authorization.value authorization;
          PayloadFields.validAfter := EIP3009Authorization.validAfter authorization;
          PayloadFields.validBefore := EIP3009Authorization.validBefore authorization;
          PayloadFields.nonce := EIP3009Authorization.nonce authorization;
          PayloadFields.signature := Some signature;
          PayloadFields.v := None;
          PayloadFields.r := None;
          PayloadFields.s := None |} |}.

(** A signer for examples: it knows one key and always gives the signature
    of the scenario. *)
Definition scenarioSigner : Signer :=
  {| privateKeyToAccount := fun key =>
       if String.eqb key "0xkey" then Ok Scenario.payer else Throw "invalid private key";
     signTypedData := fun _ => Ok Scenario.signatureBlob |}.

End Eip3009Client.

(** ** Observations on the histories of a verification *)

Module VerificationTrace.
Import JS Eip3009 FacilitatorCommon.

Definition isStateRead (c : Call) : bool :=
  match c with
  | ReadAuthorizationState _ _ _ => true
  | _ => false
  end.

(** The reads of [authorizationState] in a history. *)
Definition stateReads (h : list Call) : nat := length (List.filter isStateRead h).

(** What [verifyAuthorization] asks of a payload once its fields match: the
    signature recovers to [from], whatever the letter case, the chain says
    the nonce is unused, and the time is inside the window. *)
Definition signedUnusedAndCurrent (viem : Viem) (w : World) (nowTs : Z)
    (auth : EIP3009Authorization.t) (sig : EIP3009Signature.t)
    (token usdcName usdcVersion : string) (chainId : Z) (h : list Call) : Prop :=
  exists signer h1,
    verifyTransferAuthorization viem w auth sig token usdcName usdcVersion chainId h
      = (Ok (Some signer), h1) /\
    isEmpty signer = false /\
    toLowerCase signer = toLowerCase (EIP3009Authorization.from auth) /\
    authorizationState w
      (ReadAuthorizationState token (EIP3009Authorization.from auth)
         (EIP3009Authorization.nonce auth) :: h1) = Ok false /\
    EIP3009Authorization.validAfter auth < nowTs < EIP3009Authorization.validBefore auth.

End VerificationTrace.

(** ** Settlement: [/settle] and [/invoice] of the two facilitators *)

Module Settlement.
Import JS Eip3009.

Record SettleRequestBody : Type := mkSettleRequestBody {
  paymentPayload : option EIP3009PaymentPayload.t;
  paymentRequirements : option PaymentRequirements.t
}.

(** [/invoice] reads [amount] and [description] from the query; an absent
    parameter and an empty one both give way to the default. *)
Definition requirements (network token recipient : string)
    (amount description : option string) : PaymentRequirements.t :=
  {| PaymentRequirements.scheme := "exact";
     PaymentRequirements.network := network;
     PaymentRequirements.token := token;
     PaymentRequirements.amount := orElse (default "" amount) "1000";
     PaymentRequirements.recipient := recipient;
     PaymentRequirements.description := orElse (default "" description) "X402 payment";
     PaymentRequirements.maxTimeoutSeconds := 300 |}.

End Settlement.

(** [/settle] and [/invoice] of [server.ts]. *)
Module FacilitatorSettlement.
Import JS Eip3009 Settlement.

(** The arguments of [transferWithAuthorization], in the order of its ABI. *)
Record TransferArguments : Type := mkTransferArguments {
  from : string;
  to : string;
  value : Z;
  validAfter : Z;
  validBefore : Z;
  nonce : string;
  v : option Z;
  r : option string;
  s : option string
}.

(** The calls of the wallet client. *)
Inductive ChainCall : Type :=
| WriteContract (address functionName : string) (args : TransferArguments)
| WaitForTransactionReceipt (hash : string).

Record TransactionReceipt : Type := mkTransactionReceipt {
  status : string;
  transactionHash : string;
  blockNumber : Z;
  gasUsed : option Z
}.

Record WalletClient : Type := mkWalletClient {
  writeContract : list ChainCall -> Result string;
  waitForTransactionReceipt : list ChainCall -> Result TransactionReceipt
}.

(** The JSON bodies of the answers: [{ error }] and the report of a
    settlement. *)
Inductive SettleBody : Type :=
| SettleError (error : string)
| Settled (success : bool) (transactionHash : string) (blockNumber : Z)
          (gasUsed : option string) (status : string).

Record SettleResponse : Type := mkSettleResponse {
  statusCode : Z;
  body : SettleBody
}.

Definition refused (error : string) : SettleResponse :=
  {| statusCode := 400; body := SettleError error |}.

Definition transferArguments (authorization : EIP3009Authorization.t)
    (signature : EIP3009Signature.t) (value : Z) : TransferArguments :=
  {| from := EIP3009Authorization.from authorization;
     to := EIP3009Authorization.to authorization;
     value := value;
     validAfter := EIP3009Authorization.validAfter authorization;
     validBefore := EIP3009Authorization.validBefore authorization;
     nonce := EIP3009Authorization.nonce authorization;
     v := EIP3009Signature.v signature;
     r := EIP3009Signature.r signature;
     s := EIP3009Signature.s signature |}.

(** [app.post("/settle", ...)].  [reads] is the history of the calls of a
    verification and [writes] the one of the wallet client; what the chain
    answers to a verification may depend on what was written before
    ([publicClient]).  Whatever is thrown inside the [try] is answered by
    the [catch], with 400 and the message. *)
Definition settle (cfg : Facilitator.Config) (viem : Viem)
    (publicClient : list ChainCall -> World) (walletClient : WalletClient) (nowTs : Z)
    (reqBody : option SettleRequestBody) (reads : list Call) (writes : list ChainCall)
    : SettleResponse * list Call * list ChainCall :=
  match reqBody with
  | None =>
      (refused "Cannot read properties of undefined (reading 'paymentRequirements')",
       reads, writes)
  | Some body =>
      match paymentRequirements body with
      | None => (refused "Missing payment requirements", reads, writes)
      | Some requirements =>
          match Facilitator.ensureRequirements cfg requirements with
          | Throw err => (refused err, reads, writes)
          | Ok reqError =>
              if negb (missing reqError)
              then (refused (default "" reqError), reads, writes)
              else
                match paymentPayload body with
                | None => (refused "Missing payment payload", reads, writes)
                | Some payload =>
                    match Facilitator.verifyAuthorization cfg viem (publicClient writes)
                            nowTs payload requirements reads with
                    | (Throw err, reads) => (refused err, reads, writes)
                    | (Ok (authorization, signature), reads) =>
                        match BigInt (EIP3009Authorization.value authorization) with
                        | Throw err => (refused err, reads, writes)
                        | Ok value =>
                            let writes :=
                              WriteContract (PaymentRequirements.token requirements)
                                "transferWithAuthorization"
                                (transferArguments authorization signature value)
                              :: writes in
                            match writeContract walletClient writes with
                            | Throw err => (refused err, reads, writes)
                            | Ok hash =>
                                let writes := WaitForTransactionReceipt hash :: writes in
                                match waitForTransactionReceipt walletClient writes with
                                | Throw err => (refused err, reads, writes)
                                | Ok receipt =>
                                    let success := String.eqb (status receipt) "success" in
                                    ({| statusCode := 200;
                                        body :=
                                          Settled success (transactionHash receipt)
                                            (blockNumber receipt)
                                            (option_map toString (gasUsed receipt))
                                            (if success then "confirmed" else "failed") |},
                                     reads, writes)
                                end
                            end
                        end
                    end
                end
          end
      end
  end.

(** [app.get("/invoice", ...)] *)
Definition invoice (cfg : Facilitator.Config) (issuedAt : Z)
    (amount description : option string) : FacilitatorCommon.Invoice :=
  FacilitatorCommon.buildInvoice issuedAt
    (requirements "arc-testnet" (Facilitator.activeUsdcAddress cfg)
       (Facilitator.accountAddress cfg) amount description)
    "Payment required".

End FacilitatorSettlement.

(** [/settle], [/invoice] and [/networks] of the multi-network
    facilitator. *)
Module MultiNetworkSettlement.
Import JS Eip3009 Settlement MultiNetworkFacilitator.

Definition TRANSFER_WITH_AUTHORIZATION_SIGNATURE : string :=
  "transferWithAuthorization(address,address,uint256,uint256,uint256,bytes32,uint8,bytes32,bytes32)".

(** [abiParameters]: the amount goes as the text of the payload. *)
Record AbiParameters : Type := mkAbiParameters {
  from : string;
  to : string;
  value : string;
  validAfter : Z;
  validBefore : Z;
  nonce : string;
  v : option Z;
  r : option string;
  s : option string
}.

(** What [circleClient.createContractExecutionTransaction] is given; the fee
    is always of level MEDIUM. *)
Record ContractExecution : Type := mkContractExecution {
  walletId : string;
  contractAddress : string;
  abiFunctionSignature : string;
  abiParameters : AbiParameters;
  refId : string
}.

Inductive CircleCall : Type :=
| CreateContractExecutionTransaction (request : ContractExecution).

Record CircleTransactionData : Type := mkCircleTransactionData {
  transactionId : string;
  state : string;
  transactionHash : option string
}.

(** The client answers with a response whose [data] may be missing. *)
Record CircleClient : Type := mkCircleClient {
  createContractExecutionTransaction : list CircleCall -> Result (option CircleTransactionData)
}.

Inductive SettleBody : Type :=
| SettleError (error : string)
| Settled (success : bool) (circleTransactionId state : string)
          (transactionHash : option string).

Record SettleResponse : Type := mkSettleResponse {
  statusCode : Z;
  body : SettleBody
}.

Definition refused (error : string) : SettleResponse :=
  {| statusCode := 400; body := SettleError error |}.

Definition successStates : list string := ["CLEARED"; "COMPLETE"; "CONFIRMED"; "SENT"].

Definition abiParametersOf (authorization : EIP3009Authorization.t)
    (signature : EIP3009Signature.t) : AbiParameters :=
  {| from := EIP3009Authorization.from authorization;
     to := EIP3009Authorization.to authorization;
     value := EIP3009Authorization.value authorization;
     validAfter := EIP3009Authorization.validAfter authorization;
     validBefore := EIP3009Authorization.validBefore authorization;
     nonce := EIP3009Authorization.nonce authorization;
     v := EIP3009Signature.v signature;
     r := EIP3009Signature.r signature;
     s := EIP3009Signature.s signature |}.

(** [app.post("/settle", ...)].  With an inherited value for a context,
    [ensureRequirements] throws as soon as it reads [context.chain.usdcAddress]
    for its log. *)
Definition settle (networkContexts : NetworkContexts) (viem : Viem)
    (publicClient : list CircleCall -> World) (circleClient : CircleClient) (nowTs : Z)
    (reqBody : option SettleRequestBody) (reads : list Call) (writes : list CircleCall)
    : SettleResponse * list Call * list CircleCall :=
  match reqBody with
  | None =>
      (refused "Cannot read properties of undefined (reading 'paymentRequirements')",
       reads, writes)
  | Some body =>
      match paymentRequirements body with
      | None => (refused "Missing payment requirements", reads, writes)
      | Some requirements =>
          match lookupContext networkContexts (PaymentRequirements.network requirements) with
          | NotFound => (refused "Unsupported network", reads, writes)
          | FoundInherited =>
              (refused "Cannot read properties of undefined (reading 'usdcAddress')",
               reads, writes)
          | FoundContext context =>
              match ensureRequirements networkContexts requirements context with
              | Throw err => (refused err, reads, writes)
              | Ok reqError =>
                  if negb (missing reqError)
                  then (refused (default "" reqError), reads, writes)
                  else
                    match paymentPayload body with
                    | None => (refused "Missing payment payload", reads, writes)
                    | Some payload =>
                        match verifyAuthorization viem (publicClient writes) nowTs payload
                                requirements context reads with
                        | (Throw err, reads) => (refused err, reads, writes)
                        | (Ok (authorization, signature), reads) =>
                            let writes :=
                              CreateContractExecutionTransaction
                                {| walletId := id (circleWallet context);
                                   contractAddress := PaymentRequirements.token requirements;
                                   abiFunctionSignature :=
                                     TRANSFER_WITH_AUTHORIZATION_SIGNATURE;
                                   abiParameters := abiParametersOf authorization signature;
                                   refId := PaymentRequirements.description requirements |}
                              :: writes in
                            match createContractExecutionTransaction circleClient writes with
                            | Throw err => (refused err, reads, writes)
                            | Ok None =>
                                (refused "Circle did not return transaction data",
                                 reads, writes)
                            | Ok (Some circleTransaction) =>
                                ({| statusCode := 200;
                                    body :=
                                      Settled
                                        (bool_decide (state circleTransaction ∈ successStates))
                                        (transactionId circleTransaction)
                                        (state circleTransaction)
                                        (transactionHash circleTransaction) |},
                                 reads, writes)
                            end
                        end
                    end
              end
          end
      end
  end.

(** The answers of [/invoice]: 400 with [{ error }], or the invoice. *)
Inductive InvoiceResponse : Type :=
| InvoiceRefused (error : string)
| Invoiced (invoice : FacilitatorCommon.Invoice).

(** [app.get("/invoice", ...)]; [networkParam] is the network of the query
    and [defaultNetwork] the one [initializeNetworkContexts] chose.  The
    handler has no [try]: what it throws is not answered by it. *)
Definition invoice (networkContexts : NetworkContexts) (defaultNetwork : string)
    (issuedAt : Z) (amount description networkParam : option string)
    : Result InvoiceResponse :=
  let network :=
    if negb (missing networkParam)
       && match lookupContext networkContexts (default "" networkParam) with
          | NotFound => false
          | _ => true
          end
    then default "" networkParam
    else defaultNetwork in
  match lookupContext networkContexts network with
  | NotFound => Ok (InvoiceRefused "Unsupported network")
  | FoundInherited => Throw "Cannot read properties of undefined (reading 'usdcAddress')"
  | FoundContext context =>
      Ok (Invoiced
            (FacilitatorCommon.buildInvoice issuedAt
               (requirements network (usdcAddress (chain context))
                  (address (circleWallet context)) amount description)
               "Payment required"))
  end.

End MultiNetworkSettlement.

(** ** The paywall proxy: endpoints, facilitator networks and the handler of
    a request *)

Module Gateway.
Import JS Eip3009.

(** *** Strings *)

(** [s.endsWith('/')] and [s.slice(0, -1)] *)
Fixpoint endsWithSlash (s : string) : bool :=
  match s with
  | EmptyString => false
  | String c EmptyString => Ascii.eqb c "/"
  | String _ s' => endsWithSlash s'
  end.

Fixpoint dropLast (s : string) : string :=
  match s with
  | EmptyString => EmptyString
  | String _ EmptyString => EmptyString
  | String c s' => String c (dropLast s')
  end.

(** [a || b || c] on strings that may be [null] or [undefined]. *)
Definition firstTruthy (a b : option string) (c : string) : string :=
  if negb (missing a) then default "" a
  else if negb (missing b) then default "" b
  else c.

(** [xs.join(',')] *)
Fixpoint join (xs : list string) : string :=
  match xs with
  | [] => ""
  | [x] => x
  | x :: rest => x +:+ "," +:+ join rest
  end.

(** *** The configuration *)

(** The constants that the proxy reads from its environment when it
    starts. *)
Record Defaults : Type := mkDefaults {
  DEFAULT_FACILITATOR_URL : string;
  DEFAULT_TIMEOUT_SECONDS : Z;
  DEFAULT_NETWORK : string;
  DEFAULT_TOKEN_NAME : string;
  DEFAULT_TOKEN_VERSION : string;
  DEFAULT_CHAIN_ID : Z;
  DEFAULT_TOKEN_ADDRESS : option string;
  DEFAULT_PAYTO_ADDRESS : option string
}.

Definition DEFAULT_SCHEME : string := "exact".

(** An endpoint as the configuration file has it: [None] is a field that
    is missing or [null]. *)
Record EndpointConfig : Type := mkEndpointConfig {
  method : string;
  path : string;
  price : option string;
  description : option string;
  token : option string;
  payTo : option string;
  facilitatorUrl : option string;
  network : option string;
  scheme : option string;
  maxTimeoutSeconds : option Z;
  autoSettle : option bool;
  active : option bool
}.

Record ProxyConfig : Type := mkProxyConfig {
  serviceName : option string;
  upstreamBaseUrl : string;
  endpoints : list EndpointConfig
}.

Module ConfiguredEndpoint.
Record t : Type := mk {
  method : string;
  path : string;
  price : string;
  description : string;
  token : string;
  payTo : string;
  facilitatorUrl : string;
  network : string;
  scheme : string;
  maxTimeoutSeconds : Z;
  autoSettle : bool;
  active : option bool
}.
End ConfiguredEndpoint.

(** A loaded endpoint: the configured one, the path it was configured
    with, and the [test] of the regular expression of the path. *)
Module LoadedEndpoint.
Record t : Type := mk {
  configured : ConfiguredEndpoint.t;
  originalPath : string;
  matcher : string -> bool
}.
End LoadedEndpoint.

Coercion LoadedEndpoint.configured : LoadedEndpoint.t >-> ConfiguredEndpoint.t.

Definition isInactive (endpoint : EndpointConfig) : bool :=
  match active endpoint with
  | Some false => true
  | _ => false
  end.

Definition isEndpointReady (d : Defaults) (endpoint : EndpointConfig) : bool :=
  if isInactive endpoint then false
  else
    let priceValue := default "" (price endpoint) in
    let timeout := default (DEFAULT_TIMEOUT_SECONDS d) (maxTimeoutSeconds endpoint) in
    negb (isEmpty (trim priceValue))
    && negb (missing (description endpoint))
    && negb (isEmpty (trim (default "" (description endpoint))))
    && (0 <? timeout).

Definition zeroAddress : string := "0x0000000000000000000000000000000000000000".

Definition normalizeEndpoint (d : Defaults) (endpoint : EndpointConfig)
    : Result ConfiguredEndpoint.t :=
  if negb (isEndpointReady d endpoint)
  then Throw "Attempted to normalize an incomplete endpoint"
  else
    let token := firstTruthy (token endpoint) (DEFAULT_TOKEN_ADDRESS d) zeroAddress in
    let payTo := firstTruthy (payTo endpoint) (DEFAULT_PAYTO_ADDRESS d) zeroAddress in
    Ok {| ConfiguredEndpoint.method := method endpoint;
          ConfiguredEndpoint.path := path endpoint;
          ConfiguredEndpoint.price := default "" (price endpoint);
          ConfiguredEndpoint.description := default "" (description endpoint);
          ConfiguredEndpoint.token := token;
          ConfiguredEndpoint.payTo := payTo;
          ConfiguredEndpoint.facilitatorUrl :=
            orElse (default "" (facilitatorUrl endpoint)) (DEFAULT_FACILITATOR_URL d);
          ConfiguredEndpoint.network :=
            orElse (default "" (network endpoint)) (DEFAULT_NETWORK d);
          ConfiguredEndpoint.scheme := orElse (default "" (scheme endpoint)) DEFAULT_SCHEME;
          ConfiguredEndpoint.maxTimeoutSeconds :=
            default (DEFAULT_TIMEOUT_SECONDS d) (maxTimeoutSeconds endpoint);
          ConfiguredEndpoint.autoSettle :=
            match autoSettle endpoint with Some false => false | _ => true end;
          ConfiguredEndpoint.active := active endpoint |}.

(** *** The regular expression of a path *)

(** The class [[.+?^${}()|[\]\\]] of the first replacement. *)
Definition isEscaped (c : ascii) : bool :=
  bool_decide (c ∈ [("."%char : ascii); "+"; "?"; "^"; "$"; "{"; "}"; "("; ")"; "|"; "[";
                    "]"; "\"])%char.

(** [p.replace(/[.+?^${}()|[\]\\]/g, '\\$&')] *)
Fixpoint escapeSpecial (p : string) : string :=
  match p with
  | EmptyString => EmptyString
  | String c p' =>
      if isEscaped c then String "\" (String c (escapeSpecial p'))
      else String c (escapeSpecial p')
  end.

(** The length of the longest prefix of characters that are neither [/]
    nor [}], and what follows it. *)
Fixpoint parameterRun (s : string) : nat * string :=
  match s with
  | EmptyString => (O, EmptyString)
  | String c s' =>
      if Ascii.eqb c "/" || Ascii.eqb c "}" then (O, s)
      else let (n, rest) := parameterRun s' in (S n, rest)
  end.

(** [s.replace(/{[^/}]+}/g, '[^/]+')].  At a [{] the expression matches
    when at least one character other than [/] and [}] follows, and a [}]
    after all of them; [skip] counts the characters of a match that are
    still to pass. *)
Fixpoint replaceBraces (skip : nat) (s : string) : string :=
  match s with
  | EmptyString => EmptyString
  | String c s' =>
      match skip with
      | S skip' => replaceBraces skip' s'
      | O =>
          if Ascii.eqb c "{"
          then
            let (n, rest) := parameterRun s' in
            if (0 <? n)%nat && startsWith "}" rest
            then "[^/]+" +:+ replaceBraces (S n) s'
            else String c (replaceBraces O s')
          else String c (replaceBraces O s')
      end
  end.

(** [s.replace(/:[^/]+/g, '[^/]+')]: a colon followed by a character other
    than [/] is replaced together with all that comes before the next
    [/]; [skipping] says that a match is being passed. *)
Fixpoint replaceColons (skipping : bool) (s : string) : string :=
  match s with
  | EmptyString => EmptyString
  | String c s' =>
      if skipping
      then if Ascii.eqb c "/" then String c (replaceColons false s')
           else replaceColons true s'
      else if Ascii.eqb c ":"
              && match s' with
                 | EmptyString => false
                 | String c' _ => negb (Ascii.eqb c' "/")
                 end
           then "[^/]+" +:+ replaceColons true s'
           else String c (replaceColons false s')
  end.

(** The source of the regular expression that [pathToRegex] compiles. *)
Definition pathSource (p : string) : string :=
  "^" +:+ replaceColons false (replaceBraces O (escapeSpecial p)) +:+ "$".

(** *** The platform *)

(** What a settlement header says before it is encoded. *)
Record SettlementInfo : Type := mkSettlementInfo {
  settlementStatus : string;
  settlementTransactionHash : option string;
  settlementBlockNumber : option Z;
  settlementAmount : string;
  settlementToken : option string;
  settled : bool
}.

(** The platform of the proxy: the JSON and base64 conversions of the
    header codec, [new RegExp(source)], which throws on a source that is
    no regular expression and otherwise gives the [test] of the
    expression, and the encoding of a settlement header,
    [Buffer.from(JSON.stringify(info)).toString('base64')]. *)
Record Platform : Type := mkPlatform {
  codec : Eip3009.Platform;
  RegExp : string -> Result (string -> bool);
  encodeSettlement : SettlementInfo -> string
}.

Definition pathToRegex (js : Platform) (p : string) : Result (string -> bool) :=
  RegExp js (pathSource p).

Definition buildMatcher (js : Platform) (config : ConfiguredEndpoint.t)
    : Result LoadedEndpoint.t :=
  let scheme := orElse (ConfiguredEndpoint.scheme config) DEFAULT_SCHEME in
  let* matcher := pathToRegex js (ConfiguredEndpoint.path config) in
  Ok {| LoadedEndpoint.configured :=
          ConfiguredEndpoint.mk
            (ConfiguredEndpoint.method config) (ConfiguredEndpoint.path config)
            (ConfiguredEndpoint.price config) (ConfiguredEndpoint.description config)
            (ConfiguredEndpoint.token config) (ConfiguredEndpoint.payTo config)
            (ConfiguredEndpoint.facilitatorUrl config) (ConfiguredEndpoint.network config)
            scheme
            (ConfiguredEndpoint.maxTimeoutSeconds config)
            (ConfiguredEndpoint.autoSettle config) (ConfiguredEndpoint.active config);
        LoadedEndpoint.originalPath := ConfiguredEndpoint.path config;
        LoadedEndpoint.matcher := matcher |}.

(** [xs.map(f)] for an [f] that may throw: the first throw ends it. *)
Fixpoint mapResult {A B : Type} (f : A -> Result B) (xs : list A) : Result (list B) :=
  match xs with
  | [] => Ok []
  | x :: rest =>
      let* y := f x in
      let* ys := mapResult f rest in
      Ok (y :: ys)
  end.

(** [ConfigManager.reloadEndpoints] *)
Definition reloadEndpoints (d : Defaults) (js : Platform) (config : ProxyConfig)
    : Result (list LoadedEndpoint.t) :=
  mapResult (fun ep => let* configured := normalizeEndpoint d ep in buildMatcher js configured)
    (List.filter (fun ep => negb (isInactive ep) && isEndpointReady d ep) (endpoints config)).

(** [ConfigManager.findEndpoint] *)
Definition findEndpoint (loaded : list LoadedEndpoint.t) (method requestPath : string)
    : option LoadedEndpoint.t :=
  List.find
    (fun ep : LoadedEndpoint.t =>
       String.eqb (PaywallProxy.toUpperCase (ConfiguredEndpoint.method ep))
         (PaywallProxy.toUpperCase method)
       && LoadedEndpoint.matcher ep requestPath)
    loaded.

(** [ConfigManager.hasPendingEndpoint] *)
Definition hasPendingEndpoint (d : Defaults) (config : ProxyConfig)
    (requestMethod requestPath : string) : bool :=
  existsb
    (fun ep =>
       String.eqb (PaywallProxy.toUpperCase (method ep)) (PaywallProxy.toUpperCase requestMethod)
       && String.eqb (path ep) requestPath
       && negb (isInactive ep)
       && negb (isEndpointReady d ep))
    (endpoints config).

(** The fields of a loaded endpoint that the nonce registry reads. *)
Definition registered (endpoint : LoadedEndpoint.t) : PaywallProxy.LoadedEndpoint :=
  {| PaywallProxy.method := ConfiguredEndpoint.method endpoint;
     PaywallProxy.path := ConfiguredEndpoint.path endpoint;
     PaywallProxy.originalPath := LoadedEndpoint.originalPath endpoint;
     PaywallProxy.maxTimeoutSeconds := ConfiguredEndpoint.maxTimeoutSeconds endpoint |}.

(** *** The networks of a facilitator *)

(** An item of the answer of [/networks]. *)
Record NetworkItem : Type := mkNetworkItem {
  itemNetwork : string;
  itemToken : string;
  itemRecipient : string;
  itemChainId : option Z;
  itemUsdcName : option string;
  itemUsdcVersion : option string
}.

Module FacilitatorNetworkMetadata.
Record t : Type := mk {
  network : string;
  token : string;
  recipient : string;
  chainId : Z;
  tokenName : string;
  tokenVersion : string
}.
End FacilitatorNetworkMetadata.

(** A [FacilitatorNetworkMap] is a plain object: its own properties, in
    the order they were created in, and the object that an assignment to
    [__proto__] made its prototype, if there was one. *)
Record FacilitatorNetworkMap : Type := mkFacilitatorNetworkMap {
  own : list (string * FacilitatorNetworkMetadata.t);
  prototype : option FacilitatorNetworkMetadata.t
}.

Definition emptyMap : FacilitatorNetworkMap := {| own := []; prototype := None |}.

(** [object[key] = value] on the own properties: a property that exists
    keeps its place. *)
Fixpoint assign {V : Type} (key : string) (value : V) (properties : list (string * V))
    : list (string * V) :=
  match properties with
  | [] => [(key, value)]
  | (k, v) :: rest =>
      if String.eqb k key then (k, value) :: rest else (k, v) :: assign key value rest
  end.

Fixpoint property {V : Type} (key : string) (properties : list (string * V)) : option V :=
  match properties with
  | [] => None
  | (k, v) :: rest => if String.eqb k key then Some v else property key rest
  end.

(** [map[key] = value] *)
Definition setNetwork (key : string) (value : FacilitatorNetworkMetadata.t)
    (map : FacilitatorNetworkMap) : FacilitatorNetworkMap :=
  if String.eqb key "__proto__"
  then {| own := own map; prototype := Some value |}
  else {| own := assign key value (own map); prototype := prototype map |}.

(** What [map[network] || null] finds: the metadata of the network; a
    truthy value that is no metadata and has none of its fields (what
    every object inherits from [Object.prototype], or a field of the
    object that replaced the prototype); or nothing. *)
Inductive NetworkLookup : Type :=
| Metadata (metadata : FacilitatorNetworkMetadata.t)
| Foreign
| Nothing.

Definition lookupNetwork (map : FacilitatorNetworkMap) (network : string) : NetworkLookup :=
  match property network (own map) with
  | Some metadata => Metadata metadata
  | None =>
      let inherited :=
        if bool_decide (network ∈ MultiNetworkFacilitator.objectPrototypeKeys)
        then Foreign else Nothing in
      match prototype map with
      | None => inherited
      | Some p =>
          if String.eqb network "__proto__" then Metadata p
          else if String.eqb network "network"
          then if isEmpty (FacilitatorNetworkMetadata.network p) then Nothing else Foreign
          else if String.eqb network "token"
          then if isEmpty (FacilitatorNetworkMetadata.token p) then Nothing else Foreign
          else if String.eqb network "recipient"
          then if isEmpty (FacilitatorNetworkMetadata.recipient p) then Nothing else Foreign
          else if String.eqb network "chainId"
          then if FacilitatorNetworkMetadata.chainId p =? 0 then Nothing else Foreign
          else if String.eqb network "tokenName"
          then if isEmpty (FacilitatorNetworkMetadata.tokenName p) then Nothing else Foreign
          else if String.eqb network "tokenVersion"
          then if isEmpty (FacilitatorNetworkMetadata.tokenVersion p) then Nothing else Foreign
          else inherited
      end
  end.

(** A key that is an array index, the canonical text of an integer from 0
    to 2^32 - 2: [Object.values] lists the properties of such keys first,
    by their number, and the others after them in the order of their
    creation. *)
Definition arrayIndex (key : string) : option Z :=
  if allDigits key && negb (isEmpty key)
     && (String.eqb key "0" || negb (startsWith "0" key))
     && (String.length key <=? 10)%nat
     && (decimalValue key <=? 4294967294)
  then Some (decimalValue key) else None.

Fixpoint insertByIndex {V : Type} (index : Z) (value : V) (sorted : list (Z * V))
    : list (Z * V) :=
  match sorted with
  | [] => [(index, value)]
  | (i, v) :: rest =>
      if index <? i then (index, value) :: sorted else (i, v) :: insertByIndex index value rest
  end.

(** [Object.values(map)] *)
Definition values (map : FacilitatorNetworkMap) : list FacilitatorNetworkMetadata.t :=
  let indexed :=
    fold_right
      (fun '(key, value) sorted =>
         match arrayIndex key with
         | Some index => insertByIndex index value sorted
         | None => sorted
         end) [] (own map) in
  List.map snd indexed
  ++ List.map snd (List.filter (fun '(key, _) => negb (bool_decide (is_Some (arrayIndex key))))
                     (own map)).

(** The loop of [ensureFacilitatorNetworks] over the items of an answer. *)
Definition networkMap (d : Defaults) (items : list NetworkItem) : FacilitatorNetworkMap :=
  fold_left
    (fun map item =>
       let key := itemNetwork item in
       setNetwork key
         {| FacilitatorNetworkMetadata.network := key;
            FacilitatorNetworkMetadata.token := itemToken item;
            FacilitatorNetworkMetadata.recipient := itemRecipient item;
            FacilitatorNetworkMetadata.chainId := default (DEFAULT_CHAIN_ID d) (itemChainId item);
            FacilitatorNetworkMetadata.tokenName :=
              orElse (default "" (itemUsdcName item)) (DEFAULT_TOKEN_NAME d);
            FacilitatorNetworkMetadata.tokenVersion :=
              orElse (default "" (itemUsdcVersion item)) (DEFAULT_TOKEN_VERSION d) |}
         map)
    items emptyMap.

(** [normalizeFacilitatorUrl] *)
Definition normalizeFacilitatorUrl (d : Defaults) (url : option string) : string :=
  let value :=
    if negb (missing url) && negb (isEmpty (trim (default "" url)))
    then trim (default "" url)
    else DEFAULT_FACILITATOR_URL d in
  if endsWithSlash value then dropLast value else value.

(** The requirements that the proxy sends to the facilitator; the network,
    the token and the recipient are [undefined] when the metadata they are
    read from is none. *)
Record Requirement : Type := mkRequirement {
  requiredScheme : string;
  requiredNetwork : option string;
  requiredToken : option string;
  requiredAmount : string;
  requiredRecipient : option string;
  requiredDescription : string;
  requiredTimeout : Z
}.

(** [createRequirementForNetwork]; [None] is a value that is no
    metadata. *)
Definition createRequirementForNetwork (endpoint : LoadedEndpoint.t)
    (metadata : option FacilitatorNetworkMetadata.t) : Requirement :=
  {| requiredScheme := orElse (ConfiguredEndpoint.scheme endpoint) "exact";
     requiredNetwork := option_map FacilitatorNetworkMetadata.network metadata;
     requiredToken := option_map FacilitatorNetworkMetadata.token metadata;
     requiredAmount := ConfiguredEndpoint.price endpoint;
     requiredRecipient := option_map FacilitatorNetworkMetadata.recipient metadata;
     requiredDescription := ConfiguredEndpoint.description endpoint;
     requiredTimeout := ConfiguredEndpoint.maxTimeoutSeconds endpoint |}.

(** The requirements as the facilitator reads them, when no field is
    missing. *)
Definition paymentRequirements (r : Requirement) : option PaymentRequirements.t :=
  network ← requiredNetwork r;
  token ← requiredToken r;
  recipient ← requiredRecipient r;
  Some {| PaymentRequirements.scheme := requiredScheme r;
          PaymentRequirements.network := network;
          PaymentRequirements.token := token;
          PaymentRequirements.amount := requiredAmount r;
          PaymentRequirements.recipient := recipient;
          PaymentRequirements.description := requiredDescription r;
          PaymentRequirements.maxTimeoutSeconds := requiredTimeout r |}.

(** *** Requests, answers and the calls of the proxy *)

Inductive HeaderValue : Type :=
| Single (value : string)
| Multiple (values : list string).

(** A request: [req.headers] has one entry per name, in small letters;
    [body] is what the chunks of the request add up to, [None] when there
    was no chunk. *)
Record Request : Type := mkRequest {
  requestMethod : string;
  requestPath : string;
  originalUrl : string;
  requestHeaders : list (string * HeaderValue);
  requestBody : option string
}.

(** [getHeaderValue(req.headers[name])] *)
Definition getHeaderValue (value : option HeaderValue) : option string :=
  match value with
  | Some (Single s) => Some s
  | Some (Multiple (first :: _)) => Some first
  | _ => None
  end.

Definition isTruthyHeader (value : HeaderValue) : bool :=
  match value with
  | Single s => negb (isEmpty s)
  | Multiple _ => true
  end.

Definition notForwarded : list string :=
  ["host"; "content-length"; "x-payment"; "x-token"; "authorization"].

(** The headers that [proxyRequest] sends upstream, an object from names
    to values; an assignment to [__proto__] of a text leaves the object as
    it is. *)
Definition upstreamHeaders (headers : list (string * HeaderValue)) : gmap string string :=
  fold_left
    (fun sent '(key, value) =>
       if negb (isTruthyHeader value) then sent
       else if bool_decide (toLowerCase key ∈ notForwarded) then sent
       else if String.eqb key "__proto__" then sent
       else <[key := match value with Single s => s | Multiple xs => join xs end]> sent)
    headers ∅.

Record UpstreamRequest : Type := mkUpstreamRequest {
  upstreamUrl : string * string;
  upstreamMethod : string;
  sentHeaders : gmap string string;
  sentBody : option string
}.

(** The answer of the upstream; reading its body may fail. *)
Record UpstreamResponse : Type := mkUpstreamResponse {
  upstreamStatus : Z;
  upstreamResponseHeaders : list (string * string);
  arrayBuffer : Result string
}.

(** The answer of the facilitator to [/networks], [/verify] and [/settle]:
    [ok] tells a status from 200 to 299, and [json] is the body read as
    JSON, which throws when it is none.  The fields of a body that the
    proxy reads: [networks]; [valid], [error] and [invoice], a JSON value
    that the proxy passes on as it is (here its text); [success],
    [transactionHash] and [blockNumber]. *)
Record NetworksResponse : Type := mkNetworksResponse {
  networksOk : bool;
  networksJson : Result (option (list NetworkItem))
}.

Record VerifyData : Type := mkVerifyData {
  valid : bool;
  verifyError : option string;
  verifyInvoice : option string
}.

Record VerifyResponse : Type := mkVerifyResponse {
  verifyOk : bool;
  verifyJson : Result VerifyData
}.

Record SettleData : Type := mkSettleData {
  success : bool;
  settleError : option string;
  settleTransactionHash : option string;
  settleBlockNumber : option Z
}.

Record SettleResponse : Type := mkSettleResponse {
  settleOk : bool;
  settleJson : Result SettleData
}.

Inductive Call : Type :=
| DateNow
| GetRandomValues
| ReadOutputSchema (originalPath method : string)
| FetchNetworks (url : string)
| FetchVerify (url : string) (paymentPayload : EIP3009PaymentPayload.t)
              (requirements : Requirement)
| FetchSettle (url : string) (paymentPayload : EIP3009PaymentPayload.t)
              (requirements : Requirement)
| FetchUpstream (request : UpstreamRequest).

(** The world of the proxy: the clock, in seconds; the 32 random bytes of
    a nonce; the schema of the answers of an operation in the OpenAPI
    file; the facilitator and the upstream. *)
Record World : Type := mkWorld {
  now : list Call -> Z;
  randomValues : list Call -> list Z;
  outputSchema : list Call -> Result (option string);
  fetchNetworks : list Call -> Result NetworksResponse;
  fetchVerify : list Call -> Result VerifyResponse;
  fetchSettle : list Call -> Result SettleResponse;
  fetchUpstream : list Call -> Result UpstreamResponse
}.

(** [generateNonce], from the bytes that [crypto.getRandomValues] gave. *)
Definition generateNonce (randomBytes : list Z) : string :=
  "0x" +:+ fold_right (fun b hex => padStart2 (toStringHex b) +:+ hex) "" randomBytes.

(** An entry of [accepts] in an answer 402. *)
Record Eip712Domain : Type := mkEip712Domain {
  domainName : string;
  domainVersion : string;
  domainChainId : Z;
  verifyingContract : string
}.

Record X402PaymentRequirement : Type := mkX402PaymentRequirement {
  acceptedScheme : string;
  acceptedNetwork : string;
  maxAmountRequired : string;
  resource : string;
  acceptedDescription : string;
  mimeType : string;
  acceptedOutputSchema : option string;
  acceptedPayTo : string;
  acceptedTimeout : Z;
  asset : string;
  eip712Domain : Eip712Domain;
  acceptedNonce : string
}.

(** The bodies of the answers of the handler. *)
Inductive Body : Type :=
| NotConfigured (error message resource : string)
| NetworksUnavailable (error : string)
| PaymentRequired (x402Version : Z) (error : string) (accepts : list X402PaymentRequirement)
| PaymentFailed (x402Version : Z) (error : string) (invoice : option string)
| FromUpstream (content : string).

Record Response : Type := mkResponse {
  status : Z;
  headers : list (string * string);
  body : Body
}.

(** *** The state of the proxy and its runs *)

(** What the proxy keeps between requests, the headers set so far on the
    answer under way, and the calls made so far, the latest first. *)
Record Store : Type := mkStore {
  pendingNonces : gmap string PaywallProxy.PendingNonce;
  facilitatorNetworkCache : gmap string FacilitatorNetworkMap;
  responseHeaders : list (string * string);
  calls : list Call
}.

(** An error carries its message and, when [verifyPayment] attached one,
    an invoice. *)
Inductive Outcome (A : Type) : Type :=
| Returned (value : A)
| Thrown (message : string) (invoice : option string).

Arguments Returned {A} value.
Arguments Thrown {A} message invoice.

Definition M (A : Type) : Type := Store -> Outcome A * Store.

Definition pure {A : Type} (a : A) : M A := fun st => (Returned a, st).

Definition throw {A : Type} (message : string) (invoice : option string) : M A :=
  fun st => (Thrown message invoice, st).

Definition next {A B : Type} (m : M A) (k : A -> M B) : M B :=
  fun st =>
    match m st with
    | (Returned a, st') => k a st'
    | (Thrown message invoice, st') => (Thrown message invoice, st')
    end.

Definition catch {A : Type} (m : M A) (handler : string -> option string -> M A) : M A :=
  fun st =>
    match m st with
    | (Returned a, st') => (Returned a, st')
    | (Thrown message invoice, st') => handler message invoice st'
    end.

(** A call whose answer may be a throw, and one that always answers. *)
Definition await {A : Type} (c : Call) (answer : list Call -> Result A) : M A :=
  fun st =>
    let h := c :: calls st in
    let st' := {| pendingNonces := pendingNonces st;
                  facilitatorNetworkCache := facilitatorNetworkCache st;
                  responseHeaders := responseHeaders st;
                  calls := h |} in
    match answer h with
    | Ok a => (Returned a, st')
    | Throw message => (Thrown message None, st')
    end.

Definition ask {A : Type} (c : Call) (answer : list Call -> A) : M A :=
  await c (fun h => Ok (answer h)).

Definition ofResult {A : Type} (r : Result A) : M A :=
  match r with
  | Ok a => pure a
  | Throw message => throw message None
  end.

(** [res.setHeader(name, value)]: a header that was set under the same
    name, whatever the case of its letters, is replaced where it stands. *)
Fixpoint assignHeader (name value : string) (headers : list (string * string))
    : list (string * string) :=
  match headers with
  | [] => [(name, value)]
  | (k, v) :: rest =>
      if String.eqb (toLowerCase k) (toLowerCase name) then (name, value) :: rest
      else (k, v) :: assignHeader name value rest
  end.

Definition setHeader (name value : string) : M unit :=
  fun st =>
    (Returned tt,
     {| pendingNonces := pendingNonces st;
        facilitatorNetworkCache := facilitatorNetworkCache st;
        responseHeaders := assignHeader name value (responseHeaders st);
        calls := calls st |}).

(** [res.status(status).json(body)] and [res.send]: the answer goes out
    with the headers set so far. *)
Definition respond (status : Z) (body : Body) : M Response :=
  fun st => (Returned {| status := status; headers := responseHeaders st; body := body |}, st).

Notation "x <~ m ;; k" := (next m (fun x => k))
  (at level 100, m at next level, right associativity).

Definition getStore : M Store := fun st => (Returned st, st).

Definition setPendingNonces (pending : gmap string PaywallProxy.PendingNonce) : M unit :=
  fun st =>
    (Returned tt,
     {| pendingNonces := pending;
        facilitatorNetworkCache := facilitatorNetworkCache st;
        responseHeaders := responseHeaders st;
        calls := calls st |}).

Definition setFacilitatorNetworks (url : string) (map : FacilitatorNetworkMap) : M unit :=
  fun st =>
    (Returned tt,
     {| pendingNonces := pendingNonces st;
        facilitatorNetworkCache := <[url := map]> (facilitatorNetworkCache st);
        responseHeaders := responseHeaders st;
        calls := calls st |}).

(** *** The facilitator's networks, the nonces and the verification *)

(** [ensureFacilitatorNetworks]: the networks of a facilitator are asked
    for until an answer was understood, and never again after that.  The
    address under which they are kept is assumed to be no name of a
    property of [Object.prototype]. *)
Definition ensureFacilitatorNetworks (d : Defaults) (w : World) (baseUrl : string) : M unit :=
  let normalized := normalizeFacilitatorUrl d (Some baseUrl) in
  st <~ getStore ;;
  match facilitatorNetworkCache st !! normalized with
  | Some _ => pure tt
  | None =>
      response <~ await (FetchNetworks (normalized +:+ "/networks")) (fetchNetworks w) ;;
      if negb (networksOk response)
      then throw ("Failed to load facilitator networks from " +:+ normalized) None
      else
        data <~ ofResult (networksJson response) ;;
        setFacilitatorNetworks normalized (networkMap d (default [] data))
  end.

Definition getFacilitatorNetworks (d : Defaults) (baseUrl : string) : M FacilitatorNetworkMap :=
  let normalized := normalizeFacilitatorUrl d (Some baseUrl) in
  st <~ getStore ;;
  pure (default emptyMap (facilitatorNetworkCache st !! normalized)).

Definition getFacilitatorNetworkMetadata (d : Defaults) (baseUrl network : string)
    : M NetworkLookup :=
  let normalized := normalizeFacilitatorUrl d (Some baseUrl) in
  st <~ getStore ;;
  match facilitatorNetworkCache st !! normalized with
  | None => pure Nothing
  | Some map => pure (lookupNetwork map network)
  end.

Definition buildPaymentRequirement (d : Defaults) (w : World) (endpoint : LoadedEndpoint.t)
    (network : string) : M Requirement :=
  let facilitatorUrl :=
    normalizeFacilitatorUrl d (Some (ConfiguredEndpoint.facilitatorUrl endpoint)) in
  _ <~ ensureFacilitatorNetworks d w facilitatorUrl ;;
  metadata <~ getFacilitatorNetworkMetadata d facilitatorUrl network ;;
  match metadata with
  | Nothing => throw ("Network " +:+ network +:+ " not supported by facilitator") None
  | Foreign => pure (createRequirementForNetwork endpoint None)
  | Metadata metadata => pure (createRequirementForNetwork endpoint (Some metadata))
  end.

(** [issueNonce] and [consumeNonce] on the registry of the proxy. *)
Definition issueNonce (w : World) (endpoint : LoadedEndpoint.t) : M PaywallProxy.NonceInfo :=
  randomBytes <~ ask GetRandomValues (randomValues w) ;;
  nowSeconds <~ ask DateNow (now w) ;;
  st <~ getStore ;;
  let (info, pending) :=
    PaywallProxy.issueNonce (registered endpoint) (generateNonce randomBytes) nowSeconds
      (pendingNonces st) in
  _ <~ setPendingNonces pending ;;
  pure info.

Definition consumeNonce (w : World) (endpoint : LoadedEndpoint.t) (nonce : string) : M bool :=
  nowSeconds <~ ask DateNow (now w) ;;
  st <~ getStore ;;
  let (consumed, pending) :=
    PaywallProxy.consumeNonce (registered endpoint) nonce nowSeconds (pendingNonces st) in
  _ <~ setPendingNonces pending ;;
  pure consumed.

(** [verifyPayment] returns the header of the settlement. *)
Definition verifyPayment (d : Defaults) (js : Platform) (w : World)
    (endpoint : LoadedEndpoint.t) (paymentPayload : EIP3009PaymentPayload.t) : M string :=
  let network := orElse (EIP3009PaymentPayload.network paymentPayload) (DEFAULT_NETWORK d) in
  requirements <~ buildPaymentRequirement d w endpoint network ;;
  verifyRes <~ await (FetchVerify (ConfiguredEndpoint.facilitatorUrl endpoint +:+ "/verify")
                        paymentPayload requirements) (fetchVerify w) ;;
  if negb (verifyOk verifyRes)
  then
    let data := Result_value (verifyJson verifyRes) in
    let invoice := data ≫= verifyInvoice in
    let error := orElse (default "" (data ≫= verifyError)) "Payment verification failed" in
    throw error invoice
  else
    verifyData <~ ofResult (verifyJson verifyRes) ;;
    if negb (valid verifyData)
    then throw (orElse (default "" (verifyError verifyData)) "Invalid payment") None
    else if ConfiguredEndpoint.autoSettle endpoint
    then
      settleRes <~ await (FetchSettle (ConfiguredEndpoint.facilitatorUrl endpoint +:+ "/settle")
                            paymentPayload requirements) (fetchSettle w) ;;
      if negb (settleOk settleRes)
      then
        let data := Result_value (settleJson settleRes) in
        throw (orElse (default "" (data ≫= settleError)) "Settlement failed") None
      else
        result <~ ofResult (settleJson settleRes) ;;
        pure (encodeSettlement js
                {| settlementStatus := if success result then "completed" else "failed";
                   settlementTransactionHash := settleTransactionHash result;
                   settlementBlockNumber := settleBlockNumber result;
                   settlementAmount := requiredAmount requirements;
                   settlementToken := requiredToken requirements;
                   settled := success result |})
    else
      pure (encodeSettlement js
              {| settlementStatus := "verified";
                 settlementTransactionHash := None;
                 settlementBlockNumber := None;
                 settlementAmount := requiredAmount requirements;
                 settlementToken := requiredToken requirements;
                 settled := false |}).

(** *** The answers *)

Definition accepted (d : Defaults) (endpoint : LoadedEndpoint.t) (outputSchema : option string)
    (nonce : string) (metadata : FacilitatorNetworkMetadata.t) : X402PaymentRequirement :=
  let requirements := createRequirementForNetwork endpoint (Some metadata) in
  {| acceptedScheme := requiredScheme requirements;
     acceptedNetwork := FacilitatorNetworkMetadata.network metadata;
     maxAmountRequired := requiredAmount requirements;
     resource := ConfiguredEndpoint.method endpoint +:+ " " +:+
                 LoadedEndpoint.originalPath endpoint;
     acceptedDescription := ConfiguredEndpoint.description endpoint;
     mimeType := "application/json";
     acceptedOutputSchema := outputSchema;
     acceptedPayTo := FacilitatorNetworkMetadata.recipient metadata;
     acceptedTimeout := requiredTimeout requirements;
     asset := FacilitatorNetworkMetadata.token metadata;
     eip712Domain :=
       {| domainName :=
            orElse (FacilitatorNetworkMetadata.tokenName metadata) (DEFAULT_TOKEN_NAME d);
          domainVersion :=
            orElse (FacilitatorNetworkMetadata.tokenVersion metadata) (DEFAULT_TOKEN_VERSION d);
          domainChainId := FacilitatorNetworkMetadata.chainId metadata;
          verifyingContract := FacilitatorNetworkMetadata.token metadata |};
     acceptedNonce := nonce |}.

Definition respondWithPaymentRequired (d : Defaults) (w : World) (endpoint : LoadedEndpoint.t)
    (message : string) : M Response :=
  let facilitatorUrl :=
    normalizeFacilitatorUrl d (Some (ConfiguredEndpoint.facilitatorUrl endpoint)) in
  _ <~ ensureFacilitatorNetworks d w facilitatorUrl ;;
  map <~ getFacilitatorNetworks d facilitatorUrl ;;
  let networks := values map in
  match networks with
  | [] => respond 503 (NetworksUnavailable "Facilitator networks unavailable")
  | _ =>
      outputSchema <~
        catch (await (ReadOutputSchema (LoadedEndpoint.originalPath endpoint)
                        (toLowerCase (ConfiguredEndpoint.method endpoint)))
                 (outputSchema w))
              (fun _ _ => pure None) ;;
      nonceInfo <~ issueNonce w endpoint ;;
      let accepts :=
        List.map (accepted d endpoint outputSchema (PaywallProxy.nonce nonceInfo)) networks in
      respond 402 (PaymentRequired 1 message accepts)
  end.

Fixpoint setHeaders (headers : list (string * string)) : M unit :=
  match headers with
  | [] => pure tt
  | (key, value) :: rest =>
      _ <~ (if String.eqb (toLowerCase key) "transfer-encoding" then pure tt
            else setHeader key value) ;;
      setHeaders rest
  end.

(** [proxyRequest].  The call to the upstream stands for the building of
    its address, the reading of the body of the request and the fetch: a
    throw of any of them is a throw of the call. *)
Definition proxyRequest (w : World) (req : Request) (upstreamBaseUrl : string)
    (paymentHeader : option string) : M Response :=
  upstreamResponse <~
    await (FetchUpstream
             {| upstreamUrl := (originalUrl req, upstreamBaseUrl);
                upstreamMethod := requestMethod req;
                sentHeaders := upstreamHeaders (requestHeaders req);
                sentBody := requestBody req |})
          (fetchUpstream w) ;;
  _ <~ setHeaders (upstreamResponseHeaders upstreamResponse) ;;
  _ <~ (if negb (missing paymentHeader)
        then _ <~ setHeader "X-Payment-Response" (default "" paymentHeader) ;;
             setHeader "X-Token-Response" (default "" paymentHeader)
        else pure tt) ;;
  content <~ ofResult (arrayBuffer upstreamResponse) ;;
  respond (upstreamStatus upstreamResponse) (FromUpstream content).

(** [getHeaderValue(req.headers['x-payment']) ?? getHeaderValue(req.headers['x-token'])] *)
Definition paymentHeader (req : Request) : option string :=
  match getHeaderValue (property "x-payment" (requestHeaders req)) with
  | Some value => Some value
  | None => getHeaderValue (property "x-token" (requestHeaders req))
  end.

(** The text of the answer to a nonce that is unknown or spent; its dash
    is U+2013, here in UTF-8. *)
Definition invoiceExpired : string := "Invoice expired – request a new payment".

(** The handler of every request that no other route took,
    [app.use(async (req, res) => ...)]: [config] is the configuration and
    [loaded] the endpoints that were loaded from a configuration. *)
Definition handler (d : Defaults) (js : Platform) (w : World) (config : ProxyConfig)
    (loaded : list LoadedEndpoint.t) (req : Request) : M Response :=
  catch
    (match findEndpoint loaded (requestMethod req) (requestPath req) with
     | None =>
         if hasPendingEndpoint d config (requestMethod req) (requestPath req)
         then respond 501
                (NotConfigured "Endpoint not configured"
                   "Complete pricing setup via the admin dashboard before exposing this endpoint."
                   (PaywallProxy.toUpperCase (requestMethod req) +:+ " " +:+ requestPath req))
         else proxyRequest w req (upstreamBaseUrl config) None
     | Some endpoint =>
         if missing (paymentHeader req)
         then respondWithPaymentRequired d w endpoint "Payment Required"
         else
           match decodePaymentHeader (codec js) (default "" (paymentHeader req)) with
           | None => respondWithPaymentRequired d w endpoint "Invalid payment payload"
           | Some paymentPayload =>
               let nonceUsed :=
                 PayloadFields.nonce (EIP3009PaymentPayload.payload paymentPayload) in
               consumed <~ (if isEmpty nonceUsed then pure false
                            else consumeNonce w endpoint nonceUsed) ;;
               if negb consumed
               then respondWithPaymentRequired d w endpoint invoiceExpired
               else
                 paymentResponseHeader <~ verifyPayment d js w endpoint paymentPayload ;;
                 proxyRequest w req (upstreamBaseUrl config) (Some paymentResponseHeader)
           end
     end)
    (fun message invoice =>
       respond 402 (PaymentFailed 1 (orElse message "Payment verification failed") invoice)).

(** *** Observations on the calls of the proxy *)

Definition isUpstream (c : Call) : bool :=
  match c with FetchUpstream _ => true | _ => false end.

(** The requests sent upstream in a history. *)
Definition forwarded (h : list Call) : nat := length (List.filter isUpstream h).

Definition isFacilitatorCall (c : Call) : bool :=
  match c with
  | FetchNetworks _ | FetchVerify _ _ _ | FetchSettle _ _ _ => true
  | _ => false
  end.

End Gateway.

(** ** The regular expressions of paths

    The expressions that [pathToRegex] builds are made of few things:
    literal characters, some of them escaped; the class [[^/]]; the
    quantifiers [+] and [*]; the assertions [^] and [$].  This is the part
    of the regular expressions of JavaScript (without the flag [u]) that is
    given a meaning here. *)

Module PathExpression.
Import JS.

Inductive Atom : Type :=
| Literal (c : ascii)
| NotSlash.

Inductive Piece : Type :=
| AssertStart
| AssertEnd
| One (a : Atom)
| OneOrMore (a : Atom)
| ZeroOrMore (a : Atom).

(** The characters of the syntax; each of them, and [/], stands for itself
    after a backslash. *)
Definition isSyntax (c : ascii) : bool :=
  bool_decide (c ∈ [("^"%char : ascii); "$"; "\"; "."; "*"; "+"; "?"; "("; ")"; "["; "]";
                    "{"; "}"; "|"; "/"])%char.

Definition flush (pending : option Atom) (pieces : option (Result (list Piece)))
    : option (Result (list Piece)) :=
  match pending, pieces with
  | Some a, Some (Ok ps) => Some (Ok (One a :: ps))
  | _, _ => pieces
  end.

Definition push (p : Piece) (pieces : option (Result (list Piece)))
    : option (Result (list Piece)) :=
  match pieces with
  | Some (Ok ps) => Some (Ok (p :: ps))
  | _ => pieces
  end.

(** The pieces of a source: [None] for a source outside this part of the
    language, [Some (Throw _)] for one that is no regular expression (a
    quantifier with nothing to repeat, a backslash at the end), and the
    pieces otherwise.  [pending] is the atom read last, which a quantifier
    may still follow.  A [\]] outside a class stands for itself. *)
Fixpoint parse (pending : option Atom) (source : string) : option (Result (list Piece)) :=
  match source with
  | EmptyString => flush pending (Some (Ok []))
  | String c rest =>
      if Ascii.eqb c "+"
      then match pending with
           | Some a => push (OneOrMore a) (parse None rest)
           | None => Some (Throw "Nothing to repeat")
           end
      else if Ascii.eqb c "*"
      then match pending with
           | Some a => push (ZeroOrMore a) (parse None rest)
           | None => Some (Throw "Nothing to repeat")
           end
      else
        flush pending
          (if Ascii.eqb c "^" then push AssertStart (parse None rest)
           else if Ascii.eqb c "$" then push AssertEnd (parse None rest)
           else if Ascii.eqb c "\"
           then match rest with
                | EmptyString => Some (Throw "\ at end of pattern")
                | String c' rest' =>
                    if isSyntax c' then parse (Some (Literal c')) rest' else None
                end
           else if Ascii.eqb c "["
           then match rest with
                | String "^" (String "/" (String "]" rest')) => parse (Some NotSlash) rest'
                | _ => None
                end
           else if Ascii.eqb c "]" then parse (Some (Literal c)) rest
           else if isSyntax c && negb (Ascii.eqb c "/") then None
           else parse (Some (Literal c)) rest)
  end.

Definition accepts (a : Atom) (c : ascii) : bool :=
  match a with
  | Literal l => Ascii.eqb l c
  | NotSlash => negb (Ascii.eqb c "/")
  end.

(** Any number of characters that [a] accepts, and then [continue]; the
    flag says whether the input is still at its start. *)
Fixpoint repeat (a : Atom) (continue : bool -> string -> bool) (atStart : bool) (s : string)
    : bool :=
  continue atStart s
  || match s with
     | EmptyString => false
     | String c s' => accepts a c && repeat a continue false s'
     end.

(** The pieces match a prefix of [s]. *)
Fixpoint matchHere (pieces : list Piece) (atStart : bool) (s : string) : bool :=
  match pieces with
  | [] => true
  | AssertStart :: rest => atStart && matchHere rest atStart s
  | AssertEnd :: rest => isEmpty s && matchHere rest atStart s
  | One a :: rest =>
      match s with
      | EmptyString => false
      | String c s' => accepts a c && matchHere rest false s'
      end
  | OneOrMore a :: rest =>
      match s with
      | EmptyString => false
      | String c s' => accepts a c && repeat a (matchHere rest) false s'
      end
  | ZeroOrMore a :: rest => repeat a (matchHere rest) atStart s
  end.

Fixpoint matchLater (pieces : list Piece) (s : string) : bool :=
  match s with
  | EmptyString => false
  | String _ s' => matchHere pieces false s' || matchLater pieces s'
  end.

(** [expression.test(s)]: the pieces match somewhere in [s]. *)
Definition test (pieces : list Piece) (s : string) : bool :=
  matchHere pieces true s || matchLater pieces s.

(** [new RegExp(source)] for the sources that have a meaning here. *)
Definition compile (source : string) : Result (string -> bool) :=
  match parse None source with
  | Some (Ok pieces) => Ok (test pieces)
  | Some (Throw message) => Throw ("Invalid regular expression: " +:+ message)
  | None => Throw "outside the expressions of paths"
  end.

(** A platform whose [RegExp] is the one of JavaScript on these sources. *)
Definition agrees (js : Gateway.Platform) : Prop :=
  forall source pieces,
    parse None source = Some (Ok pieces) ->
    exists matcher,
      Gateway.RegExp js source = Ok matcher /\ forall s, matcher s = test pieces s.

(** The paths of an OpenAPI document: texts, and parameters in braces. *)
Inductive Segment : Type :=
| Text (text : string)
| Braces (name : string).

(** The characters of a text: all but the ones that [pathToRegex] treats
    specially. *)
Definition isPlain (c : ascii) : bool :=
  negb (Gateway.isEscaped c) && negb (Ascii.eqb c ":") && negb (Ascii.eqb c "*").

Fixpoint allPlain (s : string) : bool :=
  match s with
  | EmptyString => true
  | String c s' => isPlain c && allPlain s'
  end.

Fixpoint noSlash (s : string) : bool :=
  match s with
  | EmptyString => true
  | String c s' => negb (Ascii.eqb c "/") && noSlash s'
  end.

Definition wellFormed (segment : Segment) : bool :=
  match segment with
  | Text text => allPlain text
  | Braces name => allPlain name && noSlash name
  end.

Definition isParameter (segment : Segment) : bool :=
  match segment with
  | Braces _ => true
  | Text _ => false
  end.

Fixpoint render (segments : list Segment) : string :=
  match segments with
  | [] => ""
  | Text text :: rest => text +:+ render rest
  | Braces name :: rest => "{" +:+ name +:+ "}" +:+ render rest
  end.

(** The pieces of the expression that [pathToRegex] builds for a path of
    such segments: a text stands for itself, and a parameter in braces
    becomes a literal bracket, an assertion of the start of the input, a
    slash and closing brackets. *)
Fixpoint literals (text : string) : list Piece :=
  match text with
  | EmptyString => []
  | String c text' => One (Literal c) :: literals text'
  end.

Fixpoint pieces (segments : list Segment) : list Piece :=
  match segments with
  | [] => []
  | Text text :: rest => literals text ++ pieces rest
  | Braces _ :: rest =>
      One (Literal "[") :: AssertStart :: One (Literal "/") :: OneOrMore (Literal "]")
      :: pieces rest
  end.

(** The path after each of the three replacements of [pathToRegex]. *)
Fixpoint escaped (segments : list Segment) : string :=
  match segments with
  | [] => ""
  | Text text :: rest => text +:+ escaped rest
  | Braces name :: rest => "\{" +:+ name +:+ "\}" +:+ escaped rest
  end.

Fixpoint replaced (segments : list Segment) : string :=
  match segments with
  | [] => ""
  | Text text :: rest => text +:+ replaced rest
  | Braces _ :: rest => "\[^/]+" +:+ replaced rest
  end.

End PathExpression.

(** ** A proxy, a facilitator and an upstream for examples *)

Module GatewayScenario.
Import JS Eip3009 Gateway.

Definition defaults : Defaults :=
  {| DEFAULT_FACILITATOR_URL := "http://localhost:3002";
     DEFAULT_TIMEOUT_SECONDS := 300;
     DEFAULT_NETWORK := "arbitrum-sepolia";
     DEFAULT_TOKEN_NAME := "Test USDC";
     DEFAULT_TOKEN_VERSION := "1";
     DEFAULT_CHAIN_ID := 421614;
     DEFAULT_TOKEN_ADDRESS := None;
     DEFAULT_PAYTO_ADDRESS := None |}.

(** The codec of the examples, the expressions of paths, and an encoding
    of a settlement that keeps its status and its amount. *)
Definition platform : Platform :=
  {| codec := ExamplePlatform.platform;
     RegExp := PathExpression.compile;
     encodeSettlement := fun info => settlementStatus info +:+ ":" +:+ settlementAmount info |}.

(** A priced endpoint with a parameter after a colon, the same with the
    parameter in braces, one that is not priced yet and one that is
    switched off. *)
Definition priced (path : string) : EndpointConfig :=
  {| method := "get";
     path := path;
     price := Some "1000000";
     description := Some "A quote";
     token := None;
     payTo := None;
     facilitatorUrl := Some "http://localhost:3002/";
     network := Some "arc-testnet";
     scheme := None;
     maxTimeoutSeconds := None;
     autoSettle := None;
     active := None |}.

Definition unpriced : EndpointConfig :=
  {| method := "GET";
     path := "/reports";
     price := None;
     description := Some "A report";
     token := None;
     payTo := None;
     facilitatorUrl := None;
     network := None;
     scheme := None;
     maxTimeoutSeconds := None;
     autoSettle := None;
     active := Some true |}.

Definition switchedOff : EndpointConfig :=
  {| method := "GET";
     path := "/archive";
     price := Some "1000000";
     description := Some "The archive";
     token := None;
     payTo := None;
     facilitatorUrl := None;
     network := None;
     scheme := None;
     maxTimeoutSeconds := None;
     autoSettle := None;
     active := Some false |}.

Definition config : ProxyConfig :=
  {| serviceName := Some "quotes";
     upstreamBaseUrl := "http://localhost:8080";
     endpoints := [priced "/quotes/:id"; priced "/orders/{id}"; unpriced; switchedOff] |}.

Definition loaded : list LoadedEndpoint.t :=
  match reloadEndpoints defaults platform config with
  | Ok endpoints => endpoints
  | Throw _ => []
  end.

Definition configuredQuotes : ConfiguredEndpoint.t :=
  {| ConfiguredEndpoint.method := "get";
     ConfiguredEndpoint.path := "/quotes/:id";
     ConfiguredEndpoint.price := "1000000";
     ConfiguredEndpoint.description := "A quote";
     ConfiguredEndpoint.token := zeroAddress;
     ConfiguredEndpoint.payTo := zeroAddress;
     ConfiguredEndpoint.facilitatorUrl := "http://localhost:3002/";
     ConfiguredEndpoint.network := "arc-testnet";
     ConfiguredEndpoint.scheme := "exact";
     ConfiguredEndpoint.maxTimeoutSeconds := 300;
     ConfiguredEndpoint.autoSettle := true;
     ConfiguredEndpoint.active := None |}.

Definition configuredOrders : ConfiguredEndpoint.t :=
  {| ConfiguredEndpoint.method := "get";
     ConfiguredEndpoint.path := "/orders/{id}";
     ConfiguredEndpoint.price := "1000000";
     ConfiguredEndpoint.description := "A quote";
     ConfiguredEndpoint.token := zeroAddress;
     ConfiguredEndpoint.payTo := zeroAddress;
     ConfiguredEndpoint.facilitatorUrl := "http://localhost:3002/";
     ConfiguredEndpoint.network := "arc-testnet";
     ConfiguredEndpoint.scheme := "exact";
     ConfiguredEndpoint.maxTimeoutSeconds := 300;
     ConfiguredEndpoint.autoSettle := true;
     ConfiguredEndpoint.active := None |}.

(** The loaded endpoint of the quotes. *)
Definition quotes : LoadedEndpoint.t :=
  {| LoadedEndpoint.configured := configuredQuotes;
     LoadedEndpoint.originalPath := "/quotes/:id";
     LoadedEndpoint.matcher :=
       PathExpression.test
         (PathExpression.AssertStart
          :: PathExpression.literals "/quotes/"
          ++ [PathExpression.OneOrMore PathExpression.NotSlash; PathExpression.AssertEnd]) |}.

Definition arcTestnet : NetworkItem :=
  {| itemNetwork := "arc-testnet";
     itemToken := Scenario.token;
     itemRecipient := Scenario.payee;
     itemChainId := Some 5042002;
     itemUsdcName := Some "USDC";
     itemUsdcVersion := Some "2" |}.

(** A facilitator that lists one network, finds every payment valid and
    reports that its settlement failed; an upstream that answers. *)
Definition world : World :=
  {| now := fun _ => Scenario.now;
     randomValues := fun _ => List.repeat 171 32;
     outputSchema := fun _ => Ok None;
     fetchNetworks := fun _ =>
       Ok {| networksOk := true; networksJson := Ok (Some [arcTestnet]) |};
     fetchVerify := fun _ =>
       Ok {| verifyOk := true;
             verifyJson := Ok {| valid := true; verifyError := None; verifyInvoice := None |} |};
     fetchSettle := fun _ =>
       Ok {| settleOk := true;
             settleJson := Ok {| success := false;
                                 settleError := None;
                                 settleTransactionHash := Some "0xabc";
                                 settleBlockNumber := Some 7 |} |};
     fetchUpstream := fun _ =>
       Ok {| upstreamStatus := 200;
             upstreamResponseHeaders :=
               [("content-type", "text/plain"); ("transfer-encoding", "chunked")];
             arrayBuffer := Ok "quote 42" |} |}.

(** A request for a quote, without payment and with the payment of the
    scenario, and a request for a path that is not priced. *)
Definition unpaid : Request :=
  {| requestMethod := "GET";
     requestPath := "/quotes/7";
     originalUrl := "/quotes/7?fresh=1";
     requestHeaders := [("host", Single "localhost:4000"); ("accept", Single "text/plain")];
     requestBody := None |}.

Definition paid : Request :=
  {| requestMethod := "GET";
     requestPath := "/quotes/7";
     originalUrl := "/quotes/7?fresh=1";
     requestHeaders :=
       [("host", Single "localhost:4000");
        ("accept", Single "text/plain");
        ("authorization", Single "Bearer secret");
        ("x-payment", Single (encodePaymentHeader ExamplePlatform.platform Scenario.payload))];
     requestBody := None |}.


Definition started : Store :=
  {| pendingNonces := ∅;
     facilitatorNetworkCache := ∅;
     responseHeaders := [("Access-Control-Allow-Origin", "*")];
     calls := [] |}.

(** The proxy after it offered the nonce of the payment of the scenario
    and learnt the networks of the facilitator. *)
Definition offered : Store :=
  {| pendingNonces :=
       snd (PaywallProxy.issueNonce (registered quotes)
              (PayloadFields.nonce (EIP3009PaymentPayload.payload Scenario.payload))
              (Scenario.now - 10) ∅);
     facilitatorNetworkCache :=
       {[ "http://localhost:3002" := networkMap defaults [arcTestnet] ]};
     responseHeaders := [("Access-Control-Allow-Origin", "*")];
     calls := [] |}.

End GatewayScenario.

(** ** Native gas for a contract execution ([prefundForContractExecution]) *)

Module Prefunding.
Import JS GatewayService.

(** ['0'.repeat(n)] *)
Fixpoint zeros (n : nat) : string :=
  match n with
  | O => EmptyString
  | S n' => String "0" (zeros n')
  end.

Definition parseNativeAmountToBaseUnits (amount : string) (decimals : nat) : Result Z :=
  let trimmed := trim amount in
  if isEmpty trimmed then Ok 0
  else
    let intPartRaw := piece 0 trimmed in
    let fracPartRaw := piece 1 trimmed in
    let intPart := orElse (keepDigits intPartRaw) "0" in
    let fracPartPadded := slice 0 decimals (keepDigits fracPartRaw +:+ zeros decimals) in
    let full := intPart +:+ fracPartPadded in
    BigInt full.

(** The execution that is to be paid for. *)
Record Execution : Type := mkExecution {
  contractAddress : string;
  abiFunctionSignature : string;
  abiParameters : list string
}.

(** [feeResp.data?.medium] *)
Record FeeLevel : Type := mkFeeLevel {
  networkFeeRaw : option string;
  networkFee : option string
}.

Inductive Call : Type :=
| GetWallet (id : string)
| EstimateContractExecutionFee (walletId : string) (execution : Execution)
| SendTransaction (blockchain to : string) (value : Z)
| WaitForTransactionReceipt (hash : string).

(** The world of a prefund.  [getWallet] answers [data?.wallet?.address];
    [estimateContractExecutionFee] answers [data?.medium], and throws when
    Circle does or when the answer has no [data] to read; viem's
    [privateKeyToAccount] throws on a key it cannot read;
    [waitForTransactionReceipt] answers the status of the receipt. *)
Record World : Type := mkWorld {
  getWallet : list Call -> Result (option string);
  estimateContractExecutionFee : list Call -> Result (option FeeLevel);
  privateKeyToAccount : string -> Result string;
  sendTransaction : list Call -> Result string;
  waitForTransactionReceipt : list Call -> Result string
}.

(** [medium?.networkFeeRaw ?? medium?.networkFee] *)
Definition feeOf (medium : option FeeLevel) : option string :=
  match medium with
  | None => None
  | Some level =>
      match networkFeeRaw level with
      | Some raw => Some raw
      | None => networkFee level
      end
  end.

(** The fee that the [try] block leaves in [estimatedFee], or [None] when
    the function returned from inside it. *)
Definition estimateFee (w : World) (walletId : string) (execution : Execution)
    : Run (option Z) :=
  tryCatch
    (medium <- call (EstimateContractExecutionFee walletId execution)
                 (estimateContractExecutionFee w) ;;
     match feeOf medium with
     | None => ret None
     | Some feeStr =>
         if isEmpty feeStr then ret None
         else
           estimatedFee <- lift (parseNativeAmountToBaseUnits feeStr 18) ;;
           ret (Some estimatedFee)
     end)
    (fun _ => ret None).

Definition prefundFailedMessage (walletAddress hash status : string) : string :=
  "[Gateway][prefund] Prefund transaction failed for wallet=" +:+ walletAddress +:+
  " tx=" +:+ hash +:+ " status=" +:+ status.

(** [prefundForContractExecution]; [relayerPrivateKey] is
    [process.env.RELAYER_PRIVATE_KEY]. *)
Definition prefundForContractExecution (w : World) (relayerPrivateKey : option string)
    (walletId blockchain : string) (opts : Execution) : Run unit :=
  if negb (String.eqb blockchain "AVAX-FUJI") && negb (String.eqb blockchain "HYPEREVM-TESTNET")
  then ret tt
  else
    match getDomainConfigByBlockchain blockchain with
    | None => ret tt
    | Some domainConfig =>
        if Eip3009.missing relayerPrivateKey then ret tt
        else
          walletAddress <- call (GetWallet walletId) (getWallet w) ;;
          if Eip3009.missing walletAddress
          then raise ("Unable to resolve wallet address for walletId=" +:+ walletId)
          else
            estimated <- estimateFee w walletId opts ;;
            match estimated with
            | None => ret tt
            | Some estimatedFee =>
                if estimatedFee =? 0 then ret tt
                else
                  let bufferFactorNum := 3 in
                  let bufferFactorDen := 2 in
                  let amountToSend :=
                    10 * (estimatedFee * bufferFactorNum) / bufferFactorDen in
                  relayerAccount <- lift (privateKeyToAccount w
                                            (default "" relayerPrivateKey)) ;;
                  hash <- call (SendTransaction blockchain (default "" walletAddress)
                                  amountToSend)
                               (sendTransaction w) ;;
                  status <- call (WaitForTransactionReceipt hash)
                              (waitForTransactionReceipt w) ;;
                  if negb (String.eqb status "success")
                  then raise (prefundFailedMessage (default "" walletAddress) hash status)
                  else ret tt
            end
    end.

Definition isSend (c : Call) : bool :=
  match c with
  | SendTransaction _ _ _ => true
  | _ => false
  end.

(** The transfers of native gas in a history. *)
Definition sends (h : list Call) : list Call := List.filter isSend h.

(** A relayer and a Circle account for examples: the estimate of the fee is
    0.002 of the native token. *)
Definition relayerWorld : World :=
  {| getWallet := fun _ => Ok (Some "0x70997970C51812dc3A010C7d01b50e0d17dc79C8");
     estimateContractExecutionFee := fun _ =>
       Ok (Some {| networkFeeRaw := None; networkFee := Some "0.002" |});
     privateKeyToAccount := fun _ => Ok "0xf39Fd6e51aad88F6F4ce6aB8827279cffFb92266";
     sendTransaction := fun _ => Ok "0xhash";
     waitForTransactionReceipt := fun _ => Ok "success" |}.

End Prefunding.

(** * The networks that the multi-network facilitator publishes *)

(** [app.get("/networks", ...)] of the multi-network facilitator, and the
    answer as the proxy of the gateway receives it. *)
Module FacilitatorNetworks.
Import JS MultiNetworkFacilitator MultiNetworkSettlement.

(** An item of [networks] in the answer. *)
Record NetworkEntry : Type := mkNetworkEntry {
  entryNetwork : string;
  entryToken : string;
  entryRecipient : string;
  entryUsdcName : string;
  entryUsdcVersion : string;
  entryChainId : Z
}.

(** The items of the answer: one for each available network with a
    context, in the order of [availableNetworks].  A name under which
    [networkContexts] finds what every object inherits has a value without
    a [chain], and reading its [usdcAddress] throws. *)
Fixpoint networks (availableNetworks : list string) (networkContexts : NetworkContexts)
    : Result (list NetworkEntry) :=
  match availableNetworks with
  | [] => Ok []
  | network :: rest =>
      match lookupContext networkContexts network with
      | NotFound => networks rest networkContexts
      | FoundInherited => Throw "Cannot read properties of undefined (reading 'usdcAddress')"
      | FoundContext context =>
          let* items := networks rest networkContexts in
          Ok ({| entryNetwork := network;
                 entryToken := usdcAddress (chain context);
                 entryRecipient := address (circleWallet context);
                 entryUsdcName := usdcName (chain context);
                 entryUsdcVersion := usdcVersion (chain context);
                 entryChainId := chainId (chain context) |} :: items)
      end
  end.

(** An item as the proxy reads it from the JSON of the answer. *)
Definition item (entry : NetworkEntry) : Gateway.NetworkItem :=
  {| Gateway.itemNetwork := entryNetwork entry;
     Gateway.itemToken := entryToken entry;
     Gateway.itemRecipient := entryRecipient entry;
     Gateway.itemChainId := Some (entryChainId entry);
     Gateway.itemUsdcName := Some (entryUsdcName entry);
     Gateway.itemUsdcVersion := Some (entryUsdcVersion entry) |}.

(** [res.json({ networks })], received: status 200 and the items. *)
Definition answered (entries : list NetworkEntry) : Gateway.NetworksResponse :=
  {| Gateway.networksOk := true;
     Gateway.networksJson := Ok (Some (List.map item entries)) |}.

(** A facilitator with one network, and a proxy that asks it. *)
Definition arcContext : NetworkContext :=
  {| chain :=
       {| chainId := 5042002;
          networkName := "arc-testnet";
          usdcAddress := "0x3600000000000000000000000000000000000000";
          usdcName := "USDC";
          usdcVersion := "2" |};
     circleWallet :=
       {| id := "wallet-1";
          address := "0x70997970C51812dc3A010C7d01b50e0d17dc79C8";
          blockchain := "ARC-TESTNET";
          walletSetId := "set-1" |} |}.

Definition contexts : NetworkContexts := {[ "arc-testnet" := arcContext ]}.

Definition world : Gateway.World :=
  {| Gateway.now := Gateway.now GatewayScenario.world;
     Gateway.randomValues := Gateway.randomValues GatewayScenario.world;
     Gateway.outputSchema := Gateway.outputSchema GatewayScenario.world;
     Gateway.fetchNetworks := fun _ =>
       match networks ["arc-testnet"] contexts with
       | Ok entries => Ok (answered entries)
       | Throw message => Throw message
       end;
     Gateway.fetchVerify := Gateway.fetchVerify GatewayScenario.world;
     Gateway.fetchSettle := Gateway.fetchSettle GatewayScenario.world;
     Gateway.fetchUpstream := Gateway.fetchUpstream GatewayScenario.world |}.

End FacilitatorNetworks.

(** * The guard of the configuration routes of the proxy *)

(** [hasBearerAuthorization] and [requireBearerOnly], which stand before
    [GET /config] and [POST /config]. *)
Module ConfigGuard.
Import JS Gateway.

(** [req.headers.authorization || req.headers.Authorization] *)
Definition authorization (req : Request) : option HeaderValue :=
  match property "authorization" (requestHeaders req) with
  | Some value =>
      if isTruthyHeader value then Some value
      else property "Authorization" (requestHeaders req)
  | None => property "Authorization" (requestHeaders req)
  end.

Definition hasBearerAuthorization (req : Request) : bool :=
  match authorization req with
  | None => false
  | Some (Multiple _) => false
  | Some (Single value) =>
      if isEmpty value then false
      else if negb (startsWith "bearer " (toLowerCase value)) then false
      else
        let token := trim (drop 7 value) in
        (0 <? String.length token)%nat
  end.

(** What the guard does with a request: it answers 401 with
    [{ error: 'Unauthorized' }], or the route goes on. *)
Inductive Guarded (A : Type) : Type :=
| Unauthorized
| Next (answer : A).

Arguments Unauthorized {A}.
Arguments Next {A} answer.

(** [requireBearerOnly()], before a route that answers [next]. *)
Definition requireBearerOnly {A : Type} (req : Request) (next : A) : Guarded A :=
  if hasBearerAuthorization req then Next next else Unauthorized.

(** [app.get('/config', requireBearerOnly(), ...)] *)
Definition getConfig (config : ProxyConfig) (req : Request) : Guarded ProxyConfig :=
  requireBearerOnly req config.

End ConfigGuard.


(** * Properties *)

(** ** Strings and integer literals *)

Import JS.

Lemma append_nil_l (s : string) : EmptyString +:+ s = s.
Proof. reflexivity. Qed.

Lemma append_cons (c : ascii) (s t : string) : String c s +:+ t = String c (s +:+ t).
Proof. reflexivity. Qed.

Lemma append_nil_r (s : string) : s +:+ EmptyString = s.
Proof. induction s as [|c s IH]; [reflexivity|]. rewrite append_cons, IH. reflexivity. Qed.

Lemma append_assoc (a b c : string) : (a +:+ b) +:+ c = a +:+ (b +:+ c).
Proof. induction a as [|x a IH]; [reflexivity|]. rewrite !append_cons, IH. reflexivity. Qed.

Lemma length_append (a b : string) :
  String.length (a +:+ b) = (String.length a + String.length b)%nat.
Proof. induction a as [|x a IH]; [reflexivity|]. rewrite append_cons. simpl. rewrite IH. reflexivity. Qed.

Ltac cmp_lia :=
  repeat match goal with
  | |- context [(?a <=? ?b)%nat] => destruct (Nat.leb_spec a b)
  | |- context [(?a =? ?b)%nat] => destruct (Nat.eqb_spec a b)
  | |- context [(?a <? ?b)%nat] => destruct (Nat.ltb_spec a b)
  end; simpl; try reflexivity; try discriminate; try lia.

Lemma isDigit_spec (c : ascii) : isDigit c = true <-> (48 <= code c <= 57)%nat.
Proof. unfold isDigit. rewrite andb_true_iff, !Nat.leb_le. reflexivity. Qed.

Lemma isDigit_not_white (c : ascii) : isDigit c = true -> isWhite c = false.
Proof. rewrite isDigit_spec. intros H. unfold isWhite. cmp_lia. Qed.

Lemma isWhite_not_digit (c : ascii) : isWhite c = true -> isDigit c = false.
Proof.
  intros H. destruct (isDigit c) eqn:E; [|reflexivity].
  apply isDigit_not_white in E. congruence.
Qed.

Lemma digitVal_range (c : ascii) : isDigit c = true -> 0 <= digitVal c <= 9.
Proof. rewrite isDigit_spec. unfold digitVal. lia. Qed.

Lemma eqb_digit (c d : ascii) : isDigit d = false -> isDigit c = true -> Ascii.eqb d c = false.
Proof.
  intros Hd Hc. destruct (Ascii.eqb_spec d c) as [->|]; [congruence|reflexivity].
Qed.

Lemma allDigits_keepDigits (s : string) : allDigits (keepDigits s) = true.
Proof.
  induction s as [|c s IH]; [reflexivity|]. simpl.
  destruct (isDigit c) eqn:E; [simpl; rewrite E; exact IH | exact IH].
Qed.

Lemma allDigits_append (a b : string) :
  allDigits (a +:+ b) = allDigits a && allDigits b.
Proof.
  induction a as [|c a IH]; [reflexivity|]. rewrite append_cons. simpl.
  rewrite IH, andb_assoc. reflexivity.
Qed.

Lemma keepDigits_all (s : string) : allDigits s = true -> keepDigits s = s.
Proof.
  induction s as [|c s IH]; [reflexivity|]. simpl. intros [Hc Hs]%andb_prop.
  rewrite Hc, IH by exact Hs. reflexivity.
Qed.

(** A string of digits carries no white space, so trimming leaves it. *)
Lemma trimStart_digit (c : ascii) (s : string) :
  isDigit c = true -> trimStart (String c s) = String c s.
Proof. intros H. simpl. rewrite (isDigit_not_white _ H). reflexivity. Qed.

Lemma trimEnd_allDigits (s : string) : allDigits s = true -> trimEnd s = s.
Proof.
  induction s as [|c s IH]; [reflexivity|]. simpl. intros [Hc Hs]%andb_prop.
  rewrite (isDigit_not_white _ Hc), IH by exact Hs. reflexivity.
Qed.

Lemma trim_allDigits (s : string) : allDigits s = true -> trim s = s.
Proof.
  intros H. unfold trim. destruct s as [|c s]; [reflexivity|].
  pose proof H as [Hc _]%andb_prop.
  rewrite trimStart_digit by exact Hc. apply trimEnd_allDigits, H.
Qed.

Lemma integerLiteral_allDigits (s : string) :
  allDigits s = true -> isEmpty s = false ->
  integerLiteral s = Some (decimalValue s).
Proof.
  intros H Hne. destruct s as [|c s]; [discriminate|].
  pose proof H as H'. cbn [allDigits] in H'. apply andb_prop in H' as [Hc Hs].
  assert (Hfirst : forall d, isDigit d = false -> Ascii.eqb d c = false)
    by (intros d Hd; apply eqb_digit; assumption).
  assert (Hsecond : forall d, isDigit d = false ->
            startsWith (String "0" (String d EmptyString)) (String c s) = false).
  { intros d Hd. cbn [startsWith]. destruct s as [|c2 s2]; [apply andb_false_r|].
    cbn [allDigits] in Hs. apply andb_prop in Hs as [Hc2 _].
    rewrite (eqb_digit c2 d Hd Hc2). apply andb_false_r. }
  unfold integerLiteral.
  rewrite !Hsecond by reflexivity.
  cbn [startsWith isEmpty orb]. rewrite !Hfirst by reflexivity.
  cbn [andb]. unfold decimalLiteral. cbn [isEmpty]. rewrite H. reflexivity.
Qed.

Lemma BigInt_allDigits (s : string) :
  allDigits s = true -> isEmpty s = false -> BigInt s = Ok (decimalValue s).
Proof.
  intros H Hne. unfold BigInt. rewrite trim_allDigits by exact H.
  rewrite integerLiteral_allDigits by assumption. reflexivity.
Qed.

(** The value of a digit string, by its parts. *)
Lemma decimalFrom_append (a b : string) (acc : Z) :
  decimalFrom acc (a +:+ b) = decimalFrom (decimalFrom acc a) b.
Proof.
  revert acc. induction a as [|c a IH]; intros acc; [reflexivity|].
  rewrite append_cons. simpl. apply IH.
Qed.

Lemma decimalFrom_shift (s : string) (acc : Z) :
  decimalFrom acc s = acc * 10 ^ Z.of_nat (String.length s) + decimalValue s.
Proof.
  unfold decimalValue. revert acc. induction s as [|c s IH]; intros acc.
  - simpl. lia.
  - cbn [decimalFrom String.length]. rewrite IH, (IH (0 * 10 + digitVal c)).
    rewrite Nat2Z.inj_succ, Z.pow_succ_r by lia. ring.
Qed.

Lemma decimalValue_append (a b : string) :
  decimalValue (a +:+ b) = decimalValue a * 10 ^ Z.of_nat (String.length b) + decimalValue b.
Proof.
  unfold decimalValue at 1. rewrite decimalFrom_append, decimalFrom_shift. reflexivity.
Qed.

Lemma decimalValue_range (s : string) :
  allDigits s = true -> 0 <= decimalValue s < 10 ^ Z.of_nat (String.length s).
Proof.
  induction s as [|c s IH]; intros H.
  - cbn. lia.
  - apply andb_prop in H as [Hc Hs]. specialize (IH Hs).
    change (String c s) with (String c EmptyString +:+ s).
    rewrite decimalValue_append, length_append.
    change (decimalValue (String c EmptyString)) with (0 * 10 + digitVal c).
    pose proof (digitVal_range c Hc).
    change (String.length (String c EmptyString)) with 1%nat.
    rewrite Nat2Z.inj_add, Z.pow_add_r by lia. change (10 ^ Z.of_nat 1) with 10. nia.
Qed.

Lemma length_substring0 (n : nat) (s : string) :
  String.length (substring 0 n s) = Nat.min n (String.length s).
Proof.
  revert s. induction n as [|n IH]; intros [|c s]; try reflexivity.
  cbn [substring String.length]. rewrite IH. reflexivity.
Qed.

Lemma allDigits_substring0 (n : nat) (s : string) :
  allDigits s = true -> allDigits (substring 0 n s) = true.
Proof.
  revert s. induction n as [|n IH]; intros [|c s] H; try reflexivity.
  cbn [allDigits] in H. apply andb_prop in H as [Hc Hs].
  cbn [substring allDigits]. rewrite Hc, IH by exact Hs. reflexivity.
Qed.

Lemma substring0_append_short (n : nat) (a b : string) :
  (String.length a <= n)%nat ->
  substring 0 n (a +:+ b) = a +:+ substring 0 (n - String.length a) b.
Proof.
  revert n. induction a as [|c a IH]; intros n H.
  - rewrite !append_nil_l. cbn [String.length]. rewrite Nat.sub_0_r. reflexivity.
  - cbn [String.length] in H. destruct n as [|n]; [lia|].
    rewrite !append_cons. cbn [substring String.length].
    rewrite IH by lia. reflexivity.
Qed.

Lemma substring0_append_long (n : nat) (a b : string) :
  (n <= String.length a)%nat -> substring 0 n (a +:+ b) = substring 0 n a.
Proof.
  revert n. induction a as [|c a IH]; intros n H.
  - cbn [String.length] in H. assert (n = 0%nat) as -> by lia.
    destruct b; reflexivity.
  - destruct n as [|n]; [reflexivity|]. cbn [String.length] in H.
    rewrite append_cons. cbn [substring]. rewrite IH by lia. reflexivity.
Qed.

Lemma substring0_drop (n : nat) (s : string) : substring 0 n s +:+ drop n s = s.
Proof.
  revert s. induction n as [|n IH]; intros [|c s]; try reflexivity.
  cbn [substring drop]. rewrite append_cons, IH. reflexivity.
Qed.

Lemma length_drop (n : nat) (s : string) :
  String.length (drop n s) = (String.length s - n)%nat.
Proof.
  revert s. induction n as [|n IH]; intros [|c s]; try reflexivity.
  cbn [drop String.length]. apply IH.
Qed.

Lemma allDigits_drop (n : nat) (s : string) :
  allDigits s = true -> allDigits (drop n s) = true.
Proof.
  revert s. induction n as [|n IH]; intros [|c s] H; try reflexivity; try exact H.
  cbn [allDigits] in H. apply andb_prop in H as [_ Hs]. cbn [drop]. apply IH, Hs.
Qed.

(** ** Amounts in base units: [parseUsdcAmountToBaseUnits] *)

Import GatewayService.

Lemma length_sixDigits (f : string) : String.length (sixDigits f) = 6%nat.
Proof.
  unfold sixDigits, slice. rewrite length_substring0, length_append.
  change (String.length "000000") with 6%nat. lia.
Qed.

Lemma allDigits_sixDigits (f : string) : allDigits f = true -> allDigits (sixDigits f) = true.
Proof.
  intros H. unfold sixDigits, slice. apply allDigits_substring0.
  rewrite allDigits_append, H. reflexivity.
Qed.

Lemma zeros_value (k : nat) :
  (k <= 6)%nat ->
  decimalValue (substring 0 k "000000") = 0 /\
  String.length (substring 0 k "000000") = k.
Proof.
  intros H. do 7 (destruct k as [|k]; [split; reflexivity|]). lia.
Qed.

(** Padding multiplies by a power of ten; cutting divides and rounds down. *)
Lemma sixDigits_value (f : string) :
  allDigits f = true ->
  decimalValue (sixDigits f) =
    if (String.length f <=? 6)%nat
    then decimalValue f * 10 ^ Z.of_nat (6 - String.length f)
    else decimalValue f / 10 ^ Z.of_nat (String.length f - 6).
Proof.
  intros H. unfold sixDigits, slice. rewrite Nat.sub_0_r.
  destruct (Nat.leb_spec (String.length f) 6) as [Hle|Hgt].
  - rewrite substring0_append_short by exact Hle.
    destruct (zeros_value (6 - String.length f)) as [Hv Hl]; [lia|].
    rewrite decimalValue_append, Hv, Hl. lia.
  - rewrite substring0_append_long by lia.
    rewrite <- (substring0_drop 6 f) at 2.
    rewrite decimalValue_append, length_drop.
    pose proof (decimalValue_range (drop 6 f) (allDigits_drop 6 f H)) as Hr.
    rewrite length_drop in Hr.
    apply Z.div_unique with (r := decimalValue (drop 6 f)); lia.
Qed.

Lemma sixDigits_range (f : string) :
  allDigits f = true -> 0 <= decimalValue (sixDigits f) < 10 ^ 6.
Proof.
  intros H. pose proof (decimalValue_range _ (allDigits_sixDigits f H)) as Hr.
  rewrite length_sixDigits in Hr. exact Hr.
Qed.

Lemma split_cons (sep : ascii) (s : string) : exists h t, split sep s = h :: t.
Proof.
  induction s as [|c s (h & t & IH)]; [eexists _, _; reflexivity|].
  cbn [split]. destruct (Ascii.eqb c sep); [eexists _, _; reflexivity|].
  rewrite IH. eexists _, _; reflexivity.
Qed.

Lemma piece_cons_dot (s : string) (i : nat) :
  piece 0 (String "." s) = EmptyString /\ piece (S i) (String "." s) = piece i s.
Proof. split; reflexivity. Qed.

Lemma piece_cons_other (c : ascii) (s : string) (i : nat) :
  Ascii.eqb c "." = false ->
  piece 0 (String c s) = String c (piece 0 s) /\ piece (S i) (String c s) = piece (S i) s.
Proof.
  intros H. unfold piece. cbn [split]. rewrite H.
  destruct (split_cons "." s) as (h & t & ->). split; reflexivity.
Qed.

(** A code unit that is no digit and no dot leaves the digits of every
    piece as they are. *)
Lemma digits_piece_skip (c : ascii) (s : string) (i : nat) :
  isDigit c = false -> Ascii.eqb c "." = false ->
  keepDigits (piece i (String c s)) = keepDigits (piece i s).
Proof.
  intros Hd Hdot. destruct (piece_cons_other c s (pred i) Hdot) as [H0 HS].
  destruct i as [|i].
  - rewrite H0. cbn [keepDigits]. rewrite Hd. reflexivity.
  - cbn [pred] in HS. rewrite HS. reflexivity.
Qed.

Lemma isWhite_not_dot (c : ascii) : isWhite c = true -> Ascii.eqb c "." = false.
Proof.
  intros H. destruct (Ascii.eqb_spec c ".") as [->|]; [discriminate H|reflexivity].
Qed.

Lemma digits_piece_trimStart (s : string) (i : nat) :
  keepDigits (piece i (trimStart s)) = keepDigits (piece i s).
Proof.
  induction s as [|c s IH]; [reflexivity|]. cbn [trimStart].
  destruct (isWhite c) eqn:E; [|reflexivity].
  rewrite IH. symmetry. apply digits_piece_skip.
  - apply isWhite_not_digit, E.
  - apply isWhite_not_dot, E.
Qed.

Lemma trimEnd_empty (s : string) : isEmpty (trimEnd s) = allWhite s.
Proof.
  induction s as [|c s IH]; [reflexivity|]. cbn [trimEnd allWhite].
  rewrite <- IH. destruct (isWhite c), (isEmpty (trimEnd s)); reflexivity.
Qed.

Lemma allWhite_trimStart (s : string) : allWhite (trimStart s) = allWhite s.
Proof.
  induction s as [|c s IH]; [reflexivity|]. cbn [trimStart].
  destruct (isWhite c) eqn:E; [|reflexivity].
  rewrite IH. cbn [allWhite]. rewrite E. reflexivity.
Qed.

Lemma trim_empty (s : string) : isEmpty (trim s) = allWhite s.
Proof. unfold trim. rewrite trimEnd_empty. apply allWhite_trimStart. Qed.

Lemma allWhite_no_digits (s : string) (i : nat) :
  allWhite s = true -> keepDigits (piece i s) = EmptyString.
Proof.
  induction s as [|c s IH]; intros H.
  - destruct i as [|[|i]]; reflexivity.
  - cbn [allWhite] in H. apply andb_prop in H as [Hc Hs].
    rewrite digits_piece_skip.
    + apply IH, Hs.
    + apply isWhite_not_digit, Hc.
    + apply isWhite_not_dot, Hc.
Qed.

Lemma digits_piece_trimEnd (s : string) (i : nat) :
  keepDigits (piece i (trimEnd s)) = keepDigits (piece i s).
Proof.
  revert i. induction s as [|c s IH]; intros i; [reflexivity|].
  cbn [trimEnd]. destruct (isWhite c && isEmpty (trimEnd s)) eqn:E.
  - apply andb_prop in E as [Hc Hs]. rewrite trimEnd_empty in Hs.
    rewrite (allWhite_no_digits (String c s)).
    + destruct i as [|[|i]]; reflexivity.
    + cbn [allWhite]. rewrite Hc, Hs. reflexivity.
  - destruct (Ascii.eqb_spec c ".") as [->|Hne].
    + destruct i as [|i]; [reflexivity|].
      destruct (piece_cons_dot (trimEnd s) i) as [_ ->].
      destruct (piece_cons_dot s i) as [_ ->]. apply IH.
    + assert (Hdot : Ascii.eqb c "." = false)
        by (destruct (Ascii.eqb_spec c "."); [contradiction|reflexivity]).
      destruct (piece_cons_other c (trimEnd s) (pred i) Hdot) as [H0 HS].
      destruct (piece_cons_other c s (pred i) Hdot) as [H0' HS'].
      destruct i as [|i].
      * rewrite H0, H0'. cbn [keepDigits]. rewrite (IH 0%nat). reflexivity.
      * cbn [pred] in HS, HS'. rewrite HS, HS'. apply IH.
Qed.

Lemma digits_piece_trim (s : string) (i : nat) :
  keepDigits (piece i (trim s)) = keepDigits (piece i s).
Proof. unfold trim. rewrite digits_piece_trimEnd. apply digits_piece_trimStart. Qed.

Lemma decimalValue_orElse_zero (d : string) :
  decimalValue (orElse d "0") = decimalValue d.
Proof. destruct d; reflexivity. Qed.

Lemma allDigits_orElse_zero (d : string) :
  allDigits d = true -> allDigits (orElse d "0") = true.
Proof. destruct d; [reflexivity|]. intros H; exact H. Qed.

(** The parse never throws, and its value is read off the digits of the
    first two pieces of its argument. *)
Lemma parseUsdcAmountToBaseUnits_value (amount : string) :
  parseUsdcAmountToBaseUnits amount =
    Ok (decimalValue (integerDigits amount) * 10 ^ 6
        + decimalValue (sixDigits (fractionDigits amount))).
Proof.
  unfold parseUsdcAmountToBaseUnits, integerDigits, fractionDigits.
  destruct (isEmpty (trim amount)) eqn:E.
  - rewrite trim_empty in E. rewrite !allWhite_no_digits by exact E. reflexivity.
  - rewrite !digits_piece_trim.
    set (d := keepDigits (piece 0 amount)). set (f := keepDigits (piece 1 amount)).
    fold (sixDigits f).
    assert (Hd : allDigits d = true) by apply allDigits_keepDigits.
    assert (Hf : allDigits f = true) by apply allDigits_keepDigits.
    rewrite BigInt_allDigits.
    + rewrite decimalValue_append, length_sixDigits, decimalValue_orElse_zero. reflexivity.
    + rewrite allDigits_append, allDigits_orElse_zero, allDigits_sixDigits by assumption.
      reflexivity.
    + destruct d; reflexivity.
Qed.

Lemma parseUsdcAmountToBaseUnits_blank (amount : string) :
  allWhite amount = true -> parseUsdcAmountToBaseUnits amount = Ok 0.
Proof.
  intros H. unfold parseUsdcAmountToBaseUnits. rewrite trim_empty, H. reflexivity.
Qed.

(** A leading minus sign changes nothing. *)
Lemma parseUsdcAmountToBaseUnits_sign (amount : string) :
  parseUsdcAmountToBaseUnits (String "-" amount) = parseUsdcAmountToBaseUnits amount.
Proof.
  rewrite !parseUsdcAmountToBaseUnits_value. unfold integerDigits, fractionDigits.
  rewrite !(digits_piece_skip "-") by reflexivity. reflexivity.
Qed.

Lemma sumUsdcBaseUnits_value (usdcTokens : list (option string)) (total : Z) :
  sumUsdcBaseUnits total usdcTokens =
    Ok (total + fold_right
          (fun a acc =>
             decimalValue (integerDigits (default "0" a)) * 10 ^ 6
             + decimalValue (sixDigits (fractionDigits (default "0" a))) + acc)
          0 usdcTokens).
Proof.
  revert total. induction usdcTokens as [|a rest IH]; intros total.
  - cbn. f_equal. lia.
  - cbn [sumUsdcBaseUnits fold_right]. rewrite parseUsdcAmountToBaseUnits_value.
    cbn [bind]. rewrite IH. f_equal. lia.
Qed.

Example parseUsdcAmountToBaseUnits_examples :
  parseUsdcAmountToBaseUnits "10" = Ok 10000000 /\
  parseUsdcAmountToBaseUnits "0.1" = Ok 100000 /\
  parseUsdcAmountToBaseUnits "0.01" = Ok 10000 /\
  parseUsdcAmountToBaseUnits "1.9999999" = Ok 1999999 /\
  parseUsdcAmountToBaseUnits "-2.5" = Ok 2500000 /\
  parseUsdcAmountToBaseUnits "" = Ok 0 /\
  parseUsdcAmountToBaseUnits "   " = Ok 0.
Proof. repeat split; reflexivity. Qed.

(** C10.  For every input string, [parseUsdcAmountToBaseUnits] keeps only the
    digits of the integer part and of the fractional part (a minus sign in
    front is dropped with the other non-digits, so a negative decimal parses
    to its absolute value), pads the fraction with zeros or cuts it to
    exactly six digits (cutting rounds down: it is a division by a power of
    ten), and returns integer part * 10^6 + fraction, an exact integer; a
    blank or empty string gives 0.  The balance sum of a wallet and the
    Gateway balance of a depositor are computed from the reported strings by
    this parse. *)
Theorem parseUsdcAmountToBaseUnits_truncates_and_ignores_sign :
  forall amount : string,
    let whole := integerDigits amount in
    let fraction := fractionDigits amount in
    parseUsdcAmountToBaseUnits amount =
      Ok (decimalValue whole * 10 ^ 6 + decimalValue (sixDigits fraction))
    /\ allDigits whole = true /\ allDigits fraction = true
    /\ String.length (sixDigits fraction) = 6%nat
    /\ 0 <= decimalValue (sixDigits fraction) < 10 ^ 6
    /\ decimalValue (sixDigits fraction) =
         (if (String.length fraction <=? 6)%nat
          then decimalValue fraction * 10 ^ Z.of_nat (6 - String.length fraction)
          else decimalValue fraction / 10 ^ Z.of_nat (String.length fraction - 6))
    /\ (allWhite amount = true -> parseUsdcAmountToBaseUnits amount = Ok 0)
    /\ parseUsdcAmountToBaseUnits (String "-" amount) = parseUsdcAmountToBaseUnits amount
    /\ gatewayBalanceOfEntry (Some amount) = parseUsdcAmountToBaseUnits amount
    /\ (forall (reported : list (option string)),
          sumUsdcBaseUnits 0 reported =
            Ok (fold_right
                  (fun a acc =>
                     decimalValue (integerDigits (default "0" a)) * 10 ^ 6
                     + decimalValue (sixDigits (fractionDigits (default "0" a))) + acc)
                  0 reported)).
Proof.
  intros amount whole fraction.
  assert (Hw : allDigits whole = true) by apply allDigits_keepDigits.
  assert (Hf : allDigits fraction = true) by apply allDigits_keepDigits.
  repeat split.
  - apply parseUsdcAmountToBaseUnits_value.
  - exact Hw.
  - exact Hf.
  - apply length_sixDigits.
  - apply (sixDigits_range fraction Hf).
  - apply (sixDigits_range fraction Hf).
  - apply (sixDigits_value fraction Hf).
  - apply parseUsdcAmountToBaseUnits_blank.
  - apply parseUsdcAmountToBaseUnits_sign.
  - unfold gatewayBalanceOfEntry. destruct (isEmpty amount) eqn:E; [|reflexivity].
    destruct amount; [reflexivity|discriminate].
  - intros reported. rewrite sumUsdcBaseUnits_value. reflexivity.
Qed.


(** ** Selection of token balances: [selectTokensForTransfer] *)

Import JS GatewayService.

Lemma withAmount_same (b : TokenBalance) : withAmount b (amount b) = b.
Proof. destruct b; reflexivity. Qed.

Lemma totalAmount_cons (x : TokenBalance) (l : list TokenBalance) :
  totalAmount (x :: l) = amount x + totalAmount l.
Proof. reflexivity. Qed.

Lemma fundedBalances_cons (x : TokenBalance) (l : list TokenBalance) :
  fundedBalances (x :: l) =
    if amount x >? 0 then x :: fundedBalances l else fundedBalances l.
Proof. reflexivity. Qed.

Lemma totalAmount_app (a b : list TokenBalance) :
  totalAmount (a ++ b) = totalAmount a + totalAmount b.
Proof.
  induction a as [|x a IH]; [reflexivity|].
  rewrite <- app_comm_cons, !totalAmount_cons, IH. lia.
Qed.

Lemma totalAmount_funded_nonneg (l : list TokenBalance) : 0 <= totalAmount (fundedBalances l).
Proof.
  induction l as [|b l IH]; [cbn; lia|]. rewrite fundedBalances_cons.
  destruct (Z.gtb_spec (amount b) 0); [rewrite totalAmount_cons; lia | exact IH].
Qed.

Lemma totalAmount_le_funded (l : list TokenBalance) :
  totalAmount l <= totalAmount (fundedBalances l).
Proof.
  induction l as [|b l IH]; [cbn; lia|]. rewrite fundedBalances_cons.
  destruct (Z.gtb_spec (amount b) 0); rewrite !totalAmount_cons; lia.
Qed.

Lemma fundedBalances_all (l : list TokenBalance) :
  Forall (fun b => 0 <= amount b) l -> totalAmount (fundedBalances l) = totalAmount l.
Proof.
  induction 1 as [|b l Hb _ IH]; [reflexivity|]. rewrite fundedBalances_cons.
  destruct (Z.gtb_spec (amount b) 0); rewrite !totalAmount_cons; lia.
Qed.

Lemma totalAmount_Permutation (a b : list TokenBalance) :
  Permutation a b -> totalAmount a = totalAmount b.
Proof. induction 1; rewrite ?totalAmount_cons; lia. Qed.

(** *** The sort *)

Lemma sortInsert_Permutation (x : TokenBalance) (l : list TokenBalance) :
  Permutation (sortInsert x l) (x :: l).
Proof.
  induction l as [|y l IH]; cbn; [reflexivity|].
  destruct (compareAmounts x y >? 0); [|reflexivity].
  rewrite IH. apply perm_swap.
Qed.

Lemma sortBalances_Permutation (l : list TokenBalance) : Permutation (sortBalances l) l.
Proof.
  induction l as [|x l IH]; cbn; [reflexivity|].
  rewrite sortInsert_Permutation. constructor. exact IH.
Qed.

Lemma compareAmounts_pos (x y : TokenBalance) :
  (compareAmounts x y >? 0) = (amount x <? amount y).
Proof.
  unfold compareAmounts.
  destruct (Z.gtb_spec (amount x) (amount y)), (Z.ltb_spec (amount x) (amount y));
    try reflexivity; lia.
Qed.

Lemma sortInsert_descending (x : TokenBalance) (l : list TokenBalance) :
  StronglySorted descending l -> StronglySorted descending (sortInsert x l).
Proof.
  induction 1 as [|y l Hs IH Hy]; cbn; [repeat constructor|].
  rewrite compareAmounts_pos. destruct (Z.ltb_spec (amount x) (amount y)) as [Hlt|Hge].
  - constructor; [exact IH|].
    eapply Permutation_Forall; [symmetry; apply sortInsert_Permutation|].
    constructor; [unfold descending; lia | exact Hy].
  - constructor; [constructor; assumption|].
    constructor; [exact Hge|].
    eapply Forall_impl; [exact Hy|]. unfold descending. intros z Hz. lia.
Qed.

Lemma sortBalances_descending (l : list TokenBalance) :
  StronglySorted descending (sortBalances l).
Proof.
  induction l as [|x l IH]; cbn; [constructor|]. apply sortInsert_descending, IH.
Qed.

Lemma fundedBalances_Permutation (a b : list TokenBalance) :
  Permutation a b -> Permutation (fundedBalances a) (fundedBalances b).
Proof.
  induction 1 as [|x a b _ IH|x y a|a b c _ IH1 _ IH2]; cbn.
  - reflexivity.
  - destruct (hasFunds x); [constructor|]; exact IH.
  - destruct (hasFunds x), (hasFunds y); try reflexivity. apply perm_swap.
  - etransitivity; eassumption.
Qed.

Lemma totalAmount_funded_sorted (l : list TokenBalance) :
  totalAmount (fundedBalances (sortBalances l)) = totalAmount (fundedBalances l).
Proof.
  apply totalAmount_Permutation, fundedBalances_Permutation, sortBalances_Permutation.
Qed.

(** *** The loop *)

Lemma selectLoop_done (bs : list TokenBalance) (selected : list SelectedToken) (remaining : Z) :
  remaining <= 0 -> selectLoop bs selected remaining = (selected, remaining).
Proof.
  intros H. destruct bs as [|b bs]; [reflexivity|]. cbn [selectLoop].
  destruct (Z.leb_spec remaining 0); [reflexivity|lia].
Qed.

Lemma selectLoop_acc (bs : list TokenBalance) (selected : list SelectedToken) (remaining : Z) :
  selectLoop bs selected remaining =
    (selected ++ fst (selectLoop bs [] remaining), snd (selectLoop bs [] remaining)).
Proof.
  revert selected remaining. induction bs as [|b bs IH]; intros selected remaining.
  - cbn. rewrite app_nil_r. reflexivity.
  - cbn [selectLoop app]. destruct (remaining <=? 0).
    + cbn. rewrite app_nil_r. reflexivity.
    + destruct (amount b >? 0); [|apply IH].
      rewrite IH. rewrite (IH [_]). cbn [fst snd]. rewrite <- app_assoc. reflexivity.
Qed.

(** Not enough funds: every funded balance is drawn whole, and what is
    missing remains. *)
Lemma selectLoop_insufficient (bs : list TokenBalance) (remaining : Z) :
  totalAmount (fundedBalances bs) < remaining ->
  selectLoop bs [] remaining =
    (fundedBalances bs, remaining - totalAmount (fundedBalances bs)).
Proof.
  revert remaining. induction bs as [|b bs IH]; intros remaining H.
  - cbn. f_equal. lia.
  - pose proof (totalAmount_funded_nonneg bs) as Hn.
    cbn [selectLoop]. rewrite fundedBalances_cons in *.
    destruct (Z.gtb_spec (amount b) 0) as [Hpos|Hnp].
    + rewrite totalAmount_cons in *.
      destruct (Z.leb_spec remaining 0); [lia|].
      destruct (Z.gtb_spec (amount b) remaining); [lia|].
      rewrite selectLoop_acc, IH by lia. cbn [fst snd app].
      rewrite withAmount_same. f_equal. lia.
    + destruct (Z.leb_spec remaining 0); [lia|]. apply IH. exact H.
Qed.

(** Enough funds: the funded balances are drawn whole, in order, up to the
    one that completes the amount, which gives what is still missing. *)
Lemma selectLoop_sufficient (bs : list TokenBalance) (remaining : Z) :
  0 < remaining -> remaining <= totalAmount (fundedBalances bs) ->
  exists fulls b rest,
    fundedBalances bs = fulls ++ b :: rest /\
    totalAmount fulls < remaining <= totalAmount fulls + amount b /\
    selectLoop bs [] remaining =
      (fulls ++ [withAmount b (remaining - totalAmount fulls)], 0).
Proof.
  revert remaining. induction bs as [|b bs IH]; intros remaining Hpos H.
  - cbn in H. lia.
  - cbn [selectLoop]. rewrite fundedBalances_cons in *.
    destruct (Z.leb_spec remaining 0); [lia|].
    destruct (Z.gtb_spec (amount b) 0) as [Hb|Hb].
    + rewrite totalAmount_cons in H.
      destruct (Z.le_gt_cases remaining (amount b)) as [Hle|Hgt].
      * exists [], b, (fundedBalances bs). cbn [app].
        change (totalAmount []) with 0.
        split; [reflexivity|]. split; [lia|].
        assert ((if amount b >? remaining then remaining else amount b) = remaining) as ->
          by (destruct (Z.gtb_spec (amount b) remaining); lia).
        rewrite selectLoop_done by lia.
        rewrite Z.sub_0_r, Z.sub_diag. reflexivity.
      * destruct (Z.gtb_spec (amount b) remaining); [lia|].
        destruct (IH (remaining - amount b)) as (fulls & b' & rest & Hsplit & Hbound & Hloop);
          [lia|lia|].
        exists (b :: fulls), b', rest. rewrite Hsplit, totalAmount_cons.
        split; [reflexivity|]. split; [lia|].
        rewrite selectLoop_acc, Hloop. cbn [fst snd app]. rewrite withAmount_same.
        replace (remaining - (amount b + totalAmount fulls))
          with (remaining - amount b - totalAmount fulls) by lia.
        reflexivity.
    + apply IH; assumption.
Qed.

Lemma fundedBalances_positive (l : list TokenBalance) :
  Forall (fun b => 0 < amount b) (fundedBalances l).
Proof.
  induction l as [|b l IH]; [constructor|]. rewrite fundedBalances_cons.
  destruct (Z.gtb_spec (amount b) 0); [constructor; [lia|]|]; exact IH.
Qed.

(** C2.  For every list of token balances whose amounts sum to at least the
    requested amount (an amount of base units, so not negative),
    [selectTokensForTransfer] returns a selection taken in descending order
    of balance: the funded balances of the sorted list are drawn whole, one
    after the other, and at most one more, the last, is drawn in part, by a
    positive amount not above its balance; the amounts selected sum to the
    requested amount exactly.  Balances of 700000 and 500000 and a request of
    1000000 give draws of 700000 and 300000. *)
Theorem selectTokensForTransfer_covers_exactly :
  forall (balances : list TokenBalance) (requestedAmount : Z),
    0 <= requestedAmount ->
    requestedAmount <= totalAmount balances ->
    let sorted := sortBalances balances in
    Permutation sorted balances /\
    StronglySorted descending sorted /\
    (exists (fulls : list TokenBalance) (last : list (TokenBalance * Z))
            (rest : list TokenBalance),
        fundedBalances sorted = fulls ++ map fst last ++ rest /\
        (length last <= 1)%nat /\
        Forall (fun b => 0 < amount b) fulls /\
        Forall (fun d => 0 < snd d <= amount (fst d)) last /\
        selectTokensForTransfer balances requestedAmount = Ok (fulls ++ map draw last) /\
        totalAmount (fulls ++ map draw last) = requestedAmount) /\
    (forall b1 b2 : TokenBalance,
        selectTokensForTransfer [withAmount b1 700000; withAmount b2 500000] 1000000
          = Ok [withAmount b1 700000; withAmount b2 300000]).
Proof.
  intros balances requestedAmount Hnonneg Hcover sorted.
  split; [apply sortBalances_Permutation|].
  split; [apply sortBalances_descending|].
  split; [|intros b1 b2; reflexivity].
  unfold selectTokensForTransfer. fold sorted.
  destruct (Z.eq_dec requestedAmount 0) as [->|Hne].
  - exists [], [], (fundedBalances sorted).
    rewrite selectLoop_done by lia. cbn.
    split; [reflexivity|]. split; [lia|].
    split; [constructor|]. split; [constructor|]. split; reflexivity.
  - destruct (selectLoop_sufficient sorted requestedAmount)
      as (fulls & b & rest & Hsplit & Hbound & Hloop).
    + lia.
    + unfold sorted. rewrite totalAmount_funded_sorted.
      pose proof (totalAmount_le_funded balances). lia.
    + exists fulls, [(b, requestedAmount - totalAmount fulls)], rest.
      rewrite Hloop. cbn [map fst snd app draw length].
      pose proof (fundedBalances_positive sorted) as Hfunded.
      rewrite Hsplit in Hfunded. apply Forall_app in Hfunded as [Hfulls _].
      repeat split.
      * exact Hsplit.
      * lia.
      * exact Hfulls.
      * constructor; [cbn; lia|constructor].
      * rewrite totalAmount_app. cbn. lia.
Qed.

(** The selection of the specification's scenario, obtained from the theorem. *)
Lemma selectTokensForTransfer_covers_exactly_witness :
  let wallet1 := mkTokenBalance "wallet-1" "AVAX-FUJI" "0xA1" "0x5425" 700000 6 in
  let wallet2 := mkTokenBalance "wallet-2" "ARC-TESTNET" "0xB2" "0x3600" 500000 6 in
  (0 <= 1000000 /\ 1000000 <= totalAmount [wallet2; wallet1]) /\
  selectTokensForTransfer [wallet2; wallet1] 1000000
    = Ok [wallet1; withAmount wallet2 300000] /\
  exists fulls last rest,
    fundedBalances (sortBalances [wallet2; wallet1]) = fulls ++ map fst last ++ rest /\
    (length last <= 1)%nat /\
    Forall (fun b => 0 < amount b) fulls /\
    Forall (fun d => 0 < snd d <= amount (fst d)) last /\
    selectTokensForTransfer [wallet2; wallet1] 1000000 = Ok (fulls ++ map draw last) /\
    totalAmount (fulls ++ map draw last) = 1000000.
Proof.
  intros wallet1 wallet2.
  assert (H0 : 0 <= 1000000) by lia.
  assert (H1 : 1000000 <= totalAmount [wallet2; wallet1]) by (vm_compute; discriminate).
  split; [split; assumption|]. split; [reflexivity|].
  exact (proj1 (proj2 (proj2
    (selectTokensForTransfer_covers_exactly [wallet2; wallet1] 1000000 H0 H1)))).
Defined.

(** C3, as the specification states it, fails: the error that
    [selectTokensForTransfer] raises for a balance of 300000 and a request of
    1000000 names the amount needed and the amount at hand, and 700000 stands
    nowhere in it. *)
Lemma selectTokensForTransfer_error_omits_shortfall :
  let wallet := mkTokenBalance "wallet-1" "ARC-TESTNET" "0xA1" "0x3600" 300000 6 in
  selectTokensForTransfer [wallet] 1000000
    = Throw "Insufficient balance. Need 1000000, have 300000" /\
  namesAmount "Insufficient balance. Need 1000000, have 300000" (1000000 - 300000) = false.
Proof. split; reflexivity. Qed.

(** C3, amended.  For every list of token balances, none negative, whose
    amounts sum to strictly less than the requested amount,
    [selectTokensForTransfer] returns no selection, partial or other: it
    throws an error whose message names the amount needed and the total at
    hand (the shortfall is their difference).  A balance of 300000 and a
    request of 1000000 give "Need 1000000, have 300000". *)
Theorem selectTokensForTransfer_insufficient :
  forall (balances : list TokenBalance) (requestedAmount : Z),
    Forall (fun b => 0 <= amount b) balances ->
    totalAmount balances < requestedAmount ->
    selectTokensForTransfer balances requestedAmount =
      Throw ("Insufficient balance. Need " +:+ toString requestedAmount +:+
             ", have " +:+ toString (totalAmount balances)) /\
    (forall b : TokenBalance,
        selectTokensForTransfer [withAmount b 300000] 1000000
          = Throw "Insufficient balance. Need 1000000, have 300000").
Proof.
  intros balances requestedAmount Hnonneg Hshort.
  split; [|intros b; reflexivity].
  unfold selectTokensForTransfer.
  assert (Hfunded : totalAmount (fundedBalances (sortBalances balances)) = totalAmount balances).
  { rewrite totalAmount_funded_sorted. apply fundedBalances_all, Hnonneg. }
  rewrite selectLoop_insufficient by lia.
  rewrite Hfunded.
  destruct (Z.gtb_spec (requestedAmount - totalAmount balances) 0); [|lia].
  unfold insufficientMessage.
  replace (requestedAmount - (requestedAmount - totalAmount balances))
    with (totalAmount balances) by lia.
  reflexivity.
Qed.

Lemma selectTokensForTransfer_insufficient_witness :
  let wallet := mkTokenBalance "wallet-1" "ARC-TESTNET" "0xA1" "0x3600" 300000 6 in
  (Forall (fun b => 0 <= amount b) [wallet] /\ totalAmount [wallet] < 1000000) /\
  selectTokensForTransfer [wallet] 1000000 =
    Throw ("Insufficient balance. Need " +:+ toString 1000000 +:+
           ", have " +:+ toString (totalAmount [wallet])).
Proof.
  intros wallet.
  assert (H0 : Forall (fun b => 0 <= amount b) [wallet])
    by (repeat constructor; vm_compute; discriminate).
  assert (H1 : totalAmount [wallet] < 1000000) by reflexivity.
  split; [split; assumption|].
  exact (proj1 (selectTokensForTransfer_insufficient [wallet] 1000000 H0 H1)).
Defined.


(** ** Deposits: the retries of [depositToGateway] *)

Import JS GatewayService.

(** *** Occurrences of a text in a message *)

Lemma startsWith_append_l (p a b : string) :
  startsWith p a = true -> startsWith p (a +:+ b) = true.
Proof.
  revert a. induction p as [|y p IH]; intros a H; [reflexivity|].
  destruct a as [|x a]; [discriminate|]. rewrite append_cons. cbn [startsWith] in *.
  apply andb_prop in H as [-> H]. rewrite (IH _ H). reflexivity.
Qed.

Lemma startsWith_refl_append (p s : string) : startsWith p (p +:+ s) = true.
Proof.
  induction p as [|y p IH]; [reflexivity|]. rewrite append_cons. cbn [startsWith].
  rewrite Ascii.eqb_refl, IH. reflexivity.
Qed.

Lemma includes_cons (p : string) (x : ascii) (s : string) :
  includes p (String x s) = startsWith p (String x s) || includes p s.
Proof. reflexivity. Qed.

Lemma includes_nil (p : string) : includes p EmptyString = isEmpty p.
Proof. destruct p; reflexivity. Qed.

Lemma includes_append_r (p a b : string) :
  includes p b = true -> includes p (a +:+ b) = true.
Proof.
  intros H. induction a as [|x a IH]; [exact H|].
  rewrite append_cons, includes_cons, IH. apply orb_true_r.
Qed.

Lemma includes_prefix (p s : string) : includes p (p +:+ s) = true.
Proof.
  destruct (p +:+ s) eqn:E.
  - destruct p; [reflexivity|discriminate].
  - rewrite includes_cons, <- E, startsWith_refl_append. reflexivity.
Qed.

(** A code unit that does not occur in [p] cuts every occurrence of [p]. *)
Lemma startsWith_cut (p a b : string) (c : ascii) :
  occurs c p = false -> isEmpty p = false ->
  startsWith p (a +:+ String c b) = startsWith p a.
Proof.
  revert a. induction p as [|y p IH]; intros a Hc Hp; [discriminate|].
  cbn [occurs] in Hc. apply orb_false_elim in Hc as [Hy Hc].
  destruct a as [|x a].
  - rewrite append_nil_l. cbn [startsWith]. rewrite Hy. reflexivity.
  - rewrite append_cons. cbn [startsWith].
    destruct p as [|z p]; [destruct (a +:+ String c b), a; reflexivity|].
    rewrite IH by (assumption || reflexivity). reflexivity.
Qed.

Lemma includes_cut (p a b : string) (c : ascii) :
  occurs c p = false -> isEmpty p = false ->
  includes p (a +:+ String c b) = includes p a || includes p b.
Proof.
  intros Hc Hp. induction a as [|x a IH].
  - rewrite append_nil_l, includes_cons, includes_nil, Hp.
    destruct p as [|y p]; [discriminate|].
    cbn [occurs] in Hc. apply orb_false_elim in Hc as [Hy _].
    cbn [startsWith]. rewrite Hy. reflexivity.
  - rewrite append_cons, !includes_cons, IH.
    change (String x (a +:+ String c b)) with (String x a +:+ String c b).
    rewrite startsWith_cut by assumption. rewrite orb_assoc. reflexivity.
Qed.

(** *** The messages of [waitForTransactionConfirmed] *)

Lemma marker_in_reason (reason : string) :
  includes failedMarker ("reason=" +:+ reason) = includes failedMarker reason.
Proof.
  change ("reason=" +:+ reason)
    with (String "r" (String "e" (String "a" (String "s" (String "o" (String "n"
           (String "=" reason))))))).
  rewrite !includes_cons. unfold failedMarker. cbn [startsWith Ascii.eqb Bool.eqb andb orb].
  destruct reason as [|c r]; reflexivity.
Qed.

Lemma marker_in_failed (id : string) (tx : CircleTransaction) :
  state tx = "FAILED" -> includes failedMarker (failedMessage id tx) = true.
Proof.
  intros H. unfold failedMessage. rewrite H.
  apply includes_append_r, includes_append_r.
  change (" failed with state=" +:+ "FAILED" +:+
          (if isEmpty (errorReason tx) then "" else " reason=" +:+ errorReason tx))
    with (" failed with " +:+ (failedMarker +:+
          (if isEmpty (errorReason tx) then "" else " reason=" +:+ errorReason tx))).
  apply includes_append_r, includes_prefix.
Qed.

Lemma marker_cut_space (a b : string) :
  includes failedMarker (a +:+ String " " b)
    = includes failedMarker a || includes failedMarker b.
Proof. apply includes_cut; reflexivity. Qed.

Lemma marker_in_timeout (id : string) :
  includes failedMarker (timeoutMessage id) = includes failedMarker id.
Proof.
  unfold timeoutMessage.
  change ("Transaction " +:+ id +:+ " not confirmed within timeout window")
    with ("Transaction" +:+ String " " (id +:+ String " " "not confirmed within timeout window")).
  rewrite !marker_cut_space.
  change (includes failedMarker "Transaction") with false.
  change (includes failedMarker "not confirmed within timeout window") with false.
  rewrite orb_false_r. reflexivity.
Qed.

Lemma isFailedState_cases (s : string) :
  isFailedState s = true -> s = "FAILED" \/ s = "DENIED" \/ s = "CANCELLED".
Proof.
  unfold isFailedState. intros H.
  apply orb_prop in H as [H|H]; [apply orb_prop in H as [H|H]|];
    apply String.eqb_eq in H; auto.
Qed.

(** The message of a transaction that ended in a failed state holds the
    marker exactly when the state is FAILED, unless the id or the error
    reason holds the marker itself. *)
Lemma marker_in_failedMessage (id : string) (tx : CircleTransaction) :
  isFailedState (state tx) = true ->
  includes failedMarker id = false ->
  includes failedMarker (errorReason tx) = false ->
  includes failedMarker (failedMessage id tx) = String.eqb (state tx) "FAILED".
Proof.
  intros Hs Hid Hreason.
  destruct (String.eqb_spec (state tx) "FAILED") as [E|E];
    [apply marker_in_failed, E|].
  unfold failedMessage.
  assert (Hshape : forall st suffix,
            "Transaction " +:+ id +:+ " failed with state=" +:+ st +:+ suffix
            = "Transaction" +:+ String " " (id +:+ String " "
                ("failed with state=" +:+ st +:+ suffix))) by reflexivity.
  rewrite Hshape, !marker_cut_space, Hid.
  change (includes failedMarker "Transaction") with false. cbn [orb].
  destruct (isFailedState_cases _ Hs) as [H|[H|H]]; [contradiction| |]; rewrite H;
    destruct (isEmpty (errorReason tx)); try reflexivity.
  - change ("failed with state=" +:+ "DENIED" +:+ " reason=" +:+ errorReason tx)
      with ("failed with state=DENIED" +:+ String " " ("reason=" +:+ errorReason tx)).
    rewrite marker_cut_space, marker_in_reason, Hreason. reflexivity.
  - change ("failed with state=" +:+ "CANCELLED" +:+ " reason=" +:+ errorReason tx)
      with ("failed with state=CANCELLED" +:+ String " " ("reason=" +:+ errorReason tx)).
    rewrite marker_cut_space, marker_in_reason, Hreason. reflexivity.
Qed.

(** *** The wait and its outcome *)

Section Deposit.
Variable w : World.

Lemma pollTransaction_outcome (id : string) (ms : Z) (n : nat) (h : list Call) :
  pollTransaction w id ms n h =
    (outcomeResult id (fst (pollOutcome w id ms n h)), snd (pollOutcome w id ms n h)).
Proof.
  revert h. induction n as [|n IH]; intros h; [reflexivity|].
  cbn [pollTransaction pollOutcome]. unfold andThen, call, sleep.
  destruct (getTransaction w (GetTransaction id :: h)) as [[tx|]|m]; cbn [fst snd].
  - destruct (isEmpty (state tx)); [apply IH|].
    destruct (isConfirmedState (state tx)); [reflexivity|].
    destruct (isFailedState (state tx)); [reflexivity|apply IH].
  - apply IH.
  - reflexivity.
Qed.

Lemma waitForTransactionConfirmed_outcome (id : string) (h : list Call) :
  waitForTransactionConfirmed w id None h =
    (outcomeResult id (fst (pollOutcome w id 400 80 h)), snd (pollOutcome w id 400 80 h)).
Proof. apply pollTransaction_outcome. Qed.

(** A wait that ended on a failed state ended on the answer of its last
    poll, and that answer carried one of the three failed states. *)
Lemma pollOutcome_terminal (id : string) (ms : Z) (n : nat) (h h' : list Call)
    (tx : CircleTransaction) :
  pollOutcome w id ms n h = (Terminal tx, h') ->
  isFailedState (state tx) = true /\
  getTransaction w h' = Ok (Some tx) /\
  exists h0, h' = GetTransaction id :: h0.
Proof.
  revert h. induction n as [|n IH]; intros h H; [discriminate|].
  cbn [pollOutcome] in H.
  destruct (getTransaction w (GetTransaction id :: h)) as [[tx'|]|m] eqn:E.
  - destruct (isEmpty (state tx')); [eapply IH, H|].
    destruct (isConfirmedState (state tx')); [discriminate|].
    destruct (isFailedState (state tx')) eqn:F; [|eapply IH, H].
    injection H as -> <-. eauto.
  - eapply IH, H.
  - discriminate.
Qed.

Lemma pollOutcome_clientError (id : string) (ms : Z) (n : nat) (h h' : list Call)
    (m : string) :
  pollOutcome w id ms n h = (ClientError m, h') -> getTransaction w h' = Throw m.
Proof.
  revert h. induction n as [|n IH]; intros h H; [discriminate|].
  cbn [pollOutcome] in H.
  destruct (getTransaction w (GetTransaction id :: h)) as [[tx'|]|m'] eqn:E.
  - destruct (isEmpty (state tx')); [eapply IH, H|].
    destruct (isConfirmedState (state tx')); [discriminate|].
    destruct (isFailedState (state tx')); [discriminate|eapply IH, H].
  - eapply IH, H.
  - injection H as -> <-. exact E.
Qed.

Lemma pollOutcome_confirmed (id : string) (ms : Z) (n : nat) (h h' : list Call) :
  pollOutcome w id ms n h = (Confirmed, h') ->
  exists tx, getTransaction w h' = Ok (Some tx) /\ isConfirmedState (state tx) = true.
Proof.
  revert h. induction n as [|n IH]; intros h H; [discriminate|].
  cbn [pollOutcome] in H.
  destruct (getTransaction w (GetTransaction id :: h)) as [[tx'|]|m'] eqn:E.
  - destruct (isEmpty (state tx')); [eapply IH, H|].
    destruct (isConfirmedState (state tx')) eqn:C.
    + injection H as <-. eauto.
    + destruct (isFailedState (state tx')); [discriminate|eapply IH, H].
  - eapply IH, H.
  - discriminate.
Qed.

(** Polling submits nothing. *)
Lemma pollOutcome_submissions (sig id : string) (ms : Z) (n : nat) (h : list Call) :
  submissions sig (snd (pollOutcome w id ms n h)) = submissions sig h.
Proof.
  revert h. induction n as [|n IH]; intros h; [reflexivity|].
  cbn [pollOutcome].
  destruct (getTransaction w (GetTransaction id :: h)) as [[tx'|]|m'].
  - destruct (isEmpty (state tx')); [rewrite IH; reflexivity|].
    destruct (isConfirmedState (state tx')); [reflexivity|].
    destruct (isFailedState (state tx')); [reflexivity|rewrite IH; reflexivity].
  - rewrite IH. reflexivity.
  - reflexivity.
Qed.

(** *** The retry loop *)

(** Whatever the world answers, the loop submits no more contract executions
    than it has attempts. *)
Lemma executeWithRetries_submissions (sig walletId blockchain contractAddress signature : string)
    (params : list string) (err : string) (left attempt : nat) (h : list Call) :
  (submissions sig (snd (executeWithRetries w walletId blockchain contractAddress signature
                           params err left attempt h))
   <= submissions sig h + (if String.eqb signature sig then left else 0))%nat.
Proof.
  revert attempt h. induction left as [|left IH]; intros attempt h.
  - cbn [executeWithRetries]. unfold ret. cbn [snd]. lia.
  - cbn [executeWithRetries]. unfold andThen, call, tryCatch, raise, ret.
    set (h0 := Prefund walletId blockchain contractAddress signature params :: h).
    set (h1 := CreateContractExecutionTransaction walletId contractAddress signature params :: h0).
    assert (H1 : (submissions sig h1
                  = submissions sig h + (if String.eqb signature sig then 1 else 0))%nat).
    { unfold submissions, h1, h0. cbn [List.filter isSubmission].
      destruct (String.eqb signature sig); cbn [length]; lia. }
    assert (H0 : submissions sig h0 = submissions sig h) by reflexivity.
    destruct (prefund w h0); cbn [snd]; [|destruct (String.eqb signature sig); lia].
    destruct (createContractExecutionTransaction w h1) as [[id|]|m]; cbn [snd];
      try (destruct (String.eqb signature sig); lia).
    destruct (isEmpty id); cbn [snd]; [destruct (String.eqb signature sig); lia|].
    rewrite waitForTransactionConfirmed_outcome.
    pose proof (pollOutcome_submissions sig id 400 80 h1) as Hp.
    destruct (pollOutcome w id 400 80 h1) as [o h2]. cbn [fst snd] in *.
    destruct (outcomeResult id o) as [[]|m]; cbn [snd].
    + destruct (String.eqb signature sig); lia.
    + destruct (negb (includes failedMarker m) || (attempt =? maxRetries)%nat); cbn [snd].
      * destruct (String.eqb signature sig); lia.
      * specialize (IH (S attempt) h2). destruct (String.eqb signature sig); lia.
Qed.

Hypothesis world_markerFree : markerFree w.

(** In a world that does not spell the marker on its own, the loop of the
    source is the loop of the specification. *)
Lemma executeWithRetries_by_state (walletId blockchain contractAddress signature : string)
    (params : list string) (err : string) (left attempt : nat) (h : list Call) :
  (attempt + left = S maxRetries)%nat ->
  executeWithRetries w walletId blockchain contractAddress signature params err left attempt h
  = executeRetryingOnFailedState w walletId blockchain contractAddress signature params err
      left attempt h.
Proof.
  destruct world_markerFree as (Hids & Hreasons & Herrors).
  revert attempt h. induction left as [|left IH]; intros attempt h Hsync; [reflexivity|].
  cbn [executeWithRetries executeRetryingOnFailedState].
  unfold andThen, call, tryCatch, raise, ret.
  set (h0 := Prefund walletId blockchain contractAddress signature params :: h).
  set (h1 := CreateContractExecutionTransaction walletId contractAddress signature params :: h0).
  destruct (prefund w h0); [|reflexivity].
  destruct (createContractExecutionTransaction w h1) as [[id|]|m] eqn:Hcreate;
    try reflexivity.
  destruct (isEmpty id); [reflexivity|].
  rewrite waitForTransactionConfirmed_outcome.
  destruct (pollOutcome w id 400 80 h1) as [o h2] eqn:Hpoll. cbn [fst snd].
  pose proof (Hids _ _ Hcreate) as Hid.
  destruct o as [|tx| |m]; cbn [outcomeResult].
  - reflexivity.
  - destruct (pollOutcome_terminal _ _ _ _ _ _ Hpoll) as (Hstate & Hanswer & _).
    rewrite marker_in_failedMessage by eauto.
    destruct (String.eqb (state tx) "FAILED"); cbn [negb orb andb]; [|reflexivity].
    destruct (Nat.eqb_spec attempt maxRetries) as [->|Hne].
    + rewrite Nat.ltb_irrefl. reflexivity.
    + assert (Hlt : (attempt <? maxRetries)%nat = true) by (apply Nat.ltb_lt; lia).
      rewrite Hlt. apply IH. lia.
  - rewrite marker_in_timeout, Hid. reflexivity.
  - rewrite (Herrors _ _ (pollOutcome_clientError _ _ _ _ _ _ Hpoll)). reflexivity.
Qed.

End Deposit.

(** *** Counting submissions along a run *)

Lemma addsAtMost_ret {A : Type} (sig : string) (a : A) : addsAtMost sig 0 (ret a).
Proof. intros h. unfold ret, raise, lift. cbn [snd]. lia. Qed.

Lemma addsAtMost_raise {A : Type} (sig m : string) : addsAtMost sig 0 (@raise Call A m).
Proof. intros h. unfold ret, raise, lift. cbn [snd]. lia. Qed.

Lemma addsAtMost_lift {A : Type} (sig : string) (r : Result A) : addsAtMost sig 0 (lift r).
Proof. intros h. unfold ret, raise, lift. cbn [snd]. lia. Qed.

Lemma addsAtMost_call {A : Type} (sig : string) (c : Call) (answer : list Call -> Result A) :
  isSubmission sig c = false -> addsAtMost sig 0 (call c answer).
Proof. intros H h. unfold call, submissions. cbn [snd List.filter]. rewrite H. lia. Qed.

Lemma addsAtMost_andThen {A B : Type} (sig : string) (n1 n2 : nat)
    (r : Run A) (k : A -> Run B) :
  addsAtMost sig n1 r -> (forall a, addsAtMost sig n2 (k a)) ->
  addsAtMost sig (n1 + n2) (andThen r k).
Proof.
  intros Hr Hk h. unfold andThen. specialize (Hr h).
  destruct (r h) as [[a|m] h1]; cbn [snd] in *; [|lia].
  specialize (Hk a h1). lia.
Qed.

Lemma getGatewayUsdcBalanceForDepositor_submissions (w : World) (sig : string)
    (domain : Z) (depositor : string) :
  addsAtMost sig 0 (getGatewayUsdcBalanceForDepositor w domain depositor).
Proof.
  unfold getGatewayUsdcBalanceForDepositor.
  apply (addsAtMost_andThen sig 0 0); [apply addsAtMost_call; reflexivity|].
  intros [|b]; [apply addsAtMost_ret|apply addsAtMost_lift].
Qed.

Lemma pollGatewayBalance_submissions (w : World) (sig : string) (domain : Z)
    (depositor : string) (delta start ms : Z) (n : nat) :
  addsAtMost sig 0 (pollGatewayBalance w domain depositor delta start ms n).
Proof.
  induction n as [|n IH]; [apply addsAtMost_raise|].
  cbn [pollGatewayBalance].
  apply (addsAtMost_andThen sig 0 0); [apply addsAtMost_call; reflexivity|]. intros _.
  apply (addsAtMost_andThen sig 0 0);
    [apply getGatewayUsdcBalanceForDepositor_submissions|].
  intros current. destruct (current >=? start + delta); [apply addsAtMost_ret|exact IH].
Qed.

Lemma executeWithRetries_addsAtMost (w : World)
    (sig walletId blockchain contractAddress signature : string)
    (params : list string) (err : string) (left attempt : nat) :
  addsAtMost sig (if String.eqb signature sig then left else 0)
    (executeWithRetries w walletId blockchain contractAddress signature params err left attempt).
Proof. intros h. apply executeWithRetries_submissions. Qed.

(** Whatever the world answers, a deposit submits at most three approvals and
    at most three deposits. *)
Lemma depositToGateway_submissions (w : World) (walletId blockchain tokenAddress : string)
    (amount : Z) (sig : string) :
  sig = approveSignature \/ sig = depositSignature ->
  addsAtMost sig 3 (depositToGateway w walletId blockchain tokenAddress amount).
Proof.
  intros Hsig. unfold depositToGateway.
  destruct (getDomainConfigByBlockchain blockchain) as [cfg|];
    [|intros h; apply Nat.le_trans with (1 := addsAtMost_raise sig _ h); lia].
  apply (addsAtMost_andThen sig 0 3); [apply addsAtMost_call; reflexivity|].
  intros [depositor|];
    [|intros h; apply Nat.le_trans with (1 := addsAtMost_raise sig _ h); lia].
  destruct (isEmpty depositor);
    [intros h; apply Nat.le_trans with (1 := addsAtMost_raise sig _ h); lia|].
  apply (addsAtMost_andThen sig 0 3);
    [apply getGatewayUsdcBalanceForDepositor_submissions|].
  intros before.
  destruct Hsig as [-> | ->].
  - apply (addsAtMost_andThen approveSignature 3 0);
      [apply (executeWithRetries_addsAtMost w approveSignature)|]. intros _.
    apply (addsAtMost_andThen approveSignature 0 0);
      [apply (executeWithRetries_addsAtMost w approveSignature)|]. intros deposited.
    apply (addsAtMost_andThen approveSignature 0 0);
      [apply pollGatewayBalance_submissions|]. intros _. apply addsAtMost_ret.
  - apply (addsAtMost_andThen depositSignature 0 3);
      [apply (executeWithRetries_addsAtMost w depositSignature)|]. intros _.
    apply (addsAtMost_andThen depositSignature 3 0);
      [apply (executeWithRetries_addsAtMost w depositSignature)|]. intros deposited.
    apply (addsAtMost_andThen depositSignature 0 0);
      [apply pollGatewayBalance_submissions|]. intros _. apply addsAtMost_ret.
Qed.

(** *** Failures and their retries *)

Section Failures.
Variable w : World.
Hypothesis prefunds : forall h, prefund w h = Ok tt.
Hypothesis creates :
  forall h, exists id,
    createContractExecutionTransaction w h = Ok (Some id) /\ isEmpty id = false.

Lemma isFailedState_final (s : string) :
  isFailedState s = true -> isEmpty s = false /\ isConfirmedState s = false.
Proof.
  intros H. destruct (isFailedState_cases s H) as [->|[->| ->]]; split; reflexivity.
Qed.

Lemma pollOutcome_failed (id : string) (ms : Z) (n : nat) (h : list Call)
    (tx : CircleTransaction) :
  getTransaction w (GetTransaction id :: h) = Ok (Some tx) ->
  isFailedState (state tx) = true ->
  pollOutcome w id ms (S n) h = (Terminal tx, GetTransaction id :: h).
Proof.
  intros Hanswer Hfailed. destruct (isFailedState_final _ Hfailed) as [Hempty Hconfirmed].
  cbn [pollOutcome]. rewrite Hanswer, Hempty, Hconfirmed, Hfailed. reflexivity.
Qed.

Lemma pollOutcome_first_confirmed (id : string) (ms : Z) (n : nat) (h : list Call)
    (tx : CircleTransaction) :
  getTransaction w (GetTransaction id :: h) = Ok (Some tx) ->
  isConfirmedState (state tx) = true ->
  pollOutcome w id ms (S n) h = (Confirmed, GetTransaction id :: h).
Proof.
  intros Hanswer Hconfirmed. cbn [pollOutcome]. rewrite Hanswer, Hconfirmed.
  destruct (isEmpty (state tx)) eqn:Hempty; [|reflexivity].
  destruct (state tx); discriminate.
Qed.

Lemma submissions_poll (sig id : string) (h : list Call) :
  submissions sig (GetTransaction id :: h) = submissions sig h.
Proof. reflexivity. Qed.

Lemma submissions_prefund (sig walletId blockchain contractAddress signature : string)
    (params : list string) (h : list Call) :
  submissions sig (Prefund walletId blockchain contractAddress signature params :: h)
  = submissions sig h.
Proof. reflexivity. Qed.

Lemma submissions_create (sig walletId contractAddress signature : string)
    (params : list string) (h : list Call) :
  submissions sig (CreateContractExecutionTransaction walletId contractAddress signature
                     params :: h)
  = ((if String.eqb signature sig then 1 else 0) + submissions sig h)%nat.
Proof.
  unfold submissions. cbn [List.filter isSubmission].
  destruct (String.eqb signature sig); reflexivity.
Qed.

(** A loop whose every wait ends on a failed state throws, after as many
    submissions as it has attempts when the messages of the failures hold
    the text it looks for, and after one submission when they do not. *)
Lemma executeWithRetries_failing (walletId blockchain contractAddress signature : string)
    (params : list string) (err : string) (retried : bool) (base left attempt : nat)
    (h : list Call) :
  (attempt + left = S maxRetries)%nat ->
  (1 <= left)%nat ->
  (base <= submissions signature h)%nat ->
  (forall h' h0 id,
      (base < submissions signature h')%nat ->
      createContractExecutionTransaction w h0 = Ok (Some id) ->
      exists tx, getTransaction w h' = Ok (Some tx) /\
                 isFailedState (state tx) = true /\
                 includes failedMarker (failedMessage id tx) = retried) ->
  exists m h',
    executeWithRetries w walletId blockchain contractAddress signature params err left attempt h
      = (Throw m, h') /\
    submissions signature h'
      = (submissions signature h + (if retried then left else 1))%nat /\
    forall other, String.eqb signature other = false ->
                  submissions other h' = submissions other h.
Proof.
  intros Hsync Hleft Hbase Hpolls. revert attempt h Hsync Hleft Hbase.
  induction left as [|left IH]; intros attempt h Hsync Hleft Hbase; [lia|].
  cbn [executeWithRetries]. unfold andThen, call, tryCatch, raise, ret.
  set (h0 := Prefund walletId blockchain contractAddress signature params :: h).
  set (h1 := CreateContractExecutionTransaction walletId contractAddress signature params :: h0).
  assert (H1 : submissions signature h1 = S (submissions signature h)).
  { unfold h1, h0. rewrite submissions_create, submissions_prefund, String.eqb_refl.
    reflexivity. }
  assert (Hother : forall other, String.eqb signature other = false ->
                                 submissions other h1 = submissions other h).
  { intros other Hne. unfold h1, h0.
    rewrite submissions_create, submissions_prefund, Hne. reflexivity. }
  rewrite prefunds. destruct (creates h1) as (id & Hcreate & Hid). rewrite Hcreate, Hid.
  rewrite waitForTransactionConfirmed_outcome.
  destruct (Hpolls (GetTransaction id :: h1) h1 id) as (tx & Hanswer & Hfailed & Hmarker);
    [rewrite submissions_poll; lia|exact Hcreate|].
  rewrite (pollOutcome_failed id 400 79 h1 tx Hanswer Hfailed).
  cbn [fst snd outcomeResult]. rewrite Hmarker.
  destruct retried; cbn [negb orb].
  - destruct (Nat.eqb_spec attempt maxRetries) as [Hlast|Hmore].
    + exists (failedMessage id tx), (GetTransaction id :: h1).
      split; [reflexivity|]. rewrite submissions_poll, H1.
      split; [unfold maxRetries in *; lia|].
      intros other Hne. rewrite submissions_poll. apply Hother, Hne.
    + destruct (IH (S attempt) (GetTransaction id :: h1)) as (m & h' & Hrun & Hcount & Hrest).
      * lia.
      * unfold maxRetries in *. lia.
      * rewrite submissions_poll. lia.
      * exists m, h'. split; [exact Hrun|]. rewrite Hcount, submissions_poll, H1.
        split; [lia|]. intros other Hne. rewrite (Hrest other Hne), submissions_poll.
        apply Hother, Hne.
  - exists (failedMessage id tx), (GetTransaction id :: h1).
    split; [reflexivity|]. rewrite submissions_poll, H1. split; [lia|].
    intros other Hne. rewrite submissions_poll. apply Hother, Hne.
Qed.

(** A loop whose first wait sees the transaction confirmed returns after
    one submission. *)
Lemma executeWithRetries_first_confirmed
    (walletId blockchain contractAddress signature : string)
    (params : list string) (err : string) (left attempt : nat) (h : list Call) :
  (forall id,
      exists tx,
        getTransaction w
          (GetTransaction id
           :: CreateContractExecutionTransaction walletId contractAddress signature params
           :: Prefund walletId blockchain contractAddress signature params :: h)
        = Ok (Some tx) /\
        isConfirmedState (state tx) = true) ->
  exists id h',
    executeWithRetries w walletId blockchain contractAddress signature params err (S left)
      attempt h = (Ok (Some id), h') /\
    submissions signature h' = S (submissions signature h) /\
    forall other, String.eqb signature other = false ->
                  submissions other h' = submissions other h.
Proof.
  intros Hpolls. cbn [executeWithRetries]. unfold andThen, call, tryCatch, raise, ret.
  set (h0 := Prefund walletId blockchain contractAddress signature params :: h).
  set (h1 := CreateContractExecutionTransaction walletId contractAddress signature params :: h0).
  assert (H1 : submissions signature h1 = S (submissions signature h)).
  { unfold h1, h0. rewrite submissions_create, submissions_prefund, String.eqb_refl.
    reflexivity. }
  rewrite prefunds. destruct (creates h1) as (id & Hcreate & Hid). rewrite Hcreate, Hid.
  rewrite waitForTransactionConfirmed_outcome.
  destruct (Hpolls id) as (tx & Hanswer & Hconfirmed). fold h0 h1 in Hanswer.
  rewrite (pollOutcome_first_confirmed id 400 79 h1 tx Hanswer Hconfirmed).
  cbn [fst snd outcomeResult]. exists id, (GetTransaction id :: h1).
  split; [reflexivity|]. rewrite submissions_poll. split; [exact H1|].
  intros other Hne. rewrite submissions_poll. unfold h1, h0.
  rewrite submissions_create, submissions_prefund, Hne. reflexivity.
Qed.

Hypothesis wallets :
  forall h, exists address, getWallet w h = Ok (Some address) /\ isEmpty address = false.
Hypothesis balances : forall h, exists answer, fetchGatewayBalances w h = Ok answer.

Lemma getGatewayUsdcBalanceForDepositor_read (domain : Z) (depositor : string)
    (h : list Call) :
  exists balance,
    getGatewayUsdcBalanceForDepositor w domain depositor h
    = (Ok balance, FetchGatewayBalances domain depositor :: h).
Proof.
  unfold getGatewayUsdcBalanceForDepositor, andThen, call, ret, lift.
  destruct (balances (FetchGatewayBalances domain depositor :: h)) as (answer & ->).
  destruct answer as [|[balance|]]; [eexists; reflexivity| |eexists; reflexivity].
  cbn [gatewayBalanceOfEntry]. destruct (isEmpty balance); [eexists; reflexivity|].
  rewrite parseUsdcAmountToBaseUnits_value. eexists. reflexivity.
Qed.

(** A deposit whose approvals all end on a failed state. *)
Lemma depositToGateway_failing_approval (walletId blockchain tokenAddress : string)
    (amount : Z) (retried : bool) (h : list Call) :
  is_Some (getDomainConfigByBlockchain blockchain) ->
  (forall h' h0 id,
      createContractExecutionTransaction w h0 = Ok (Some id) ->
      exists tx, getTransaction w h' = Ok (Some tx) /\
                 isFailedState (state tx) = true /\
                 includes failedMarker (failedMessage id tx) = retried) ->
  let run := depositToGateway w walletId blockchain tokenAddress amount h in
  (exists m, fst run = Throw m) /\
  submissions approveSignature (snd run)
    = (submissions approveSignature h + (if retried then 3 else 1))%nat /\
  submissions depositSignature (snd run) = submissions depositSignature h.
Proof.
  intros [cfg Hcfg] Hpolls. cbn zeta.
  destruct (depositToGateway w walletId blockchain tokenAddress amount h) as [r hr] eqn:Hrun.
  cbn [fst snd]. unfold depositToGateway in Hrun. rewrite Hcfg in Hrun.
  unfold andThen at 1 in Hrun. unfold call at 1 in Hrun.
  destruct (wallets (GetWallet walletId :: h)) as (address & Hwallet & Haddress).
  rewrite Hwallet, Haddress in Hrun. unfold andThen at 1 in Hrun.
  destruct (getGatewayUsdcBalanceForDepositor_read (GatewayDomainConfig.domain cfg) address
              (GetWallet walletId :: h)) as (before & Hbefore).
  rewrite Hbefore in Hrun.
  unfold andThen at 1 in Hrun. unfold approveWithRetries, maxRetries in Hrun.
  destruct (executeWithRetries_failing walletId blockchain tokenAddress approveSignature
              [GATEWAY_WALLET_ADDRESS; toString amount]
              "Failed to create approval transaction" retried
              (submissions approveSignature h) 3 1
              (FetchGatewayBalances (GatewayDomainConfig.domain cfg) address
               :: GetWallet walletId :: h))
    as (m & h' & Hloop & Hcount & Hrest).
  - reflexivity.
  - lia.
  - apply Nat.le_refl.
  - intros h' h0 id _ Hcreate. apply (Hpolls h' h0 id Hcreate).
  - rewrite Hloop in Hrun. injection Hrun as <- <-.
    split; [exists m; reflexivity|]. split; [exact Hcount|].
    apply Hrest. reflexivity.
Qed.

(** A deposit whose approval is confirmed at once and whose deposits all
    end on a failed state. *)
Lemma depositToGateway_failing_deposit (walletId blockchain tokenAddress : string)
    (amount : Z) (retried : bool) (h : list Call) :
  is_Some (getDomainConfigByBlockchain blockchain) ->
  (forall h', submissions depositSignature h' = submissions depositSignature h ->
              exists tx, getTransaction w h' = Ok (Some tx) /\
                         isConfirmedState (state tx) = true) ->
  (forall h' h0 id,
      (submissions depositSignature h < submissions depositSignature h')%nat ->
      createContractExecutionTransaction w h0 = Ok (Some id) ->
      exists tx, getTransaction w h' = Ok (Some tx) /\
                 isFailedState (state tx) = true /\
                 includes failedMarker (failedMessage id tx) = retried) ->
  let run := depositToGateway w walletId blockchain tokenAddress amount h in
  (exists m, fst run = Throw m) /\
  submissions approveSignature (snd run) = S (submissions approveSignature h) /\
  submissions depositSignature (snd run)
    = (submissions depositSignature h + (if retried then 3 else 1))%nat.
Proof.
  intros [cfg Hcfg] Hconfirmed Hfailed. cbn zeta.
  destruct (depositToGateway w walletId blockchain tokenAddress amount h) as [r hr] eqn:Hrun.
  cbn [fst snd]. unfold depositToGateway in Hrun. rewrite Hcfg in Hrun.
  unfold andThen at 1 in Hrun. unfold call at 1 in Hrun.
  destruct (wallets (GetWallet walletId :: h)) as (address & Hwallet & Haddress).
  rewrite Hwallet, Haddress in Hrun. unfold andThen at 1 in Hrun.
  destruct (getGatewayUsdcBalanceForDepositor_read (GatewayDomainConfig.domain cfg) address
              (GetWallet walletId :: h)) as (before & Hbefore).
  rewrite Hbefore in Hrun.
  set (hb := FetchGatewayBalances (GatewayDomainConfig.domain cfg) address
             :: GetWallet walletId :: h) in *.
  unfold andThen at 1 in Hrun. unfold approveWithRetries, maxRetries in Hrun.
  destruct (executeWithRetries_first_confirmed walletId blockchain tokenAddress
              approveSignature [GATEWAY_WALLET_ADDRESS; toString amount]
              "Failed to create approval transaction" 2 1 hb)
    as (approval & ha & Happroved & Happrovals & Hrest).
  { intros id. apply Hconfirmed. reflexivity. }
  rewrite Happroved in Hrun.
  unfold andThen at 1 in Hrun. unfold depositWithRetries, maxRetries in Hrun.
  destruct (executeWithRetries_failing walletId blockchain
              (GatewayDomainConfig.walletContractAddress cfg) depositSignature
              [tokenAddress; toString amount]
              "Failed to create deposit transaction" retried
              (submissions depositSignature h) 3 1 ha)
    as (m & h' & Hloop & Hcount & Hother).
  - reflexivity.
  - lia.
  - rewrite (Hrest depositSignature eq_refl). apply Nat.le_refl.
  - intros h' h0 id Hlater Hcreate. apply (Hfailed h' h0 id Hlater Hcreate).
  - rewrite Hloop in Hrun. injection Hrun as <- <-.
    split; [exists m; reflexivity|].
    split.
    + rewrite (Hother approveSignature eq_refl). exact Happrovals.
    + rewrite Hcount, (Hrest depositSignature eq_refl). reflexivity.
Qed.

End Failures.

Lemma marker_in_reason_of_failedMessage (id : string) (tx : CircleTransaction) :
  includes failedMarker (errorReason tx) = true ->
  includes failedMarker (failedMessage id tx) = true.
Proof.
  intros Hreason. unfold failedMessage.
  destruct (isEmpty (errorReason tx)) eqn:Hempty.
  { destruct (errorReason tx); [discriminate Hreason|discriminate Hempty]. }
  do 5 apply includes_append_r. exact Hreason.
Qed.

(** C9.  [depositToGateway] submits the approval and the deposit at most
    three times each, and what decides on a new attempt is the text of the
    error, not the state of the transaction: the handlers ask whether the
    message holds [state=FAILED].  In a world where the wallet, the balance,
    the prefund and the creation of transactions answer: an approval that
    always ends in the state FAILED is submitted three times, and one that
    ends in DENIED or CANCELLED is submitted once when neither the id of
    the transaction nor its error reason spells [state=FAILED]; but an
    approval that ends in DENIED or CANCELLED for a reason that spells
    [state=FAILED] is submitted three times as well, and so is such a
    deposit after an approval that was confirmed.  Every one of these runs
    throws. *)
Theorem depositToGateway_retries_by_the_text_of_the_error :
  forall (w : World) (walletId blockchain tokenAddress : string) (amount : Z)
         (h : list Call),
    is_Some (getDomainConfigByBlockchain blockchain) ->
    (forall h', exists address,
        getWallet w h' = Ok (Some address) /\ isEmpty address = false) ->
    (forall h', exists answer, fetchGatewayBalances w h' = Ok answer) ->
    (forall h', prefund w h' = Ok tt) ->
    (forall h', exists id,
        createContractExecutionTransaction w h' = Ok (Some id) /\ isEmpty id = false) ->
    let run := depositToGateway w walletId blockchain tokenAddress amount h in
    let approvals :=
      (submissions approveSignature (snd run) - submissions approveSignature h)%nat in
    let deposits :=
      (submissions depositSignature (snd run) - submissions depositSignature h)%nat in
    ((approvals <= 3)%nat /\ (deposits <= 3)%nat) /\
    ((forall h', exists tx, getTransaction w h' = Ok (Some tx) /\ state tx = "FAILED") ->
     approvals = 3%nat /\ deposits = 0%nat /\ exists m, fst run = Throw m) /\
    ((forall h' id, createContractExecutionTransaction w h' = Ok (Some id) ->
                    includes failedMarker id = false) ->
     (forall h', exists tx,
         getTransaction w h' = Ok (Some tx) /\
         (state tx = "DENIED" \/ state tx = "CANCELLED") /\
         includes failedMarker (errorReason tx) = false) ->
     approvals = 1%nat /\ deposits = 0%nat /\ exists m, fst run = Throw m) /\
    ((forall h', exists tx,
         getTransaction w h' = Ok (Some tx) /\
         (state tx = "DENIED" \/ state tx = "CANCELLED") /\
         includes failedMarker (errorReason tx) = true) ->
     approvals = 3%nat /\ deposits = 0%nat /\ exists m, fst run = Throw m) /\
    ((forall h', submissions depositSignature h' = submissions depositSignature h ->
                 exists tx, getTransaction w h' = Ok (Some tx) /\
                            isConfirmedState (state tx) = true) ->
     (forall h', (submissions depositSignature h < submissions depositSignature h')%nat ->
                 exists tx,
                   getTransaction w h' = Ok (Some tx) /\
                   (state tx = "DENIED" \/ state tx = "CANCELLED") /\
                   includes failedMarker (errorReason tx) = true) ->
     approvals = 1%nat /\ deposits = 3%nat /\ exists m, fst run = Throw m).
Proof.
  intros w walletId blockchain tokenAddress amount h Hcfg Hwallets Hbalances Hprefunds
         Hcreates.
  cbn zeta.
  assert (Hdenied : forall s, s = "DENIED" \/ s = "CANCELLED" -> isFailedState s = true)
    by (intros s [->| ->]; reflexivity).
  split; [|split; [|split; [|split]]].
  - pose proof (depositToGateway_submissions w walletId blockchain tokenAddress amount
                  approveSignature (or_introl eq_refl) h) as Ha.
    pose proof (depositToGateway_submissions w walletId blockchain tokenAddress amount
                  depositSignature (or_intror eq_refl) h) as Hd.
    split; lia.
  - intros Hpolls.
    destruct (depositToGateway_failing_approval w Hprefunds Hcreates Hwallets Hbalances
                walletId blockchain tokenAddress amount true h Hcfg)
      as (Hthrown & Ha & Hd).
    { intros h' h0 id _. destruct (Hpolls h') as (tx & Hanswer & Hstate).
      exists tx. split; [exact Hanswer|]. split; [rewrite Hstate; reflexivity|].
      apply marker_in_failed, Hstate. }
    rewrite Ha, Hd. split; [lia|]. split; [lia|exact Hthrown].
  - intros Hids Hpolls.
    destruct (depositToGateway_failing_approval w Hprefunds Hcreates Hwallets Hbalances
                walletId blockchain tokenAddress amount false h Hcfg)
      as (Hthrown & Ha & Hd).
    { intros h' h0 id Hcreate. destruct (Hpolls h') as (tx & Hanswer & Hstate & Hreason).
      exists tx. split; [exact Hanswer|]. split; [apply Hdenied, Hstate|].
      rewrite marker_in_failedMessage;
        [|apply Hdenied, Hstate|apply (Hids h0 id Hcreate)|exact Hreason].
      destruct Hstate as [-> | ->]; reflexivity. }
    rewrite Ha, Hd. split; [lia|]. split; [lia|exact Hthrown].
  - intros Hpolls.
    destruct (depositToGateway_failing_approval w Hprefunds Hcreates Hwallets Hbalances
                walletId blockchain tokenAddress amount true h Hcfg)
      as (Hthrown & Ha & Hd).
    { intros h' h0 id _. destruct (Hpolls h') as (tx & Hanswer & Hstate & Hreason).
      exists tx. split; [exact Hanswer|]. split; [apply Hdenied, Hstate|].
      apply marker_in_reason_of_failedMessage, Hreason. }
    rewrite Ha, Hd. split; [lia|]. split; [lia|exact Hthrown].
  - intros Hconfirmed Hpolls.
    destruct (depositToGateway_failing_deposit w Hprefunds Hcreates Hwallets Hbalances
                walletId blockchain tokenAddress amount true h Hcfg Hconfirmed)
      as (Hthrown & Ha & Hd).
    { intros h' h0 id Hlater _. destruct (Hpolls h' Hlater) as (tx & Hanswer & Hstate & Hreason).
      exists tx. split; [exact Hanswer|]. split; [apply Hdenied, Hstate|].
      apply marker_in_reason_of_failedMessage, Hreason. }
    rewrite Ha, Hd. split; [lia|]. split; [lia|exact Hthrown].
Qed.

Lemma thirdApprovalWorld_markerFree : markerFree thirdApprovalWorld.
Proof.
  split; [|split].
  - intros h id H. cbn [createContractExecutionTransaction thirdApprovalWorld] in H.
    injection H as <-.
    generalize (submissions approveSignature h + submissions depositSignature h)%nat.
    intros n. do 8 (destruct n as [|n]; [reflexivity|]). reflexivity.
  - intros h tx H. cbn in H. injection H as <-. reflexivity.
  - intros h m H. discriminate H.
Qed.

(** In a world where the first two approvals end in FAILED, the approval is
    submitted three times and the deposit once. *)
Example depositToGateway_third_approval :
  let run := depositToGateway thirdApprovalWorld "wallet-1" "ARC-TESTNET"
               ARC_TESTNET_USDC_ADDRESS 1000000 [] in
  fst run = Ok (Some "tx-4") /\
  submissions approveSignature (snd run) = 3%nat /\
  submissions depositSignature (snd run) = 1%nat.
Proof. vm_compute. repeat split. Qed.

(** A denied approval is thrown after one submission. *)
Example depositToGateway_denied :
  let run := depositToGateway deniedWorld "wallet-1" "ARC-TESTNET"
               ARC_TESTNET_USDC_ADDRESS 1000000 [] in
  fst run = Throw "Transaction tx-1 failed with state=DENIED reason=POLICY_VIOLATION" /\
  submissions approveSignature (snd run) = 1%nat /\
  submissions depositSignature (snd run) = 0%nat.
Proof. vm_compute. repeat split. Qed.

(** An approval that is denied for a reason that spells [state=FAILED] is
    submitted three times. *)
Example depositToGateway_denied_for_failure :
  let run := depositToGateway deniedForFailureWorld "wallet-1" "ARC-TESTNET"
               ARC_TESTNET_USDC_ADDRESS 1000000 [] in
  fst run
    = Throw "Transaction tx-3 failed with state=DENIED reason=simulation state=FAILED" /\
  submissions approveSignature (snd run) = 3%nat /\
  submissions depositSignature (snd run) = 0%nat.
Proof. vm_compute. repeat split. Qed.

Lemma depositToGateway_retries_by_the_text_of_the_error_witness :
  let run := depositToGateway deniedForFailureWorld "wallet-1" "ARC-TESTNET"
               ARC_TESTNET_USDC_ADDRESS 1000000 [] in
  (forall h', exists tx,
      getTransaction deniedForFailureWorld h' = Ok (Some tx) /\
      (state tx = "DENIED" \/ state tx = "CANCELLED") /\
      includes failedMarker (errorReason tx) = true) /\
  (submissions approveSignature (snd run) - submissions approveSignature [])%nat = 3%nat /\
  (submissions depositSignature (snd run) - submissions depositSignature [])%nat = 0%nat /\
  exists m, fst run = Throw m.
Proof.
  assert (Hpolls : forall h', exists tx,
             getTransaction deniedForFailureWorld h' = Ok (Some tx) /\
             (state tx = "DENIED" \/ state tx = "CANCELLED") /\
             includes failedMarker (errorReason tx) = true).
  { intros h'. eexists. split; [reflexivity|]. split; [left; reflexivity|].
    vm_compute. reflexivity. }
  split; [exact Hpolls|].
  refine (proj1 (proj2 (proj2 (proj2
            (depositToGateway_retries_by_the_text_of_the_error deniedForFailureWorld
               "wallet-1" "ARC-TESTNET" ARC_TESTNET_USDC_ADDRESS 1000000 [] _ _ _ _ _))))
            Hpolls).
  - eexists. vm_compute. reflexivity.
  - intros h'. eexists. split; reflexivity.
  - intros h'. eexists. reflexivity.
  - intros h'. reflexivity.
  - intros h'. cbn [deniedForFailureWorld createContractExecutionTransaction
                    thirdApprovalWorld].
    generalize (submissions approveSignature h' + submissions depositSignature h')%nat.
    intros n. do 8 (destruct n as [|n]; [eexists; split; reflexivity|]).
    eexists; split; reflexivity.
Defined.


(** * The gateway transfer route: what is deposited and what is burnt *)

Section Routes.
Import JS GatewayService GatewayRoutes.

(** *** The selection hands out what was asked for *)

Lemma selectLoop_conserves (bs : list TokenBalance) (selected : list SelectedToken)
    (remaining : Z) :
  0 <= remaining ->
  0 <= snd (selectLoop bs selected remaining) /\
  totalAmount (fst (selectLoop bs selected remaining)) + snd (selectLoop bs selected remaining)
    = totalAmount selected + remaining.
Proof.
  revert selected remaining.
  induction bs as [|b bs IH]; intros selected remaining Hr; cbn [selectLoop].
  - cbn [fst snd]. lia.
  - destruct (Z.leb_spec remaining 0); [cbn [fst snd]; lia|].
    destruct (Z.gtb_spec (amount b) 0); [|apply IH; exact Hr].
    destruct (Z.gtb_spec (amount b) remaining).
    + destruct (IH (selected ++ [withAmount b remaining]) (remaining - remaining))
        as [Hn He]; [lia|].
      split; [exact Hn|]. rewrite He, totalAmount_app. cbn. lia.
    + destruct (IH (selected ++ [withAmount b (amount b)]) (remaining - amount b))
        as [Hn He]; [lia|].
      split; [exact Hn|]. rewrite He, totalAmount_app. cbn. lia.
Qed.

Lemma selectTokensForTransfer_total (balances : list TokenBalance) (requestedAmount : Z)
    (selected : list SelectedToken) :
  0 <= requestedAmount ->
  selectTokensForTransfer balances requestedAmount = Ok selected ->
  totalAmount selected = requestedAmount.
Proof.
  intros Hr. unfold selectTokensForTransfer.
  destruct (selectLoop_conserves (sortBalances balances) [] requestedAmount Hr) as [Hn He].
  destruct (selectLoop (sortBalances balances) [] requestedAmount) as [chosen remaining].
  cbn [fst snd] in *.
  destruct (Z.gtb_spec remaining 0); [discriminate|].
  intros [= <-]. change (totalAmount []) with 0 in He. lia.
Qed.

Lemma sumZ_amounts (tokens : list SelectedToken) :
  sumZ (map amount tokens) = totalAmount tokens.
Proof.
  unfold sumZ, totalAmount.
  induction tokens as [|t tokens IH]; [reflexivity|].
  cbn [map fold_right]. rewrite IH. reflexivity.
Qed.

(** *** Histories *)

Lemma deposited_cons (c : Call) (h : list Call) :
  deposited (c :: h) = deposited h ++ depositedAmount c.
Proof. unfold deposited. cbn [rev]. rewrite flat_map_app. cbn. rewrite app_nil_r. reflexivity. Qed.

Lemma submitted_cons (c : Call) (h : list Call) :
  submitted (c :: h) = submitted h ++ submittedBy c.
Proof. unfold submitted. cbn [rev]. rewrite flat_map_app. cbn. rewrite app_nil_r. reflexivity. Qed.

(** *** The steps of the route *)

Variable getDomainConfig : string -> option GatewayDomainConfig.t.
Variable w : World.

Lemma createBurnIntentTypedData_amounts (burnIntent : BurnIntent.t) (typedData : TypedData.t) :
  createBurnIntentTypedData w burnIntent = Ok typedData ->
  BurnIntent.maxFee (TypedData.message typedData) = BurnIntent.maxFee burnIntent /\
  TransferSpec.value (BurnIntent.spec (TypedData.message typedData))
    = TransferSpec.value (BurnIntent.spec burnIntent).
Proof.
  unfold createBurnIntentTypedData.
  repeat match goal with
         | |- context [bind ?r _] => destruct r; cbn [bind]; [|discriminate]
         end.
  intros [= <-]. split; reflexivity.
Qed.

Lemma createBurnIntent_amounts
    (sourceBlockchain destinationBlockchain sourceToken destinationToken depositor
       recipient : string) (value maxFee : Z) (h h' : list Call) (burnIntent : BurnIntent.t) :
  createBurnIntent getDomainConfig w sourceBlockchain destinationBlockchain sourceToken
    destinationToken depositor recipient value maxFee h = (Ok burnIntent, h') ->
  h' = RandomBytes 32 :: h /\
  BurnIntent.maxFee burnIntent = maxFee /\
  TransferSpec.value (BurnIntent.spec burnIntent) = value.
Proof.
  unfold createBurnIntent.
  destruct (getDomainConfig sourceBlockchain); [|discriminate].
  destruct (getDomainConfig destinationBlockchain); [|discriminate].
  unfold andThen, call, ret.
  destruct (randomBytes w (RandomBytes 32 :: h)); [|discriminate].
  intros [= <- <-]. repeat split.
Qed.

Lemma depositSelected_deposits (selectedTokens : list SelectedToken) (h h' : list Call)
    (txIds : list string) :
  depositSelected w selectedTokens h = (Ok txIds, h') ->
  deposited h' = deposited h ++ map amount selectedTokens /\
  submitted h' = submitted h.
Proof.
  revert h h' txIds.
  induction selectedTokens as [|token rest IH]; intros h h' txIds; cbn [depositSelected].
  - intros [= _ <-]. cbn. rewrite app_nil_r. split; reflexivity.
  - unfold andThen at 1. unfold call at 1.
    destruct (depositToGateway w _) as [txId|]; [|discriminate].
    unfold andThen at 1.
    destruct (depositSelected w rest _) as [[ids|] h1] eqn:Hrest; [|discriminate].
    intros [= _ <-].
    destruct (IH _ _ _ Hrest) as [Hd Hs].
    rewrite Hd, Hs, deposited_cons, submitted_cons. cbn [depositedAmount submittedBy map].
    rewrite app_nil_r, <- app_assoc. split; reflexivity.
Qed.

Lemma signSelected_requests (destinationBlockchain destinationUsdc destinationAddress : string)
    (valueOf : SelectedToken -> Z) (maxFee : Z) (selectedTokens : list SelectedToken)
    (h h' : list Call) (requests : list BurnIntentRequest.t) :
  signSelected getDomainConfig w destinationBlockchain destinationUsdc destinationAddress
    valueOf maxFee selectedTokens h = (Ok requests, h') ->
  deposited h' = deposited h /\
  submitted h' = submitted h /\
  Forall2 (burns valueOf maxFee) selectedTokens (map BurnIntentRequest.burnIntent requests).
Proof.
  revert h h' requests.
  induction selectedTokens as [|token rest IH]; intros h h' requests; cbn [signSelected].
  - intros [= <- <-]. repeat split. constructor.
  - unfold andThen at 1. unfold call at 1.
    destruct (getWalletAddress w _) as [walletAddress|]; [|discriminate].
    unfold andThen at 1.
    destruct (createBurnIntent _ _ _ _ _ _ _ _ _ _ _) as [[burnIntent|] h1] eqn:Hintent;
      [|discriminate].
    apply createBurnIntent_amounts in Hintent as (-> & Hfee & Hvalue).
    unfold andThen at 1. unfold lift at 1.
    destruct (createBurnIntentTypedData w burnIntent) as [typedData|] eqn:Htyped;
      [|discriminate].
    apply createBurnIntentTypedData_amounts in Htyped as [Hfee' Hvalue'].
    unfold andThen at 1. unfold call at 1.
    destruct (signBurnIntent w _) as [signature|]; [|discriminate].
    unfold andThen at 1.
    destruct (signSelected _ _ _ _ _ _ _ _ _) as [[others|] h2] eqn:Hrest; [|discriminate].
    intros [= <- <-].
    destruct (IH _ _ _ Hrest) as (Hd & Hs & Hall).
    rewrite Hd, Hs, !deposited_cons, !submitted_cons. cbn [depositedAmount submittedBy].
    rewrite !app_nil_r. repeat split.
    cbn [map BurnIntentRequest.burnIntent]. constructor; [|exact Hall].
    split; congruence.
Qed.

Lemma transferSelected_amounts (req : TransferRequest.t)
    (destinationConfig : GatewayDomainConfig.t) (balances : list TokenBalance)
    (selectionAmount : Z) (valueOf : SelectedToken -> Z) (maxFee : Z)
    (h h' : list Call) (response : HttpResponse) :
  transferSelected getDomainConfig w req destinationConfig balances selectionAmount
    valueOf maxFee h = (Ok response, h') ->
  exists selected : list SelectedToken,
    selectTokensForTransfer balances selectionAmount = Ok selected /\
    deposited h' = deposited h ++ map amount selected /\
    exists burnIntents : list BurnIntent.t,
      submitted h' = submitted h ++ burnIntents /\
      Forall2 (burns valueOf maxFee) selected burnIntents.
Proof.
  unfold transferSelected.
  unfold andThen at 1. unfold lift at 1.
  destruct (selectTokensForTransfer balances selectionAmount) as [selected|]; [|discriminate].
  unfold andThen at 1.
  destruct (depositSelected w selected h) as [[txIds|] h1] eqn:Hdeposits; [|discriminate].
  apply depositSelected_deposits in Hdeposits as [Hd1 Hs1].
  unfold andThen at 1.
  destruct (signSelected _ _ _ _ _ _ _ _ _) as [[requests|] h2] eqn:Hsigned; [|discriminate].
  apply signSelected_requests in Hsigned as (Hd2 & Hs2 & Hall).
  unfold andThen at 1. unfold call at 1.
  destruct (submitBurnIntentsToGateway w _) as [attestations|]; [|discriminate].
  unfold andThen at 1. unfold call at 1.
  destruct (mintOnDestinationChain w _) as [mintTxHashes|]; [|discriminate].
  intros [= _ <-].
  exists selected. split; [reflexivity|].
  rewrite !deposited_cons, !submitted_cons. cbn [depositedAmount submittedBy].
  rewrite !app_nil_r, Hd2, Hd1, Hs2, Hs1.
  split; [reflexivity|].
  exists (map BurnIntentRequest.burnIntent requests). split; [reflexivity|exact Hall].
Qed.

End Routes.

(** The route answers every request. *)
Lemma transfer_responds (w : GatewayRoutes.World) (req : GatewayRoutes.TransferRequest.t)
    (h : list GatewayRoutes.Call) :
  (exists response, fst (GatewayRoutes.Reference.transfer w req h) = Ok response) /\
  (exists response, fst (GatewayRoutes.Earlier.transfer w req h) = Ok response).
Proof.
  unfold GatewayRoutes.Reference.transfer, GatewayRoutes.Earlier.transfer, tryCatch.
  split.
  - match goal with |- context [match ?b h with _ => _ end] => destruct (b h) as [[r|m] h1] end;
      eexists; reflexivity.
  - match goal with |- context [match ?b h with _ => _ end] => destruct (b h) as [[r|m] h1] end;
      eexists; reflexivity.
Qed.

(** The reference route: a transfer that is initiated selected and
    deposited the amount and the fee of a thousandth of it, and every burn
    intent it submitted has the amount as its value and the fee as its
    [maxFee]. *)
Lemma reference_transfer_amounts (w : GatewayRoutes.World)
    (req : GatewayRoutes.TransferRequest.t) (response : GatewayRoutes.HttpResponse)
    (history : list GatewayRoutes.Call) :
  GatewayRoutes.Reference.transfer w req [] = (Ok response, history) ->
  GatewayRoutes.status response = 200 ->
  exists (amountBigInt : Z) (selected : list GatewayService.SelectedToken)
         (balances : list GatewayService.TokenBalance),
    let fee := Z.quot amountBigInt 1000 in
    GatewayRoutes.amountToBaseUnits w (GatewayRoutes.TransferRequest.amount req)
      = Ok amountBigInt /\
    GatewayService.selectTokensForTransfer balances (amountBigInt + fee) = Ok selected /\
    GatewayRoutes.deposited history = map GatewayService.amount selected /\
    Forall2 (GatewayRoutes.burns (fun _ => amountBigInt) fee) selected
            (GatewayRoutes.submitted history) /\
    (0 <= amountBigInt ->
     GatewayRoutes.sumZ (GatewayRoutes.deposited history) = amountBigInt + fee).
Proof.
  unfold GatewayRoutes.Reference.transfer, tryCatch.
  match goal with
  | |- context [match ?b [] with _ => _ end] => destruct (b []) as [[r|m] h1] eqn:Hbody
  end; [|intros [= <- <-]; discriminate].
  intros [= <- <-] Hstatus. revert Hbody.
  unfold GatewayRoutes.respond, ret.
  destruct (GatewayRoutes.TransferRequest.userUuid req) as [userUuid|];
    [|intros [= <- _]; discriminate].
  destruct (JS.isEmpty userUuid); [intros [= <- _]; discriminate|].
  unfold andThen at 1. unfold call at 1.
  destruct (GatewayRoutes.getUserByUuid w _) as [user|]; [|discriminate].
  destruct (GatewayRoutes.walletSetOf user) as [walletSetId|];
    [|intros [= <- _]; discriminate].
  unfold andThen at 1. unfold lift at 1.
  destruct (GatewayRoutes.amountToBaseUnits w _) as [amountBigInt|]; [|discriminate].
  rewrite Z.mul_1_r.
  destruct (GatewayService.domainConfigOfKey _) as [destinationConfig|];
    [|intros [= <- _]; discriminate].
  destruct (GatewayRoutes.Reference.allowedBlockchainsOf _) as [allowedBlockchains|];
    [|intros [= <- _]; discriminate].
  unfold andThen at 1. unfold call at 1.
  destruct (GatewayRoutes.queryUserBalances w _) as [balances|]; [|discriminate].
  destruct (length balances =? 0)%nat; [intros [= <- _]; discriminate|].
  intros Hrun.
  apply transferSelected_amounts in Hrun
    as (selected & Hselected & Hdeposited & burnIntents & Hsubmitted & Hburns).
  exists amountBigInt, selected, balances. cbn zeta.
  split; [reflexivity|]. split; [exact Hselected|].
  rewrite Hdeposited, Hsubmitted.
  change (GatewayRoutes.deposited [_; _]) with (@nil Z).
  change (GatewayRoutes.submitted [_; _]) with (@nil GatewayRoutes.BurnIntent.t).
  cbn [app]. split; [reflexivity|]. split; [exact Hburns|].
  intros Hnonneg. rewrite sumZ_amounts.
  apply (selectTokensForTransfer_total balances); [|exact Hselected].
  pose proof (Z.quot_pos amountBigInt 1000). lia.
Qed.

(** C7 fails on the earlier version of the route: a transfer that it
    initiates selected and deposited the amount alone, without a fee; each
    burn intent it submitted has as its value what was drawn from its own
    wallet, and as its [maxFee] the amount and five thousandths of it, which
    is no less than the amount. *)
Theorem earlier_transfer_amounts (w : GatewayRoutes.World)
    (req : GatewayRoutes.TransferRequest.t) (response : GatewayRoutes.HttpResponse)
    (history : list GatewayRoutes.Call) :
  GatewayRoutes.Earlier.transfer w req [] = (Ok response, history) ->
  GatewayRoutes.status response = 200 ->
  exists (amountBigInt : Z) (selected : list GatewayService.SelectedToken)
         (balances : list GatewayService.TokenBalance),
    GatewayRoutes.amountToBaseUnits w (GatewayRoutes.TransferRequest.amount req)
      = Ok amountBigInt /\
    GatewayService.selectTokensForTransfer balances amountBigInt = Ok selected /\
    GatewayRoutes.deposited history = map GatewayService.amount selected /\
    Forall2 (GatewayRoutes.burns GatewayService.amount
               (amountBigInt + Z.quot (amountBigInt * 5) 1000))
            selected (GatewayRoutes.submitted history) /\
    (0 <= amountBigInt ->
     GatewayRoutes.sumZ (GatewayRoutes.deposited history) = amountBigInt /\
     amountBigInt <= amountBigInt + Z.quot (amountBigInt * 5) 1000).
Proof.
  unfold GatewayRoutes.Earlier.transfer, tryCatch.
  match goal with
  | |- context [match ?b [] with _ => _ end] => destruct (b []) as [[r|m] h1] eqn:Hbody
  end; [|intros [= <- <-]; discriminate].
  intros [= <- <-] Hstatus. revert Hbody.
  unfold GatewayRoutes.respond, ret.
  destruct (GatewayRoutes.TransferRequest.userUuid req) as [userUuid|];
    [|intros [= <- _]; discriminate].
  destruct (JS.isEmpty userUuid); [intros [= <- _]; discriminate|].
  unfold andThen at 1. unfold call at 1.
  destruct (GatewayRoutes.getUserByUuid w _) as [user|]; [|discriminate].
  destruct (GatewayRoutes.walletSetOf user) as [walletSetId|];
    [|intros [= <- _]; discriminate].
  unfold andThen at 1. unfold lift at 1.
  destruct (GatewayRoutes.amountToBaseUnits w _) as [amountBigInt|]; [|discriminate].
  destruct (GatewayRoutes.Earlier.domainConfigOfKey _) as [destinationConfig|];
    [|intros [= <- _]; discriminate].
  unfold andThen at 1. unfold call at 1.
  destruct (GatewayRoutes.queryUserBalances w _) as [balances|]; [|discriminate].
  destruct (length balances =? 0)%nat; [intros [= <- _]; discriminate|].
  intros Hrun.
  apply transferSelected_amounts in Hrun
    as (selected & Hselected & Hdeposited & burnIntents & Hsubmitted & Hburns).
  exists amountBigInt, selected, balances.
  split; [reflexivity|]. split; [exact Hselected|].
  rewrite Hdeposited, Hsubmitted.
  change (GatewayRoutes.deposited [_; _]) with (@nil Z).
  change (GatewayRoutes.submitted [_; _]) with (@nil GatewayRoutes.BurnIntent.t).
  cbn [app]. split; [reflexivity|]. split; [exact Hburns|].
  intros Hnonneg. rewrite sumZ_amounts.
  split; [apply (selectTokensForTransfer_total balances); assumption|].
  pose proof (Z.quot_pos (amountBigInt * 5) 1000). lia.
Qed.

(** A request for 1 USDC.  From one wallet the reference route deposits
    1.001 USDC and burns 1 USDC with a [maxFee] of 0.001 USDC; the earlier
    route deposits 1 USDC and burns 1 USDC with a [maxFee] of 1.005 USDC.
    From wallets of 0.7 and 0.5 USDC the reference route deposits 0.7 and
    0.301 USDC and has two burn intents of 1 USDC each; the earlier route
    deposits 0.7 and 0.3 USDC and burns as much from each. *)
Example transfer_scenarios :
  let reference w := snd (GatewayRoutes.Reference.transfer w GatewayRoutes.oneUsdc []) in
  let earlier w := snd (GatewayRoutes.Earlier.transfer w GatewayRoutes.oneUsdc []) in
  GatewayRoutes.deposited (reference GatewayRoutes.servingWorld) = [1001000]
  /\ map GatewayRoutes.valueAndMaxFee
       (GatewayRoutes.submitted (reference GatewayRoutes.servingWorld)) = [(1000000, 1000)]
  /\ GatewayRoutes.deposited (earlier GatewayRoutes.servingWorld) = [1000000]
  /\ map GatewayRoutes.valueAndMaxFee
       (GatewayRoutes.submitted (earlier GatewayRoutes.servingWorld)) = [(1000000, 1005000)]
  /\ GatewayRoutes.deposited (reference GatewayRoutes.twoWalletWorld) = [700000; 301000]
  /\ map GatewayRoutes.valueAndMaxFee
       (GatewayRoutes.submitted (reference GatewayRoutes.twoWalletWorld))
     = [(1000000, 1000); (1000000, 1000)]
  /\ GatewayRoutes.deposited (earlier GatewayRoutes.twoWalletWorld) = [700000; 300000]
  /\ map GatewayRoutes.valueAndMaxFee
       (GatewayRoutes.submitted (earlier GatewayRoutes.twoWalletWorld))
     = [(700000, 1005000); (300000, 1005000)].
Proof. vm_compute. repeat split. Qed.

Lemma earlier_transfer_amounts_witness :
  exists (response : GatewayRoutes.HttpResponse) (history : list GatewayRoutes.Call),
    GatewayRoutes.Earlier.transfer GatewayRoutes.servingWorld GatewayRoutes.oneUsdc []
      = (Ok response, history)
    /\ GatewayRoutes.status response = 200
    /\ GatewayRoutes.deposited history = [1000000]
    /\ map GatewayRoutes.valueAndMaxFee (GatewayRoutes.submitted history)
       = [(1000000, 1005000)]
    /\ exists (amountBigInt : Z) (selected : list GatewayService.SelectedToken)
              (balances : list GatewayService.TokenBalance),
         GatewayRoutes.amountToBaseUnits GatewayRoutes.servingWorld
           (GatewayRoutes.TransferRequest.amount GatewayRoutes.oneUsdc) = Ok amountBigInt
         /\ GatewayService.selectTokensForTransfer balances amountBigInt = Ok selected
         /\ GatewayRoutes.deposited history = map GatewayService.amount selected
         /\ Forall2 (GatewayRoutes.burns GatewayService.amount
                       (amountBigInt + Z.quot (amountBigInt * 5) 1000))
                    selected (GatewayRoutes.submitted history)
         /\ (0 <= amountBigInt ->
             GatewayRoutes.sumZ (GatewayRoutes.deposited history) = amountBigInt /\
             amountBigInt <= amountBigInt + Z.quot (amountBigInt * 5) 1000).
Proof.
  eexists. eexists.
  split; [vm_compute; reflexivity|].
  split; [reflexivity|].
  split; [vm_compute; reflexivity|].
  split; [vm_compute; reflexivity|].
  eapply (earlier_transfer_amounts GatewayRoutes.servingWorld GatewayRoutes.oneUsdc).
  - vm_compute. reflexivity.
  - reflexivity.
Defined.

Lemma reference_transfer_amounts_witness :
  exists (response : GatewayRoutes.HttpResponse) (history : list GatewayRoutes.Call),
    GatewayRoutes.Reference.transfer GatewayRoutes.twoWalletWorld GatewayRoutes.oneUsdc []
      = (Ok response, history)
    /\ GatewayRoutes.status response = 200
    /\ GatewayRoutes.deposited history = [700000; 301000]
    /\ map GatewayRoutes.valueAndMaxFee (GatewayRoutes.submitted history)
       = [(1000000, 1000); (1000000, 1000)]
    /\ exists (amountBigInt : Z) (selected : list GatewayService.SelectedToken)
              (balances : list GatewayService.TokenBalance),
         let fee := Z.quot amountBigInt 1000 in
         GatewayRoutes.amountToBaseUnits GatewayRoutes.twoWalletWorld
           (GatewayRoutes.TransferRequest.amount GatewayRoutes.oneUsdc) = Ok amountBigInt
         /\ GatewayService.selectTokensForTransfer balances (amountBigInt + fee) = Ok selected
         /\ GatewayRoutes.deposited history = map GatewayService.amount selected
         /\ Forall2 (GatewayRoutes.burns (fun _ => amountBigInt) fee) selected
                    (GatewayRoutes.submitted history)
         /\ (0 <= amountBigInt ->
             GatewayRoutes.sumZ (GatewayRoutes.deposited history) = amountBigInt + fee).
Proof.
  eexists. eexists.
  split; [vm_compute; reflexivity|].
  split; [reflexivity|].
  split; [vm_compute; reflexivity|].
  split; [vm_compute; reflexivity|].
  eapply (reference_transfer_amounts GatewayRoutes.twoWalletWorld GatewayRoutes.oneUsdc).
  - vm_compute. reflexivity.
  - reflexivity.
Defined.


(** ** The nonce registry of the paywall proxy *)

Import JS PaywallProxy.

Lemma cleanupExpiredNonces_lookup (now : Z) (pending : gmap string PendingNonce)
    (key : string) (entry : PendingNonce) :
  cleanupExpiredNonces now pending !! key = Some entry <->
  pending !! key = Some entry /\ now < expiresAt entry.
Proof.
  unfold cleanupExpiredNonces. rewrite map_lookup_filter_Some. cbn. intuition lia.
Qed.

Lemma consumeNonce_true (endpoint : LoadedEndpoint) (nonce : string) (now : Z)
    (pending : gmap string PendingNonce) :
  fst (consumeNonce endpoint nonce now pending) = true <->
  exists entry, pending !! buildNonceKey endpoint nonce = Some entry /\ now < expiresAt entry.
Proof.
  unfold consumeNonce. cbn [fst]. rewrite bool_decide_eq_true. unfold is_Some.
  split; intros [entry H]; exists entry; apply cleanupExpiredNonces_lookup, H.
Qed.

Lemma consumeNonce_deletes (endpoint : LoadedEndpoint) (nonce : string) (now : Z)
    (pending : gmap string PendingNonce) :
  snd (consumeNonce endpoint nonce now pending) !! buildNonceKey endpoint nonce = None.
Proof. unfold consumeNonce. cbn [snd]. apply lookup_delete_eq. Qed.

Lemma consumeNonce_again (endpoint : LoadedEndpoint) (nonce : string) (now later : Z)
    (pending : gmap string PendingNonce) :
  fst (consumeNonce endpoint nonce later (snd (consumeNonce endpoint nonce now pending)))
  = false.
Proof.
  apply not_true_is_false. rewrite consumeNonce_true. intros (entry & H & _).
  rewrite consumeNonce_deletes in H. discriminate.
Qed.

Lemma issueNonce_lookup (endpoint : LoadedEndpoint) (generated : string) (now : Z)
    (pending : gmap string PendingNonce) :
  snd (issueNonce endpoint generated now pending) !! buildNonceKey endpoint generated
  = Some {| expiresAt := now + maxTimeoutSeconds endpoint |}.
Proof. unfold issueNonce. cbn [snd]. apply lookup_insert_eq. Qed.

(** C4.  [consumeNonce] returns true exactly when the map holds a record
    under the key of (method, route, nonce) that has not expired (its
    [expiresAt] is after now); it leaves no record under that key, and
    touches the others only by sweeping the expired ones; hence a second
    consumption fails whenever it comes, and a nonce issued once and consumed
    twice (the first time before it expires) gives true, then false. *)
Theorem consumeNonce_at_most_once :
  forall (endpoint : LoadedEndpoint) (nonce : string) (now : Z)
         (pending : gmap string PendingNonce),
    let key := buildNonceKey endpoint nonce in
    let consumed := consumeNonce endpoint nonce now pending in
    (fst consumed = true <->
       exists entry, pending !! key = Some entry /\ now < expiresAt entry)
    /\ snd consumed !! key = None
    /\ (forall other, other <> key ->
          snd consumed !! other = cleanupExpiredNonces now pending !! other)
    /\ (forall other entry, cleanupExpiredNonces now pending !! other = Some entry <->
          pending !! other = Some entry /\ now < expiresAt entry)
    /\ (forall later, fst (consumeNonce endpoint nonce later (snd consumed)) = false)
    /\ (forall issuedAt first second,
          let issued := issueNonce endpoint nonce issuedAt pending in
          validBefore (fst issued) = issuedAt + maxTimeoutSeconds endpoint /\
          (first < validBefore (fst issued) ->
           fst (consumeNonce endpoint nonce first (snd issued)) = true) /\
          fst (consumeNonce endpoint nonce second
                 (snd (consumeNonce endpoint nonce first (snd issued)))) = false).
Proof.
  intros endpoint nonce now pending key consumed.
  split; [apply consumeNonce_true|].
  split; [apply consumeNonce_deletes|].
  split; [intros other Hne; unfold consumed, consumeNonce; cbn [snd];
          apply lookup_delete_ne; intros E; apply Hne; symmetry; exact E|].
  split; [intros other entry; apply cleanupExpiredNonces_lookup|].
  split; [intros later; apply consumeNonce_again|].
  intros issuedAt first second issued.
  split; [reflexivity|]. split.
  - intros Hfresh. apply consumeNonce_true.
    exists {| expiresAt := issuedAt + maxTimeoutSeconds endpoint |}.
    split; [apply issueNonce_lookup | exact Hfresh].
  - apply consumeNonce_again.
Qed.

(** An offer issued at time 1000 for 300 seconds: consumed at 1299 it is
    accepted once; at 1300 it has expired. *)
Example consumeNonce_scenario :
  let endpoint := mkLoadedEndpoint "get" "/weather" "/weather" 300 in
  let issued := issueNonce endpoint "0x01" 1000 ∅ in
  let first := consumeNonce endpoint "0x01" 1299 (snd issued) in
  let second := consumeNonce endpoint "0x01" 1299 (snd first) in
  buildNonceKey endpoint "0x01" = "GET::/weather::0x01" /\
  fst first = true /\ fst second = false /\
  fst (consumeNonce endpoint "0x01" 1300 (snd issued)) = false.
Proof. vm_compute. repeat split. Qed.


(** * The payment header: encoding and decoding *)

Section Codec.
Import JS Eip3009.

Lemma recoveryId_spec (v : Z) : negb (v =? 27) && negb (v =? 28) = false <-> v = 27 \/ v = 28.
Proof. destruct (Z.eqb_spec v 27), (Z.eqb_spec v 28); cbn; intuition (congruence || lia). Qed.

(** A payload with all its fields, an [r], an [s] and a recovery id of 27
    or 28 is accepted as it is. *)
Lemma normalizeSignature_wellFormed (payload : EIP3009PaymentPayload.t) :
  wellFormed payload = true -> normalizeSignature payload = Some payload.
Proof.
  destruct payload as [version scheme network [from to value validAfter validBefore nonce
                                                 signature v r s]].
  unfold wellFormed, normalizeSignature.
  cbn [EIP3009PaymentPayload.x402Version EIP3009PaymentPayload.scheme
       EIP3009PaymentPayload.network EIP3009PaymentPayload.payload
       PayloadFields.from PayloadFields.to PayloadFields.value PayloadFields.nonce
       PayloadFields.signature PayloadFields.v PayloadFields.r PayloadFields.s
       PayloadFields.validAfter PayloadFields.validBefore].
  rewrite !andb_true_iff, !negb_true_iff.
  intros [[[[[[[[[Hversion Hscheme] Hnetwork] Hfrom] Hto] Hvalue] Hnonce] Hr] Hs] Hv].
  rewrite Hversion, Hscheme, Hnetwork, Hfrom, Hto, Hvalue, Hnonce, Hr, Hs.
  destruct v as [v|]; [|discriminate].
  assert (Hzero : missingNumber (Some v) = false).
  { cbn. apply orb_true_iff in Hv. destruct Hv as [E|E]; apply Z.eqb_eq in E; subst; reflexivity. }
  rewrite Hzero, andb_false_r.
  cbn [orb PayloadFields.v PayloadFields.r PayloadFields.s].
  rewrite Hr, Hs. cbn [orb].
  apply orb_true_iff in Hv.
  destruct Hv as [E|E]; rewrite E; cbn [negb andb]; [reflexivity|].
  rewrite andb_false_r. reflexivity.
Qed.

(** Whatever [normalizeSignature] returns has all its fields, an [r], an
    [s] and a recovery id of 27 or 28. *)
Lemma normalizeSignature_returns_wellFormed (payload normalized : EIP3009PaymentPayload.t) :
  normalizeSignature payload = Some normalized -> wellFormed normalized = true.
Proof.
  destruct payload as [version scheme network [from to value validAfter validBefore nonce
                                                 signature v r s]].
  unfold normalizeSignature.
  cbn [EIP3009PaymentPayload.x402Version EIP3009PaymentPayload.scheme
       EIP3009PaymentPayload.network EIP3009PaymentPayload.payload
       PayloadFields.from PayloadFields.to PayloadFields.value PayloadFields.nonce
       PayloadFields.signature PayloadFields.v PayloadFields.r PayloadFields.s
       PayloadFields.validAfter PayloadFields.validBefore].
  destruct (version =? 0) eqn:Hversion; [discriminate|].
  destruct (isEmpty scheme) eqn:Hscheme; [discriminate|].
  destruct (isEmpty network) eqn:Hnetwork; [discriminate|].
  destruct (isEmpty from) eqn:Hfrom; [discriminate|].
  destruct (isEmpty to) eqn:Hto; [discriminate|].
  destruct (isEmpty value) eqn:Hvalue; [discriminate|].
  destruct (isEmpty nonce) eqn:Hnonce; [discriminate|].
  cbn [orb].
  set (hex := stripHexPrefix (default "" signature)).
  assert (Hgiven : forall fields recoveryId,
             PayloadFields.from fields = from -> PayloadFields.to fields = to ->
             PayloadFields.value fields = value -> PayloadFields.nonce fields = nonce ->
             PayloadFields.v fields = Some recoveryId ->
             (if missing (PayloadFields.r fields) || missing (PayloadFields.s fields)
              then None
              else if negb (recoveryId =? 27) && negb (recoveryId =? 28) then None
                   else Some (EIP3009PaymentPayload.mk version scheme network fields))
             = Some normalized ->
             wellFormed normalized = true).
  { intros fields recoveryId Ef Et Ev En Eid.
    destruct (missing (PayloadFields.r fields)) eqn:Hr; [discriminate|].
    destruct (missing (PayloadFields.s fields)) eqn:Hs; [discriminate|].
    cbn [orb].
    destruct (negb (recoveryId =? 27) && negb (recoveryId =? 28)) eqn:Hid; [discriminate|].
    intros [= <-]. unfold wellFormed.
    cbn [EIP3009PaymentPayload.x402Version EIP3009PaymentPayload.scheme
         EIP3009PaymentPayload.network EIP3009PaymentPayload.payload].
    rewrite Ef, Et, Ev, En, Eid, Hversion, Hscheme, Hnetwork, Hfrom, Hto, Hvalue, Hnonce, Hr, Hs.
    cbn [negb andb].
    apply recoveryId_spec in Hid.
    destruct Hid as [-> | ->]; reflexivity. }
  destruct (negb (missing signature) && (missingNumber v || missing r || missing s)).
  - destruct (negb (String.length hex =? 130)%nat); [discriminate|].
    destruct (parseInt16 (slice 128 130 hex)) as [recoveryId|]; [|discriminate].
    apply (Hgiven (PayloadFields.mk from to value validAfter validBefore nonce signature
                     (Some recoveryId) (Some ("0x" +:+ slice 0 64 hex))
                     (Some ("0x" +:+ slice 64 128 hex))) recoveryId); reflexivity.
  - destruct v as [recoveryId|]; [|discriminate].
    apply (Hgiven (PayloadFields.mk from to value validAfter validBefore nonce signature
                     (Some recoveryId) r s) recoveryId); reflexivity.
Qed.

(** So a payload comes back as it was given exactly when it is such a
    payload. *)
Lemma normalizeSignature_identity (payload : EIP3009PaymentPayload.t) :
  normalizeSignature payload = Some payload <-> wellFormed payload = true.
Proof.
  split.
  - apply normalizeSignature_returns_wellFormed.
  - apply normalizeSignature_wellFormed.
Qed.

(** A decoded header is never a payload without [v], [r] and [s], whatever
    the platform. *)
Lemma decodePaymentHeader_wellFormed (js : Platform) (header : string)
    (payload : EIP3009PaymentPayload.t) :
  decodePaymentHeader js header = Some payload -> wellFormed payload = true.
Proof.
  unfold decodePaymentHeader.
  destruct (JSON_parse js (fromBase64 js header)) as [parsed|message]; [|discriminate].
  apply normalizeSignature_returns_wellFormed.
Qed.

Lemma decodePaymentHeader_roundTrips (js : Platform) (payload : EIP3009PaymentPayload.t) :
  roundTrips js payload ->
  decodePaymentHeader js (encodePaymentHeader js payload) = normalizeSignature payload.
Proof.
  unfold roundTrips, decodePaymentHeader, encodePaymentHeader.
  intros ->. reflexivity.
Qed.

End Codec.

(** The scenario's payloads on the example platform: the header of the
    payload with [v], [r], [s] decodes to that payload, the letter case of
    its addresses kept; the payload with the 65-byte signature comes back
    with [v], [r] and [s] added; a recovery id of 0 or 1 is refused. *)
Example decodePaymentHeader_scenarios :
  let js := ExamplePlatform.platform in
  Eip3009.decodePaymentHeader js (Eip3009.encodePaymentHeader js Scenario.payload)
    = Some Scenario.payload
  /\ Eip3009.PayloadFields.from (Eip3009.EIP3009PaymentPayload.payload Scenario.payload)
     = "0xf39Fd6e51aad88F6F4ce6aB8827279cffFb92266"
  /\ Eip3009.decodePaymentHeader js (Eip3009.encodePaymentHeader js Scenario.blobPayload)
     = Some Scenario.splitPayload
  /\ Eip3009.decodePaymentHeader js
       (Eip3009.encodePaymentHeader js (Scenario.payloadWith (Some 1))) = None
  /\ Eip3009.decodePaymentHeader js "bm90IGpzb24=" = None.
Proof. vm_compute. repeat split. Qed.

(** C6, as the specification words it, fails: the payload that carries its
    signature as one 65-byte text is no payload that [decodePaymentHeader]
    returns, on any platform; where the platform returns what it printed,
    its header decodes to the payload with [v], [r] and [s] added.  A
    payload with recovery id 0 decodes to nothing. *)
Lemma decodePaymentHeader_changes_signature_blob :
  (forall js : Eip3009.Platform,
      Eip3009.decodePaymentHeader js (Eip3009.encodePaymentHeader js Scenario.blobPayload)
      <> Some Scenario.blobPayload)
  /\ Eip3009.roundTrips ExamplePlatform.platform Scenario.blobPayload
  /\ Eip3009.decodePaymentHeader ExamplePlatform.platform
       (Eip3009.encodePaymentHeader ExamplePlatform.platform Scenario.blobPayload)
     = Some Scenario.splitPayload
  /\ Scenario.splitPayload <> Scenario.blobPayload
  /\ Eip3009.roundTrips ExamplePlatform.platform (Scenario.payloadWith (Some 0))
  /\ Eip3009.decodePaymentHeader ExamplePlatform.platform
       (Eip3009.encodePaymentHeader ExamplePlatform.platform (Scenario.payloadWith (Some 0)))
     = None.
Proof.
  split; [|vm_compute; repeat split; discriminate].
  intros js E. apply decodePaymentHeader_wellFormed in E. discriminate E.
Qed.

(** C6, amended: where the platform's JSON and base64 conversions return the
    payload they were given, [decodePaymentHeader (encodePaymentHeader
    payload)] is [normalizeSignature payload]; it is the original payload,
    every field as it was and the letter case of the addresses with them,
    exactly when the version is not 0, the scheme, network, from, to, value,
    nonce, [r] and [s] are present and not empty, and [v] is 27 or 28. *)
Theorem decodePaymentHeader_encodePaymentHeader (js : Eip3009.Platform)
    (payload : Eip3009.EIP3009PaymentPayload.t) :
  Eip3009.roundTrips js payload ->
  Eip3009.decodePaymentHeader js (Eip3009.encodePaymentHeader js payload)
    = Eip3009.normalizeSignature payload
  /\ (Eip3009.decodePaymentHeader js (Eip3009.encodePaymentHeader js payload) = Some payload
      <-> Eip3009.wellFormed payload = true).
Proof.
  intros Hjs.
  rewrite (decodePaymentHeader_roundTrips js payload Hjs).
  split; [reflexivity|].
  apply normalizeSignature_identity.
Qed.

Lemma decodePaymentHeader_encodePaymentHeader_witness :
  Eip3009.roundTrips ExamplePlatform.platform Scenario.payload
  /\ Eip3009.wellFormed Scenario.payload = true
  /\ Eip3009.decodePaymentHeader ExamplePlatform.platform
       (Eip3009.encodePaymentHeader ExamplePlatform.platform Scenario.payload)
     = Some Scenario.payload.
Proof.
  assert (Hjs : Eip3009.roundTrips ExamplePlatform.platform Scenario.payload)
    by (vm_compute; reflexivity).
  split; [exact Hjs|].
  split; [reflexivity|].
  apply (decodePaymentHeader_encodePaymentHeader ExamplePlatform.platform Scenario.payload Hjs).
  reflexivity.
Defined.


(** ** The facilitator: verification of a payment *)

Import JS Eip3009 FacilitatorCommon.

(** *** The validity window *)

Lemma checkSignerReplayWindow_window (viem : Viem) (w : World) (nowTs : Z)
    (auth : EIP3009Authorization.t) (sig : EIP3009Signature.t)
    (token name version : string) (chainId : Z) (h : list Call) :
  nowTs <= EIP3009Authorization.validAfter auth \/
  nowTs >= EIP3009Authorization.validBefore auth ->
  exists m, fst (checkSignerReplayWindow viem w nowTs auth sig token name version chainId h)
            = Throw m.
Proof.
  intros Hout. unfold checkSignerReplayWindow, andThen, call, raise, ret.
  destruct (verifyTransferAuthorization viem w auth sig token name version chainId h)
    as [[recovered|m] h1]; [|eauto].
  destruct (missing recovered || differs (default "" recovered) _); [eauto|].
  destruct (authorizationState w _) as [[|]|m]; [eauto| |eauto].
  destruct (Z.leb_spec nowTs (EIP3009Authorization.validAfter auth)); [eauto|].
  destruct (Z.geb_spec nowTs (EIP3009Authorization.validBefore auth)); [eauto|].
  lia.
Qed.

(** Inside the window, a signature of the payer that was not used yet is
    accepted: the window is the last check. *)
Lemma checkSignerReplayWindow_accepts (viem : Viem) (w : World) (nowTs : Z)
    (auth : EIP3009Authorization.t) (sig : EIP3009Signature.t)
    (token name version : string) (chainId : Z) (h h1 : list Call) (signer : string) :
  verifyTransferAuthorization viem w auth sig token name version chainId h
    = (Ok (Some signer), h1) ->
  isEmpty signer = false ->
  differs signer (EIP3009Authorization.from auth) = false ->
  authorizationState w
    (ReadAuthorizationState token (EIP3009Authorization.from auth)
       (EIP3009Authorization.nonce auth) :: h1) = Ok false ->
  fst (checkSignerReplayWindow viem w nowTs auth sig token name version chainId h) =
    if nowTs <=? EIP3009Authorization.validAfter auth then Throw "Authorization not yet valid"
    else if nowTs >=? EIP3009Authorization.validBefore auth then Throw "Authorization expired"
    else Ok (auth, sig).
Proof.
  intros Hrec Hne Hsame Hfresh.
  unfold checkSignerReplayWindow, andThen, call, raise, ret.
  rewrite Hrec. cbn [missing default from_option id]. rewrite Hne, Hsame. cbn [orb]. rewrite Hfresh.
  destruct (nowTs <=? _); [reflexivity|]. destruct (nowTs >=? _); reflexivity.
Qed.

Lemma Facilitator_verifyAuthorization_tail (cfg : Facilitator.Config) (viem : Viem)
    (w : World) (nowTs : Z) (payload : EIP3009PaymentPayload.t)
    (requirements : PaymentRequirements.t) :
  Facilitator.verifyAuthorization cfg viem w nowTs payload requirements =
    match Facilitator.fieldMismatch cfg payload requirements with
    | Some m => raise m
    | None =>
        checkSignerReplayWindow viem w nowTs (toAuthorization payload) (toSignature payload)
          (PaymentRequirements.token requirements)
          (Facilitator.USDC_NAME cfg) (Facilitator.USDC_VERSION cfg) Facilitator.arcTestnetId
    end.
Proof.
  unfold Facilitator.verifyAuthorization, Facilitator.fieldMismatch.
  repeat match goal with |- context [if ?c then _ else _] => destruct c; try reflexivity end.
Qed.

Lemma MultiNetwork_verifyAuthorization_tail (viem : Viem) (w : World) (nowTs : Z)
    (payload : EIP3009PaymentPayload.t) (requirements : PaymentRequirements.t)
    (context : MultiNetworkFacilitator.NetworkContext) :
  MultiNetworkFacilitator.verifyAuthorization viem w nowTs payload requirements context =
    match MultiNetworkFacilitator.fieldMismatch payload requirements with
    | Some m => raise m
    | None =>
        checkSignerReplayWindow viem w nowTs (toAuthorization payload) (toSignature payload)
          (PaymentRequirements.token requirements)
          (MultiNetworkFacilitator.usdcName (MultiNetworkFacilitator.chain context))
          (MultiNetworkFacilitator.usdcVersion (MultiNetworkFacilitator.chain context))
          (MultiNetworkFacilitator.chainId (MultiNetworkFacilitator.chain context))
    end.
Proof.
  unfold MultiNetworkFacilitator.verifyAuthorization, MultiNetworkFacilitator.fieldMismatch.
  repeat match goal with |- context [if ?c then _ else _] => destruct c; try reflexivity end.
Qed.

Lemma Facilitator_verifyAuthorization_window (cfg : Facilitator.Config) (viem : Viem)
    (w : World) (nowTs : Z) (payload : EIP3009PaymentPayload.t)
    (requirements : PaymentRequirements.t) (h : list Call) :
  nowTs <= PayloadFields.validAfter (EIP3009PaymentPayload.payload payload) \/
  nowTs >= PayloadFields.validBefore (EIP3009PaymentPayload.payload payload) ->
  exists m, fst (Facilitator.verifyAuthorization cfg viem w nowTs payload requirements h)
            = Throw m.
Proof.
  intros Hout. rewrite Facilitator_verifyAuthorization_tail.
  destruct (Facilitator.fieldMismatch cfg payload requirements) as [m|]; [exists m; reflexivity|].
  apply checkSignerReplayWindow_window. exact Hout.
Qed.

Lemma MultiNetwork_verifyAuthorization_window (viem : Viem) (w : World) (nowTs : Z)
    (payload : EIP3009PaymentPayload.t) (requirements : PaymentRequirements.t)
    (context : MultiNetworkFacilitator.NetworkContext) (h : list Call) :
  nowTs <= PayloadFields.validAfter (EIP3009PaymentPayload.payload payload) \/
  nowTs >= PayloadFields.validBefore (EIP3009PaymentPayload.payload payload) ->
  exists m, fst (MultiNetworkFacilitator.verifyAuthorization viem w nowTs payload
                   requirements context h) = Throw m.
Proof.
  intros Hout. rewrite MultiNetwork_verifyAuthorization_tail.
  destruct (MultiNetworkFacilitator.fieldMismatch payload requirements) as [m|];
    [exists m; reflexivity|].
  apply checkSignerReplayWindow_window. exact Hout.
Qed.

(** *** The answers of [/verify] *)

Lemma Facilitator_verify_answer (cfg : Facilitator.Config) (viem : Viem) (w : World)
    (nowTs issuedAt : Z) (reqBody : option VerifyRequestBody) (h : list Call) :
  fst (Facilitator.verify cfg viem w nowTs issuedAt reqBody h)
  = Ok (Facilitator.answer cfg viem w nowTs issuedAt reqBody h).
Proof.
  unfold Facilitator.verify, Facilitator.answer, tryCatch, andThen, lift, raise, ret.
  destruct reqBody as [body|]; [|reflexivity].
  destruct (paymentRequirements body) as [requirements|]; [|reflexivity].
  destruct (Facilitator.ensureRequirements cfg requirements) as [reqError|m]; [|reflexivity].
  destruct (negb (missing reqError)); [reflexivity|].
  destruct (paymentPayload body) as [payload|]; [|reflexivity].
  destruct (Facilitator.verifyAuthorization cfg viem w nowTs payload requirements h)
    as [[verified|m] h1]; reflexivity.
Qed.

Lemma MultiNetwork_verify_answer (networkContexts : MultiNetworkFacilitator.NetworkContexts)
    (viem : Viem) (w : World) (nowTs issuedAt : Z) (reqBody : option VerifyRequestBody)
    (h : list Call) :
  fst (MultiNetworkFacilitator.verify networkContexts viem w nowTs issuedAt reqBody h)
  = Ok (MultiNetworkFacilitator.answer networkContexts viem w nowTs issuedAt reqBody h).
Proof.
  unfold MultiNetworkFacilitator.verify, MultiNetworkFacilitator.answer, tryCatch, andThen, lift,
    raise, ret.
  destruct reqBody as [body|]; [|reflexivity].
  destruct (paymentRequirements body) as [requirements|]; [|reflexivity].
  destruct (MultiNetworkFacilitator.lookupContext networkContexts
              (PaymentRequirements.network requirements)) as [context| |];
    [|reflexivity|reflexivity].
  destruct (MultiNetworkFacilitator.ensureRequirements networkContexts requirements context)
    as [reqError|m]; [|reflexivity].
  destruct (negb (missing reqError)); [reflexivity|].
  destruct (paymentPayload body) as [payload|]; [|reflexivity].
  destruct (MultiNetworkFacilitator.verifyAuthorization viem w nowTs payload requirements
              context h) as [[verified|m] h1]; reflexivity.
Qed.

(** C1.  For every transfer authorization and every current time, payment
    verification rejects the authorization whenever the time is not after
    [validAfter] or not before [validBefore], the two bounds included,
    whatever the signature, the chain and the other fields are: in both
    servers [verifyAuthorization] throws, and [/verify] does not answer
    [valid: true]. *)
Theorem verifyAuthorization_rejects_outside_window :
  forall (viem : Viem) (w : World) (nowTs : Z) (payload : EIP3009PaymentPayload.t)
         (requirements : PaymentRequirements.t) (h : list Call),
    nowTs <= EIP3009Authorization.validAfter (toAuthorization payload) \/
    nowTs >= EIP3009Authorization.validBefore (toAuthorization payload) ->
    (forall cfg, exists m,
        fst (Facilitator.verifyAuthorization cfg viem w nowTs payload requirements h)
        = Throw m) /\
    (forall context, exists m,
        fst (MultiNetworkFacilitator.verifyAuthorization viem w nowTs payload requirements
               context h) = Throw m) /\
    (forall cfg issuedAt payer, exists r,
        fst (Facilitator.verify cfg viem w nowTs issuedAt
               (Some (mkVerifyRequestBody (Some payload) (Some requirements) payer)) h)
        = Ok r /\ valid (body r) <> Some true) /\
    (forall networkContexts issuedAt payer, exists r,
        fst (MultiNetworkFacilitator.verify networkContexts viem w nowTs issuedAt
               (Some (mkVerifyRequestBody (Some payload) (Some requirements) payer)) h)
        = Ok r /\ valid (body r) <> Some true).
Proof.
  intros viem w nowTs payload requirements h Hout.
  split; [intros cfg; apply Facilitator_verifyAuthorization_window; exact Hout|].
  split; [intros context; apply MultiNetwork_verifyAuthorization_window; exact Hout|].
  split.
  - intros cfg issuedAt payer. eexists. split; [apply Facilitator_verify_answer|].
    unfold Facilitator.answer. cbn [paymentRequirements paymentPayload].
    destruct (Facilitator.ensureRequirements cfg requirements) as [reqError|m];
      [|discriminate].
    destruct (negb (missing reqError)); [discriminate|].
    destruct (Facilitator_verifyAuthorization_window cfg viem w nowTs payload requirements h
                Hout) as [m ->]. discriminate.
  - intros networkContexts issuedAt payer. eexists.
    split; [apply MultiNetwork_verify_answer|].
    unfold MultiNetworkFacilitator.answer. cbn [paymentRequirements paymentPayload].
    destruct (MultiNetworkFacilitator.lookupContext networkContexts
                (PaymentRequirements.network requirements)) as [context| |];
      [|discriminate|discriminate].
    destruct (MultiNetworkFacilitator.ensureRequirements networkContexts requirements context)
      as [reqError|m]; [|discriminate].
    destruct (negb (missing reqError)); [discriminate|].
    destruct (MultiNetwork_verifyAuthorization_window viem w nowTs payload requirements
                context h Hout) as [m ->]. discriminate.
Qed.

(** *** The statuses of [/verify] *)






(** *** The requirements that [/verify] refuses *)










Section Recovery.
Variables (viem : Viem) (w : World).

Lemma recoverAddressFromDigest_high_s (digest : string) (sig : EIP3009Signature.t)
    (sv : Z) (h : list Call) :
  BigIntOf (EIP3009Signature.s sig) = Ok sv -> sv > secp256k1halfN ->
  recoverAddressFromDigest w digest sig h = (Ok None, h).
Proof.
  intros Hs Hhigh. unfold recoverAddressFromDigest, tryCatch, andThen, lift, ret.
  destruct (BigIntOf (EIP3009Signature.r sig)) as [rv|m]; [|reflexivity].
  rewrite Hs. destruct (Z.gtb_spec sv secp256k1halfN); [reflexivity|lia].
Qed.

Lemma recoverAddressFromDigest_unreadable_s (digest : string) (sig : EIP3009Signature.t)
    (m : string) (h : list Call) :
  BigIntOf (EIP3009Signature.s sig) = Throw m ->
  recoverAddressFromDigest w digest sig h = (Ok None, h).
Proof.
  intros Hs. unfold recoverAddressFromDigest, tryCatch, andThen, lift, ret.
  destruct (BigIntOf (EIP3009Signature.r sig)) as [rv|m']; [|reflexivity].
  rewrite Hs. reflexivity.
Qed.

Lemma recoverAddressFromDigest_recovers (digest : string) (sig : EIP3009Signature.t)
    (rv sv v : Z) (h : list Call) :
  BigIntOf (EIP3009Signature.r sig) = Ok rv ->
  BigIntOf (EIP3009Signature.s sig) = Ok sv ->
  EIP3009Signature.v sig = Some v ->
  rv <> 0 -> 0 < sv <= secp256k1halfN ->
  let fullSignature :=
    default "" (EIP3009Signature.r sig) +:+ drop 2 (default "" (EIP3009Signature.s sig))
    +:+ padStart2 (toStringHex v) in
  let h' := RecoverAddress digest fullSignature :: h in
  recoverAddressFromDigest w digest sig h =
    (match recoverAddress w h' with Ok a => Ok (Some a) | Throw _ => Ok None end, h').
Proof.
  intros Hr Hs Hv Hrv Hsv fullSignature h'.
  unfold recoverAddressFromDigest, tryCatch, andThen, lift, ret, call.
  rewrite Hr, Hs, Hv.
  destruct (Z.gtb_spec sv secp256k1halfN); [lia|].
  destruct (Z.eqb_spec rv 0); [contradiction|].
  destruct (Z.eqb_spec sv 0); [lia|]. cbn [orb].
  fold fullSignature. fold h'. destruct (recoverAddress w h'); reflexivity.
Qed.

Variables (auth : EIP3009Authorization.t) (sig : EIP3009Signature.t)
          (tokenAddress tokenName tokenVersion : string) (chainId : Z).

Lemma verifyTransferAuthorization_digest (h : list Call) :
  isRecoveryId (EIP3009Signature.v sig) = true ->
  verifyTransferAuthorization viem w auth sig tokenAddress tokenName tokenVersion chainId h =
    match transferAuthorizationDigest viem auth tokenAddress tokenName tokenVersion chainId with
    | Ok digest => recoverAddressFromDigest w digest sig h
    | Throw _ => (Ok None, h)
    end.
Proof.
  intros Hv. unfold verifyTransferAuthorization, transferAuthorizationDigest.
  rewrite Hv. cbn [negb]. unfold tryCatch at 1. unfold andThen, lift, ret, bind.
  destruct (BigInt (EIP3009Authorization.value auth)) as [value|m]; [|reflexivity].
  destruct (encodeAbiParameters viem _) as [encoded|m]; [|reflexivity].
  destruct (createDomainSeparator viem tokenAddress tokenName tokenVersion chainId)
    as [separator|m]; [|reflexivity].
  unfold recoverAddressFromDigest, tryCatch.
  match goal with |- context [andThen ?a ?b h] => destruct (andThen a b h) as [[x|m] h1] end;
    reflexivity.
Qed.

Lemma verifyTransferAuthorization_bad_v (h : list Call) :
  isRecoveryId (EIP3009Signature.v sig) = false ->
  verifyTransferAuthorization viem w auth sig tokenAddress tokenName tokenVersion chainId h
  = (Ok None, h).
Proof.
  intros Hv. unfold verifyTransferAuthorization, tryCatch, ret. rewrite Hv. reflexivity.
Qed.

Lemma verifyTransferAuthorization_high_s (sv : Z) (h : list Call) :
  BigIntOf (EIP3009Signature.s sig) = Ok sv -> sv > secp256k1halfN ->
  verifyTransferAuthorization viem w auth sig tokenAddress tokenName tokenVersion chainId h
  = (Ok None, h).
Proof.
  intros Hs Hhigh. destruct (isRecoveryId (EIP3009Signature.v sig)) eqn:Hv.
  - rewrite verifyTransferAuthorization_digest by exact Hv.
    destruct (transferAuthorizationDigest viem auth tokenAddress tokenName tokenVersion chainId);
      [|reflexivity].
    eapply recoverAddressFromDigest_high_s; eassumption.
  - apply verifyTransferAuthorization_bad_v, Hv.
Qed.

End Recovery.

Lemma secp256k1halfN_floor :
  2 * secp256k1halfN < secp256k1N /\ secp256k1N <= 2 * secp256k1halfN + 1.
Proof. vm_compute. split; [reflexivity|discriminate]. Qed.

(** C5.  The recovery of the signer returns null, and calls nothing (so it
    attempts no recovery), for every signature whose [v] is neither 27 nor 28
    and for every signature whose [s] is above half the order of the curve;
    when [v], [r] and [s] pass and viem recovers an address, that address is
    returned whatever the authorization says, also when it is not [from]: it
    is [verifyAuthorization], the caller, that compares it with [from] and
    throws the mismatch. *)
Theorem recovery_rejects_malleable_and_surfaces_mismatch :
  forall (viem : Viem) (w : World) (h : list Call),
    (forall auth sig tokenAddress tokenName tokenVersion chainId,
        isRecoveryId (EIP3009Signature.v sig) = false ->
        verifyTransferAuthorization viem w auth sig tokenAddress tokenName tokenVersion
          chainId h = (Ok None, h))
    /\
    (forall auth sig tokenAddress tokenName tokenVersion chainId sv,
        BigIntOf (EIP3009Signature.s sig) = Ok sv -> sv > secp256k1N / 2 ->
        verifyTransferAuthorization viem w auth sig tokenAddress tokenName tokenVersion
          chainId h = (Ok None, h) /\
        forall digest, recoverAddressFromDigest w digest sig h = (Ok None, h))
    /\
    (forall auth sig tokenAddress tokenName tokenVersion chainId digest rv sv v,
        EIP3009Signature.v sig = Some v -> v = 27 \/ v = 28 ->
        transferAuthorizationDigest viem auth tokenAddress tokenName tokenVersion chainId
          = Ok digest ->
        BigIntOf (EIP3009Signature.r sig) = Ok rv ->
        BigIntOf (EIP3009Signature.s sig) = Ok sv ->
        rv <> 0 -> 0 < sv <= secp256k1N / 2 ->
        let h' := RecoverAddress digest
                    (default "" (EIP3009Signature.r sig)
                     +:+ drop 2 (default "" (EIP3009Signature.s sig))
                     +:+ padStart2 (toStringHex v)) :: h in
        forall recovered, recoverAddress w h' = Ok recovered ->
          verifyTransferAuthorization viem w auth sig tokenAddress tokenName tokenVersion
            chainId h = (Ok (Some recovered), h'))
    /\
    (forall cfg nowTs payload requirements recovered h',
        Facilitator.fieldMismatch cfg payload requirements = None ->
        verifyTransferAuthorization viem w (toAuthorization payload) (toSignature payload)
          (PaymentRequirements.token requirements) (Facilitator.USDC_NAME cfg)
          (Facilitator.USDC_VERSION cfg) Facilitator.arcTestnetId h
          = (Ok (Some recovered), h') ->
        differs recovered (EIP3009Authorization.from (toAuthorization payload)) = true ->
        Facilitator.verifyAuthorization cfg viem w nowTs payload requirements h
          = (Throw "Invalid EIP-3009 signature", h'))
    /\
    (forall context nowTs payload requirements recovered h',
        MultiNetworkFacilitator.fieldMismatch payload requirements = None ->
        verifyTransferAuthorization viem w (toAuthorization payload) (toSignature payload)
          (PaymentRequirements.token requirements)
          (MultiNetworkFacilitator.usdcName (MultiNetworkFacilitator.chain context))
          (MultiNetworkFacilitator.usdcVersion (MultiNetworkFacilitator.chain context))
          (MultiNetworkFacilitator.chainId (MultiNetworkFacilitator.chain context)) h
          = (Ok (Some recovered), h') ->
        differs recovered (EIP3009Authorization.from (toAuthorization payload)) = true ->
        MultiNetworkFacilitator.verifyAuthorization viem w nowTs payload requirements context h
          = (Throw "Invalid EIP-3009 signature", h')).
Proof.
  intros viem w h. split; [|split; [|split; [|split]]].
  - intros. apply verifyTransferAuthorization_bad_v. assumption.
  - intros auth sig tokenAddress tokenName tokenVersion chainId sv Hs Hhigh.
    fold secp256k1halfN in Hhigh. split.
    + eapply verifyTransferAuthorization_high_s; eassumption.
    + intros digest. eapply recoverAddressFromDigest_high_s; eassumption.
  - intros auth sig tokenAddress tokenName tokenVersion chainId digest rv sv v
      Hv Hv27 Hdigest Hr Hs Hrv Hsv h' recovered Hrecovered.
    fold secp256k1halfN in Hsv.
    rewrite verifyTransferAuthorization_digest, Hdigest.
    + unfold h'. rewrite (recoverAddressFromDigest_recovers w digest sig rv sv v h)
        by assumption.
      fold h'. rewrite Hrecovered. reflexivity.
    + rewrite Hv. cbn [isRecoveryId]. destruct Hv27 as [-> | ->]; reflexivity.
  - intros cfg nowTs payload requirements recovered h' Hfields Hrecovered Hdiffers.
    rewrite Facilitator_verifyAuthorization_tail, Hfields.
    unfold checkSignerReplayWindow, andThen, raise. rewrite Hrecovered.
    cbn [default from_option id]. rewrite Hdiffers, orb_true_r. reflexivity.
  - intros context nowTs payload requirements recovered h' Hfields Hrecovered Hdiffers.
    rewrite MultiNetwork_verifyAuthorization_tail, Hfields.
    unfold checkSignerReplayWindow, andThen, raise. rewrite Hrecovered.
    cbn [default from_option id]. rewrite Hdiffers, orb_true_r. reflexivity.
Qed.

(** *** The scenarios of the specification *)

Import Scenario.

(** An authorization of the amount required, valid from a minute ago for
    five minutes from now and signed by the payer, is valid; at either end of
    its window it is not. *)
Example verify_scenarios :
  fst (Facilitator.verify config viem honestWorld now now request []) =
    Ok {| status := 200;
          body := ValidBody payer "1000000" token payee (now + 300) |} /\
  fst (MultiNetworkFacilitator.verify networkContexts viem honestWorld now now request []) =
    Ok {| status := 200;
          body := ValidBody payer "1000000" token payee (now + 300) |} /\
  fst (Facilitator.verifyAuthorization config viem honestWorld (now - 60) payload
         requirements []) = Throw "Authorization not yet valid" /\
  fst (Facilitator.verifyAuthorization config viem honestWorld (now + 300) payload
         requirements []) = Throw "Authorization expired" /\
  fst (Facilitator.verifyAuthorization config viem honestWorld (now + 299) payload
         requirements []) = Ok (toAuthorization payload, toSignature payload) /\
  fst (Facilitator.verifyAuthorization config viem forgedWorld now payload requirements [])
    = Throw "Invalid EIP-3009 signature" /\
  verifyTransferAuthorization viem forgedWorld (toAuthorization payload)
    (toSignature payload) token "USDC" "2" 5042002 [] =
    (Ok (Some stranger),
     [RecoverAddress
        (default "" (Result_value (transferAuthorizationDigest viem (toAuthorization payload)
                                     token "USDC" "2" 5042002)))
        "0x1c6f5e2b0c3d4a59687766554433221100ffeeddccbbaa9988776655443322112a0f1e2d3c4b5a69788796a5b4c3d2e1f00112233445566778899aabbccddeef1b"]) /\
  verifyTransferAuthorization viem honestWorld (toAuthorization (payloadWith (Some 29)))
    (toSignature (payloadWith (Some 29))) token "USDC" "2" 5042002 [] = (Ok None, []).
Proof. vm_compute. repeat split. Qed.


Lemma verifyAuthorization_rejects_outside_window_witness :
  (now - 60 <= EIP3009Authorization.validAfter (toAuthorization payload) \/
   now - 60 >= EIP3009Authorization.validBefore (toAuthorization payload)) /\
  (forall cfg, exists m,
      fst (Facilitator.verifyAuthorization cfg viem honestWorld (now - 60) payload
             requirements []) = Throw m).
Proof.
  assert (H : now - 60 <= EIP3009Authorization.validAfter (toAuthorization payload) \/
              now - 60 >= EIP3009Authorization.validBefore (toAuthorization payload))
    by (left; vm_compute; discriminate).
  split; [exact H|].
  exact (proj1 (verifyAuthorization_rejects_outside_window viem honestWorld (now - 60)
                  payload requirements [] H)).
Defined.


(** * Waiting for transactions and for the Gateway balance *)

Section Waits.
Import JS GatewayService GatewayTrace.
Variable w : World.

Lemma polls_cons (id : string) (c : Call) (h : list Call) :
  polls id (c :: h) = ((if isPollOf id c then 1 else 0) + polls id h)%nat.
Proof. unfold polls. cbn [List.filter]. destruct (isPollOf id c); reflexivity. Qed.

Lemma slept_cons (c : Call) (h : list Call) : slept (c :: h) = sleepOf c + slept h.
Proof. reflexivity. Qed.

Lemma balanceFetches_cons (c : Call) (h : list Call) :
  balanceFetches (c :: h) = ((if isBalanceFetch c then 1 else 0) + balanceFetches h)%nat.
Proof. unfold balanceFetches. cbn [List.filter]. destruct (isBalanceFetch c); reflexivity. Qed.

Lemma isPollOf_same (id : string) : isPollOf id (GetTransaction id) = true.
Proof. apply String.eqb_refl. Qed.

Lemma pollTransaction_step (id : string) (ms : Z) (n : nat) (h : list Call) :
  pollTransaction w id ms (S n) h =
    let h1 := GetTransaction id :: h in
    let next := pollTransaction w id ms n (Sleep ms :: h1) in
    match getTransaction w h1 with
    | Ok (Some tx) =>
        if isEmpty (state tx) then next
        else if isConfirmedState (state tx) then (Ok tt, h1)
        else if isFailedState (state tx) then (Throw (failedMessage id tx), h1)
        else next
    | Ok None => next
    | Throw m => (Throw m, h1)
    end.
Proof.
  cbn [pollTransaction]. unfold andThen, call, sleep, ret, raise. cbn zeta.
  destruct (getTransaction w (GetTransaction id :: h)) as [[tx|]|m]; try reflexivity.
  destruct (isEmpty (state tx)); [reflexivity|].
  destruct (isConfirmedState (state tx)); [reflexivity|].
  destruct (isFailedState (state tx)); reflexivity.
Qed.

Lemma pollTransaction_bounded (id : string) (ms : Z) (n : nat) (h h' : list Call)
    (r : Result unit) :
  pollTransaction w id ms n h = (r, h') ->
  (polls id h' <= polls id h + n)%nat /\
  (0 <= ms -> slept h <= slept h' <= slept h + Z.of_nat n * ms) /\
  (r = Ok tt -> confirmedAt w id h').
Proof.
  revert h. induction n as [|n IH]; intros h.
  - cbn [pollTransaction]. unfold raise. intros [= <- <-].
    split; [lia|]. split; [lia|discriminate].
  - rewrite pollTransaction_step. cbn zeta.
    set (h1 := GetTransaction id :: h).
    assert (Hnext : pollTransaction w id ms n (Sleep ms :: h1) = (r, h') ->
                    (polls id h' <= polls id h + S n)%nat /\
                    (0 <= ms -> slept h <= slept h' <= slept h + Z.of_nat (S n) * ms) /\
                    (r = Ok tt -> confirmedAt w id h')).
    { intros Hrun. destruct (IH _ Hrun) as (Hp & Hs & Hc).
      unfold h1 in Hp, Hs. rewrite !polls_cons, isPollOf_same in Hp.
      rewrite !slept_cons in Hs. cbn [isPollOf sleepOf] in Hp, Hs.
      split; [lia|]. split; [intros Hms; specialize (Hs Hms); lia|exact Hc]. }
    assert (Hhere : (polls id h1 <= polls id h + S n)%nat /\
                    (0 <= ms -> slept h <= slept h1 <= slept h + Z.of_nat (S n) * ms)).
    { unfold h1. rewrite polls_cons, isPollOf_same, slept_cons. cbn [sleepOf].
      split; [lia|]. intros Hms. nia. }
    destruct (getTransaction w h1) as [[tx|]|m] eqn:Hanswer.
    + destruct (isEmpty (state tx)); [exact Hnext|].
      destruct (isConfirmedState (state tx)) eqn:Hstate.
      * intros [= <- <-]. split; [apply Hhere|]. split; [apply Hhere|].
        intros _. exists h, tx. repeat split; assumption.
      * destruct (isFailedState (state tx)); [|exact Hnext].
        intros [= <- <-]. split; [apply Hhere|]. split; [apply Hhere|discriminate].
    + exact Hnext.
    + intros [= <- <-]. split; [apply Hhere|]. split; [apply Hhere|discriminate].
Qed.

Lemma pendingAnswer_cases (answer : Result (option CircleTransaction)) :
  pendingAnswer answer ->
  answer = Ok None \/
  exists tx, answer = Ok (Some tx) /\
             (isEmpty (state tx) = true \/
              (isEmpty (state tx) = false /\ isConfirmedState (state tx) = false /\
               isFailedState (state tx) = false)).
Proof.
  intros [->|(tx & -> & Hc & Hf)]; [left; reflexivity|].
  right. exists tx. split; [reflexivity|].
  destruct (isEmpty (state tx)); [left; reflexivity|right; repeat split; assumption].
Qed.

Lemma pollTransaction_pending (id : string) (ms : Z) (n : nat) (h : list Call) :
  (forall h1, pendingAnswer (getTransaction w h1)) ->
  exists h', pollTransaction w id ms n h = (Throw (timeoutMessage id), h') /\
             polls id h' = (polls id h + n)%nat /\
             slept h' = slept h + Z.of_nat n * ms.
Proof.
  intros Hpending. revert h. induction n as [|n IH]; intros h.
  - exists h. cbn [pollTransaction]. unfold raise. repeat split; lia.
  - rewrite pollTransaction_step. cbn zeta.
    set (h1 := GetTransaction id :: h).
    assert (Hnext : exists h', pollTransaction w id ms n (Sleep ms :: h1)
                               = (Throw (timeoutMessage id), h') /\
                               polls id h' = (polls id h + S n)%nat /\
                               slept h' = slept h + Z.of_nat (S n) * ms).
    { destruct (IH (Sleep ms :: h1)) as (h' & Hr & Hp & Hs). exists h'.
      unfold h1 in Hp, Hs. rewrite !polls_cons, isPollOf_same in Hp.
      rewrite !slept_cons in Hs. cbn [isPollOf sleepOf] in Hp, Hs.
      split; [exact Hr|]. split; lia. }
    destruct (pendingAnswer_cases _ (Hpending h1))
      as [->|(tx & -> & [He|(He & Hc & Hf)])].
    + exact Hnext.
    + rewrite He. exact Hnext.
    + rewrite He, Hc, Hf. exact Hnext.
Qed.

(** *** The Gateway balance *)

Lemma getGatewayUsdcBalanceForDepositor_history (domain : Z) (depositor : string)
    (h : list Call) :
  snd (getGatewayUsdcBalanceForDepositor w domain depositor h)
  = FetchGatewayBalances domain depositor :: h.
Proof.
  unfold getGatewayUsdcBalanceForDepositor, andThen, call, ret, lift.
  destruct (fetchGatewayBalances w _) as [[|balance]|m]; reflexivity.
Qed.

Lemma pollGatewayBalance_step (domain : Z) (depositor : string) (delta start ms : Z)
    (n : nat) (h : list Call) :
  pollGatewayBalance w domain depositor delta start ms (S n) h =
    let h1 := FetchGatewayBalances domain depositor :: Sleep ms :: h in
    match fst (getGatewayUsdcBalanceForDepositor w domain depositor (Sleep ms :: h)) with
    | Ok balance =>
        if balance >=? start + delta then (Ok tt, h1)
        else pollGatewayBalance w domain depositor delta start ms n h1
    | Throw m => (Throw m, h1)
    end.
Proof.
  cbn [pollGatewayBalance]. unfold andThen at 1. unfold sleep at 1. unfold call at 1.
  unfold andThen at 1. cbn zeta.
  pose proof (getGatewayUsdcBalanceForDepositor_history domain depositor (Sleep ms :: h)) as Hh.
  destruct (getGatewayUsdcBalanceForDepositor w domain depositor (Sleep ms :: h))
    as [[balance|m] h2]; cbn [fst snd] in *; subst h2; [|reflexivity].
  destruct (balance >=? start + delta); reflexivity.
Qed.

Lemma pollGatewayBalance_bounded (domain : Z) (depositor : string) (delta start ms : Z)
    (n : nat) (h h' : list Call) (r : Result unit) :
  pollGatewayBalance w domain depositor delta start ms n h = (r, h') ->
  (balanceFetches h <= balanceFetches h' <= balanceFetches h + n)%nat /\
  slept h' = slept h + Z.of_nat (balanceFetches h' - balanceFetches h) * ms /\
  (r = Ok tt ->
   (balanceFetches h < balanceFetches h')%nat /\
   exists balance, start + delta <= balance /\ balanceReadAt w domain depositor balance h').
Proof.
  revert h. induction n as [|n IH]; intros h.
  - cbn [pollGatewayBalance]. unfold raise. intros [= <- <-].
    split; [lia|]. split; [rewrite Nat.sub_diag; lia|discriminate].
  - rewrite pollGatewayBalance_step. cbn zeta.
    set (h1 := FetchGatewayBalances domain depositor :: Sleep ms :: h).
    assert (Hcount : balanceFetches h1 = S (balanceFetches h)).
    { unfold h1. rewrite !balanceFetches_cons. reflexivity. }
    assert (Hslept : slept h1 = slept h + ms).
    { unfold h1. rewrite !slept_cons. cbn [sleepOf]. lia. }
    assert (Hhere : (balanceFetches h <= balanceFetches h1 <= balanceFetches h + S n)%nat /\
                    slept h1 = slept h + Z.of_nat (balanceFetches h1 - balanceFetches h) * ms).
    { rewrite Hcount, Hslept.
      replace (S (balanceFetches h) - balanceFetches h)%nat with 1%nat by lia. lia. }
    destruct (fst (getGatewayUsdcBalanceForDepositor w domain depositor (Sleep ms :: h)))
      as [balance|m] eqn:Hread.
    + destruct (Z.geb_spec balance (start + delta)) as [Hge|Hlt].
      * intros [= <- <-]. split; [apply Hhere|]. split; [apply Hhere|].
        intros _. split; [lia|]. exists balance. split; [lia|]. exists (Sleep ms :: h).
        split; [reflexivity|].
        rewrite (surjective_pairing (getGatewayUsdcBalanceForDepositor _ _ _ _)).
        rewrite Hread, getGatewayUsdcBalanceForDepositor_history. reflexivity.
      * intros Hrun. destruct (IH _ Hrun) as (Hf & Hs & Hok).
        rewrite Hcount in Hf, Hs. rewrite Hslept in Hs.
        split; [lia|]. split.
        -- rewrite Hs.
           replace (Z.of_nat (balanceFetches h' - balanceFetches h))
             with (1 + Z.of_nat (balanceFetches h' - S (balanceFetches h))) by lia.
           lia.
        -- intros Hr. destruct (Hok Hr) as [Hlt' Hread']. split; [lia|exact Hread'].
    + intros [= <- <-]. split; [apply Hhere|]. split; [apply Hhere|discriminate].
Qed.

Lemma pollGatewayBalance_below (domain : Z) (depositor : string) (delta start ms : Z)
    (n : nat) (h : list Call) :
  (forall h1, exists balance,
      fst (getGatewayUsdcBalanceForDepositor w domain depositor h1) = Ok balance /\
      balance < start + delta) ->
  exists h', pollGatewayBalance w domain depositor delta start ms n h
             = (Throw (balanceTimeoutMessage domain depositor), h') /\
             balanceFetches h' = (balanceFetches h + n)%nat /\
             slept h' = slept h + Z.of_nat n * ms.
Proof.
  intros Hbelow. revert h. induction n as [|n IH]; intros h.
  - exists h. cbn [pollGatewayBalance]. unfold raise. repeat split; lia.
  - rewrite pollGatewayBalance_step. cbn zeta.
    destruct (Hbelow (Sleep ms :: h)) as (balance & -> & Hlt).
    destruct (Z.geb_spec balance (start + delta)) as [Hge|_]; [lia|].
    destruct (IH (FetchGatewayBalances domain depositor :: Sleep ms :: h))
      as (h' & Hrun & Hfetches & Hslept).
    exists h'. split; [exact Hrun|].
    rewrite !balanceFetches_cons in Hfetches. rewrite !slept_cons in Hslept.
    cbn [isBalanceFetch sleepOf] in Hfetches, Hslept. split; lia.
Qed.

End Waits.

Section Deposits.
Import JS GatewayService GatewayTrace.
Variable w : World.

(** A loop that returns returns the id of a transaction it submitted and saw
    confirmed at its last poll. *)
Lemma executeWithRetries_confirmed (walletId blockchain contractAddress signature : string)
    (params : list string) (err : string) (left attempt : nat) (h h' : list Call)
    (r : option string) :
  (attempt + left = S maxRetries)%nat ->
  executeWithRetries w walletId blockchain contractAddress signature params err left attempt h
    = (Ok r, h') ->
  (left = 0%nat /\ r = None /\ h' = h) \/
  (exists id, r = Some id /\ isEmpty id = false /\ confirmedAt w id h' /\
              (submissions signature h < submissions signature h')%nat).
Proof.
  revert attempt h. induction left as [|left IH]; intros attempt h Hsync.
  - cbn [executeWithRetries]. unfold ret. intros [= <- <-]. left. repeat split.
  - cbn [executeWithRetries]. unfold andThen, call, tryCatch, raise, ret.
    set (h0 := Prefund walletId blockchain contractAddress signature params :: h).
    set (h1 := CreateContractExecutionTransaction walletId contractAddress signature params :: h0).
    assert (H1 : submissions signature h1 = S (submissions signature h)).
    { unfold submissions, h1, h0. cbn [List.filter isSubmission].
      rewrite String.eqb_refl. reflexivity. }
    destruct (prefund w h0); [|intros [=]].
    destruct (createContractExecutionTransaction w h1) as [[id|]|m];
      [|intros [=]|intros [=]].
    destruct (isEmpty id) eqn:Hid; [intros [=]|].
    rewrite waitForTransactionConfirmed_outcome.
    pose proof (pollTransaction_bounded w id 400 80 h1) as Hbound.
    rewrite pollTransaction_outcome in Hbound.
    pose proof (pollOutcome_submissions w signature id 400 80 h1) as Hsame.
    destruct (pollOutcome w id 400 80 h1) as [o h2]. cbn [fst snd] in *.
    destruct (outcomeResult id o) as [[]|m].
    + intros [= <- <-]. right. exists id.
      destruct (Hbound h2 (Ok tt) eq_refl) as (_ & _ & Hc).
      split; [reflexivity|]. split; [exact Hid|]. split; [apply Hc; reflexivity|]. lia.
    + destruct (negb (includes failedMarker m) || (attempt =? maxRetries)%nat) eqn:Hstop;
        [intros [=]|].
      apply orb_false_iff in Hstop as [_ Hattempt]. apply Nat.eqb_neq in Hattempt.
      intros Hrun. right.
      destruct (IH (S attempt) h2 ltac:(lia) Hrun)
        as [(-> & _)|(id' & -> & He & Hc & Hs)]; [lia|].
      exists id'. split; [reflexivity|]. split; [exact He|]. split; [exact Hc|]. lia.
Qed.

End Deposits.

(** [waitForTransactionConfirmed] polls the transaction at most
    [maxAttempts] times (80 when no option says otherwise) and sleeps no
    longer than [maxAttempts] intervals; it returns only at a poll that
    reported one of the states CONFIRMED, COMPLETE and CLEARED; as long as no
    poll reports a final state it polls [maxAttempts] times, sleeps as many
    intervals and throws that the transaction was not confirmed within the
    timeout window, which with [maxAttempts] 0 it does at once. *)
Theorem waitForTransactionConfirmed_polls_within_bound :
  forall (w : GatewayService.World) (transactionId : string)
         (options : option GatewayService.PollOptions) (h : list GatewayService.Call),
    let attempts := default 80%nat (options ≫= GatewayService.maxAttempts) in
    let interval := default 400 (options ≫= GatewayService.pollIntervalMs) in
    let run := GatewayService.waitForTransactionConfirmed w transactionId options h in
    (GatewayTrace.polls transactionId (snd run)
       <= GatewayTrace.polls transactionId h + attempts)%nat
    /\ (0 <= interval ->
        GatewayTrace.slept (snd run) <= GatewayTrace.slept h + Z.of_nat attempts * interval)
    /\ (fst run = Ok tt -> GatewayTrace.confirmedAt w transactionId (snd run))
    /\ ((forall h1, GatewayTrace.pendingAnswer (GatewayService.getTransaction w h1)) ->
        fst run = Throw (GatewayService.timeoutMessage transactionId)
        /\ GatewayTrace.polls transactionId (snd run)
           = (GatewayTrace.polls transactionId h + attempts)%nat
        /\ GatewayTrace.slept (snd run)
           = GatewayTrace.slept h + Z.of_nat attempts * interval).
Proof.
  intros w transactionId options h attempts interval run.
  unfold run, GatewayService.waitForTransactionConfirmed. fold attempts interval.
  destruct (GatewayService.pollTransaction w transactionId interval attempts h)
    as [r h'] eqn:Hrun.
  destruct (pollTransaction_bounded w _ _ _ _ _ _ Hrun) as (Hp & Hs & Hc).
  cbn [fst snd].
  split; [exact Hp|]. split; [intros Hi; apply Hs, Hi|]. split; [exact Hc|].
  intros Hpending.
  destruct (pollTransaction_pending w transactionId interval attempts h Hpending)
    as (h'' & Hrun' & Hp' & Hs').
  rewrite Hrun in Hrun'. injection Hrun' as -> <-. repeat split; assumption.
Qed.

(** Three polls of a transaction that stays queued, 100 ms apart. *)
Example waitForTransactionConfirmed_queued :
  let options := Some {| GatewayService.maxAttempts := Some 3%nat;
                         GatewayService.pollIntervalMs := Some 100 |} in
  GatewayService.waitForTransactionConfirmed GatewayTrace.pendingWorld "tx-9" options []
  = (Throw "Transaction tx-9 not confirmed within timeout window",
     [GatewayService.Sleep 100; GatewayService.GetTransaction "tx-9";
      GatewayService.Sleep 100; GatewayService.GetTransaction "tx-9";
      GatewayService.Sleep 100; GatewayService.GetTransaction "tx-9"]).
Proof. reflexivity. Qed.

(** [waitForGatewayBalanceIncrease] reads the Gateway balance at most
    [maxAttempts] times (60 when no option says otherwise) and sleeps one
    interval before each read, the first included; it returns only at a
    read that gave at least the starting balance plus the expected delta;
    as long as every read gives less it reads [maxAttempts] times, sleeps
    as many intervals and throws that the balance did not increase within
    the timeout, which with [maxAttempts] 0 it does at once. *)
Theorem waitForGatewayBalanceIncrease_reads_after_sleeping :
  forall (w : GatewayService.World) (domain : Z) (depositor : string)
         (expectedDelta startingBalance : Z) (options : option GatewayService.PollOptions)
         (h : list GatewayService.Call),
    let attempts := default 60%nat (options ≫= GatewayService.maxAttempts) in
    let interval := default 1000 (options ≫= GatewayService.pollIntervalMs) in
    let run := GatewayService.waitForGatewayBalanceIncrease w domain depositor expectedDelta
                 startingBalance options h in
    let reads := (GatewayTrace.balanceFetches (snd run) - GatewayTrace.balanceFetches h)%nat in
    (reads <= attempts)%nat
    /\ GatewayTrace.slept (snd run) = GatewayTrace.slept h + Z.of_nat reads * interval
    /\ (fst run = Ok tt ->
        (1 <= reads)%nat /\
        exists balance,
          startingBalance + expectedDelta <= balance /\
          GatewayTrace.balanceReadAt w domain depositor balance (snd run))
    /\ (attempts = 0%nat ->
        run = (Throw (GatewayService.balanceTimeoutMessage domain depositor), h))
    /\ ((forall h1, exists balance,
            fst (GatewayService.getGatewayUsdcBalanceForDepositor w domain depositor h1)
              = Ok balance /\
            balance < startingBalance + expectedDelta) ->
        fst run = Throw (GatewayService.balanceTimeoutMessage domain depositor)
        /\ reads = attempts
        /\ GatewayTrace.slept (snd run)
           = GatewayTrace.slept h + Z.of_nat attempts * interval).
Proof.
  intros w domain depositor expectedDelta startingBalance options h attempts interval run reads.
  unfold reads, run, GatewayService.waitForGatewayBalanceIncrease. fold attempts interval.
  destruct (GatewayService.pollGatewayBalance w domain depositor expectedDelta startingBalance
              interval attempts h) as [r h'] eqn:Hrun.
  destruct (pollGatewayBalance_bounded w _ _ _ _ _ _ _ _ _ Hrun) as (Hf & Hs & Hok).
  cbn [fst snd].
  split; [lia|]. split; [exact Hs|]. split; [|split].
  - intros Hr. destruct (Hok Hr) as (Hlt & balance & Hge & Hread).
    split; [lia|]. exists balance. split; assumption.
  - intros H0. revert Hrun. rewrite H0. cbn [GatewayService.pollGatewayBalance].
    unfold raise. intros [= <- <-]. reflexivity.
  - intros Hbelow.
    destruct (pollGatewayBalance_below w domain depositor expectedDelta startingBalance
                interval attempts h Hbelow) as (h'' & Hrun' & Hfetches & Hslept).
    rewrite Hrun in Hrun'. injection Hrun' as -> <-.
    split; [reflexivity|]. split; [lia|exact Hslept].
Qed.

(** Three reads of a balance that stays where it was, 100 ms apart. *)
Example waitForGatewayBalanceIncrease_unchanged :
  let options := Some {| GatewayService.maxAttempts := Some 3%nat;
                         GatewayService.pollIntervalMs := Some 100 |} in
  GatewayService.waitForGatewayBalanceIncrease GatewayService.thirdApprovalWorld 26 "0xd"
    1000000 1500000 options []
  = (Throw (GatewayService.balanceTimeoutMessage 26 "0xd"),
     [GatewayService.FetchGatewayBalances 26 "0xd"; GatewayService.Sleep 100;
      GatewayService.FetchGatewayBalances 26 "0xd"; GatewayService.Sleep 100;
      GatewayService.FetchGatewayBalances 26 "0xd"; GatewayService.Sleep 100]).
Proof. vm_compute. reflexivity. Qed.

Section DepositSteps.
Import JS GatewayService GatewayTrace.
Variable w : World.

(** [depositToGateway], step by step. *)
Lemma depositToGateway_steps (walletId blockchain tokenAddress : string) (amount : Z)
    (h h' : list Call) (r : Result (option string)) :
  depositToGateway w walletId blockchain tokenAddress amount h = (r, h') ->
  (submissions depositSignature h' <= submissions depositSignature h)%nat /\ (exists m, r = Throw m)
  \/
  exists domainConfig depositor before h2 approval,
    getDomainConfigByBlockchain blockchain = Some domainConfig /\
    let domain := GatewayDomainConfig.domain domainConfig in
    let h1 := FetchGatewayBalances domain depositor :: GetWallet walletId :: h in
    getGatewayUsdcBalanceForDepositor w domain depositor (GetWallet walletId :: h)
      = (Ok before, h1) /\
    approveWithRetries w walletId blockchain tokenAddress amount h1 = (Ok approval, h2) /\
    exists rd h3,
      depositWithRetries w walletId blockchain
        (GatewayDomainConfig.walletContractAddress domainConfig) tokenAddress amount h2
      = (rd, h3) /\
      match rd with
      | Throw m => r = Throw m /\ h' = h3
      | Ok lastDepositTxId =>
          exists rw,
            waitForGatewayBalanceIncrease w domain depositor amount before None h3 = (rw, h') /\
            match rw with
            | Ok _ => r = Ok lastDepositTxId
            | Throw m => r = Throw m
            end
      end.
Proof.
  unfold depositToGateway.
  destruct (getDomainConfigByBlockchain blockchain) as [domainConfig|].
  2:{ unfold raise. intros [= <- <-]. left. split; [lia|eauto]. }
  unfold andThen at 1. unfold call at 1.
  assert (Hsame : submissions depositSignature (GetWallet walletId :: h)
                  = submissions depositSignature h) by reflexivity.
  destruct (getWallet w (GetWallet walletId :: h)) as [[depositor|]|m].
  2:{ unfold raise. intros [= <- <-]. left. split; [lia|eauto]. }
  2:{ intros [= <- <-]. left. split; [lia|eauto]. }
  destruct (isEmpty depositor).
  { unfold raise. intros [= <- <-]. left. split; [lia|eauto]. }
  unfold andThen at 1.
  pose proof (getGatewayUsdcBalanceForDepositor_history w
                (GatewayDomainConfig.domain domainConfig) depositor (GetWallet walletId :: h))
    as Hh.
  destruct (getGatewayUsdcBalanceForDepositor w (GatewayDomainConfig.domain domainConfig)
              depositor (GetWallet walletId :: h)) as [[before|m] h1] eqn:Hbefore;
    cbn [snd] in Hh; subst h1.
  2:{ intros [= <- <-]. left. split; [|eauto]. unfold submissions.
      cbn [List.filter isSubmission]. lia. }
  set (h1 := FetchGatewayBalances (GatewayDomainConfig.domain domainConfig) depositor
               :: GetWallet walletId :: h).
  assert (H1 : submissions depositSignature h1 = submissions depositSignature h) by reflexivity.
  unfold andThen at 1.
  destruct (approveWithRetries w walletId blockchain tokenAddress amount h1)
    as [[approval|m] h2] eqn:Happrove.
  2:{ intros [= <- <-]. left. split; [|eauto].
      pose proof (executeWithRetries_submissions w depositSignature walletId blockchain
                    tokenAddress approveSignature [GATEWAY_WALLET_ADDRESS; toString amount]
                    "Failed to create approval transaction" maxRetries 1 h1) as Hs.
      unfold approveWithRetries in Happrove. rewrite Happrove in Hs.
      cbn [snd] in Hs. change (if String.eqb approveSignature depositSignature then maxRetries else 0%nat)
        with 0%nat in Hs.
      lia. }
  unfold andThen at 1.
  destruct (depositWithRetries w walletId blockchain
              (GatewayDomainConfig.walletContractAddress domainConfig) tokenAddress amount h2)
    as [[lastDepositTxId|m] h3] eqn:Hdeposit.
  - unfold andThen at 1.
    destruct (waitForGatewayBalanceIncrease w (GatewayDomainConfig.domain domainConfig)
                depositor amount before None h3) as [[[]|m] h4] eqn:Hwait.
    + unfold ret. intros [= <- <-]. right.
      exists domainConfig, depositor, before, h2, approval. cbn zeta.
      split; [reflexivity|]. split; [exact Hbefore|]. split; [exact Happrove|].
      exists (Ok lastDepositTxId), h3. split; [exact Hdeposit|].
      exists (Ok tt). split; [exact Hwait|reflexivity].
    + intros [= <- <-]. right.
      exists domainConfig, depositor, before, h2, approval. cbn zeta.
      split; [reflexivity|]. split; [exact Hbefore|]. split; [exact Happrove|].
      exists (Ok lastDepositTxId), h3. split; [exact Hdeposit|].
      exists (Throw m). split; [exact Hwait|reflexivity].
  - intros [= <- <-]. right.
    exists domainConfig, depositor, before, h2, approval. cbn zeta.
    split; [reflexivity|]. split; [exact Hbefore|]. split; [exact Happrove|].
    exists (Throw m), h3. split; [exact Hdeposit|]. split; reflexivity.
Qed.

Lemma approveWithRetries_confirmed (walletId blockchain tokenAddress : string) (amount : Z)
    (h h' : list Call) (approval : option string) :
  approveWithRetries w walletId blockchain tokenAddress amount h = (Ok approval, h') ->
  (submissions depositSignature h' <= submissions depositSignature h)%nat /\
  exists id, approval = Some id /\ isEmpty id = false /\ confirmedAt w id h'.
Proof.
  unfold approveWithRetries. intros Hrun.
  pose proof (executeWithRetries_submissions w depositSignature walletId blockchain
                tokenAddress approveSignature [GATEWAY_WALLET_ADDRESS; toString amount]
                "Failed to create approval transaction" maxRetries 1 h) as Hs.
  rewrite Hrun in Hs. cbn [snd] in Hs.
  change (if String.eqb approveSignature depositSignature then maxRetries else 0%nat)
        with 0%nat in Hs.
  split; [lia|].
  destruct (executeWithRetries_confirmed w _ _ _ _ _ _ maxRetries 1%nat _ _ _ eq_refl Hrun)
    as [(Habs & _)|(id & -> & He & Hc & _)]; [discriminate Habs|].
  exists id. repeat split; assumption.
Qed.

Lemma depositWithRetries_confirmed (walletId blockchain walletContract tokenAddress : string)
    (amount : Z) (h h' : list Call) (deposit : option string) :
  depositWithRetries w walletId blockchain walletContract tokenAddress amount h
    = (Ok deposit, h') ->
  exists id, deposit = Some id /\ isEmpty id = false /\ confirmedAt w id h'.
Proof.
  unfold depositWithRetries. intros Hrun.
  destruct (executeWithRetries_confirmed w _ _ _ _ _ _ maxRetries 1%nat _ _ _ eq_refl Hrun)
    as [(Habs & _)|(id & -> & He & Hc & _)]; [discriminate Habs|].
  exists id. repeat split; assumption.
Qed.

End DepositSteps.

(** [depositToGateway] submits no deposit before an approval was confirmed:
    when a run has submitted [deposit(address,uint256)], its approval loop
    had returned the id of an approval that its last poll saw in one of the
    states CONFIRMED, COMPLETE and CLEARED, and until then no deposit had
    been submitted. *)
Theorem depositToGateway_deposits_after_confirmed_approval :
  forall (w : GatewayService.World) (walletId blockchain tokenAddress : string) (amount : Z)
         (h : list GatewayService.Call),
    let run := GatewayService.depositToGateway w walletId blockchain tokenAddress amount h in
    (GatewayService.submissions GatewayService.depositSignature h
     < GatewayService.submissions GatewayService.depositSignature (snd run))%nat ->
    exists (domainConfig : GatewayService.GatewayDomainConfig.t) (depositor approvalId : string)
           (h2 : list GatewayService.Call),
      GatewayService.getDomainConfigByBlockchain blockchain = Some domainConfig /\
      GatewayService.approveWithRetries w walletId blockchain tokenAddress amount
        (GatewayService.FetchGatewayBalances
           (GatewayService.GatewayDomainConfig.domain domainConfig) depositor
         :: GatewayService.GetWallet walletId :: h)
      = (Ok (Some approvalId), h2) /\
      GatewayTrace.confirmedAt w approvalId h2 /\
      (GatewayService.submissions GatewayService.depositSignature h2
       <= GatewayService.submissions GatewayService.depositSignature h)%nat.
Proof.
  intros w walletId blockchain tokenAddress amount h run Hsubmitted.
  destruct run as [r h'] eqn:Hrun. unfold run in Hrun. cbn [snd] in Hsubmitted.
  destruct (depositToGateway_steps w _ _ _ _ _ _ _ Hrun)
    as [[Hnone _]|(domainConfig & depositor & before & h2 & approval & Hconfig & Hrest)];
    [lia|].
  cbn zeta in Hrest. destruct Hrest as (_ & Happrove & _).
  destruct (approveWithRetries_confirmed w _ _ _ _ _ _ _ Happrove)
    as (Hcount & id & -> & _ & Hconfirmed).
  exists domainConfig, depositor, id, h2.
  split; [exact Hconfig|]. split; [exact Happrove|]. split; [exact Hconfirmed|].
  cbn [GatewayService.submissions] in *. exact Hcount.
Qed.

(** [depositToGateway] returns only the id of a deposit that was confirmed,
    and only after a read of the Gateway balance that gave at least the
    balance read before the approval plus the amount deposited. *)
Theorem depositToGateway_returns_confirmed_and_credited :
  forall (w : GatewayService.World) (walletId blockchain tokenAddress : string) (amount : Z)
         (h h' : list GatewayService.Call) (lastDepositTxId : option string),
    GatewayService.depositToGateway w walletId blockchain tokenAddress amount h
      = (Ok lastDepositTxId, h') ->
    exists (domainConfig : GatewayService.GatewayDomainConfig.t) (depositor depositId : string)
           (before current : Z) (h3 : list GatewayService.Call),
      let domain := GatewayService.GatewayDomainConfig.domain domainConfig in
      GatewayService.getDomainConfigByBlockchain blockchain = Some domainConfig /\
      lastDepositTxId = Some depositId /\
      JS.isEmpty depositId = false /\
      GatewayTrace.confirmedAt w depositId h3 /\
      fst (GatewayService.getGatewayUsdcBalanceForDepositor w domain depositor
             (GatewayService.GetWallet walletId :: h)) = Ok before /\
      GatewayTrace.balanceReadAt w domain depositor current h' /\
      before + amount <= current.
Proof.
  intros w walletId blockchain tokenAddress amount h h' lastDepositTxId Hrun.
  destruct (depositToGateway_steps w _ _ _ _ _ _ _ Hrun)
    as [[_ [m Habs]]|(domainConfig & depositor & before & h2 & approval & Hconfig & Hrest)];
    [discriminate Habs|].
  cbn zeta in Hrest. destruct Hrest as (Hbefore & Happrove & rd & h3 & Hdeposit & Hrd).
  destruct rd as [deposit|m]; [|destruct Hrd as [Habs _]; discriminate Habs].
  destruct Hrd as (rw & Hwait & Hrw).
  destruct rw as [[]|m]; [|discriminate Hrw].
  injection Hrw as ->.
  destruct (depositWithRetries_confirmed w _ _ _ _ _ _ _ _ Hdeposit)
    as (id & -> & Hid & Hconfirmed).
  unfold GatewayService.waitForGatewayBalanceIncrease in Hwait.
  destruct (pollGatewayBalance_bounded w _ _ _ _ _ _ _ _ _ Hwait) as (_ & _ & Hok).
  destruct (Hok eq_refl) as (_ & current & Hge & Hread).
  exists domainConfig, depositor, id, before, current, h3. cbn zeta.
  split; [exact Hconfig|]. split; [reflexivity|]. split; [exact Hid|].
  split; [exact Hconfirmed|]. split; [rewrite Hbefore; reflexivity|].
  split; [exact Hread|lia].
Qed.

Lemma depositToGateway_deposits_after_confirmed_approval_witness :
  let run := GatewayService.depositToGateway GatewayService.thirdApprovalWorld "wallet-1"
               "ARC-TESTNET" GatewayService.ARC_TESTNET_USDC_ADDRESS 1000000 [] in
  (GatewayService.submissions GatewayService.depositSignature []
   < GatewayService.submissions GatewayService.depositSignature (snd run))%nat /\
  exists (domainConfig : GatewayService.GatewayDomainConfig.t) (depositor approvalId : string)
         (h2 : list GatewayService.Call),
    GatewayService.getDomainConfigByBlockchain "ARC-TESTNET" = Some domainConfig /\
    GatewayService.approveWithRetries GatewayService.thirdApprovalWorld "wallet-1"
      "ARC-TESTNET" GatewayService.ARC_TESTNET_USDC_ADDRESS 1000000
      [GatewayService.FetchGatewayBalances
         (GatewayService.GatewayDomainConfig.domain domainConfig) depositor;
       GatewayService.GetWallet "wallet-1"]
    = (Ok (Some approvalId), h2) /\
    GatewayTrace.confirmedAt GatewayService.thirdApprovalWorld approvalId h2 /\
    (GatewayService.submissions GatewayService.depositSignature h2
     <= GatewayService.submissions GatewayService.depositSignature [])%nat.
Proof.
  assert (Hsubmitted :
            (GatewayService.submissions GatewayService.depositSignature []
             < GatewayService.submissions GatewayService.depositSignature
                 (snd (GatewayService.depositToGateway GatewayService.thirdApprovalWorld
                         "wallet-1" "ARC-TESTNET" GatewayService.ARC_TESTNET_USDC_ADDRESS
                         1000000 [])))%nat).
  { vm_compute. constructor. }
  split; [exact Hsubmitted|].
  exact (depositToGateway_deposits_after_confirmed_approval GatewayService.thirdApprovalWorld
           "wallet-1" "ARC-TESTNET" GatewayService.ARC_TESTNET_USDC_ADDRESS 1000000 []
           Hsubmitted).
Defined.

Lemma depositToGateway_returns_confirmed_and_credited_witness :
  exists h' : list GatewayService.Call,
    GatewayService.depositToGateway GatewayService.thirdApprovalWorld "wallet-1"
      "ARC-TESTNET" GatewayService.ARC_TESTNET_USDC_ADDRESS 1000000 []
    = (Ok (Some "tx-4"), h') /\
    exists (domainConfig : GatewayService.GatewayDomainConfig.t) (depositor depositId : string)
           (before current : Z) (h3 : list GatewayService.Call),
      let domain := GatewayService.GatewayDomainConfig.domain domainConfig in
      GatewayService.getDomainConfigByBlockchain "ARC-TESTNET" = Some domainConfig /\
      Some "tx-4" = Some depositId /\
      JS.isEmpty depositId = false /\
      GatewayTrace.confirmedAt GatewayService.thirdApprovalWorld depositId h3 /\
      fst (GatewayService.getGatewayUsdcBalanceForDepositor GatewayService.thirdApprovalWorld
             domain depositor [GatewayService.GetWallet "wallet-1"]) = Ok before /\
      GatewayTrace.balanceReadAt GatewayService.thirdApprovalWorld domain depositor current h' /\
      before + 1000000 <= current.
Proof.
  eexists. split; [vm_compute; reflexivity|].
  eapply (depositToGateway_returns_confirmed_and_credited GatewayService.thirdApprovalWorld
            "wallet-1" "ARC-TESTNET" GatewayService.ARC_TESTNET_USDC_ADDRESS 1000000 []).
  vm_compute. reflexivity.
Defined.


(** * Payment payloads: what the client signs and what the servers read *)

Section SignatureTexts.
Import JS Eip3009 FacilitatorCommon Eip3009Client.

Lemma startsWith_0x (s : string) :
  startsWith "0x" s = true -> exists hex, s = String "0" (String "x" hex).
Proof.
  destruct s as [|a [|b hex]]; cbn [startsWith]; try discriminate.
  - rewrite andb_false_r. discriminate.
  - intros [Ha [Hb _]%andb_prop]%andb_prop.
    apply Ascii.eqb_eq in Ha, Hb. subst. exists hex. reflexivity.
Qed.

Lemma substring_drop (a n : nat) (s : string) : substring a n s = substring 0 n (drop a s).
Proof.
  revert s. induction a as [|a IH]; intros s; [reflexivity|].
  destruct s as [|c s]; [destruct n; reflexivity|]. cbn [substring drop]. apply IH.
Qed.

Lemma drop_drop (a b : nat) (s : string) : drop a (drop b s) = drop (b + a) s.
Proof.
  revert s. induction b as [|b IH]; intros s; [reflexivity|].
  destruct s as [|c s]; [destruct a; reflexivity|]. cbn [drop Nat.add]. apply IH.
Qed.

Lemma drop_all (n : nat) (s : string) : (String.length s <= n)%nat -> drop n s = EmptyString.
Proof.
  revert s. induction n as [|n IH]; intros [|c s] H; try reflexivity.
  - cbn in H. lia.
  - cbn [drop]. apply IH. cbn in H. lia.
Qed.

(** The three parts of a signature are the signature. *)
Lemma signature_parts (hex : string) :
  String.length hex = 130%nat ->
  slice 0 64 hex +:+ slice 64 128 hex +:+ slice 128 130 hex = hex.
Proof.
  intros Hlen. unfold slice. cbn [Nat.sub].
  rewrite (substring_drop 64), (substring_drop 128).
  change (128 - 64)%nat with 64%nat. change (130 - 128)%nat with 2%nat.
  rewrite <- (substring0_drop 64 hex) at 4.
  f_equal.
  rewrite <- (substring0_drop 64 (drop 64 hex)) at 2.
  f_equal. rewrite drop_drop. change (64 + 64)%nat with 128%nat.
  rewrite <- (substring0_drop 2 (drop 128 hex)) at 2.
  rewrite drop_drop, (drop_all (128 + 2)), append_nil_r by lia.
  reflexivity.
Qed.

Lemma splitSignature_0x (hex : string) :
  splitSignature (String "0" (String "x" hex))
  = {| EIP3009Signature.v := parseInt16 (slice 128 130 hex);
       EIP3009Signature.r := Some ("0x" +:+ slice 0 64 hex);
       EIP3009Signature.s := Some ("0x" +:+ slice 64 128 hex) |}.
Proof. reflexivity. Qed.

Lemma isSignatureText_hex (signature : string) :
  isSignatureText signature ->
  exists hex, signature = String "0" (String "x" hex) /\
              String.length hex = 130%nat /\
              (slice 128 130 hex = "1b" /\ parseInt16 (slice 128 130 hex) = Some 27 \/
               slice 128 130 hex = "1c" /\ parseInt16 (slice 128 130 hex) = Some 28).
Proof.
  intros (H0x & Hlen & Hid).
  destruct (startsWith_0x _ H0x) as [hex ->].
  exists hex. split; [reflexivity|]. split; [cbn in Hlen; lia|].
  change (slice 130 132 (String "0" (String "x" hex))) with (slice 128 130 hex) in Hid.
  destruct Hid as [E|E]; rewrite E; [left|right]; split; reflexivity.
Qed.

End SignatureTexts.

Section ClientPayloads.
Import JS Eip3009 FacilitatorCommon Eip3009Client.

Lemma signTransferAuthorization_signed (viem : Viem) (signer : Signer)
    (authorization : EIP3009Authorization.t) (tokenAddress tokenName tokenVersion : string)
    (chainId : Z) (privateKey : string) (h h' : list Call) (signature : EIP3009Signature.t) :
  signTransferAuthorization viem signer authorization tokenAddress tokenName tokenVersion
    chainId privateKey h = (Ok signature, h') ->
  exists typed text,
    h' = SignTypedData privateKey typed :: h /\
    signTypedData signer h' = Ok text /\
    signature = splitSignature text /\
    BigInt (EIP3009Authorization.value authorization) = Ok (messageValue typed) /\
    verifyingContract typed = tokenAddress /\ domainChainId typed = chainId.
Proof.
  unfold signTransferAuthorization, andThen, lift, call, ret.
  destruct (privateKeyToAccount signer privateKey); [|discriminate].
  destruct (BigInt (EIP3009Authorization.value authorization)) as [amount|]; [|discriminate].
  destruct (encodeAbiParameters viem _); [|discriminate].
  destruct (createDomainSeparator viem tokenAddress tokenName tokenVersion chainId);
    [|discriminate].
  match goal with
  | |- context [signTypedData signer (?c :: h)] =>
      destruct (signTypedData signer (c :: h)) as [text|] eqn:Hsigned; [|discriminate]
  end.
  intros [= <- <-]. eexists _, text.
  split; [reflexivity|]. split; [exact Hsigned|]. repeat split.
Qed.

Lemma normalizeSignature_carrying (text : string) (authorization : EIP3009Authorization.t)
    (network : string) :
  isSignatureText text ->
  isEmpty network = false ->
  isEmpty (EIP3009Authorization.from authorization) = false ->
  isEmpty (EIP3009Authorization.to authorization) = false ->
  isEmpty (EIP3009Authorization.value authorization) = false ->
  isEmpty (EIP3009Authorization.nonce authorization) = false ->
  exists normalized,
    normalizeSignature (carrying text authorization network) = Some normalized /\
    toSignature normalized = splitSignature text /\
    toAuthorization normalized = authorization /\
    PayloadFields.signature (EIP3009PaymentPayload.payload normalized) = Some text.
Proof.
  intros Htext Hnetwork Hfrom Hto Hvalue Hnonce.
  destruct (isSignatureText_hex _ Htext) as (hex & -> & Hlen & Hid).
  unfold normalizeSignature, carrying.
  cbn [EIP3009PaymentPayload.x402Version EIP3009PaymentPayload.scheme
       EIP3009PaymentPayload.network EIP3009PaymentPayload.payload
       PayloadFields.from PayloadFields.to PayloadFields.value PayloadFields.nonce
       PayloadFields.signature PayloadFields.v PayloadFields.r PayloadFields.s
       PayloadFields.validAfter PayloadFields.validBefore].
  rewrite Hnetwork, Hfrom, Hto, Hvalue, Hnonce.
  change (stripHexPrefix (default "" (Some (String "0" (String "x" hex))))) with hex.
  rewrite Hlen. cbn [Z.eqb isEmpty orb negb andb missing missingNumber Nat.eqb].
  rewrite splitSignature_0x.
  destruct authorization as [from to value validAfter validBefore nonce].
  destruct Hid as [[_ ->]|[_ ->]]; eexists; (split; [reflexivity|]); repeat split.
Qed.

End ClientPayloads.

(** A decoded header is a payload that decoding leaves as it is: to
    [normalizeSignature] it is a fixed point, and on a platform that returns
    it from its JSON and base64 conversions its header decodes to it
    again. *)
Theorem decodePaymentHeader_result_decodes_to_itself :
  forall (js : Eip3009.Platform) (header : string) (payload : Eip3009.EIP3009PaymentPayload.t),
    Eip3009.decodePaymentHeader js header = Some payload ->
    Eip3009.normalizeSignature payload = Some payload /\
    (Eip3009.roundTrips js payload ->
     Eip3009.decodePaymentHeader js (Eip3009.encodePaymentHeader js payload) = Some payload).
Proof.
  intros js header payload Hdecoded.
  pose proof (decodePaymentHeader_wellFormed js header payload Hdecoded) as Hwell.
  pose proof (normalizeSignature_wellFormed payload Hwell) as Hfixed.
  split; [exact Hfixed|].
  intros Hjs. rewrite (decodePaymentHeader_roundTrips js payload Hjs). exact Hfixed.
Qed.

Lemma decodePaymentHeader_result_decodes_to_itself_witness :
  let js := ExamplePlatform.platform in
  let header := Eip3009.encodePaymentHeader js Scenario.blobPayload in
  Eip3009.decodePaymentHeader js header = Some Scenario.splitPayload /\
  Eip3009.normalizeSignature Scenario.splitPayload = Some Scenario.splitPayload /\
  Eip3009.decodePaymentHeader js (Eip3009.encodePaymentHeader js Scenario.splitPayload)
  = Some Scenario.splitPayload.
Proof.
  assert (Hdecoded :
            Eip3009.decodePaymentHeader ExamplePlatform.platform
              (Eip3009.encodePaymentHeader ExamplePlatform.platform Scenario.blobPayload)
            = Some Scenario.splitPayload) by (vm_compute; reflexivity).
  destruct (decodePaymentHeader_result_decodes_to_itself ExamplePlatform.platform _ _ Hdecoded)
    as [Hfixed Hagain].
  split; [exact Hdecoded|]. split; [exact Hfixed|].
  apply Hagain. vm_compute. reflexivity.
Defined.

(** The two forms of a signed payload agree.  [createX402PaymentPayload]
    gives back the authorization it was given, with the signature of the
    signer cut into [r], [s] and [v]; when that signature is [0x] and 130
    digits ending in [1b] or [1c], and the authorization and the network
    have no empty field, the payload is accepted as it is, and the payload
    that carries the same signature as one text is normalized to the same
    authorization, [r], [s] and [v]. *)
Theorem createX402PaymentPayload_agrees_with_normalizeSignature :
  forall (viem : Eip3009.Viem) (signer : Eip3009Client.Signer)
         (authorization : Eip3009.EIP3009Authorization.t)
         (tokenAddress tokenName tokenVersion : string) (chainId : Z)
         (privateKey network : string) (h h' : list Eip3009Client.Call)
         (payload : Eip3009.EIP3009PaymentPayload.t),
    Eip3009Client.createX402PaymentPayload viem signer authorization tokenAddress tokenName
      tokenVersion chainId privateKey network h = (Ok payload, h') ->
    exists text : string,
      Eip3009Client.signTypedData signer h' = Ok text /\
      FacilitatorCommon.toAuthorization payload = authorization /\
      FacilitatorCommon.toSignature payload = Eip3009Client.splitSignature text /\
      (Eip3009Client.isSignatureText text ->
       JS.isEmpty network = false ->
       JS.isEmpty (Eip3009.EIP3009Authorization.from authorization) = false ->
       JS.isEmpty (Eip3009.EIP3009Authorization.to authorization) = false ->
       JS.isEmpty (Eip3009.EIP3009Authorization.value authorization) = false ->
       JS.isEmpty (Eip3009.EIP3009Authorization.nonce authorization) = false ->
       Eip3009.normalizeSignature payload = Some payload /\
       exists normalized,
         Eip3009.normalizeSignature (Eip3009Client.carrying text authorization network)
         = Some normalized /\
         FacilitatorCommon.toSignature normalized = FacilitatorCommon.toSignature payload /\
         FacilitatorCommon.toAuthorization normalized
         = FacilitatorCommon.toAuthorization payload).
Proof.
  intros viem signer authorization tokenAddress tokenName tokenVersion chainId privateKey
         network h h' payload.
  unfold Eip3009Client.createX402PaymentPayload. unfold andThen at 1.
  destruct (Eip3009Client.signTransferAuthorization viem signer authorization tokenAddress
              tokenName tokenVersion chainId privateKey h) as [[signature|m] h1] eqn:Hsign;
    [|discriminate].
  destruct (signTransferAuthorization_signed _ _ _ _ _ _ _ _ _ _ _ Hsign)
    as (typed & text & -> & Htext & -> & _).
  unfold ret. intros [= <- <-]. exists text.
  split; [exact Htext|].
  split; [destruct authorization; reflexivity|].
  split; [reflexivity|].
  intros Hsig Hnetwork Hfrom Hto Hvalue Hnonce.
  destruct (normalizeSignature_carrying text authorization network Hsig Hnetwork Hfrom Hto
              Hvalue Hnonce) as (normalized & Hnormalized & Hs & Ha & _).
  split.
  - apply normalizeSignature_wellFormed. unfold Eip3009.wellFormed.
    cbn [Eip3009.EIP3009PaymentPayload.x402Version Eip3009.EIP3009PaymentPayload.scheme
         Eip3009.EIP3009PaymentPayload.network Eip3009.EIP3009PaymentPayload.payload
         Eip3009.PayloadFields.from Eip3009.PayloadFields.to Eip3009.PayloadFields.value
         Eip3009.PayloadFields.nonce Eip3009.PayloadFields.v Eip3009.PayloadFields.r
         Eip3009.PayloadFields.s].
    rewrite Hnetwork, Hfrom, Hto, Hvalue, Hnonce.
    destruct (isSignatureText_hex _ Hsig) as (hex & -> & _ & Hid).
    change (JS.slice 130 132 (String "0" (String "x" hex))) with (JS.slice 128 130 hex).
    destruct Hid as [[_ ->]|[_ ->]]; reflexivity.
  - exists normalized. split; [exact Hnormalized|]. split; [exact Hs|].
    rewrite Ha. destruct authorization; reflexivity.
Qed.

Lemma createX402PaymentPayload_agrees_with_normalizeSignature_witness :
  let authorization := FacilitatorCommon.toAuthorization Scenario.payload in
  exists h' : list Eip3009Client.Call,
    Eip3009Client.createX402PaymentPayload Scenario.viem Eip3009Client.scenarioSigner
      authorization Scenario.token "USDC" "2" 5042002 "0xkey" "arc-testnet" []
    = (Ok Scenario.payload, h') /\
    exists text : string,
      Eip3009Client.signTypedData Eip3009Client.scenarioSigner h' = Ok text /\
      FacilitatorCommon.toAuthorization Scenario.payload = authorization /\
      FacilitatorCommon.toSignature Scenario.payload = Eip3009Client.splitSignature text /\
      (Eip3009Client.isSignatureText text ->
       JS.isEmpty "arc-testnet" = false ->
       JS.isEmpty (Eip3009.EIP3009Authorization.from authorization) = false ->
       JS.isEmpty (Eip3009.EIP3009Authorization.to authorization) = false ->
       JS.isEmpty (Eip3009.EIP3009Authorization.value authorization) = false ->
       JS.isEmpty (Eip3009.EIP3009Authorization.nonce authorization) = false ->
       Eip3009.normalizeSignature Scenario.payload = Some Scenario.payload /\
       exists normalized,
         Eip3009.normalizeSignature
           (Eip3009Client.carrying text authorization "arc-testnet") = Some normalized /\
         FacilitatorCommon.toSignature normalized
         = FacilitatorCommon.toSignature Scenario.payload /\
         FacilitatorCommon.toAuthorization normalized
         = FacilitatorCommon.toAuthorization Scenario.payload).
Proof.
  eexists. split; [vm_compute; reflexivity|].
  eapply (createX402PaymentPayload_agrees_with_normalizeSignature Scenario.viem
            Eip3009Client.scenarioSigner (FacilitatorCommon.toAuthorization Scenario.payload)
            Scenario.token "USDC" "2" 5042002 "0xkey" "arc-testnet" []).
  vm_compute. reflexivity.
Defined.

(** The signature of the scenario is a signature text, and the payload that
    carries it is normalized to the payload of the scenario, but for the
    text it keeps. *)
Example normalizeSignature_carrying_scenario :
  Eip3009Client.isSignatureText Scenario.signatureBlob /\
  Eip3009.normalizeSignature
    (Eip3009Client.carrying Scenario.signatureBlob
       (FacilitatorCommon.toAuthorization Scenario.payload) "arc-testnet")
  = Some Scenario.splitPayload.
Proof. split; [repeat split; left; reflexivity|vm_compute; reflexivity]. Qed.

(** The signature that [recoverAddressFromDigest] hands to viem's
    [recoverAddress] is the text the signer gave: put together again from
    the [r], [s] and [v] that [signTransferAuthorization] cut it into, a
    signature text is itself; and the recovery either calls viem with it or
    calls nothing and answers null. *)
Theorem recoverAddressFromDigest_recovers_from_the_signed_text :
  forall (w : Eip3009.World) (digest text : string) (h : list Eip3009.Call),
    Eip3009Client.isSignatureText text ->
    let run := Eip3009.recoverAddressFromDigest w digest
                 (Eip3009Client.splitSignature text) h in
    (run = (Ok None, h)) \/
    (snd run = Eip3009.RecoverAddress digest text :: h /\
     (forall signer, Eip3009.recoverAddress w (snd run) = Ok signer ->
                     fst run = Ok (Some signer))).
Proof.
  intros w digest text h Htext run. unfold run.
  destruct (isSignatureText_hex _ Htext) as (hex & -> & Hlen & Hid).
  rewrite splitSignature_0x.
  unfold Eip3009.recoverAddressFromDigest, tryCatch, andThen, lift, ret, raise, call.
  cbn [Eip3009.EIP3009Signature.v Eip3009.EIP3009Signature.r Eip3009.EIP3009Signature.s
       Eip3009.BigIntOf].
  destruct (JS.BigInt ("0x" +:+ JS.slice 0 64 hex)) as [rv|]; [|left; reflexivity].
  destruct (JS.BigInt ("0x" +:+ JS.slice 64 128 hex)) as [sv|]; [|left; reflexivity].
  destruct (sv >? Eip3009.secp256k1halfN); [left; reflexivity|].
  destruct ((rv =? 0) || (sv =? 0)); [left; reflexivity|].
  assert (Hfull : forall v tail,
             JS.slice 128 130 hex = tail ->
             JS.padStart2 (JS.toStringHex v) = tail ->
             default "" (Some ("0x" +:+ JS.slice 0 64 hex))
             +:+ JS.drop 2 (default "" (Some ("0x" +:+ JS.slice 64 128 hex)))
             +:+ JS.padStart2 (JS.toStringHex v)
             = String "0" (String "x" hex)).
  { intros v tail Ht Hv. rewrite Hv, <- Ht.
    change (default "" (Some ("0x" +:+ JS.slice 0 64 hex)))
      with (String "0" (String "x" (JS.slice 0 64 hex))).
    change (JS.drop 2 (default "" (Some ("0x" +:+ JS.slice 64 128 hex))))
      with (JS.slice 64 128 hex).
    rewrite !append_cons. rewrite (signature_parts hex Hlen). reflexivity. }
  destruct Hid as [[Ht ->]|[Ht ->]].
  - rewrite (Hfull 27 "1b" Ht eq_refl). right.
    destruct (Eip3009.recoverAddress w _) as [signer|m] eqn:Hanswer; cbn [fst snd].
    + split; [reflexivity|]. intros signer' Hs. rewrite Hanswer in Hs.
      injection Hs as <-. reflexivity.
    + split; [reflexivity|]. intros signer' Hs. rewrite Hanswer in Hs. discriminate Hs.
  - rewrite (Hfull 28 "1c" Ht eq_refl). right.
    destruct (Eip3009.recoverAddress w _) as [signer|m] eqn:Hanswer; cbn [fst snd].
    + split; [reflexivity|]. intros signer' Hs. rewrite Hanswer in Hs.
      injection Hs as <-. reflexivity.
    + split; [reflexivity|]. intros signer' Hs. rewrite Hanswer in Hs. discriminate Hs.
Qed.

Lemma recoverAddressFromDigest_recovers_from_the_signed_text_witness :
  Eip3009Client.isSignatureText Scenario.signatureBlob /\
  Eip3009.recoverAddressFromDigest Scenario.honestWorld "0xdigest"
    (Eip3009Client.splitSignature Scenario.signatureBlob) []
  = (Ok (Some (JS.toLowerCase Scenario.payer)),
     [Eip3009.RecoverAddress "0xdigest" Scenario.signatureBlob]).
Proof.
  assert (Htext : Eip3009Client.isSignatureText Scenario.signatureBlob)
    by (repeat split; left; reflexivity).
  split; [exact Htext|].
  destruct (recoverAddressFromDigest_recovers_from_the_signed_text Scenario.honestWorld
              "0xdigest" Scenario.signatureBlob [] Htext) as [Hnone|[Hcall Hsigner]].
  - vm_compute in Hnone. discriminate Hnone.
  - vm_compute. reflexivity.
Defined.


(** * The nonce registry: what it holds and how nonces compose *)

Section Registry.
Import JS PaywallProxy.

Lemma append_injective (prefix a b : string) : prefix +:+ a = prefix +:+ b -> a = b.
Proof.
  induction prefix as [|c prefix IH]; [intros H; exact H|].
  rewrite !append_cons. intros [= H]. apply IH, H.
Qed.

(** One endpoint gives different nonces different keys. *)
Lemma buildNonceKey_nonce (endpoint : LoadedEndpoint) (nonce1 nonce2 : string) :
  buildNonceKey endpoint nonce1 = buildNonceKey endpoint nonce2 -> nonce1 = nonce2.
Proof.
  unfold buildNonceKey. intros H.
  repeat (apply append_injective in H). exact H.
Qed.

Lemma cleanupExpiredNonces_size (now : Z) (pending : gmap string PendingNonce) :
  (size (cleanupExpiredNonces now pending) <= size pending)%nat.
Proof. apply map_subseteq_size, map_filter_subseteq. Qed.

Lemma consumeNonce_lookup (endpoint : LoadedEndpoint) (nonce : string) (now : Z)
    (pending : gmap string PendingNonce) (key : string) (entry : PendingNonce) :
  snd (consumeNonce endpoint nonce now pending) !! key = Some entry <->
  key <> buildNonceKey endpoint nonce /\ pending !! key = Some entry /\ now < expiresAt entry.
Proof.
  unfold consumeNonce. cbn [snd]. rewrite lookup_delete_Some, cleanupExpiredNonces_lookup.
  split; [intros [Hne H]; split; [congruence|exact H]|].
  intros [Hne H]. split; [congruence|exact H].
Qed.

Lemma issueNonce_lookup_other (endpoint : LoadedEndpoint) (nonce : string) (now : Z)
    (pending : gmap string PendingNonce) (key : string) :
  key <> buildNonceKey endpoint nonce ->
  snd (issueNonce endpoint nonce now pending) !! key = cleanupExpiredNonces now pending !! key.
Proof.
  intros Hne. unfold issueNonce. cbn [snd]. apply lookup_insert_ne. congruence.
Qed.

End Registry.

(** The registry holds no record that had expired when it was last
    touched.  After [consumeNonce] at a time, every record left was there
    before, expires after that time and is not the one consumed; after
    [issueNonce], every record is the one issued, expiring
    [maxTimeoutSeconds] after the time, or was there before and expires
    after the time.  A consumption never adds a record and an issue adds at
    most one. *)
Theorem nonce_registry_keeps_only_live_records :
  forall (endpoint : PaywallProxy.LoadedEndpoint) (nonce : string) (now : Z)
         (pending : gmap string PaywallProxy.PendingNonce),
    let consumed := snd (PaywallProxy.consumeNonce endpoint nonce now pending) in
    let issued := snd (PaywallProxy.issueNonce endpoint nonce now pending) in
    (forall key entry,
        consumed !! key = Some entry ->
        pending !! key = Some entry /\ now < PaywallProxy.expiresAt entry /\
        key <> PaywallProxy.buildNonceKey endpoint nonce)
    /\ (forall key entry,
          issued !! key = Some entry ->
          (key = PaywallProxy.buildNonceKey endpoint nonce /\
           PaywallProxy.expiresAt entry = now + PaywallProxy.maxTimeoutSeconds endpoint)
          \/ (pending !! key = Some entry /\ now < PaywallProxy.expiresAt entry))
    /\ (size consumed <= size pending)%nat
    /\ (size issued <= S (size pending))%nat.
Proof.
  intros endpoint nonce now pending consumed issued.
  split; [|split; [|split]].
  - intros key entry H. apply consumeNonce_lookup in H. tauto.
  - intros key entry H.
    destruct (decide (key = PaywallProxy.buildNonceKey endpoint nonce)) as [->|Hne].
    + left. unfold issued in H. rewrite issueNonce_lookup in H. injection H as <-.
      split; reflexivity.
    + right. unfold issued in H. rewrite issueNonce_lookup_other in H by exact Hne.
      apply cleanupExpiredNonces_lookup, H.
  - unfold consumed, PaywallProxy.consumeNonce. cbn [snd].
    etransitivity; [|apply cleanupExpiredNonces_size].
    apply map_subseteq_size, delete_subseteq.
  - unfold issued, PaywallProxy.issueNonce. cbn [snd].
    rewrite map_size_insert.
    pose proof (cleanupExpiredNonces_size now pending).
    destruct (_ !! _); unfold id; lia.
Qed.

(** Two nonces of one endpoint do not interfere: issued one after the
    other, each is consumed once, in either order, as long as it has not
    expired. *)
Theorem nonces_of_an_endpoint_are_consumed_independently :
  forall (endpoint : PaywallProxy.LoadedEndpoint) (nonce1 nonce2 : string)
         (issued1 issued2 first second : Z) (pending : gmap string PaywallProxy.PendingNonce),
    nonce1 <> nonce2 ->
    issued1 <= issued2 <= first ->
    first <= second < issued1 + PaywallProxy.maxTimeoutSeconds endpoint ->
    let registry :=
      snd (PaywallProxy.issueNonce endpoint nonce2 issued2
             (snd (PaywallProxy.issueNonce endpoint nonce1 issued1 pending))) in
    let after1 := PaywallProxy.consumeNonce endpoint nonce1 first registry in
    let after2 := PaywallProxy.consumeNonce endpoint nonce2 first registry in
    fst after1 = true
    /\ fst (PaywallProxy.consumeNonce endpoint nonce2 second (snd after1)) = true
    /\ fst after2 = true
    /\ fst (PaywallProxy.consumeNonce endpoint nonce1 second (snd after2)) = true.
Proof.
  intros endpoint nonce1 nonce2 issued1 issued2 first second pending Hne Hissued Hlive
         registry after1 after2.
  set (key1 := PaywallProxy.buildNonceKey endpoint nonce1).
  set (key2 := PaywallProxy.buildNonceKey endpoint nonce2).
  assert (Hkeys : key1 <> key2).
  { intros E. apply Hne. exact (buildNonceKey_nonce endpoint _ _ E). }
  set (timeout := PaywallProxy.maxTimeoutSeconds endpoint) in *.
  assert (H2 : registry !! key2 = Some {| PaywallProxy.expiresAt := issued2 + timeout |}).
  { apply issueNonce_lookup. }
  assert (H1 : registry !! key1 = Some {| PaywallProxy.expiresAt := issued1 + timeout |}).
  { unfold registry. rewrite issueNonce_lookup_other by exact Hkeys.
    apply cleanupExpiredNonces_lookup. split; [apply issueNonce_lookup|].
    cbn [PaywallProxy.expiresAt]. lia. }
  repeat split.
  - apply consumeNonce_true. eexists. split; [exact H1|]. cbn. lia.
  - apply consumeNonce_true. eexists. split.
    + apply consumeNonce_lookup. split; [intros E; apply Hkeys; symmetry; exact E|].
      split; [exact H2|]. cbn. lia.
    + cbn. lia.
  - apply consumeNonce_true. eexists. split; [exact H2|]. cbn. lia.
  - apply consumeNonce_true. eexists. split.
    + apply consumeNonce_lookup. split; [exact Hkeys|].
      split; [exact H1|]. cbn. lia.
    + cbn. lia.
Qed.

Lemma nonces_of_an_endpoint_are_consumed_independently_witness :
  let endpoint := PaywallProxy.mkLoadedEndpoint "get" "/quotes" "/quotes/{id}" 300 in
  ("0xa1" <> "0xb2" /\ 1000 <= 1010 <= 1020 /\ 1020 <= 1100 < 1000 + 300) /\
  let registry :=
    snd (PaywallProxy.issueNonce endpoint "0xb2" 1010
           (snd (PaywallProxy.issueNonce endpoint "0xa1" 1000 ∅))) in
  fst (PaywallProxy.consumeNonce endpoint "0xa1" 1020 registry) = true /\
  fst (PaywallProxy.consumeNonce endpoint "0xb2" 1100
         (snd (PaywallProxy.consumeNonce endpoint "0xa1" 1020 registry))) = true.
Proof.
  assert (Hne : "0xa1" <> "0xb2") by discriminate.
  assert (H1 : 1000 <= 1010 <= 1020) by lia.
  assert (H2 : 1020 <= 1100 < 1000 + 300) by lia.
  split; [repeat split; assumption || lia|].
  pose proof (nonces_of_an_endpoint_are_consumed_independently
                (PaywallProxy.mkLoadedEndpoint "get" "/quotes" "/quotes/{id}" 300)
                "0xa1" "0xb2" 1000 1010 1020 1100 ∅ Hne H1 H2) as (Ha & Hb & _).
  split; [exact Ha|exact Hb].
Defined.


(** * The selection draws from as few wallets as can cover the amount *)

Section Fewest.
Import JS GatewayService.

Lemma funded_submseteq (chosen balances : list TokenBalance) :
  chosen ⊆+ balances -> fundedBalances chosen ⊆+ fundedBalances balances.
Proof.
  unfold fundedBalances.
  induction 1 as [|x l k _ IH|x y l|x l k _ IH|l k m _ IH1 _ IH2]; cbn [List.filter].
  - constructor.
  - destruct (hasFunds x); [constructor|]; exact IH.
  - destruct (hasFunds x), (hasFunds y); try reflexivity. apply submseteq_swap.
  - destruct (hasFunds x); [apply submseteq_cons|]; exact IH.
  - etransitivity; eassumption.
Qed.

Lemma totalAmount_funded_ge (l : list TokenBalance) :
  totalAmount l <= totalAmount (fundedBalances l).
Proof.
  induction l as [|b l IH]; [reflexivity|].
  rewrite fundedBalances_cons, totalAmount_cons.
  destruct (Z.gtb_spec (amount b) 0); [rewrite totalAmount_cons|]; lia.
Qed.

Lemma length_funded_le (l : list TokenBalance) :
  (length (fundedBalances l) <= length l)%nat.
Proof.
  induction l as [|b l IH]; [reflexivity|].
  rewrite fundedBalances_cons. destruct (amount b >? 0); cbn [length]; lia.
Qed.

(** Among balances none of which is above [x], a balance more costs no more
    than [x]. *)
Lemma take_one_more (x : Z) (l : list TokenBalance) (n : nat) :
  0 <= x -> Forall (fun b => amount b <= x) l ->
  totalAmount (take (S n) l) <= x + totalAmount (take n l).
Proof.
  intros Hx. revert n. induction l as [|y l IH]; intros n Hall.
  - rewrite !take_nil. cbn. lia.
  - apply Forall_cons in Hall as [Hy Hall].
    destruct n as [|n].
    + change (take 1 (y :: l)) with [y]. change (take 0 (y :: l)) with (@nil TokenBalance).
      rewrite totalAmount_cons. change (totalAmount []) with 0. lia.
    + change (take (S (S n)) (y :: l)) with (y :: take (S n) l).
      change (take (S n) (y :: l)) with (y :: take n l).
      rewrite !totalAmount_cons. specialize (IH n Hall). lia.
Qed.

(** No choice of wallets holds more than as many of the largest. *)
Lemma totalAmount_le_largest (sorted chosen : list TokenBalance) :
  StronglySorted descending sorted ->
  Forall (fun b => 0 < amount b) sorted ->
  chosen ⊆+ sorted ->
  totalAmount chosen <= totalAmount (take (length chosen) sorted).
Proof.
  intros Hsorted. revert chosen.
  induction Hsorted as [|x sorted Hsorted IH Hx]; intros chosen Hpos Hsub.
  - apply submseteq_nil_r in Hsub. subst. reflexivity.
  - apply Forall_cons in Hpos as [Hxpos Hpos].
    apply submseteq_cons_r in Hsub as [Hsub|(rest & Hperm & Hsub)].
    + specialize (IH chosen Hpos Hsub).
      destruct chosen as [|c chosen]; [reflexivity|].
      cbn [length] in *.
      change (take (S (length chosen)) (x :: sorted)) with (x :: take (length chosen) sorted).
      rewrite (totalAmount_cons x).
      pose proof (take_one_more (amount x) sorted (length chosen) ltac:(lia)) as Hmore.
      assert (Hall : Forall (fun b => amount b <= amount x) sorted).
      { eapply Forall_impl; [exact Hx|]. intros b Hb. exact Hb. }
      specialize (Hmore Hall). lia.
    + rewrite (totalAmount_Permutation _ _ Hperm), (Permutation_length Hperm).
      cbn [length].
      change (take (S (length rest)) (x :: sorted)) with (x :: take (length rest) sorted).
      rewrite !totalAmount_cons. specialize (IH rest Hpos Hsub). lia.
Qed.

Lemma totalAmount_take_nonneg (l : list TokenBalance) (k : nat) :
  Forall (fun b => 0 < amount b) l -> 0 <= totalAmount (take k l).
Proof.
  intros Hpos. revert k. induction Hpos as [|b l Hb _ IH]; intros k.
  - rewrite take_nil. reflexivity.
  - destruct k as [|k]; [reflexivity|].
    change (take (S k) (b :: l)) with (b :: take k l).
    rewrite totalAmount_cons. specialize (IH k). lia.
Qed.

Lemma totalAmount_take_le (l : list TokenBalance) (j k : nat) :
  Forall (fun b => 0 < amount b) l -> (j <= k)%nat ->
  totalAmount (take j l) <= totalAmount (take k l).
Proof.
  intros Hpos. revert j k. induction Hpos as [|b l Hb Hl IH]; intros j k Hjk.
  - rewrite !take_nil. reflexivity.
  - destruct j as [|j].
    + change (take 0 (b :: l)) with (@nil TokenBalance). change (totalAmount []) with 0.
      apply totalAmount_take_nonneg. constructor; assumption.
    + destruct k as [|k]; [lia|].
      change (take (S j) (b :: l)) with (b :: take j l).
      change (take (S k) (b :: l)) with (b :: take k l).
      rewrite !totalAmount_cons. specialize (IH j k ltac:(lia)). lia.
Qed.

Lemma StronglySorted_funded (l : list TokenBalance) :
  StronglySorted descending l -> StronglySorted descending (fundedBalances l).
Proof.
  induction 1 as [|x l Hl IH Hx]; [constructor|].
  rewrite fundedBalances_cons. destruct (amount x >? 0); [|exact IH].
  constructor; [exact IH|].
  unfold fundedBalances. apply List.Forall_forall. intros b Hb.
  apply filter_In in Hb as [Hb _]. rewrite List.Forall_forall in Hx. apply Hx, Hb.
Qed.

End Fewest.

(** [selectTokensForTransfer] draws from as few wallets as possible: no
    choice of fewer of the balances holds the requested amount. *)
Theorem selectTokensForTransfer_uses_fewest_wallets :
  forall (balances chosen : list GatewayService.TokenBalance) (requestedAmount : Z)
         (selected : list GatewayService.SelectedToken),
    GatewayService.selectTokensForTransfer balances requestedAmount = Ok selected ->
    chosen ⊆+ balances ->
    requestedAmount <= GatewayService.totalAmount chosen ->
    (length selected <= length chosen)%nat.
Proof.
  intros balances chosen requestedAmount selected Hselected Hchosen Hcovers.
  set (sorted := GatewayService.sortBalances balances).
  set (funded := GatewayService.fundedBalances sorted).
  unfold GatewayService.selectTokensForTransfer in Hselected. fold sorted in Hselected.
  destruct (Z.le_gt_cases requestedAmount 0) as [Hnone|Hsome].
  { rewrite selectLoop_done in Hselected by exact Hnone.
    destruct (requestedAmount >? 0); [discriminate|].
    injection Hselected as <-. cbn [length]. lia. }
  destruct (Z.lt_ge_cases (GatewayService.totalAmount funded) requestedAmount) as [Hshort|Henough].
  { unfold funded in Hshort. rewrite selectLoop_insufficient in Hselected by exact Hshort.
    destruct (Z.gtb_spec (requestedAmount - GatewayService.totalAmount
                                              (GatewayService.fundedBalances sorted)) 0);
      [discriminate|lia]. }
  destruct (selectLoop_sufficient sorted requestedAmount Hsome Henough)
    as (fulls & b & rest & Hsplit & Hbound & Hloop).
  rewrite Hloop in Hselected. cbn [Z.gtb Z.compare] in Hselected.
  injection Hselected as <-. rewrite length_app. cbn [length].
  assert (Hposf : Forall (fun b => 0 < GatewayService.amount b) funded)
    by apply fundedBalances_positive.
  assert (Hsortedf : StronglySorted GatewayService.descending funded)
    by apply StronglySorted_funded, sortBalances_descending.
  set (positive := GatewayService.fundedBalances chosen).
  assert (Hsub : positive ⊆+ funded).
  { unfold positive, funded. apply funded_submseteq.
    unfold sorted. rewrite (sortBalances_Permutation balances). exact Hchosen. }
  pose proof (totalAmount_le_largest funded positive Hsortedf Hposf Hsub) as Hlargest.
  pose proof (totalAmount_funded_ge chosen) as Hge. fold positive in Hge.
  pose proof (length_funded_le chosen) as Hlen. fold positive in Hlen.
  destruct (Nat.le_gt_cases (length positive) (length fulls)) as [Hfew|Hmany]; [|lia].
  exfalso.
  pose proof (totalAmount_take_le funded _ _ Hposf Hfew) as Hprefix.
  assert (Hfulls : take (length fulls) funded = fulls).
  { fold funded in Hsplit. rewrite Hsplit. apply take_app_length. }
  rewrite Hfulls in Hprefix. lia.
Qed.

Lemma selectTokensForTransfer_uses_fewest_wallets_witness :
  let wallet amount :=
    GatewayService.mkTokenBalance "wallet" "ARC-TESTNET" "0xA1" "0x3600" amount 6 in
  let balances := [wallet 200000; wallet 700000; wallet 500000; wallet 300000] in
  let chosen := [wallet 500000; wallet 300000; wallet 200000] in
  let selected := [wallet 700000; wallet 300000] in
  GatewayService.selectTokensForTransfer balances 1000000 = Ok selected /\
  chosen ⊆+ balances /\
  1000000 <= GatewayService.totalAmount chosen /\
  (length selected <= length chosen)%nat.
Proof.
  set (wallet := fun amount =>
         GatewayService.mkTokenBalance "wallet" "ARC-TESTNET" "0xA1" "0x3600" amount 6).
  assert (Hselected :
            GatewayService.selectTokensForTransfer
              [wallet 200000; wallet 700000; wallet 500000; wallet 300000] 1000000
            = Ok [wallet 700000; wallet 300000]) by reflexivity.
  assert (Hchosen : [wallet 500000; wallet 300000; wallet 200000]
                    ⊆+ [wallet 200000; wallet 700000; wallet 500000; wallet 300000]).
  { transitivity [wallet 200000; wallet 500000; wallet 300000].
    - apply Permutation_submseteq.
      change [wallet 500000; wallet 300000; wallet 200000]
        with ([wallet 500000; wallet 300000] ++ [wallet 200000]).
      apply Permutation_app_comm.
    - apply submseteq_skip, submseteq_cons. reflexivity. }
  assert (Hcovers : 1000000 <= GatewayService.totalAmount
                                 [wallet 500000; wallet 300000; wallet 200000])
    by (vm_compute; discriminate).
  split; [exact Hselected|]. split; [exact Hchosen|]. split; [exact Hcovers|].
  exact (selectTokensForTransfer_uses_fewest_wallets _ _ _ _ Hselected Hchosen Hcovers).
Defined.


(** * Verification: what is accepted, and when the chain is read *)

Section Accepts.
Import JS Eip3009 FacilitatorCommon VerificationTrace.
Variables (viem : Viem) (w : World).

Lemma stateReads_cons (c : Call) (h : list Call) :
  stateReads (c :: h) = ((if isStateRead c then 1 else 0) + stateReads h)%nat.
Proof. unfold stateReads. cbn [List.filter]. destruct (isStateRead c); reflexivity. Qed.

Lemma differs_false (a b : string) : differs a b = false <-> toLowerCase a = toLowerCase b.
Proof.
  unfold differs. rewrite negb_false_iff. apply String.eqb_eq.
Qed.

(** The recovery answers, and reads no state of the chain. *)
Lemma recoverAddressFromDigest_answers (digest : string) (sig : EIP3009Signature.t)
    (h : list Call) :
  exists recovered h',
    recoverAddressFromDigest w digest sig h = (Ok recovered, h') /\
    stateReads h' = stateReads h.
Proof.
  unfold recoverAddressFromDigest, tryCatch, andThen, lift, ret, raise, call.
  destruct (BigIntOf (EIP3009Signature.r sig)); [|eauto].
  destruct (BigIntOf (EIP3009Signature.s sig)) as [sv|]; [|eauto].
  destruct (sv >? secp256k1halfN); [eauto|].
  destruct (_ || _); [eauto|].
  destruct (EIP3009Signature.v sig) as [v|]; [|eauto].
  destruct (recoverAddress w _); eexists _, _; (split; [reflexivity|]);
    rewrite stateReads_cons; reflexivity.
Qed.

Lemma verifyTransferAuthorization_answers (auth : EIP3009Authorization.t)
    (sig : EIP3009Signature.t) (token name version : string) (chainId : Z) (h : list Call) :
  exists recovered h',
    verifyTransferAuthorization viem w auth sig token name version chainId h
      = (Ok recovered, h') /\
    stateReads h' = stateReads h.
Proof.
  destruct (isRecoveryId (EIP3009Signature.v sig)) eqn:Hv.
  - rewrite verifyTransferAuthorization_digest by exact Hv.
    destruct (transferAuthorizationDigest viem auth token name version chainId); [|eauto].
    apply recoverAddressFromDigest_answers.
  - rewrite verifyTransferAuthorization_bad_v by exact Hv. eauto.
Qed.

Lemma checkSignerReplayWindow_accepts_exactly (nowTs : Z) (auth : EIP3009Authorization.t)
    (sig : EIP3009Signature.t) (token name version : string) (chainId : Z) (h : list Call)
    (verified : EIP3009Authorization.t * EIP3009Signature.t) :
  fst (checkSignerReplayWindow viem w nowTs auth sig token name version chainId h)
    = Ok verified <->
  signedUnusedAndCurrent viem w nowTs auth sig token name version chainId h /\
  verified = (auth, sig).
Proof.
  unfold checkSignerReplayWindow, signedUnusedAndCurrent, andThen, call, raise, ret.
  destruct (verifyTransferAuthorization_answers auth sig token name version chainId h)
    as (recovered & h1 & -> & _).
  destruct recovered as [signer|]; cbn [missing default from_option id].
  2:{ cbn [orb fst]. split; [discriminate|]. intros [(s & h2 & [=] & _) _]. }
  destruct (isEmpty signer) eqn:Hempty; cbn [orb].
  { cbn [fst]. split; [discriminate|].
    intros [(s & h2 & [= <- <-] & Hne & _) _]. congruence. }
  destruct (differs signer (EIP3009Authorization.from auth)) eqn:Hdiffers.
  { cbn [fst]. split; [discriminate|].
    intros [(s & h2 & [= <- <-] & _ & Hsame & _) _].
    apply differs_false in Hsame. congruence. }
  apply differs_false in Hdiffers.
  destruct (authorizationState w _) as [[|]|m] eqn:Hstate; cbn [fst].
  - split; [discriminate|]. intros [(s & h2 & [= <- <-] & _ & _ & Hs & _) _]. congruence.
  - destruct (Z.leb_spec nowTs (EIP3009Authorization.validAfter auth)); cbn [fst].
    { split; [discriminate|]. intros [(s & h2 & _ & _ & _ & _ & Hw) _]. lia. }
    destruct (Z.geb_spec nowTs (EIP3009Authorization.validBefore auth)); cbn [fst].
    { split; [discriminate|]. intros [(s & h2 & _ & _ & _ & _ & Hw) _]. lia. }
    split.
    + intros [= <-]. split; [|reflexivity].
      exists signer, h1. repeat split; try assumption; lia.
    + intros [_ ->]. reflexivity.
  - split; [discriminate|]. intros [(s & h2 & [= <- <-] & _ & _ & Hs & _) _]. congruence.
Qed.

Lemma checkSignerReplayWindow_reads (nowTs : Z) (auth : EIP3009Authorization.t)
    (sig : EIP3009Signature.t) (token name version : string) (chainId : Z) (h : list Call) :
  let run := checkSignerReplayWindow viem w nowTs auth sig token name version chainId h in
  (stateReads (snd run) <= stateReads h + 1)%nat /\
  ((stateReads h < stateReads (snd run))%nat ->
   exists signer h1,
     verifyTransferAuthorization viem w auth sig token name version chainId h
       = (Ok (Some signer), h1) /\
     isEmpty signer = false /\
     toLowerCase signer = toLowerCase (EIP3009Authorization.from auth) /\
     snd run = ReadAuthorizationState token (EIP3009Authorization.from auth)
                 (EIP3009Authorization.nonce auth) :: h1).
Proof.
  cbn zeta. unfold checkSignerReplayWindow, andThen, call, raise, ret.
  destruct (verifyTransferAuthorization_answers auth sig token name version chainId h)
    as (recovered & h1 & -> & Hreads).
  destruct recovered as [signer|]; cbn [missing default from_option id].
  2:{ cbn [orb snd]. split; lia. }
  destruct (isEmpty signer) eqn:Hempty; cbn [orb].
  { cbn [snd]. split; lia. }
  destruct (differs signer (EIP3009Authorization.from auth)) eqn:Hdiffers.
  { cbn [snd]. split; lia. }
  apply differs_false in Hdiffers.
  assert (Hsnd : forall r : Result (EIP3009Authorization.t * EIP3009Signature.t),
             let h2 := ReadAuthorizationState token (EIP3009Authorization.from auth)
                         (EIP3009Authorization.nonce auth) :: h1 in
             (stateReads h2 <= stateReads h + 1)%nat /\
             ((stateReads h < stateReads h2)%nat ->
              exists signer0 h0,
                (Ok (Some signer), h1) = (Ok (Some signer0), h0) /\
                isEmpty signer0 = false /\
                toLowerCase signer0 = toLowerCase (EIP3009Authorization.from auth) /\
                h2 = ReadAuthorizationState token (EIP3009Authorization.from auth)
                       (EIP3009Authorization.nonce auth) :: h0)).
  { intros _. cbn zeta. rewrite stateReads_cons. cbn [isStateRead]. split; [lia|].
    intros _. exists signer, h1. repeat split; assumption. }
  destruct (authorizationState w _) as [[|]|m]; cbn [snd]; try exact (Hsnd (Ok (auth, sig))).
  destruct (nowTs <=? _); cbn [snd]; [exact (Hsnd (Ok (auth, sig)))|].
  destruct (nowTs >=? _); cbn [snd]; exact (Hsnd (Ok (auth, sig))).
Qed.

End Accepts.

(** [verifyAuthorization] accepts a payload exactly when none of its fields
    mismatches the requirements, its signature recovers to [from] (the
    comparison ignores the letter case), the chain says the authorization
    is unused, and the time is strictly inside the window; it then returns
    the authorization and the signature of the payload.  This holds of the
    facilitator and of its multi-network twin, each with its own checks of
    the fields and its own token name, version and chain id. *)
Theorem verifyAuthorization_accepts_exactly_signed_unused_current :
  forall (viem : Eip3009.Viem) (w : Eip3009.World) (nowTs : Z)
         (payload : Eip3009.EIP3009PaymentPayload.t)
         (requirements : Eip3009.PaymentRequirements.t) (h : list Eip3009.Call)
         (verified : Eip3009.EIP3009Authorization.t * Eip3009.EIP3009Signature.t),
    let auth := FacilitatorCommon.toAuthorization payload in
    let sig := FacilitatorCommon.toSignature payload in
    let token := Eip3009.PaymentRequirements.token requirements in
    (forall cfg,
        fst (Facilitator.verifyAuthorization cfg viem w nowTs payload requirements h)
          = Ok verified <->
        Facilitator.fieldMismatch cfg payload requirements = None /\
        VerificationTrace.signedUnusedAndCurrent viem w nowTs auth sig token
          (Facilitator.USDC_NAME cfg) (Facilitator.USDC_VERSION cfg)
          Facilitator.arcTestnetId h /\
        verified = (auth, sig))
    /\
    (forall context,
        fst (MultiNetworkFacilitator.verifyAuthorization viem w nowTs payload requirements
               context h) = Ok verified <->
        MultiNetworkFacilitator.fieldMismatch payload requirements = None /\
        VerificationTrace.signedUnusedAndCurrent viem w nowTs auth sig token
          (MultiNetworkFacilitator.usdcName (MultiNetworkFacilitator.chain context))
          (MultiNetworkFacilitator.usdcVersion (MultiNetworkFacilitator.chain context))
          (MultiNetworkFacilitator.chainId (MultiNetworkFacilitator.chain context)) h /\
        verified = (auth, sig)).
Proof.
  intros viem w nowTs payload requirements h verified auth sig token. split.
  - intros cfg. rewrite Facilitator_verifyAuthorization_tail.
    destruct (Facilitator.fieldMismatch cfg payload requirements) as [m|].
    + unfold raise. cbn [fst]. split; [discriminate|]. intros [[=] _].
    + rewrite checkSignerReplayWindow_accepts_exactly. tauto.
  - intros context. rewrite MultiNetwork_verifyAuthorization_tail.
    destruct (MultiNetworkFacilitator.fieldMismatch payload requirements) as [m|].
    + unfold raise. cbn [fst]. split; [discriminate|]. intros [[=] _].
    + rewrite checkSignerReplayWindow_accepts_exactly. tauto.
Qed.

(** [verifyAuthorization] calls nothing for a payload whose fields mismatch
    the requirements, and reads [authorizationState] at most once, as its
    last call, and only when the signature recovered to [from]: a forged or
    malformed signature costs no read of the chain. *)
Theorem verifyAuthorization_reads_the_chain_only_for_the_signer :
  forall (viem : Eip3009.Viem) (w : Eip3009.World) (nowTs : Z)
         (payload : Eip3009.EIP3009PaymentPayload.t)
         (requirements : Eip3009.PaymentRequirements.t) (h : list Eip3009.Call),
    let auth := FacilitatorCommon.toAuthorization payload in
    let sig := FacilitatorCommon.toSignature payload in
    let token := Eip3009.PaymentRequirements.token requirements in
    let read := Eip3009.ReadAuthorizationState token
                  (Eip3009.EIP3009Authorization.from auth)
                  (Eip3009.EIP3009Authorization.nonce auth) in
    (forall cfg,
        let run := Facilitator.verifyAuthorization cfg viem w nowTs payload requirements h in
        (Facilitator.fieldMismatch cfg payload requirements <> None -> snd run = h) /\
        (VerificationTrace.stateReads (snd run) <= VerificationTrace.stateReads h + 1)%nat /\
        ((VerificationTrace.stateReads h < VerificationTrace.stateReads (snd run))%nat ->
         exists signer h1,
           Eip3009.verifyTransferAuthorization viem w auth sig token
             (Facilitator.USDC_NAME cfg) (Facilitator.USDC_VERSION cfg)
             Facilitator.arcTestnetId h = (Ok (Some signer), h1) /\
           JS.toLowerCase signer = JS.toLowerCase (Eip3009.EIP3009Authorization.from auth) /\
           snd run = read :: h1))
    /\
    (forall context,
        let run := MultiNetworkFacilitator.verifyAuthorization viem w nowTs payload
                     requirements context h in
        (MultiNetworkFacilitator.fieldMismatch payload requirements <> None -> snd run = h) /\
        (VerificationTrace.stateReads (snd run) <= VerificationTrace.stateReads h + 1)%nat /\
        ((VerificationTrace.stateReads h < VerificationTrace.stateReads (snd run))%nat ->
         exists signer h1,
           Eip3009.verifyTransferAuthorization viem w auth sig token
             (MultiNetworkFacilitator.usdcName (MultiNetworkFacilitator.chain context))
             (MultiNetworkFacilitator.usdcVersion (MultiNetworkFacilitator.chain context))
             (MultiNetworkFacilitator.chainId (MultiNetworkFacilitator.chain context)) h
           = (Ok (Some signer), h1) /\
           JS.toLowerCase signer = JS.toLowerCase (Eip3009.EIP3009Authorization.from auth) /\
           snd run = read :: h1)).
Proof.
  intros viem w nowTs payload requirements h auth sig token read. split.
  - intros cfg. cbn zeta. rewrite Facilitator_verifyAuthorization_tail.
    destruct (Facilitator.fieldMismatch cfg payload requirements) as [m|].
    + unfold raise. cbn [snd]. split; [reflexivity|]. split; lia.
    + split; [intros Habs; contradiction|].
      destruct (checkSignerReplayWindow_reads viem w nowTs auth sig token
                  (Facilitator.USDC_NAME cfg) (Facilitator.USDC_VERSION cfg)
                  Facilitator.arcTestnetId h) as [Hle Hread].
      split; [exact Hle|]. intros Hlt.
      destruct (Hread Hlt) as (signer & h1 & Hv & _ & Hsame & Hsnd).
      exists signer, h1. repeat split; assumption.
  - intros context. cbn zeta. rewrite MultiNetwork_verifyAuthorization_tail.
    destruct (MultiNetworkFacilitator.fieldMismatch payload requirements) as [m|].
    + unfold raise. cbn [snd]. split; [reflexivity|]. split; lia.
    + split; [intros Habs; contradiction|].
      destruct (checkSignerReplayWindow_reads viem w nowTs auth sig token
                  (MultiNetworkFacilitator.usdcName (MultiNetworkFacilitator.chain context))
                  (MultiNetworkFacilitator.usdcVersion (MultiNetworkFacilitator.chain context))
                  (MultiNetworkFacilitator.chainId (MultiNetworkFacilitator.chain context)) h)
        as [Hle Hread].
      split; [exact Hle|]. intros Hlt.
      destruct (Hread Hlt) as (signer & h1 & Hv & _ & Hsame & Hsnd).
      exists signer, h1. repeat split; assumption.
Qed.

(** The payment of the scenario: accepted on the honest chain after one
    recovery and one read; after the recovery alone, without a read, when
    another account signed. *)
Example verifyAuthorization_scenarios :
  let run w := Facilitator.verifyAuthorization Scenario.config Scenario.viem w Scenario.now
                 Scenario.payload Scenario.requirements [] in
  fst (run Scenario.honestWorld)
    = Ok (FacilitatorCommon.toAuthorization Scenario.payload,
          FacilitatorCommon.toSignature Scenario.payload)
  /\ VerificationTrace.stateReads (snd (run Scenario.honestWorld)) = 1%nat
  /\ length (snd (run Scenario.honestWorld)) = 2%nat
  /\ fst (run Scenario.forgedWorld) = Throw "Invalid EIP-3009 signature"
  /\ VerificationTrace.stateReads (snd (run Scenario.forgedWorld)) = 0%nat
  /\ length (snd (run Scenario.forgedWorld)) = 1%nat.
Proof. vm_compute. repeat split. Qed.

(** * Settlement: what is submitted, and what is answered *)

Section Settles.
Import JS Eip3009 FacilitatorCommon VerificationTrace Settlement.

(** Requirements that [ensureRequirements] finds no fault in. *)
Lemma Facilitator_ensureRequirements_passes (cfg : Facilitator.Config)
    (req : PaymentRequirements.t) (reqError : option string) :
  Facilitator.ensureRequirements cfg req = Ok reqError ->
  missing reqError = true ->
  PaymentRequirements.scheme req = "exact" /\
  PaymentRequirements.network req = "arc-testnet" /\
  toLowerCase (PaymentRequirements.token req) = toLowerCase (Facilitator.activeUsdcAddress cfg) /\
  toLowerCase (PaymentRequirements.recipient req) = toLowerCase (Facilitator.accountAddress cfg) /\
  exists amount, BigInt (PaymentRequirements.amount req) = Ok amount /\ 0 < amount.
Proof.
  unfold Facilitator.ensureRequirements.
  destruct (String.eqb_spec (PaymentRequirements.scheme req) "exact") as [Hscheme|];
    cbn [negb]; [|intros [= <-]; discriminate].
  destruct (String.eqb_spec (PaymentRequirements.network req) "arc-testnet") as [Hnetwork|];
    cbn [negb]; [|intros [= <-]; discriminate].
  destruct (differs (PaymentRequirements.token req) _) eqn:Htoken; [intros [= <-]; discriminate|].
  destruct (differs (PaymentRequirements.recipient req) _) eqn:Hrecipient;
    [intros [= <-]; discriminate|].
  apply differs_false in Htoken, Hrecipient.
  destruct (BigInt (PaymentRequirements.amount req)) as [amount|]; [|discriminate].
  cbn [bind]. destruct (Z.leb_spec amount 0); [intros [= <-]; discriminate|].
  intros _ _. repeat split; try assumption. exists amount. split; [reflexivity|lia].
Qed.

Lemma MultiNetwork_ensureRequirements_passes
    (networkContexts : MultiNetworkFacilitator.NetworkContexts)
    (req : PaymentRequirements.t) (context : MultiNetworkFacilitator.NetworkContext)
    (reqError : option string) :
  MultiNetworkFacilitator.ensureRequirements networkContexts req context = Ok reqError ->
  missing reqError = true ->
  PaymentRequirements.scheme req = "exact" /\
  toLowerCase (PaymentRequirements.token req)
    = toLowerCase (MultiNetworkFacilitator.usdcAddress (MultiNetworkFacilitator.chain context)) /\
  toLowerCase (PaymentRequirements.recipient req)
    = toLowerCase (MultiNetworkFacilitator.address
                     (MultiNetworkFacilitator.circleWallet context)) /\
  exists amount, BigInt (PaymentRequirements.amount req) = Ok amount /\ 0 < amount.
Proof.
  unfold MultiNetworkFacilitator.ensureRequirements.
  destruct (String.eqb_spec (PaymentRequirements.scheme req) "exact") as [Hscheme|];
    cbn [negb]; [|intros [= <-]; discriminate].
  assert (Hrest :
    (if differs (PaymentRequirements.token req)
          (MultiNetworkFacilitator.usdcAddress (MultiNetworkFacilitator.chain context))
     then Ok (Some "Unsupported token")
     else if differs (PaymentRequirements.recipient req)
               (MultiNetworkFacilitator.address
                  (MultiNetworkFacilitator.circleWallet context))
     then Ok (Some "Recipient does not match Circle wallet address")
     else
       bind (BigInt (PaymentRequirements.amount req))
         (fun amount =>
            if amount <=? 0 then Ok (Some "Amount must be positive") else Ok None))
    = Ok reqError ->
    missing reqError = true ->
    PaymentRequirements.scheme req = "exact" /\
    toLowerCase (PaymentRequirements.token req)
      = toLowerCase (MultiNetworkFacilitator.usdcAddress
                       (MultiNetworkFacilitator.chain context)) /\
    toLowerCase (PaymentRequirements.recipient req)
      = toLowerCase (MultiNetworkFacilitator.address
                       (MultiNetworkFacilitator.circleWallet context)) /\
    exists amount, BigInt (PaymentRequirements.amount req) = Ok amount /\ 0 < amount).
  { destruct (differs (PaymentRequirements.token req) _) eqn:Htoken;
      [intros [= <-]; discriminate|].
    destruct (differs (PaymentRequirements.recipient req) _) eqn:Hrecipient;
      [intros [= <-]; discriminate|].
    apply differs_false in Htoken, Hrecipient.
    destruct (BigInt (PaymentRequirements.amount req)) as [amount|]; [|discriminate].
    cbn [bind]. destruct (Z.leb_spec amount 0); [intros [= <-]; discriminate|].
    intros _ _. repeat split; try assumption. exists amount. split; [reflexivity|lia]. }
  destruct (MultiNetworkFacilitator.lookupContext networkContexts _);
    [exact Hrest|exact Hrest|intros [= <-]; discriminate].
Qed.

(** A payload whose fields match the requirements. *)
Lemma Facilitator_fieldMismatch_none (cfg : Facilitator.Config)
    (payload : EIP3009PaymentPayload.t) (req : PaymentRequirements.t) :
  Facilitator.fieldMismatch cfg payload req = None ->
  toLowerCase (EIP3009Authorization.to (toAuthorization payload))
    = toLowerCase (Facilitator.accountAddress cfg) /\
  EIP3009Authorization.value (toAuthorization payload) = PaymentRequirements.amount req.
Proof.
  unfold Facilitator.fieldMismatch.
  destruct (_ || _); [discriminate|].
  destruct (differs _ (Facilitator.accountAddress cfg)) eqn:Hto; [discriminate|].
  destruct (String.eqb_spec (PayloadFields.value (EIP3009PaymentPayload.payload payload))
              (PaymentRequirements.amount req)) as [Hvalue|]; cbn [negb]; [|discriminate].
  intros _. apply differs_false in Hto. split; assumption.
Qed.

Lemma MultiNetwork_fieldMismatch_none (payload : EIP3009PaymentPayload.t)
    (req : PaymentRequirements.t) :
  MultiNetworkFacilitator.fieldMismatch payload req = None ->
  toLowerCase (EIP3009Authorization.to (toAuthorization payload))
    = toLowerCase (PaymentRequirements.recipient req) /\
  EIP3009Authorization.value (toAuthorization payload) = PaymentRequirements.amount req /\
  EIP3009PaymentPayload.network payload = PaymentRequirements.network req.
Proof.
  unfold MultiNetworkFacilitator.fieldMismatch.
  destruct (negb (String.eqb (EIP3009PaymentPayload.scheme payload) "exact"));
    [discriminate|]. cbn [orb].
  destruct (String.eqb_spec (EIP3009PaymentPayload.network payload)
              (PaymentRequirements.network req)) as [Hnetwork|]; cbn [negb]; [|discriminate].
  destruct (String.eqb_spec (PayloadFields.value (EIP3009PaymentPayload.payload payload))
              (PaymentRequirements.amount req)) as [Hvalue|]; cbn [negb]; [|discriminate].
  destruct (differs _ _) eqn:Hto; [discriminate|].
  intros _. apply differs_false in Hto. repeat split; assumption.
Qed.

(** What an accepted payload is. *)
Lemma Facilitator_verifyAuthorization_accepted (cfg : Facilitator.Config) (viem : Viem)
    (w : World) (nowTs : Z) (payload : EIP3009PaymentPayload.t)
    (req : PaymentRequirements.t) (h h' : list Call)
    (verified : EIP3009Authorization.t * EIP3009Signature.t) :
  Facilitator.verifyAuthorization cfg viem w nowTs payload req h = (Ok verified, h') ->
  Facilitator.fieldMismatch cfg payload req = None /\
  signedUnusedAndCurrent viem w nowTs (toAuthorization payload) (toSignature payload)
    (PaymentRequirements.token req) (Facilitator.USDC_NAME cfg) (Facilitator.USDC_VERSION cfg)
    Facilitator.arcTestnetId h /\
  verified = (toAuthorization payload, toSignature payload).
Proof.
  intros Hrun. apply (f_equal fst) in Hrun. cbn [fst] in Hrun.
  rewrite Facilitator_verifyAuthorization_tail in Hrun.
  destruct (Facilitator.fieldMismatch cfg payload req); [discriminate|].
  apply checkSignerReplayWindow_accepts_exactly in Hrun. tauto.
Qed.

Lemma MultiNetwork_verifyAuthorization_accepted (viem : Viem)
    (w : World) (nowTs : Z) (payload : EIP3009PaymentPayload.t)
    (req : PaymentRequirements.t) (context : MultiNetworkFacilitator.NetworkContext)
    (h h' : list Call) (verified : EIP3009Authorization.t * EIP3009Signature.t) :
  MultiNetworkFacilitator.verifyAuthorization viem w nowTs payload req context h
    = (Ok verified, h') ->
  MultiNetworkFacilitator.fieldMismatch payload req = None /\
  signedUnusedAndCurrent viem w nowTs (toAuthorization payload) (toSignature payload)
    (PaymentRequirements.token req)
    (MultiNetworkFacilitator.usdcName (MultiNetworkFacilitator.chain context))
    (MultiNetworkFacilitator.usdcVersion (MultiNetworkFacilitator.chain context))
    (MultiNetworkFacilitator.chainId (MultiNetworkFacilitator.chain context)) h /\
  verified = (toAuthorization payload, toSignature payload).
Proof.
  intros Hrun. apply (f_equal fst) in Hrun. cbn [fst] in Hrun.
  rewrite MultiNetwork_verifyAuthorization_tail in Hrun.
  destruct (MultiNetworkFacilitator.fieldMismatch payload req); [discriminate|].
  apply checkSignerReplayWindow_accepts_exactly in Hrun. tauto.
Qed.

End Settles.

(** [/settle] of the facilitator writes to the chain at most once, and only
    a [transferWithAuthorization] that [verifyAuthorization] accepted just
    before: the token is the facilitator's and the payee its own account
    (letter case apart), the amount is the positive amount of the
    requirements, the signature recovers to the payer, the chain says the
    authorization is unused, and the time is inside its window.  A request
    that fails any of this leaves the chain untouched. *)
Theorem settle_submits_only_a_verified_transfer :
  forall (cfg : Facilitator.Config) (viem : Eip3009.Viem)
         (publicClient : list FacilitatorSettlement.ChainCall -> Eip3009.World)
         (walletClient : FacilitatorSettlement.WalletClient) (nowTs : Z)
         (reqBody : option Settlement.SettleRequestBody)
         (reads : list Eip3009.Call) (writes : list FacilitatorSettlement.ChainCall),
    let writes' :=
      snd (FacilitatorSettlement.settle cfg viem publicClient walletClient nowTs reqBody
             reads writes) in
    writes' = writes \/
    exists payload requirements amount,
      let auth := FacilitatorCommon.toAuthorization payload in
      let sig := FacilitatorCommon.toSignature payload in
      let token := Eip3009.PaymentRequirements.token requirements in
      let write :=
        FacilitatorSettlement.WriteContract token "transferWithAuthorization"
          (FacilitatorSettlement.transferArguments auth sig amount) in
      reqBody = Some (Settlement.mkSettleRequestBody (Some payload) (Some requirements)) /\
      (writes' = write :: writes \/
       exists hash,
         FacilitatorSettlement.writeContract walletClient (write :: writes) = Ok hash /\
         writes' = FacilitatorSettlement.WaitForTransactionReceipt hash :: write :: writes) /\
      JS.toLowerCase token = JS.toLowerCase (Facilitator.activeUsdcAddress cfg) /\
      JS.toLowerCase (Eip3009.EIP3009Authorization.to auth)
        = JS.toLowerCase (Facilitator.accountAddress cfg) /\
      Eip3009.EIP3009Authorization.value auth = Eip3009.PaymentRequirements.amount requirements /\
      JS.BigInt (Eip3009.PaymentRequirements.amount requirements) = Ok amount /\
      0 < amount /\
      VerificationTrace.signedUnusedAndCurrent viem (publicClient writes) nowTs auth sig token
        (Facilitator.USDC_NAME cfg) (Facilitator.USDC_VERSION cfg)
        Facilitator.arcTestnetId reads.
Proof.
  intros cfg viem publicClient walletClient nowTs reqBody reads writes. cbn zeta.
  unfold FacilitatorSettlement.settle.
  destruct reqBody as [[payload requirements]|]; [|left; reflexivity].
  cbn [Settlement.paymentRequirements Settlement.paymentPayload].
  destruct requirements as [requirements|]; [|left; reflexivity].
  destruct (Facilitator.ensureRequirements cfg requirements) as [reqError|] eqn:Hensure;
    [|left; reflexivity].
  destruct (Eip3009.missing reqError) eqn:Hmissing; cbn [negb]; [|left; reflexivity].
  destruct payload as [payload|]; [|left; reflexivity].
  destruct (Facilitator_ensureRequirements_passes _ _ _ Hensure Hmissing)
    as (_ & _ & Htoken & _ & amount & Hamount & Hpositive).
  destruct (Facilitator.verifyAuthorization cfg viem (publicClient writes) nowTs payload
              requirements reads) as [[[authorization signature]|err] reads'] eqn:Hverify;
    [|left; reflexivity].
  destruct (Facilitator_verifyAuthorization_accepted _ _ _ _ _ _ _ _ _ Hverify)
    as (Hfields & Hsigned & [= -> ->]).
  destruct (Facilitator_fieldMismatch_none _ _ _ Hfields) as [Hto Hvalue].
  rewrite Hvalue, Hamount.
  right. exists payload, requirements, amount. cbn zeta.
  split; [reflexivity|].
  split; [|repeat split; assumption].
  destruct (FacilitatorSettlement.writeContract walletClient _) as [hash|] eqn:Hwrite;
    [|left; reflexivity].
  right. exists hash. split; [reflexivity|].
  destruct (FacilitatorSettlement.waitForTransactionReceipt walletClient _); reflexivity.
Qed.

(** [/settle] of the facilitator answers 200 exactly when the receipt of
    the transaction it submitted arrived, whatever the receipt says: for a
    transaction that reverted the answer is still 200, with [success] false
    and the status [failed].  Everything else is answered with 400 and an
    error: a request refused before anything was written, and a throw of
    the wallet client, whose message is the error. *)
Theorem settle_answers_200_for_every_receipt :
  forall (cfg : Facilitator.Config) (viem : Eip3009.Viem)
         (publicClient : list FacilitatorSettlement.ChainCall -> Eip3009.World)
         (walletClient : FacilitatorSettlement.WalletClient) (nowTs : Z)
         (reqBody : option Settlement.SettleRequestBody)
         (reads : list Eip3009.Call) (writes : list FacilitatorSettlement.ChainCall),
    let result :=
      FacilitatorSettlement.settle cfg viem publicClient walletClient nowTs reqBody
        reads writes in
    let response := fst (fst result) in
    let writes' := snd result in
    (exists error,
        response = FacilitatorSettlement.refused error /\
        (writes' = writes \/
         (exists write,
             writes' = write :: writes /\
             FacilitatorSettlement.writeContract walletClient writes' = Throw error) \/
         (exists hash write,
             writes' = FacilitatorSettlement.WaitForTransactionReceipt hash :: write :: writes /\
             FacilitatorSettlement.waitForTransactionReceipt walletClient writes'
               = Throw error))) \/
    (exists hash write receipt,
        writes' = FacilitatorSettlement.WaitForTransactionReceipt hash :: write :: writes /\
        FacilitatorSettlement.waitForTransactionReceipt walletClient writes' = Ok receipt /\
        let success := String.eqb (FacilitatorSettlement.status receipt) "success" in
        response =
          {| FacilitatorSettlement.statusCode := 200;
             FacilitatorSettlement.body :=
               FacilitatorSettlement.Settled success
                 (FacilitatorSettlement.transactionHash receipt)
                 (FacilitatorSettlement.blockNumber receipt)
                 (option_map JS.toString (FacilitatorSettlement.gasUsed receipt))
                 (if success then "confirmed" else "failed") |}).
Proof.
  intros cfg viem publicClient walletClient nowTs reqBody reads writes. cbn zeta.
  unfold FacilitatorSettlement.settle.
  destruct reqBody as [[payload requirements]|];
    [|left; eexists; split; [reflexivity|left; reflexivity]].
  cbn [Settlement.paymentRequirements Settlement.paymentPayload].
  destruct requirements as [requirements|];
    [|left; eexists; split; [reflexivity|left; reflexivity]].
  destruct (Facilitator.ensureRequirements cfg requirements) as [reqError|];
    [|left; eexists; split; [reflexivity|left; reflexivity]].
  destruct (negb (Eip3009.missing reqError));
    [left; eexists; split; [reflexivity|left; reflexivity]|].
  destruct payload as [payload|];
    [|left; eexists; split; [reflexivity|left; reflexivity]].
  destruct (Facilitator.verifyAuthorization cfg viem (publicClient writes) nowTs payload
              requirements reads) as [[[authorization signature]|err] reads'];
    [|left; eexists; split; [reflexivity|left; reflexivity]].
  destruct (JS.BigInt _) as [amount|];
    [|left; eexists; split; [reflexivity|left; reflexivity]].
  destruct (FacilitatorSettlement.writeContract walletClient _) as [hash|] eqn:Hwrite.
  2:{ left. eexists. split; [reflexivity|]. right. left. eexists. cbn [snd].
      split; [reflexivity|exact Hwrite]. }
  destruct (FacilitatorSettlement.waitForTransactionReceipt walletClient _) as [receipt|]
    eqn:Hwait.
  - right. eexists _, _, receipt. cbn [fst snd]. split; [reflexivity|].
    split; [exact Hwait|reflexivity].
  - left. eexists. split; [reflexivity|]. right. right. eexists _, _. cbn [snd].
    split; [reflexivity|exact Hwait].
Qed.

(** [/settle] of the multi-network facilitator asks Circle for at most one
    contract execution, and only for a transfer that [verifyAuthorization]
    accepted just before: it is executed from the wallet of the network of
    the requirements, on the USDC contract of that network and to that
    wallet (letter case apart), for the positive amount of the requirements,
    with a signature that recovers to the payer, on an authorization that
    the chain says is unused and whose window holds the time.  A request
    that fails any of this asks Circle for nothing. *)
Theorem multi_network_settle_executes_only_a_verified_transfer :
  forall (networkContexts : MultiNetworkFacilitator.NetworkContexts) (viem : Eip3009.Viem)
         (publicClient : list MultiNetworkSettlement.CircleCall -> Eip3009.World)
         (circleClient : MultiNetworkSettlement.CircleClient) (nowTs : Z)
         (reqBody : option Settlement.SettleRequestBody)
         (reads : list Eip3009.Call) (writes : list MultiNetworkSettlement.CircleCall),
    let writes' :=
      snd (MultiNetworkSettlement.settle networkContexts viem publicClient circleClient nowTs
             reqBody reads writes) in
    writes' = writes \/
    exists payload requirements context amount,
      let auth := FacilitatorCommon.toAuthorization payload in
      let sig := FacilitatorCommon.toSignature payload in
      let token := Eip3009.PaymentRequirements.token requirements in
      let wallet := MultiNetworkFacilitator.circleWallet context in
      let chain := MultiNetworkFacilitator.chain context in
      reqBody = Some (Settlement.mkSettleRequestBody (Some payload) (Some requirements)) /\
      networkContexts !! Eip3009.PaymentRequirements.network requirements = Some context /\
      Eip3009.EIP3009PaymentPayload.network payload
        = Eip3009.PaymentRequirements.network requirements /\
      writes' =
        MultiNetworkSettlement.CreateContractExecutionTransaction
          {| MultiNetworkSettlement.walletId := MultiNetworkFacilitator.id wallet;
             MultiNetworkSettlement.contractAddress := token;
             MultiNetworkSettlement.abiFunctionSignature :=
               MultiNetworkSettlement.TRANSFER_WITH_AUTHORIZATION_SIGNATURE;
             MultiNetworkSettlement.abiParameters :=
               MultiNetworkSettlement.abiParametersOf auth sig;
             MultiNetworkSettlement.refId :=
               Eip3009.PaymentRequirements.description requirements |} :: writes /\
      JS.toLowerCase token = JS.toLowerCase (MultiNetworkFacilitator.usdcAddress chain) /\
      JS.toLowerCase (Eip3009.EIP3009Authorization.to auth)
        = JS.toLowerCase (MultiNetworkFacilitator.address wallet) /\
      Eip3009.EIP3009Authorization.value auth = Eip3009.PaymentRequirements.amount requirements /\
      JS.BigInt (Eip3009.PaymentRequirements.amount requirements) = Ok amount /\
      0 < amount /\
      VerificationTrace.signedUnusedAndCurrent viem (publicClient writes) nowTs auth sig token
        (MultiNetworkFacilitator.usdcName chain) (MultiNetworkFacilitator.usdcVersion chain)
        (MultiNetworkFacilitator.chainId chain) reads.
Proof.
  intros networkContexts viem publicClient circleClient nowTs reqBody reads writes. cbn zeta.
  unfold MultiNetworkSettlement.settle.
  destruct reqBody as [[payload requirements]|]; [|left; reflexivity].
  cbn [Settlement.paymentRequirements Settlement.paymentPayload].
  destruct requirements as [requirements|]; [|left; reflexivity].
  unfold MultiNetworkFacilitator.lookupContext.
  destruct (networkContexts !! Eip3009.PaymentRequirements.network requirements)
    as [context|] eqn:Hcontext.
  2:{ destruct (bool_decide _); left; reflexivity. }
  destruct (MultiNetworkFacilitator.ensureRequirements networkContexts requirements context)
    as [reqError|] eqn:Hensure; [|left; reflexivity].
  destruct (Eip3009.missing reqError) eqn:Hmissing; cbn [negb]; [|left; reflexivity].
  destruct payload as [payload|]; [|left; reflexivity].
  destruct (MultiNetwork_ensureRequirements_passes _ _ _ _ Hensure Hmissing)
    as (_ & Htoken & Hrecipient & amount & Hamount & Hpositive).
  destruct (MultiNetworkFacilitator.verifyAuthorization viem (publicClient writes) nowTs
              payload requirements context reads)
    as [[[authorization signature]|err] reads'] eqn:Hverify; [|left; reflexivity].
  destruct (MultiNetwork_verifyAuthorization_accepted _ _ _ _ _ _ _ _ _ Hverify)
    as (Hfields & Hsigned & [= -> ->]).
  destruct (MultiNetwork_fieldMismatch_none _ _ Hfields) as (Hto & Hvalue & Hnetwork).
  right. exists payload, requirements, context, amount. cbn zeta.
  split; [reflexivity|]. split; [exact Hcontext|]. split; [exact Hnetwork|].
  split.
  { destruct (MultiNetworkSettlement.createContractExecutionTransaction circleClient _)
      as [[circleTransaction|]|]; reflexivity. }
  repeat split; try assumption. congruence.
Qed.

(** [/settle] of the multi-network facilitator answers 200 as soon as
    Circle returned a transaction for the execution it asked for, without
    waiting for it: [success] says whether its state is CLEARED, COMPLETE,
    CONFIRMED or SENT, and is false, still with 200, for a transaction that
    Circle reports as FAILED, DENIED or only QUEUED.  Everything else is
    answered with 400 and an error. *)
Theorem multi_network_settle_answers_200_for_every_transaction :
  forall (networkContexts : MultiNetworkFacilitator.NetworkContexts) (viem : Eip3009.Viem)
         (publicClient : list MultiNetworkSettlement.CircleCall -> Eip3009.World)
         (circleClient : MultiNetworkSettlement.CircleClient) (nowTs : Z)
         (reqBody : option Settlement.SettleRequestBody)
         (reads : list Eip3009.Call) (writes : list MultiNetworkSettlement.CircleCall),
    let result :=
      MultiNetworkSettlement.settle networkContexts viem publicClient circleClient nowTs
        reqBody reads writes in
    let response := fst (fst result) in
    let writes' := snd result in
    (exists error,
        response = MultiNetworkSettlement.refused error /\
        (writes' = writes \/
         exists execution,
           writes' = execution :: writes /\
           (MultiNetworkSettlement.createContractExecutionTransaction circleClient writes'
              = Throw error \/
            MultiNetworkSettlement.createContractExecutionTransaction circleClient writes'
              = Ok None))) \/
    (exists execution transaction,
        writes' = execution :: writes /\
        MultiNetworkSettlement.createContractExecutionTransaction circleClient writes'
          = Ok (Some transaction) /\
        let state := MultiNetworkSettlement.state transaction in
        response =
          {| MultiNetworkSettlement.statusCode := 200;
             MultiNetworkSettlement.body :=
               MultiNetworkSettlement.Settled
                 (bool_decide (state = "CLEARED" \/ state = "COMPLETE" \/
                               state = "CONFIRMED" \/ state = "SENT"))
                 (MultiNetworkSettlement.transactionId transaction) state
                 (MultiNetworkSettlement.transactionHash transaction) |}).
Proof.
  intros networkContexts viem publicClient circleClient nowTs reqBody reads writes. cbn zeta.
  unfold MultiNetworkSettlement.settle.
  destruct reqBody as [[payload requirements]|];
    [|left; eexists; split; [reflexivity|left; reflexivity]].
  cbn [Settlement.paymentRequirements Settlement.paymentPayload].
  destruct requirements as [requirements|];
    [|left; eexists; split; [reflexivity|left; reflexivity]].
  destruct (MultiNetworkFacilitator.lookupContext networkContexts _) as [context| |];
    [|left; eexists; split; [reflexivity|left; reflexivity]..].
  destruct (MultiNetworkFacilitator.ensureRequirements networkContexts requirements context)
    as [reqError|]; [|left; eexists; split; [reflexivity|left; reflexivity]].
  destruct (negb (Eip3009.missing reqError));
    [left; eexists; split; [reflexivity|left; reflexivity]|].
  destruct payload as [payload|];
    [|left; eexists; split; [reflexivity|left; reflexivity]].
  destruct (MultiNetworkFacilitator.verifyAuthorization viem (publicClient writes) nowTs
              payload requirements context reads)
    as [[[authorization signature]|err] reads'];
    [|left; eexists; split; [reflexivity|left; reflexivity]].
  destruct (MultiNetworkSettlement.createContractExecutionTransaction circleClient _)
    as [[transaction|]|err] eqn:Hcircle.
  - right. eexists _, transaction. cbn [fst snd]. split; [reflexivity|].
    split; [exact Hcircle|]. cbn zeta. do 2 f_equal.
    unfold MultiNetworkSettlement.successStates.
    apply bool_decide_ext. rewrite !elem_of_cons, elem_of_nil. tauto.
  - left. eexists. split; [reflexivity|]. right. eexists. cbn [snd].
    split; [reflexivity|]. right. exact Hcircle.
  - left. eexists. split; [reflexivity|]. right. eexists. cbn [snd].
    split; [reflexivity|]. left. exact Hcircle.
Qed.

Section Invoices.
Import JS Eip3009 FacilitatorCommon Settlement.

Lemma differs_same (a : string) : differs a a = false.
Proof. apply differs_false. reflexivity. Qed.

(** The amount of an invoice: the one asked for, or 1000. *)
Lemma requirements_amount (network token recipient : string)
    (amount description : option string) :
  PaymentRequirements.amount (requirements network token recipient amount description)
  = match amount with
    | Some a => if isEmpty a then "1000" else a
    | None => "1000"
    end.
Proof. destruct amount as [a|]; reflexivity. Qed.

Lemma positive_amount_passes (amount : string) :
  (bind (BigInt amount)
     (fun n => if n <=? 0 then Ok (Some "Amount must be positive") else Ok None)
   = Ok None) <->
  exists n, BigInt amount = Ok n /\ 0 < n.
Proof.
  destruct (BigInt amount) as [n|m]; cbn [bind].
  - destruct (Z.leb_spec n 0).
    + split; [discriminate|]. intros (n' & [= <-] & Hpos). lia.
    + split; [|reflexivity]. intros _. exists n. split; [reflexivity|lia].
  - split; [discriminate|]. intros (n' & [=] & _).
Qed.

End Invoices.

(** The requirements of an invoice of the facilitator pass its own
    [ensureRequirements] exactly when the amount it was asked for reads
    as a positive integer.  [/invoice] does not look at the amount: it
    invoices 0, a negative amount and a text that is no number all the
    same, and none of these invoices can be paid; without an amount, or
    with an empty one, it invoices 1000 base units, which pass.  The window
    of the template is the 300 seconds after the issue. *)
Theorem invoice_passes_ensureRequirements_iff_amount_is_positive :
  forall (cfg : Facilitator.Config) (issuedAt : Z) (amount description : option string),
    let invoice := FacilitatorSettlement.invoice cfg issuedAt amount description in
    let requirements := FacilitatorCommon.invoiceRequirements invoice in
    let template := FacilitatorCommon.payloadTemplate invoice in
    let asked :=
      match amount with
      | Some a => if JS.isEmpty a then "1000" else a
      | None => "1000"
      end in
    (Facilitator.ensureRequirements cfg requirements = Ok None <->
     exists n, JS.BigInt asked = Ok n /\ 0 < n) /\
    (amount = None \/ amount = Some EmptyString ->
     Facilitator.ensureRequirements cfg requirements = Ok None) /\
    FacilitatorCommon.validAfter template = issuedAt /\
    FacilitatorCommon.validBefore template = issuedAt + 300.
Proof.
  intros cfg issuedAt amount description. cbn zeta.
  assert (Hiff :
    Facilitator.ensureRequirements cfg
      (FacilitatorCommon.invoiceRequirements
         (FacilitatorSettlement.invoice cfg issuedAt amount description)) = Ok None <->
    exists n, JS.BigInt match amount with
                        | Some a => if JS.isEmpty a then "1000" else a
                        | None => "1000"
                        end = Ok n /\ 0 < n).
  { unfold FacilitatorSettlement.invoice, FacilitatorCommon.buildInvoice,
      Facilitator.ensureRequirements.
    cbn [FacilitatorCommon.invoiceRequirements].
    rewrite requirements_amount.
    cbn [Settlement.requirements Eip3009.PaymentRequirements.scheme
         Eip3009.PaymentRequirements.network Eip3009.PaymentRequirements.token
         Eip3009.PaymentRequirements.recipient].
    rewrite !differs_same.
    change (negb (String.eqb "exact" "exact")) with false.
    change (negb (String.eqb "arc-testnet" "arc-testnet")) with false.
    cbv iota. apply positive_amount_passes. }
  split; [exact Hiff|]. split; [|split; reflexivity].
  intros [-> | ->]; apply Hiff; exists 1000; (split; [reflexivity|lia]).
Qed.

(** * The paywall proxy: what reaches the upstream *)

Section Handler.
Import JS Eip3009 Gateway.
Variables (d : Defaults) (js : Platform) (w : World).

Lemma forwarded_cons (c : Call) (h : list Call) :
  forwarded (c :: h) = ((if isUpstream c then 1 else 0) + forwarded h)%nat.
Proof. unfold forwarded. cbn [List.filter]. destruct (isUpstream c); reflexivity. Qed.

Lemma ensureFacilitatorNetworks_run (baseUrl : string) (st : Store) :
  let normalized := normalizeFacilitatorUrl d (Some baseUrl) in
  let run := ensureFacilitatorNetworks d w baseUrl st in
  pendingNonces (snd run) = pendingNonces st /\
  responseHeaders (snd run) = responseHeaders st /\
  (calls (snd run) = calls st \/
   calls (snd run) = FetchNetworks (normalized +:+ "/networks") :: calls st) /\
  (forall key map, facilitatorNetworkCache st !! key = Some map ->
                   facilitatorNetworkCache (snd run) !! key = Some map) /\
  (fst run = Returned tt ->
   is_Some (facilitatorNetworkCache (snd run) !! normalized)).
Proof.
  cbn zeta. unfold ensureFacilitatorNetworks, next, getStore.
  destruct (facilitatorNetworkCache st !! normalizeFacilitatorUrl d (Some baseUrl))
    as [map|] eqn:Hcached.
  - cbn. rewrite Hcached. repeat split; eauto.
  - unfold await. destruct (fetchNetworks w _) as [response|message]; cbn.
    2:{ repeat split; auto. discriminate. }
    destruct (networksOk response); cbn.
    2:{ repeat split; auto. discriminate. }
    destruct (networksJson response) as [data|message]; cbn.
    2:{ repeat split; auto. discriminate. }
    split; [reflexivity|]. split; [reflexivity|]. split; [right; reflexivity|]. split.
    + intros key map Hkey. rewrite lookup_insert_ne; [exact Hkey|]. congruence.
    + intros _. rewrite lookup_insert_eq. eauto.
Qed.

Lemma getFacilitatorNetworkMetadata_run (baseUrl network : string) (st : Store) :
  getFacilitatorNetworkMetadata d baseUrl network st =
    (Returned match facilitatorNetworkCache st !! normalizeFacilitatorUrl d (Some baseUrl) with
              | None => Nothing
              | Some map => lookupNetwork map network
              end, st).
Proof.
  unfold getFacilitatorNetworkMetadata, next, getStore, pure.
  destruct (facilitatorNetworkCache st !! _); reflexivity.
Qed.

Lemma buildPaymentRequirement_run (endpoint : LoadedEndpoint.t) (network : string)
    (st : Store) :
  let url := normalizeFacilitatorUrl d (Some (ConfiguredEndpoint.facilitatorUrl endpoint)) in
  let run := buildPaymentRequirement d w endpoint network st in
  snd run = snd (ensureFacilitatorNetworks d w url st) /\
  (forall requirements, fst run = Returned requirements ->
     exists metadata, requirements = createRequirementForNetwork endpoint metadata).
Proof.
  cbn zeta. unfold buildPaymentRequirement, next.
  destruct (ensureFacilitatorNetworks d w _ st) as [[[]|message invoice] st1].
  2:{ split; [reflexivity|]. discriminate. }
  rewrite getFacilitatorNetworkMetadata_run.
  destruct (match facilitatorNetworkCache st1 !! _ with None => _ | Some _ => _ end);
    (split; [reflexivity|]); cbn; intros requirements [= <-]; eauto.
Qed.

Lemma issueNonce_run (endpoint : LoadedEndpoint.t) (st : Store) :
  let h1 := GetRandomValues :: calls st in
  let h2 := DateNow :: h1 in
  let issued :=
    PaywallProxy.issueNonce (registered endpoint) (generateNonce (randomValues w h1))
      (now w h2) (pendingNonces st) in
  issueNonce w endpoint st =
    (Returned (fst issued),
     {| pendingNonces := snd issued;
        facilitatorNetworkCache := facilitatorNetworkCache st;
        responseHeaders := responseHeaders st;
        calls := h2 |}).
Proof. reflexivity. Qed.

Lemma consumeNonce_run (endpoint : LoadedEndpoint.t) (nonce : string) (st : Store) :
  let h := DateNow :: calls st in
  let consumed :=
    PaywallProxy.consumeNonce (registered endpoint) nonce (now w h) (pendingNonces st) in
  consumeNonce w endpoint nonce st =
    (Returned (fst consumed),
     {| pendingNonces := snd consumed;
        facilitatorNetworkCache := facilitatorNetworkCache st;
        responseHeaders := responseHeaders st;
        calls := h |}).
Proof. reflexivity. Qed.

(** An answer 402 or 503 sends nothing upstream. *)
Lemma respondWithPaymentRequired_run (endpoint : LoadedEndpoint.t) (message : string)
    (st : Store) :
  let run := respondWithPaymentRequired d w endpoint message st in
  forwarded (calls (snd run)) = forwarded (calls st) /\
  responseHeaders (snd run) = responseHeaders st /\
  (forall response, fst run = Returned response ->
     status response = 503 \/ status response = 402).
Proof.
  cbn zeta. unfold respondWithPaymentRequired, next.
  pose proof (ensureFacilitatorNetworks_run
                (normalizeFacilitatorUrl d (Some (ConfiguredEndpoint.facilitatorUrl endpoint)))
                st) as (_ & Hheaders & Hcalls & _).
  cbn zeta in Hcalls, Hheaders.
  destruct (ensureFacilitatorNetworks d w _ st) as [[[]|m i] st1]; cbn [snd] in *.
  2:{ split; [|split; [assumption|discriminate]].
      destruct Hcalls as [-> | ->]; [reflexivity|]. rewrite forwarded_cons. reflexivity. }
  assert (Hforwarded : forwarded (calls st1) = forwarded (calls st)).
  { destruct Hcalls as [-> | ->]; [reflexivity|]. rewrite forwarded_cons. reflexivity. }
  unfold getFacilitatorNetworks, getStore, pure. cbn [next].
  destruct (values _) as [|metadata networks].
  { cbn. split; [assumption|]. split; [assumption|]. intros response [= <-]. left. reflexivity. }
  unfold catch, await.
  destruct (outputSchema w _) as [schema|m]; cbn [calls]; rewrite issueNonce_run;
    cbv beta iota zeta; unfold respond; cbn [fst snd calls responseHeaders];
    rewrite !forwarded_cons; cbn [isUpstream Nat.add];
    (split; [assumption|]); (split; [assumption|]);
    intros response [= <-]; right; reflexivity.
Qed.

Lemma setHeaders_run (headers : list (string * string)) (st : Store) :
  exists sent,
    setHeaders headers st =
      (Returned tt,
       {| pendingNonces := pendingNonces st;
          facilitatorNetworkCache := facilitatorNetworkCache st;
          responseHeaders := sent;
          calls := calls st |}).
Proof.
  revert st. induction headers as [|[key value] rest IH]; intros st.
  - exists (responseHeaders st). destruct st; reflexivity.
  - cbn [setHeaders]. unfold next.
    destruct (String.eqb (toLowerCase key) "transfer-encoding").
    + cbn. apply IH.
    + unfold setHeader. destruct (IH {| pendingNonces := pendingNonces st;
                                         facilitatorNetworkCache := facilitatorNetworkCache st;
                                         responseHeaders :=
                                           assignHeader key value (responseHeaders st);
                                         calls := calls st |}) as [sent Hsent].
      exists sent. rewrite Hsent. reflexivity.
Qed.

(** [proxyRequest] calls the upstream once, and leaves the registry and
    the networks as they are. *)
Lemma proxyRequest_run (req : Request) (upstreamBaseUrl : string)
    (paymentHeader : option string) (st : Store) :
  let run := proxyRequest w req upstreamBaseUrl paymentHeader st in
  let request :=
    {| upstreamUrl := (originalUrl req, upstreamBaseUrl);
       upstreamMethod := requestMethod req;
       sentHeaders := upstreamHeaders (requestHeaders req);
       sentBody := requestBody req |} in
  calls (snd run) = FetchUpstream request :: calls st /\
  pendingNonces (snd run) = pendingNonces st /\
  facilitatorNetworkCache (snd run) = facilitatorNetworkCache st /\
  (forall response, fst run = Returned response ->
     exists upstream content,
       fetchUpstream w (FetchUpstream request :: calls st) = Ok upstream /\
       arrayBuffer upstream = Ok content /\
       status response = upstreamStatus upstream /\
       body response = FromUpstream content).
Proof.
  cbn zeta. unfold proxyRequest, next, await.
  destruct (fetchUpstream w _) as [upstream|m] eqn:Hfetch; cbn [calls].
  2:{ cbn. repeat split; discriminate. }
  match goal with |- context [setHeaders ?hs ?s] => destruct (setHeaders_run hs s) as [sent ->] end.
  cbn [pendingNonces facilitatorNetworkCache responseHeaders calls].
  destruct (negb (missing paymentHeader)); unfold setHeader, pure, ofResult; cbn;
    destruct (arrayBuffer upstream) as [content|m] eqn:Hbody; cbn;
    (split; [reflexivity|]); (split; [reflexivity|]); (split; [reflexivity|]);
    try discriminate; intros response [= <-]; exists upstream, content; repeat split;
    assumption.
Qed.

Ltac thrown :=
  unfold throw; cbv beta zeta; cbn [fst snd calls pendingNonces]; rewrite ?forwarded_cons;
  cbn [isUpstream Nat.add]; repeat split; try assumption; discriminate.

(** [verifyPayment] returns a header only after the facilitator answered
    [/verify] with a status from 200 to 299 and [valid], and, for an
    endpoint that settles, [/settle] with such a status. *)
Lemma verifyPayment_run (endpoint : LoadedEndpoint.t) (paymentPayload : EIP3009PaymentPayload.t)
    (st : Store) :
  let run := verifyPayment d js w endpoint paymentPayload st in
  let url := ConfiguredEndpoint.facilitatorUrl endpoint in
  pendingNonces (snd run) = pendingNonces st /\
  forwarded (calls (snd run)) = forwarded (calls st) /\
  (forall header, fst run = Returned header ->
     exists hn requirements response data,
       (hn = calls st \/ exists networks, hn = FetchNetworks networks :: calls st) /\
       let hv := FetchVerify (url +:+ "/verify") paymentPayload requirements :: hn in
       fetchVerify w hv = Ok response /\
       verifyOk response = true /\
       verifyJson response = Ok data /\
       valid data = true /\
       ((ConfiguredEndpoint.autoSettle endpoint = false /\ calls (snd run) = hv) \/
        (ConfiguredEndpoint.autoSettle endpoint = true /\
         exists settlement result,
           let hs := FetchSettle (url +:+ "/settle") paymentPayload requirements :: hv in
           fetchSettle w hs = Ok settlement /\
           settleOk settlement = true /\
           settleJson settlement = Ok result /\
           calls (snd run) = hs))).
Proof.
  cbn zeta. unfold verifyPayment, next.
  pose proof (buildPaymentRequirement_run endpoint
                (orElse (EIP3009PaymentPayload.network paymentPayload) (DEFAULT_NETWORK d)) st)
    as [Hstore _].
  pose proof (ensureFacilitatorNetworks_run
                (normalizeFacilitatorUrl d (Some (ConfiguredEndpoint.facilitatorUrl endpoint)))
                st) as (Hpending & _ & Hcalls & _).
  cbn zeta in Hstore, Hpending, Hcalls. rewrite <- Hstore in Hpending, Hcalls.
  destruct (buildPaymentRequirement d w endpoint _ st) as [[requirements|m i] st1];
    cbn [snd] in *.
  2:{ split; [assumption|]. split; [|discriminate].
      destruct Hcalls as [-> | ->]; [reflexivity|]. rewrite forwarded_cons. reflexivity. }
  assert (Hquiet : forwarded (calls st1) = forwarded (calls st)).
  { destruct Hcalls as [-> | ->]; [reflexivity|]. rewrite forwarded_cons. reflexivity. }
  assert (Hn : calls st1 = calls st \/ exists networks, calls st1 = FetchNetworks networks :: calls st).
  { destruct Hcalls as [H | H]; [left; exact H|right; eexists; exact H]. }
  clear Hcalls Hstore.
  unfold await.
  destruct (fetchVerify w _) as [response|m] eqn:Hverify; cbn [calls pendingNonces].
  2:{ thrown. }
  destruct (verifyOk response) eqn:Hok; cbn [negb].
  2:{ thrown. }
  destruct (verifyJson response) as [data|m] eqn:Hjson; cbn [ofResult pure throw].
  2:{ thrown. }
  destruct (valid data) eqn:Hvalid; cbn [negb].
  2:{ thrown. }
  destruct (ConfiguredEndpoint.autoSettle endpoint) eqn:Hsettle.
  - destruct (fetchSettle w _) as [settlement|m] eqn:Hfetch; cbn [calls pendingNonces].
    2:{ thrown. }
    destruct (settleOk settlement) eqn:Hsok; cbn [negb].
    2:{ thrown. }
    destruct (settleJson settlement) as [result|m] eqn:Hsjson; cbn [ofResult pure throw].
    2:{ thrown. }
    unfold pure. cbn [fst snd calls pendingNonces]. rewrite !forwarded_cons.
    cbn [isUpstream Nat.add].
    split; [assumption|]. split; [assumption|].
    intros header _. exists (calls st1), requirements, response, data.
    split; [exact Hn|]. cbn zeta. repeat split; try assumption.
    right. split; [reflexivity|]. exists settlement, result. repeat split; assumption.
  - unfold pure. cbn [fst snd calls pendingNonces]. rewrite !forwarded_cons.
    cbn [isUpstream Nat.add].
    split; [assumption|]. split; [assumption|].
    intros header _. exists (calls st1), requirements, response, data.
    split; [exact Hn|]. cbn zeta. repeat split; try assumption.
    left. split; reflexivity.
Qed.

End Handler.

Lemma handler_priced_run :
  forall (d : Gateway.Defaults) (js : Gateway.Platform) (w : Gateway.World)
         (config : Gateway.ProxyConfig) (loaded : list Gateway.LoadedEndpoint.t)
         (req : Gateway.Request) (endpoint : Gateway.LoadedEndpoint.t) (st : Gateway.Store),
    Gateway.findEndpoint loaded (Gateway.requestMethod req) (Gateway.requestPath req)
      = Some endpoint ->
    let st' := snd (Gateway.handler d js w config loaded req st) in
    let configured := Gateway.LoadedEndpoint.configured endpoint in
    let url := Gateway.ConfiguredEndpoint.facilitatorUrl configured in
    Gateway.forwarded (Gateway.calls st') = Gateway.forwarded (Gateway.calls st) \/
    exists header paymentPayload requirements hn response data hs upstream,
      Gateway.paymentHeader req = Some header /\
      JS.isEmpty header = false /\
      Eip3009.decodePaymentHeader (Gateway.codec js) header = Some paymentPayload /\
      let nonce :=
        Eip3009.PayloadFields.nonce (Eip3009.EIP3009PaymentPayload.payload paymentPayload) in
      let h0 := Gateway.DateNow :: Gateway.calls st in
      JS.isEmpty nonce = false /\
      PaywallProxy.consumeNonce (Gateway.registered endpoint) nonce (Gateway.now w h0)
        (Gateway.pendingNonces st) = (true, Gateway.pendingNonces st') /\
      (hn = h0 \/ exists networks, hn = Gateway.FetchNetworks networks :: h0) /\
      let hv := Gateway.FetchVerify (url +:+ "/verify") paymentPayload requirements :: hn in
      Gateway.fetchVerify w hv = Ok response /\
      Gateway.verifyOk response = true /\
      Gateway.verifyJson response = Ok data /\
      Gateway.valid data = true /\
      ((Gateway.ConfiguredEndpoint.autoSettle configured = false /\ hs = hv) \/
       (Gateway.ConfiguredEndpoint.autoSettle configured = true /\
        exists settlement,
          hs = Gateway.FetchSettle (url +:+ "/settle") paymentPayload requirements :: hv /\
          Gateway.fetchSettle w hs = Ok settlement /\
          Gateway.settleOk settlement = true)) /\
      Gateway.calls st' = Gateway.FetchUpstream upstream :: hs.
Proof.
  intros d js w config loaded req endpoint st Hfind. cbn zeta.
  remember (snd (Gateway.handler d js w config loaded req st)) as st' eqn:Hst'.
  unfold Gateway.handler in Hst'. rewrite Hfind in Hst'.
  assert (Hcatch : forall (m : Gateway.M Gateway.Response) handled,
             (forall message invoice st0,
                 snd (handled message invoice st0) = st0) ->
             snd (Gateway.catch m handled st) = snd (m st)).
  { intros m handled Hhandled. unfold Gateway.catch.
    destruct (m st) as [[response|message invoice] st0]; [reflexivity|apply Hhandled]. }
  rewrite Hcatch in Hst' by reflexivity. clear Hcatch.
  destruct (Gateway.paymentHeader req) as [header|] eqn:Hheader.
  2:{ left. subst st'. apply respondWithPaymentRequired_run. }
  unfold Eip3009.missing in Hst'.
  destruct (JS.isEmpty header) eqn:Hempty.
  { left. subst st'. apply respondWithPaymentRequired_run. }
  cbn [default from_option id] in Hst'.
  destruct (Eip3009.decodePaymentHeader (Gateway.codec js) header) as [paymentPayload|]
    eqn:Hdecode.
  2:{ left. subst st'. apply respondWithPaymentRequired_run. }
  unfold Gateway.next at 1 in Hst'.
  destruct (JS.isEmpty (Eip3009.PayloadFields.nonce _)) eqn:Hnonce.
  { unfold Gateway.pure in Hst'. cbn [negb] in Hst'. left. subst st'.
    apply respondWithPaymentRequired_run. }
  rewrite consumeNonce_run in Hst'. cbv beta iota zeta in Hst'.
  destruct (PaywallProxy.consumeNonce _ _ _ _) as [consumed pending] eqn:Hconsume.
  cbn [fst snd] in Hst'.
  destruct consumed; cbn [negb] in Hst'.
  2:{ left. subst st'.
      match goal with
      | |- context [Gateway.respondWithPaymentRequired ?d ?w ?e ?m ?s] =>
          pose proof (respondWithPaymentRequired_run d w e m s) as [Hquiet _]
      end.
      cbn zeta in Hquiet. rewrite Hquiet. cbn [Gateway.calls].
      rewrite forwarded_cons. reflexivity. }
  unfold Gateway.next in Hst'.
  match type of Hst' with
  | context [Gateway.verifyPayment ?d ?js ?w ?e ?p ?s] =>
      pose proof (verifyPayment_run d js w e p s) as (Hpending & Hquiet & Hverified)
  end.
  cbn zeta in Hpending, Hquiet, Hverified.
  destruct (Gateway.verifyPayment d js w endpoint paymentPayload _)
    as [[paymentResponseHeader|message invoice] st1]; cbn [fst snd] in *.
  2:{ left. subst st'. rewrite Hquiet. cbn [Gateway.calls]. rewrite forwarded_cons.
      reflexivity. }
  right.
  destruct (Hverified _ eq_refl)
    as (hn & requirements & response & data & Hn & Hv & Hok & Hjson & Hvalid & Hsettle).
  match type of Hst' with
  | context [Gateway.proxyRequest ?w ?r ?u ?p ?s] =>
      pose proof (proxyRequest_run w r u p s) as (Hcalls & Hkept & _)
  end.
  cbn zeta in Hcalls, Hkept. rewrite <- Hst' in Hcalls, Hkept. cbn [Gateway.calls] in Hn.
  exists header, paymentPayload, requirements, hn, response, data, (Gateway.calls st1).
  eexists. split; [reflexivity|]. split; [exact Hempty|]. split; [exact Hdecode|]. cbn zeta.
  split; [exact Hnonce|].
  split; [rewrite Hconsume, Hkept, Hpending; reflexivity|].
  split; [exact Hn|]. split; [exact Hv|]. split; [exact Hok|]. split; [exact Hjson|].
  split; [exact Hvalid|]. split; [|exact Hcalls].
  destruct Hsettle as [[Hoff Hs] | (Hon & settlement & result & Hs & Hsok & _ & Hcs)].
  - left. split; assumption.
  - right. split; [assumption|]. exists settlement. rewrite Hcs. repeat split; assumption.
Qed.

(** The proxy sends a request for a priced endpoint upstream only after
    payment: the request carried a payment header that decodes to a
    payload; the nonce of the payload was pending for this endpoint and
    had not expired, and is spent by this request; after that the
    facilitator answered [/verify], for this payload, with a status from
    200 to 299 and [valid]; and for an endpoint that settles it then
    answered [/settle] with such a status.  The call to the upstream is the
    last call of the request and the only one. *)
Theorem handler_forwards_a_priced_request_only_after_payment :
  forall (d : Gateway.Defaults) (js : Gateway.Platform) (w : Gateway.World)
         (config : Gateway.ProxyConfig) (loaded : list Gateway.LoadedEndpoint.t)
         (req : Gateway.Request) (endpoint : Gateway.LoadedEndpoint.t) (st : Gateway.Store),
    Gateway.findEndpoint loaded (Gateway.requestMethod req) (Gateway.requestPath req)
      = Some endpoint ->
    let st' := snd (Gateway.handler d js w config loaded req st) in
    let configured := Gateway.LoadedEndpoint.configured endpoint in
    let url := Gateway.ConfiguredEndpoint.facilitatorUrl configured in
    Gateway.forwarded (Gateway.calls st') = Gateway.forwarded (Gateway.calls st) \/
    exists header paymentPayload requirements hn response data hs upstream,
      Gateway.paymentHeader req = Some header /\
      Eip3009.decodePaymentHeader (Gateway.codec js) header = Some paymentPayload /\
      let nonce :=
        Eip3009.PayloadFields.nonce (Eip3009.EIP3009PaymentPayload.payload paymentPayload) in
      let h0 := Gateway.DateNow :: Gateway.calls st in
      PaywallProxy.consumeNonce (Gateway.registered endpoint) nonce (Gateway.now w h0)
        (Gateway.pendingNonces st) = (true, Gateway.pendingNonces st') /\
      (hn = h0 \/ exists networks, hn = Gateway.FetchNetworks networks :: h0) /\
      let hv := Gateway.FetchVerify (url +:+ "/verify") paymentPayload requirements :: hn in
      Gateway.fetchVerify w hv = Ok response /\
      Gateway.verifyOk response = true /\
      Gateway.verifyJson response = Ok data /\
      Gateway.valid data = true /\
      ((Gateway.ConfiguredEndpoint.autoSettle configured = false /\ hs = hv) \/
       (Gateway.ConfiguredEndpoint.autoSettle configured = true /\
        exists settlement,
          hs = Gateway.FetchSettle (url +:+ "/settle") paymentPayload requirements :: hv /\
          Gateway.fetchSettle w hs = Ok settlement /\
          Gateway.settleOk settlement = true)) /\
      Gateway.calls st' = Gateway.FetchUpstream upstream :: hs.
Proof.
  intros d js w config loaded req endpoint st Hfind. cbn zeta.
  destruct (handler_priced_run d js w config loaded req endpoint st Hfind)
    as [Hquiet | (header & paymentPayload & requirements & hn & response & data & hs
                  & upstream & Hheader & _ & Hdecode & _ & Hrest)].
  - left. exact Hquiet.
  - right. exists header, paymentPayload, requirements, hn, response, data, hs, upstream.
    split; [exact Hheader|]. split; [exact Hdecode|]. exact Hrest.
Qed.

Lemma catch_next {A B : Type} (m : Gateway.M A) (k : A -> Gateway.M B)
    (handled : string -> option string -> Gateway.M B) (st st1 : Gateway.Store) (a : A) :
  m st = (Gateway.Returned a, st1) ->
  Gateway.catch (Gateway.next m k) handled st = Gateway.catch (k a) handled st1.
Proof. intros Hm. unfold Gateway.catch, Gateway.next. rewrite Hm. reflexivity. Qed.

(** A payment whose nonce is not pending is answered with 402 or 503, and
    nothing goes upstream. *)
Lemma handler_refuses_unknown_nonce (d : Gateway.Defaults) (js : Gateway.Platform)
    (w : Gateway.World) (config : Gateway.ProxyConfig) (loaded : list Gateway.LoadedEndpoint.t)
    (req : Gateway.Request) (endpoint : Gateway.LoadedEndpoint.t) (st : Gateway.Store)
    (header : string) (paymentPayload : Eip3009.EIP3009PaymentPayload.t) :
  Gateway.findEndpoint loaded (Gateway.requestMethod req) (Gateway.requestPath req)
    = Some endpoint ->
  Gateway.paymentHeader req = Some header ->
  JS.isEmpty header = false ->
  Eip3009.decodePaymentHeader (Gateway.codec js) header = Some paymentPayload ->
  Gateway.pendingNonces st
    !! PaywallProxy.buildNonceKey (Gateway.registered endpoint)
         (Eip3009.PayloadFields.nonce (Eip3009.EIP3009PaymentPayload.payload paymentPayload))
    = None ->
  let run := Gateway.handler d js w config loaded req st in
  Gateway.forwarded (Gateway.calls (snd run)) = Gateway.forwarded (Gateway.calls st) /\
  exists response,
    fst run = Gateway.Returned response /\
    (Gateway.status response = 402 \/ Gateway.status response = 503).
Proof.
  intros Hfind Hheader Hempty Hdecode Hkey. cbn zeta.
  unfold Gateway.handler. rewrite Hfind, Hheader. unfold Eip3009.missing. rewrite Hempty.
  cbn [default from_option id]. rewrite Hdecode.
  assert (Hrefused : forall message st0,
             Gateway.forwarded (Gateway.calls st0) = Gateway.forwarded (Gateway.calls st) ->
             let run := Gateway.catch
                          (Gateway.respondWithPaymentRequired d w endpoint message)
                          (fun message invoice =>
                             Gateway.respond 402
                               (Gateway.PaymentFailed 1
                                  (JS.orElse message "Payment verification failed") invoice))
                          st0 in
             Gateway.forwarded (Gateway.calls (snd run)) = Gateway.forwarded (Gateway.calls st) /\
             exists response,
               fst run = Gateway.Returned response /\
               (Gateway.status response = 402 \/ Gateway.status response = 503)).
  { intros message st0 Hst0. cbn zeta. unfold Gateway.catch.
    pose proof (respondWithPaymentRequired_run d w endpoint message st0)
      as (Hquiet & _ & Hstatus).
    cbn zeta in Hquiet, Hstatus.
    destruct (Gateway.respondWithPaymentRequired d w endpoint message st0)
      as [[response|m i] st1]; cbn [fst snd] in *.
    - split; [congruence|]. exists response. split; [reflexivity|].
      destruct (Hstatus _ eq_refl); [right|left]; assumption.
    - unfold Gateway.respond. cbn [fst snd]. split; [congruence|].
      eexists. split; [reflexivity|]. left. reflexivity. }
  destruct (JS.isEmpty (Eip3009.PayloadFields.nonce _)) eqn:Hnonce.
  { erewrite catch_next by reflexivity. cbn [negb]. apply Hrefused. reflexivity. }
  erewrite catch_next by apply consumeNonce_run.
  assert (Hconsumed :
            fst (PaywallProxy.consumeNonce (Gateway.registered endpoint)
                   (Eip3009.PayloadFields.nonce
                      (Eip3009.EIP3009PaymentPayload.payload paymentPayload))
                   (Gateway.now w (Gateway.DateNow :: Gateway.calls st))
                   (Gateway.pendingNonces st)) = false).
  { apply not_true_is_false. rewrite consumeNonce_true. intros (entry & Hentry & _).
    rewrite Hkey in Hentry. discriminate. }
  rewrite Hconsumed. cbn [negb]. apply Hrefused. cbn [Gateway.calls].
  rewrite forwarded_cons. reflexivity.
Qed.

(** A payment is served once.  After a request for a priced endpoint went
    upstream, the same request, made again at any time and whatever the
    facilitator and the clock then say, is answered with 402 or 503 and
    does not go upstream: its nonce was spent by the first. *)
Theorem handler_serves_a_payment_once :
  forall (d : Gateway.Defaults) (js : Gateway.Platform) (w w' : Gateway.World)
         (config : Gateway.ProxyConfig) (loaded : list Gateway.LoadedEndpoint.t)
         (req : Gateway.Request) (endpoint : Gateway.LoadedEndpoint.t) (st : Gateway.Store),
    Gateway.findEndpoint loaded (Gateway.requestMethod req) (Gateway.requestPath req)
      = Some endpoint ->
    let st1 := snd (Gateway.handler d js w config loaded req st) in
    Gateway.forwarded (Gateway.calls st1) <> Gateway.forwarded (Gateway.calls st) ->
    let again := Gateway.handler d js w' config loaded req st1 in
    Gateway.forwarded (Gateway.calls (snd again)) = Gateway.forwarded (Gateway.calls st1) /\
    exists response,
      fst again = Gateway.Returned response /\
      (Gateway.status response = 402 \/ Gateway.status response = 503).
Proof.
  intros d js w w' config loaded req endpoint st Hfind st1 Hserved.
  destruct (handler_priced_run d js w config loaded req endpoint st Hfind)
    as [Hquiet | (header & paymentPayload & requirements & hn & response & data & hs
                  & upstream & Hheader & Hempty & Hdecode & _ & Hconsume & _)].
  { contradiction. }
  apply (handler_refuses_unknown_nonce d js w' config loaded req endpoint st1 header
           paymentPayload Hfind Hheader Hempty Hdecode).
  fold st1 in Hconsume. apply (f_equal snd) in Hconsume. cbn [snd] in Hconsume.
  rewrite <- Hconsume. apply consumeNonce_deletes.
Qed.

Section Headers.
Import JS Gateway.

(** The invariant of the loop that copies the headers of a request. *)
Lemma upstreamHeaders_sent (headers : list (string * HeaderValue)) (key value : string) :
  upstreamHeaders headers !! key = Some value ->
  exists sent,
    In (key, sent) headers /\
    isTruthyHeader sent = true /\
    (toLowerCase key ∉ notForwarded) /\
    key <> "__proto__" /\
    value = match sent with Single s => s | Multiple xs => join xs end.
Proof.
  unfold upstreamHeaders.
  assert (Hloop : forall (sent0 : gmap string string),
    fold_left
      (fun sent '(key, value) =>
         if negb (isTruthyHeader value) then sent
         else if bool_decide (toLowerCase key ∈ notForwarded) then sent
         else if String.eqb key "__proto__" then sent
         else <[key := match value with Single s => s | Multiple xs => join xs end]> sent)
      headers sent0 !! key = Some value ->
    sent0 !! key = Some value \/
    exists sent,
      In (key, sent) headers /\ isTruthyHeader sent = true /\
      (toLowerCase key ∉ notForwarded) /\ key <> "__proto__" /\
      value = match sent with Single s => s | Multiple xs => join xs end).
  { induction headers as [|[k v] rest IH]; intros sent0; cbn [fold_left].
    - intros H. left. exact H.
    - intros H. apply IH in H.
      destruct H as [H | (sent & Hin & Hrest)];
        [|right; exists sent; split; [right; exact Hin|exact Hrest]].
      destruct (isTruthyHeader v) eqn:Htruthy; cbn [negb] in H; [|left; exact H].
      destruct (bool_decide (toLowerCase k ∈ notForwarded)) eqn:Hkept; [left; exact H|].
      destruct (String.eqb_spec k "__proto__") as [Hproto|Hproto]; [left; exact H|].
      destruct (decide (k = key)) as [->|Hne].
      + rewrite lookup_insert_eq in H. injection H as <-.
        right. exists v. split; [left; reflexivity|]. split; [exact Htruthy|].
        split; [apply bool_decide_eq_false in Hkept; exact Hkept|].
        split; [exact Hproto|reflexivity].
      + rewrite lookup_insert_ne in H by exact Hne. left. exact H. }
  intros H. apply Hloop in H. destruct H as [H | H]; [|exact H].
  rewrite lookup_empty in H. discriminate.
Qed.

End Headers.

(** What [proxyRequest] sends upstream never holds the payment of the
    client or its credentials: every header it sends is a header of the
    request, with a value that is not empty, whose name is none of [host],
    [content-length], [x-payment], [x-token] and [authorization],
    whatever the case of its letters; the values of a header that came
    several times are joined with commas. *)
Theorem proxyRequest_withholds_payment_and_credentials :
  forall (w : Gateway.World) (req : Gateway.Request) (upstreamBaseUrl : string)
         (paymentHeader : option string) (st : Gateway.Store),
    exists request,
      Gateway.calls (snd (Gateway.proxyRequest w req upstreamBaseUrl paymentHeader st))
        = Gateway.FetchUpstream request :: Gateway.calls st /\
      Gateway.upstreamMethod request = Gateway.requestMethod req /\
      Gateway.sentBody request = Gateway.requestBody req /\
      forall key value,
        Gateway.sentHeaders request !! key = Some value ->
        (JS.toLowerCase key
           ∉ ["host"; "content-length"; "x-payment"; "x-token"; "authorization"])
        /\ exists sent,
             In (key, sent) (Gateway.requestHeaders req) /\
             Gateway.isTruthyHeader sent = true /\
             value = match sent with
                     | Gateway.Single s => s
                     | Gateway.Multiple xs => Gateway.join xs
                     end.
Proof.
  intros w req upstreamBaseUrl paymentHeader st.
  pose proof (proxyRequest_run w req upstreamBaseUrl paymentHeader st) as [Hcalls _].
  cbn zeta in Hcalls. eexists. split; [exact Hcalls|].
  split; [reflexivity|]. split; [reflexivity|].
  cbn [Gateway.sentHeaders]. intros key value Hsent.
  destruct (upstreamHeaders_sent _ _ _ Hsent) as (sent & Hin & Htruthy & Hkept & _ & Hvalue).
  split; [exact Hkept|]. exists sent. repeat split; assumption.
Qed.


Section Offers.
Import JS Eip3009 Gateway.
Variables (d : Defaults) (js : Platform) (w : World).

(** What an answer 402 with offers was made of: the networks that the
    proxy keeps of the facilitator, the bytes of the random source and the
    time of the clock, both read last. *)
Lemma respondWithPaymentRequired_offer (endpoint : LoadedEndpoint.t) (message : string)
    (st st' : Store) (response : Response) (version : Z) (error : string)
    (accepts : list X402PaymentRequirement) :
  respondWithPaymentRequired d w endpoint message st = (Returned response, st') ->
  body response = PaymentRequired version error accepts ->
  let url := normalizeFacilitatorUrl d (Some (ConfiguredEndpoint.facilitatorUrl endpoint)) in
  exists map schema earlier,
    calls st' = DateNow :: GetRandomValues :: earlier /\
    facilitatorNetworkCache st' !! normalizeFacilitatorUrl d (Some url) = Some map /\
    values map <> [] /\
    accepts =
      List.map (accepted d endpoint schema
                  (generateNonce (randomValues w (GetRandomValues :: earlier))))
        (values map) /\
    version = 1 /\ error = message /\ status response = 402 /\
    pendingNonces st' =
      snd (PaywallProxy.issueNonce (registered endpoint)
             (generateNonce (randomValues w (GetRandomValues :: earlier)))
             (now w (calls st')) (pendingNonces st)).
Proof.
  cbn zeta. unfold respondWithPaymentRequired, next.
  pose proof (ensureFacilitatorNetworks_run d w
                (normalizeFacilitatorUrl d (Some (ConfiguredEndpoint.facilitatorUrl endpoint)))
                st) as (Hpending & _).
  cbn zeta in Hpending.
  destruct (ensureFacilitatorNetworks d w _ st) as [[[]|m i] st1]; [|discriminate].
  cbn [snd] in Hpending.
  unfold getFacilitatorNetworks, getStore, pure. cbn [next].
  destruct (facilitatorNetworkCache st1 !! _) as [map|] eqn:Hcache; cbn [default from_option id].
  2:{ unfold respond. intros [= <- <-]. cbn [body]. discriminate. }
  destruct (values map) as [|metadata networks] eqn:Hvalues.
  { unfold respond. intros [= <- <-]. cbn [body]. discriminate. }
  unfold catch, await.
  destruct (outputSchema w _) as [schema|m]; cbn [calls]; rewrite issueNonce_run;
    cbv beta iota zeta; unfold respond; cbn [fst snd calls responseHeaders pendingNonces];
    intros [= <- <-]; cbn [body status pendingNonces calls facilitatorNetworkCache];
    intros [= <- <- <-];
    eexists map, _, _;
    (split; [reflexivity|]); (split; [exact Hcache|]);
    (split; [rewrite Hvalues; discriminate|]); (split; [rewrite Hvalues; reflexivity|]);
    rewrite <- Hpending; repeat split; reflexivity.
Qed.

Lemma handler_offer (config : ProxyConfig) (loaded : list LoadedEndpoint.t) (req : Request)
    (endpoint : LoadedEndpoint.t) (st st' : Store) (response : Response) (version : Z)
    (error : string) (accepts : list X402PaymentRequirement) :
  findEndpoint loaded (requestMethod req) (requestPath req) = Some endpoint ->
  handler d js w config loaded req st = (Returned response, st') ->
  body response = PaymentRequired version error accepts ->
  exists message st0,
    respondWithPaymentRequired d w endpoint message st0 = (Returned response, st').
Proof.
  intros Hfind Hrun Hbody. unfold handler in Hrun. rewrite Hfind in Hrun.
  assert (Hoffer : forall message st0,
             catch (respondWithPaymentRequired d w endpoint message)
               (fun message invoice =>
                  respond 402
                    (PaymentFailed 1 (orElse message "Payment verification failed") invoice))
               st0 = (Returned response, st') ->
             respondWithPaymentRequired d w endpoint message st0 = (Returned response, st')).
  { intros message st0. unfold catch.
    destruct (respondWithPaymentRequired d w endpoint message st0) as [[r|m i] st1].
    - intros H. exact H.
    - unfold respond. intros [= <- <-]. cbn [body] in Hbody. discriminate. }
  destruct (missing (paymentHeader req)); [eauto|].
  destruct (decodePaymentHeader _ _) as [paymentPayload|]; [|eauto].
  destruct (isEmpty (PayloadFields.nonce _)).
  { erewrite catch_next in Hrun by reflexivity. cbn [negb] in Hrun. eauto. }
  erewrite catch_next in Hrun by apply consumeNonce_run.
  destruct (fst (PaywallProxy.consumeNonce _ _ _ _)); cbn [negb] in Hrun; [|eauto].
  exfalso. unfold catch, next in Hrun.
  destruct (verifyPayment d js w endpoint paymentPayload _) as [[header|m i] st1].
  2:{ unfold respond in Hrun. injection Hrun as <- <-. discriminate. }
  match type of Hrun with
  | context [proxyRequest ?w ?r ?u ?p ?s] =>
      pose proof (proxyRequest_run w r u p s) as (_ & _ & _ & Hreturned)
  end.
  cbn zeta in Hreturned.
  destruct (proxyRequest w req _ _ st1) as [[r|m i] st2].
  - injection Hrun as <- <-.
    destruct (Hreturned _ eq_refl) as (upstream & content & _ & _ & _ & Hfrom).
    congruence.
  - unfold respond in Hrun. injection Hrun as <- <-. discriminate.
Qed.

End Offers.

(** An answer 402 that offers payment holds a nonce that can be spent.
    The offers are one for each network that the proxy keeps of the
    facilitator of the endpoint, in the order of [Object.values], and at
    least one; they all ask for the price of the endpoint and carry the
    same nonce, made of the bytes that the random source gave last; the
    registry then holds this nonce for the endpoint until
    [maxTimeoutSeconds] after the time that the clock gave, the last call of
    the request, so that [consumeNonce] accepts it at any time before
    that. *)
Theorem payment_required_offers_a_nonce_that_can_be_spent :
  forall (d : Gateway.Defaults) (js : Gateway.Platform) (w : Gateway.World)
         (config : Gateway.ProxyConfig) (loaded : list Gateway.LoadedEndpoint.t)
         (req : Gateway.Request) (endpoint : Gateway.LoadedEndpoint.t)
         (st st' : Gateway.Store) (response : Gateway.Response) (version : Z)
         (error : string) (accepts : list Gateway.X402PaymentRequirement),
    Gateway.findEndpoint loaded (Gateway.requestMethod req) (Gateway.requestPath req)
      = Some endpoint ->
    Gateway.handler d js w config loaded req st = (Gateway.Returned response, st') ->
    Gateway.body response = Gateway.PaymentRequired version error accepts ->
    let configured := Gateway.LoadedEndpoint.configured endpoint in
    let timeout := Gateway.ConfiguredEndpoint.maxTimeoutSeconds configured in
    let url :=
      Gateway.normalizeFacilitatorUrl d
        (Some (Gateway.ConfiguredEndpoint.facilitatorUrl configured)) in
    Gateway.status response = 402 /\
    accepts <> [] /\
    exists map earlier,
      let nonce :=
        Gateway.generateNonce (Gateway.randomValues w (Gateway.GetRandomValues :: earlier)) in
      let issuedAt := Gateway.now w (Gateway.calls st') in
      Gateway.calls st' = Gateway.DateNow :: Gateway.GetRandomValues :: earlier /\
      Gateway.facilitatorNetworkCache st' !! Gateway.normalizeFacilitatorUrl d (Some url)
        = Some map /\
      List.map Gateway.acceptedNetwork accepts
        = List.map Gateway.FacilitatorNetworkMetadata.network (Gateway.values map) /\
      Forall (fun offer =>
                Gateway.acceptedNonce offer = nonce /\
                Gateway.maxAmountRequired offer = Gateway.ConfiguredEndpoint.price configured /\
                Gateway.acceptedTimeout offer = timeout) accepts /\
      Gateway.pendingNonces st' !! PaywallProxy.buildNonceKey (Gateway.registered endpoint) nonce
        = Some {| PaywallProxy.expiresAt := issuedAt + timeout |} /\
      forall later,
        later < issuedAt + timeout ->
        fst (PaywallProxy.consumeNonce (Gateway.registered endpoint) nonce later
               (Gateway.pendingNonces st')) = true.
Proof.
  intros d js w config loaded req endpoint st st' response version error accepts
         Hfind Hrun Hbody. cbn zeta.
  destruct (handler_offer d js w config loaded req endpoint st st' response version error
              accepts Hfind Hrun Hbody) as (message & st0 & Hrespond).
  destruct (respondWithPaymentRequired_offer d w endpoint message st0 st' response version
              error accepts Hrespond Hbody)
    as (map & schema & earlier & Hcalls & Hcache & Hnetworks & -> & _ & _ & Hstatus
        & Hpending).
  split; [exact Hstatus|].
  split; [destruct (Gateway.values map); [contradiction|discriminate]|].
  exists map, earlier. cbn zeta.
  assert (Hkey :
    Gateway.pendingNonces st'
      !! PaywallProxy.buildNonceKey (Gateway.registered endpoint)
           (Gateway.generateNonce
              (Gateway.randomValues w (Gateway.GetRandomValues :: earlier)))
    = Some {| PaywallProxy.expiresAt :=
                Gateway.now w (Gateway.calls st')
                + Gateway.ConfiguredEndpoint.maxTimeoutSeconds
                    (Gateway.LoadedEndpoint.configured endpoint) |}).
  { rewrite Hpending. apply issueNonce_lookup. }
  split; [exact Hcalls|]. split; [exact Hcache|].
  split; [|split; [|split; [exact Hkey|]]].
  - rewrite List.map_map. reflexivity.
  - apply List.Forall_forall. intros offer Hin. apply in_map_iff in Hin.
    destruct Hin as (metadata & <- & _). repeat split.
  - intros later Hlater. apply consumeNonce_true. eexists. split; [exact Hkey|].
    cbn [PaywallProxy.expiresAt]. exact Hlater.
Qed.

Section Served.
Import JS Eip3009 Gateway.

Lemma wellFormed_fields (payload : EIP3009PaymentPayload.t) :
  wellFormed payload = true ->
  isEmpty (EIP3009PaymentPayload.network payload) = false /\
  isEmpty (PayloadFields.nonce (EIP3009PaymentPayload.payload payload)) = false.
Proof.
  unfold wellFormed. rewrite !andb_true_iff, !negb_true_iff. tauto.
Qed.

Lemma assignHeader_In (name value : string) (headers : list (string * string)) :
  In (name, value) (assignHeader name value headers).
Proof.
  induction headers as [|[k v] rest IH]; cbn [assignHeader]; [left; reflexivity|].
  destruct (String.eqb _ _); [left; reflexivity|right; exact IH].
Qed.

Lemma assignHeader_keeps (name value k v : string) (headers : list (string * string)) :
  toLowerCase k <> toLowerCase name ->
  In (k, v) headers -> In (k, v) (assignHeader name value headers).
Proof.
  intros Hne. induction headers as [|[k' v'] rest IH]; cbn [assignHeader]; [intros []|].
  intros [[= -> ->] | Hin].
  - destruct (String.eqb_spec (toLowerCase k) (toLowerCase name)); [contradiction|].
    left. reflexivity.
  - destruct (String.eqb _ _); right; [exact Hin|apply IH, Hin].
Qed.

Variables (d : Defaults) (js : Platform) (w : World).

Lemma ensureFacilitatorNetworks_cached (baseUrl : string) (st : Store)
    (map : FacilitatorNetworkMap) :
  facilitatorNetworkCache st !! normalizeFacilitatorUrl d (Some baseUrl) = Some map ->
  ensureFacilitatorNetworks d w baseUrl st = (Returned tt, st).
Proof.
  intros Hcache. unfold ensureFacilitatorNetworks, next, getStore. rewrite Hcache.
  reflexivity.
Qed.

Lemma buildPaymentRequirement_cached (endpoint : LoadedEndpoint.t) (network : string)
    (st : Store) (map : FacilitatorNetworkMap) (metadata : FacilitatorNetworkMetadata.t) :
  let url := normalizeFacilitatorUrl d (Some (ConfiguredEndpoint.facilitatorUrl endpoint)) in
  facilitatorNetworkCache st !! normalizeFacilitatorUrl d (Some url) = Some map ->
  lookupNetwork map network = Metadata metadata ->
  buildPaymentRequirement d w endpoint network st =
    (Returned (createRequirementForNetwork endpoint (Some metadata)), st).
Proof.
  cbn zeta. intros Hcache Hlookup. unfold buildPaymentRequirement, next.
  rewrite (ensureFacilitatorNetworks_cached _ _ _ Hcache).
  rewrite getFacilitatorNetworkMetadata_run, Hcache, Hlookup. reflexivity.
Qed.

Lemma verifyPayment_settled (endpoint : LoadedEndpoint.t)
    (paymentPayload : EIP3009PaymentPayload.t) (st : Store)
    (requirements : Requirement) (verification : VerifyResponse) (data : VerifyData)
    (settlement : SettleResponse) (result : SettleData) :
  let url := ConfiguredEndpoint.facilitatorUrl endpoint in
  let hv := FetchVerify (url +:+ "/verify") paymentPayload requirements :: calls st in
  let hs := FetchSettle (url +:+ "/settle") paymentPayload requirements :: hv in
  buildPaymentRequirement d w endpoint
    (orElse (EIP3009PaymentPayload.network paymentPayload) (DEFAULT_NETWORK d)) st
    = (Returned requirements, st) ->
  fetchVerify w hv = Ok verification ->
  verifyOk verification = true ->
  verifyJson verification = Ok data ->
  valid data = true ->
  ConfiguredEndpoint.autoSettle endpoint = true ->
  fetchSettle w hs = Ok settlement ->
  settleOk settlement = true ->
  settleJson settlement = Ok result ->
  verifyPayment d js w endpoint paymentPayload st =
    (Returned
       (encodeSettlement js
          {| settlementStatus := if success result then "completed" else "failed";
             settlementTransactionHash := settleTransactionHash result;
             settlementBlockNumber := settleBlockNumber result;
             settlementAmount := requiredAmount requirements;
             settlementToken := requiredToken requirements;
             settled := success result |}),
     {| pendingNonces := pendingNonces st;
        facilitatorNetworkCache := facilitatorNetworkCache st;
        responseHeaders := responseHeaders st;
        calls := hs |}).
Proof.
  cbn zeta. intros Hbuild Hverify Hok Hjson Hvalid Hauto Hsettle Hsok Hsjson.
  unfold verifyPayment, next. rewrite Hbuild. unfold await.
  rewrite Hverify, Hok. cbn [negb]. rewrite Hjson. cbn [ofResult]. unfold pure at 1.
  rewrite Hvalid, Hauto. cbn [negb calls]. rewrite Hsettle, Hsok. cbn [negb].
  rewrite Hsjson. reflexivity.
Qed.

Lemma proxyRequest_answered (req : Request) (upstreamBaseUrl : string)
    (paymentHeader : option string) (st : Store) (upstream : UpstreamResponse)
    (content : string) :
  let request :=
    {| upstreamUrl := (originalUrl req, upstreamBaseUrl);
       upstreamMethod := requestMethod req;
       sentHeaders := upstreamHeaders (requestHeaders req);
       sentBody := requestBody req |} in
  fetchUpstream w (FetchUpstream request :: calls st) = Ok upstream ->
  arrayBuffer upstream = Ok content ->
  exists response,
    fst (proxyRequest w req upstreamBaseUrl paymentHeader st) = Returned response /\
    status response = upstreamStatus upstream /\
    body response = FromUpstream content /\
    forall paid, paymentHeader = Some paid -> paid <> "" ->
                 In ("X-Payment-Response", paid) (headers response).
Proof.
  cbn zeta. intros Hupstream Hcontent. unfold proxyRequest, next, await.
  rewrite Hupstream.
  match goal with
  | |- context [setHeaders ?hs ?s] => destruct (setHeaders_run hs s) as [sent ->]
  end.
  destruct paymentHeader as [[|c paid]|]; cbn [missing isEmpty negb];
    unfold setHeader, ofResult; rewrite Hcontent; unfold pure, respond;
    cbn [fst responseHeaders];
    (eexists; split; [reflexivity|]); cbn [status body headers];
    (split; [reflexivity|]); (split; [reflexivity|]).
  - intros paid [= <-] Habs. contradiction.
  - intros paid0 [= <-] _. cbn [default from_option id].
    apply assignHeader_keeps; [discriminate|]. apply assignHeader_In.
  - intros paid [=].
Qed.

End Served.

(** The proxy serves a paid request whatever the settlement came to.  For
    an endpoint that settles, when the nonce of the payment is pending, the
    networks of the facilitator are known, and the facilitator answers
    [/verify] with a status from 200 to 299 and [valid] and then [/settle]
    with such a status, the answer to the client is the answer of the
    upstream, with its status and its content, also when the body of
    [/settle] says [success: false]: the failure shows only in the header
    [X-Payment-Response], whose status is then [failed] (the header is set
    when its encoding is not the empty text). *)
Theorem handler_serves_whatever_the_settlement_reports :
  forall (d : Gateway.Defaults) (js : Gateway.Platform) (w : Gateway.World)
         (config : Gateway.ProxyConfig) (loaded : list Gateway.LoadedEndpoint.t)
         (req : Gateway.Request) (endpoint : Gateway.LoadedEndpoint.t) (st : Gateway.Store)
         (header : string) (paymentPayload : Eip3009.EIP3009PaymentPayload.t)
         (map : Gateway.FacilitatorNetworkMap)
         (metadata : Gateway.FacilitatorNetworkMetadata.t)
         (verification : Gateway.VerifyResponse) (data : Gateway.VerifyData)
         (settlement : Gateway.SettleResponse) (result : Gateway.SettleData)
         (upstream : Gateway.UpstreamResponse) (content : string),
    let configured := Gateway.LoadedEndpoint.configured endpoint in
    let url := Gateway.ConfiguredEndpoint.facilitatorUrl configured in
    let nonce :=
      Eip3009.PayloadFields.nonce (Eip3009.EIP3009PaymentPayload.payload paymentPayload) in
    let h0 := Gateway.DateNow :: Gateway.calls st in
    let requirements := Gateway.createRequirementForNetwork endpoint (Some metadata) in
    let hv := Gateway.FetchVerify (url +:+ "/verify") paymentPayload requirements :: h0 in
    let hs := Gateway.FetchSettle (url +:+ "/settle") paymentPayload requirements :: hv in
    let request :=
      {| Gateway.upstreamUrl := (Gateway.originalUrl req, Gateway.upstreamBaseUrl config);
         Gateway.upstreamMethod := Gateway.requestMethod req;
         Gateway.sentHeaders := Gateway.upstreamHeaders (Gateway.requestHeaders req);
         Gateway.sentBody := Gateway.requestBody req |} in
    Gateway.findEndpoint loaded (Gateway.requestMethod req) (Gateway.requestPath req)
      = Some endpoint ->
    Gateway.paymentHeader req = Some header ->
    header <> "" ->
    Eip3009.decodePaymentHeader (Gateway.codec js) header = Some paymentPayload ->
    fst (PaywallProxy.consumeNonce (Gateway.registered endpoint) nonce (Gateway.now w h0)
           (Gateway.pendingNonces st)) = true ->
    Gateway.facilitatorNetworkCache st
      !! Gateway.normalizeFacilitatorUrl d
           (Some (Gateway.normalizeFacilitatorUrl d (Some url))) = Some map ->
    Gateway.lookupNetwork map (Eip3009.EIP3009PaymentPayload.network paymentPayload)
      = Gateway.Metadata metadata ->
    Gateway.fetchVerify w hv = Ok verification ->
    Gateway.verifyOk verification = true ->
    Gateway.verifyJson verification = Ok data ->
    Gateway.valid data = true ->
    Gateway.ConfiguredEndpoint.autoSettle configured = true ->
    Gateway.fetchSettle w hs = Ok settlement ->
    Gateway.settleOk settlement = true ->
    Gateway.settleJson settlement = Ok result ->
    Gateway.fetchUpstream w (Gateway.FetchUpstream request :: hs) = Ok upstream ->
    Gateway.arrayBuffer upstream = Ok content ->
    exists response,
      fst (Gateway.handler d js w config loaded req st) = Gateway.Returned response /\
      Gateway.status response = Gateway.upstreamStatus upstream /\
      Gateway.body response = Gateway.FromUpstream content /\
      let paid :=
        Gateway.encodeSettlement js
          {| Gateway.settlementStatus :=
               if Gateway.success result then "completed" else "failed";
             Gateway.settlementTransactionHash := Gateway.settleTransactionHash result;
             Gateway.settlementBlockNumber := Gateway.settleBlockNumber result;
             Gateway.settlementAmount := Gateway.ConfiguredEndpoint.price configured;
             Gateway.settlementToken :=
               Some (Gateway.FacilitatorNetworkMetadata.token metadata);
             Gateway.settled := Gateway.success result |} in
      (paid <> "" -> In ("X-Payment-Response", paid) (Gateway.headers response)).
Proof.
  intros d js w config loaded req endpoint st header paymentPayload map metadata verification
         data settlement result upstream content configured url nonce h0 requirements hv hs
         request Hfind Hheader Hnonempty Hdecode Hconsume Hcache Hlookup Hverify Hok Hjson
         Hvalid Hauto Hsettle Hsok Hsjson Hupstream Hcontent.
  subst configured url nonce h0 requirements hv hs request.
  destruct (wellFormed_fields _ (decodePaymentHeader_wellFormed _ _ _ Hdecode))
    as [Hnetwork Hnonce].
  unfold Gateway.handler. rewrite Hfind, Hheader. unfold Eip3009.missing.
  destruct header as [|c header]; [contradiction|]. cbn [JS.isEmpty default from_option id].
  rewrite Hdecode, Hnonce.
  erewrite catch_next by apply consumeNonce_run. rewrite Hconsume. cbn [negb].
  erewrite catch_next.
  2:{ apply verifyPayment_settled with (verification := verification) (data := data)
        (settlement := settlement) (result := result)
        (requirements := Gateway.createRequirementForNetwork endpoint (Some metadata));
        cbn [Gateway.calls]; try assumption.
      unfold JS.orElse. rewrite Hnetwork.
      apply buildPaymentRequirement_cached with (map := map) (metadata := metadata);
        cbn [Gateway.facilitatorNetworkCache]; assumption. }
  unfold Gateway.catch.
  match goal with
  | |- context [Gateway.proxyRequest ?w ?r ?u ?p ?s] =>
      destruct (proxyRequest_answered w r u p s upstream content Hupstream Hcontent)
        as (response & Hreturned & Hstatus & Hbody & Hpaid)
  end.
  destruct (Gateway.proxyRequest w req _ _ _) as [[r|m i] st1]; cbn [fst] in *;
    [|discriminate].
  injection Hreturned as ->.
  exists response. split; [reflexivity|]. split; [exact Hstatus|]. split; [exact Hbody|].
  cbn zeta. intros Hne. apply Hpaid; [reflexivity|exact Hne].
Qed.

Section Loading.
Import JS Gateway.
Variables (d : Defaults) (js : Platform).

Lemma normalizeEndpoint_ready (endpoint : EndpointConfig) :
  isEndpointReady d endpoint = true ->
  exists configured,
    normalizeEndpoint d endpoint = Ok configured /\
    ConfiguredEndpoint.method configured = method endpoint /\
    ConfiguredEndpoint.path configured = path endpoint /\
    price endpoint = Some (ConfiguredEndpoint.price configured) /\
    description endpoint = Some (ConfiguredEndpoint.description configured) /\
    isEmpty (trim (ConfiguredEndpoint.price configured)) = false /\
    isEmpty (trim (ConfiguredEndpoint.description configured)) = false /\
    0 < ConfiguredEndpoint.maxTimeoutSeconds configured /\
    isEmpty (ConfiguredEndpoint.scheme configured) = false /\
    isEmpty (ConfiguredEndpoint.token configured) = false /\
    isEmpty (ConfiguredEndpoint.payTo configured) = false /\
    ConfiguredEndpoint.autoSettle configured
      = negb (bool_decide (autoSettle endpoint = Some false)).
Proof.
  intros Hready. unfold normalizeEndpoint. rewrite Hready. cbn [negb].
  unfold isEndpointReady in Hready.
  destruct (isInactive endpoint); [discriminate|].
  apply andb_true_iff in Hready as [Hready Htimeout].
  apply andb_true_iff in Hready as [Hready Hdescription].
  apply andb_true_iff in Hready as [Hprice Hdescribed].
  apply negb_true_iff in Hprice, Hdescribed, Hdescription. apply Z.ltb_lt in Htimeout.
  eexists. split; [reflexivity|].
  cbn [ConfiguredEndpoint.method ConfiguredEndpoint.path ConfiguredEndpoint.price
       ConfiguredEndpoint.description ConfiguredEndpoint.maxTimeoutSeconds
       ConfiguredEndpoint.scheme ConfiguredEndpoint.token ConfiguredEndpoint.payTo
       ConfiguredEndpoint.autoSettle].
  split; [reflexivity|]. split; [reflexivity|].
  split.
  { destruct (price endpoint) as [p|]; [reflexivity|]. discriminate. }
  split.
  { destruct (description endpoint) as [p|]; [reflexivity|]. discriminate. }
  split; [exact Hprice|]. split; [exact Hdescription|]. split; [exact Htimeout|].
  split.
  { unfold orElse, DEFAULT_SCHEME. destruct (isEmpty (default "" (scheme endpoint))) eqn:E;
      [reflexivity|exact E]. }
  split.
  { unfold firstTruthy, zeroAddress.
    destruct (negb (Eip3009.missing (token endpoint))) eqn:E1.
    - apply negb_true_iff in E1. destruct (token endpoint); exact E1.
    - destruct (negb (Eip3009.missing (DEFAULT_TOKEN_ADDRESS d))) eqn:E2; [|reflexivity].
      apply negb_true_iff in E2. destruct (DEFAULT_TOKEN_ADDRESS d); exact E2. }
  split.
  { unfold firstTruthy, zeroAddress.
    destruct (negb (Eip3009.missing (payTo endpoint))) eqn:E1.
    - apply negb_true_iff in E1. destruct (payTo endpoint); exact E1.
    - destruct (negb (Eip3009.missing (DEFAULT_PAYTO_ADDRESS d))) eqn:E2; [|reflexivity].
      apply negb_true_iff in E2. destruct (DEFAULT_PAYTO_ADDRESS d); exact E2. }
  destruct (autoSettle endpoint) as [[|]|]; reflexivity.
Qed.

End Loading.

(** [reloadEndpoints] loads exactly the endpoints of the configuration that
    are ready, in their order.  Each loaded endpoint keeps the method, the
    path and the price of its configuration; its price and its description
    are not blank, its timeout is positive, its scheme, token and payee are
    not empty, and it settles unless the configuration says
    [autoSettle: false].  [normalizeEndpoint] never throws here; the only
    way for the loading to fail is a path whose regular expression does not
    compile, and then the message is the one of the expression. *)
Theorem reloadEndpoints_loads_exactly_the_ready_endpoints :
  forall (d : Gateway.Defaults) (js : Gateway.Platform) (config : Gateway.ProxyConfig),
    let ready :=
      List.filter (fun ep => negb (Gateway.isInactive ep) && Gateway.isEndpointReady d ep)
        (Gateway.endpoints config) in
    match Gateway.reloadEndpoints d js config with
    | Ok loaded =>
        Forall2
          (fun ep (endpoint : Gateway.LoadedEndpoint.t) =>
             let configured := Gateway.LoadedEndpoint.configured endpoint in
             Gateway.LoadedEndpoint.originalPath endpoint = Gateway.path ep /\
             Gateway.ConfiguredEndpoint.path configured = Gateway.path ep /\
             Gateway.ConfiguredEndpoint.method configured = Gateway.method ep /\
             Gateway.price ep = Some (Gateway.ConfiguredEndpoint.price configured) /\
             JS.isEmpty (JS.trim (Gateway.ConfiguredEndpoint.price configured)) = false /\
             JS.isEmpty (JS.trim (Gateway.ConfiguredEndpoint.description configured)) = false /\
             0 < Gateway.ConfiguredEndpoint.maxTimeoutSeconds configured /\
             JS.isEmpty (Gateway.ConfiguredEndpoint.scheme configured) = false /\
             JS.isEmpty (Gateway.ConfiguredEndpoint.token configured) = false /\
             JS.isEmpty (Gateway.ConfiguredEndpoint.payTo configured) = false /\
             Gateway.ConfiguredEndpoint.autoSettle configured
               = negb (bool_decide (Gateway.autoSettle ep = Some false)) /\
             Gateway.RegExp js (Gateway.pathSource (Gateway.path ep))
               = Ok (Gateway.LoadedEndpoint.matcher endpoint))
          ready loaded
    | Throw message =>
        exists ep,
          In ep ready /\
          Gateway.RegExp js (Gateway.pathSource (Gateway.path ep)) = Throw message
    end.
Proof.
  intros d js config ready. unfold Gateway.reloadEndpoints. fold ready.
  assert (Hready : Forall (fun ep => Gateway.isEndpointReady d ep = true) ready).
  { apply List.Forall_forall. intros ep Hin. apply filter_In in Hin as [_ Hin].
    apply andb_true_iff in Hin as [_ Hin]. exact Hin. }
  induction ready as [|ep ready IH]; cbn [Gateway.mapResult].
  - constructor.
  - apply Forall_cons_1 in Hready as [Hep Hready]. specialize (IH Hready).
    destruct (normalizeEndpoint_ready d ep Hep)
      as (configured & -> & Hmethod & Hpath & Hprice & _ & Hpriced & Hdescribed & Htimeout
          & Hscheme & Htoken & HpayTo & Hsettle).
    cbn [bind]. unfold Gateway.buildMatcher, Gateway.pathToRegex. rewrite Hpath.
    destruct (Gateway.RegExp js _) as [matcher|message] eqn:Hcompiled; cbn [bind].
    2:{ exists ep. split; [left; reflexivity|exact Hcompiled]. }
    destruct (Gateway.mapResult _ ready) as [loaded|message]; cbn [bind].
    2:{ destruct IH as (ep' & Hin & Hthrown). exists ep'. split; [right; exact Hin|exact Hthrown]. }
    constructor; [|exact IH]. cbn zeta.
    cbn [Gateway.LoadedEndpoint.configured Gateway.LoadedEndpoint.originalPath
         Gateway.LoadedEndpoint.matcher Gateway.ConfiguredEndpoint.method
         Gateway.ConfiguredEndpoint.path Gateway.ConfiguredEndpoint.price
         Gateway.ConfiguredEndpoint.description Gateway.ConfiguredEndpoint.maxTimeoutSeconds
         Gateway.ConfiguredEndpoint.scheme Gateway.ConfiguredEndpoint.token
         Gateway.ConfiguredEndpoint.payTo Gateway.ConfiguredEndpoint.autoSettle].
    repeat split; try assumption.
    unfold JS.orElse. rewrite Hscheme. exact Hscheme.
Qed.

Lemma handler_forwards_a_priced_request_only_after_payment_witness :
  let st' :=
    snd (Gateway.handler GatewayScenario.defaults GatewayScenario.platform
           GatewayScenario.world GatewayScenario.config GatewayScenario.loaded
           GatewayScenario.paid GatewayScenario.offered) in
  Gateway.findEndpoint GatewayScenario.loaded "GET" "/quotes/7" = Some GatewayScenario.quotes /\
  Gateway.forwarded (Gateway.calls st') = 1%nat /\
  exists header paymentPayload,
    Gateway.paymentHeader GatewayScenario.paid = Some header /\
    Eip3009.decodePaymentHeader ExamplePlatform.platform header = Some paymentPayload /\
    Gateway.pendingNonces st'
      !! PaywallProxy.buildNonceKey (Gateway.registered GatewayScenario.quotes)
           (Eip3009.PayloadFields.nonce (Eip3009.EIP3009PaymentPayload.payload paymentPayload))
    = None.
Proof.
  assert (Hfind : Gateway.findEndpoint GatewayScenario.loaded "GET" "/quotes/7"
                  = Some GatewayScenario.quotes) by (vm_compute; reflexivity).
  assert (Hserved :
    Gateway.forwarded
      (Gateway.calls
         (snd (Gateway.handler GatewayScenario.defaults GatewayScenario.platform
                 GatewayScenario.world GatewayScenario.config GatewayScenario.loaded
                 GatewayScenario.paid GatewayScenario.offered))) = 1%nat)
    by (vm_compute; reflexivity).
  split; [exact Hfind|]. split; [exact Hserved|].
  destruct (handler_forwards_a_priced_request_only_after_payment
              GatewayScenario.defaults GatewayScenario.platform GatewayScenario.world
              GatewayScenario.config GatewayScenario.loaded GatewayScenario.paid
              GatewayScenario.quotes GatewayScenario.offered Hfind)
    as [Hquiet | (header & paymentPayload & requirements & hn & response & data & hs
                  & upstream & Hheader & Hdecode & Hconsume & _)].
  { rewrite Hserved in Hquiet. discriminate. }
  exists header, paymentPayload. split; [exact Hheader|]. split; [exact Hdecode|].
  apply (f_equal snd) in Hconsume. cbn [snd] in Hconsume. rewrite <- Hconsume.
  apply consumeNonce_deletes.
Defined.

Lemma handler_serves_a_payment_once_witness :
  let st1 :=
    snd (Gateway.handler GatewayScenario.defaults GatewayScenario.platform
           GatewayScenario.world GatewayScenario.config GatewayScenario.loaded
           GatewayScenario.paid GatewayScenario.offered) in
  let again :=
    Gateway.handler GatewayScenario.defaults GatewayScenario.platform
      GatewayScenario.world GatewayScenario.config GatewayScenario.loaded
      GatewayScenario.paid st1 in
  (Gateway.findEndpoint GatewayScenario.loaded "GET" "/quotes/7" = Some GatewayScenario.quotes /\
   Gateway.forwarded (Gateway.calls st1)
     <> Gateway.forwarded (Gateway.calls GatewayScenario.offered)) /\
  Gateway.forwarded (Gateway.calls (snd again)) = Gateway.forwarded (Gateway.calls st1).
Proof.
  assert (Hfind : Gateway.findEndpoint GatewayScenario.loaded "GET" "/quotes/7"
                  = Some GatewayScenario.quotes) by (vm_compute; reflexivity).
  assert (Hserved :
    Gateway.forwarded
      (Gateway.calls
         (snd (Gateway.handler GatewayScenario.defaults GatewayScenario.platform
                 GatewayScenario.world GatewayScenario.config GatewayScenario.loaded
                 GatewayScenario.paid GatewayScenario.offered)))
    <> Gateway.forwarded (Gateway.calls GatewayScenario.offered))
    by (vm_compute; discriminate).
  split; [split; [exact Hfind|exact Hserved]|].
  apply (handler_serves_a_payment_once GatewayScenario.defaults GatewayScenario.platform
           GatewayScenario.world GatewayScenario.world GatewayScenario.config
           GatewayScenario.loaded GatewayScenario.paid GatewayScenario.quotes
           GatewayScenario.offered Hfind Hserved).
Defined.

Lemma payment_required_offers_a_nonce_that_can_be_spent_witness :
  exists response st' accepts,
    (Gateway.findEndpoint GatewayScenario.loaded "GET" "/quotes/7"
       = Some GatewayScenario.quotes /\
     Gateway.handler GatewayScenario.defaults GatewayScenario.platform GatewayScenario.world
       GatewayScenario.config GatewayScenario.loaded GatewayScenario.unpaid
       GatewayScenario.started = (Gateway.Returned response, st') /\
     Gateway.body response = Gateway.PaymentRequired 1 "Payment Required" accepts) /\
    Gateway.status response = 402 /\
    accepts <> [].
Proof.
  assert (Hfind : Gateway.findEndpoint GatewayScenario.loaded "GET" "/quotes/7"
                  = Some GatewayScenario.quotes) by (vm_compute; reflexivity).
  eexists _, _, _.
  split; [split; [exact Hfind|split; [vm_compute; reflexivity|reflexivity]]|].
  match goal with
  | |- Gateway.status ?response = 402 /\ ?accepts <> [] =>
      pose proof (fun st' Hrun Hbody =>
                    payment_required_offers_a_nonce_that_can_be_spent
                      GatewayScenario.defaults GatewayScenario.platform GatewayScenario.world
                      GatewayScenario.config GatewayScenario.loaded GatewayScenario.unpaid
                      GatewayScenario.quotes GatewayScenario.started st' response 1
                      "Payment Required" accepts Hfind Hrun Hbody) as Hoffer
  end.
  edestruct Hoffer as (Hstatus & Haccepts & _);
    [vm_compute; reflexivity|reflexivity|].
  split; [exact Hstatus|exact Haccepts].
Defined.


Lemma handler_serves_whatever_the_settlement_reports_witness :
  exists response,
    fst (Gateway.handler GatewayScenario.defaults GatewayScenario.platform
           GatewayScenario.world GatewayScenario.config GatewayScenario.loaded
           GatewayScenario.paid GatewayScenario.offered) = Gateway.Returned response /\
    Gateway.status response = 200 /\
    Gateway.body response = Gateway.FromUpstream "quote 42" /\
    In ("X-Payment-Response", "failed:1000000") (Gateway.headers response).
Proof.
  edestruct (handler_serves_whatever_the_settlement_reports
               GatewayScenario.defaults GatewayScenario.platform GatewayScenario.world
               GatewayScenario.config GatewayScenario.loaded GatewayScenario.paid
               GatewayScenario.quotes GatewayScenario.offered
               (Eip3009.encodePaymentHeader ExamplePlatform.platform Scenario.payload)
               Scenario.payload
               (Gateway.networkMap GatewayScenario.defaults [GatewayScenario.arcTestnet]))
    as (response & Hreturned & Hstatus & Hbody & Hpaid);
    try (vm_compute; reflexivity).
  - vm_compute. discriminate.
  - exists response. split; [exact Hreturned|]. split; [exact Hstatus|].
    split; [exact Hbody|]. apply Hpaid. discriminate.
Defined.

(** * The regular expression of a path with parameters in braces *)

Section Paths.
Import JS Gateway PathExpression.

Lemma isPlain_not_escaped (c : ascii) : isPlain c = true -> isEscaped c = false.
Proof. unfold isPlain. rewrite !andb_true_iff, !negb_true_iff. tauto. Qed.

Lemma isPlain_chars (c : ascii) :
  isPlain c = true ->
  Ascii.eqb c "{" = false /\ Ascii.eqb c "}" = false /\ Ascii.eqb c ":" = false /\
  Ascii.eqb c "+" = false /\ Ascii.eqb c "*" = false /\ Ascii.eqb c "^" = false /\
  Ascii.eqb c "$" = false /\ Ascii.eqb c "\" = false /\ Ascii.eqb c "[" = false /\
  Ascii.eqb c "]" = false /\ (isSyntax c && negb (Ascii.eqb c "/")) = false.
Proof.
  destruct c as [[] [] [] [] [] [] [] []]; vm_compute; intros H;
    repeat split; (reflexivity || discriminate).
Qed.

Lemma escapeSpecial_plain (text rest : string) :
  allPlain text = true -> escapeSpecial (text +:+ rest) = text +:+ escapeSpecial rest.
Proof.
  induction text as [|c text IH]; [reflexivity|].
  cbn [allPlain]. rewrite andb_true_iff. intros [Hc Htext].
  rewrite append_cons. cbn [escapeSpecial]. rewrite (isPlain_not_escaped c Hc), IH by exact Htext.
  reflexivity.
Qed.

Lemma escapeSpecial_render (segments : list Segment) :
  forallb wellFormed segments = true -> escapeSpecial (render segments) = escaped segments.
Proof.
  induction segments as [|[text|name] rest IH]; [reflexivity| |];
    cbn [forallb wellFormed render escaped]; rewrite andb_true_iff.
  - intros [Htext Hrest]. rewrite escapeSpecial_plain by exact Htext. rewrite IH by exact Hrest.
    reflexivity.
  - rewrite andb_true_iff. intros [[Hname _] Hrest].
    change ("{" +:+ name +:+ "}" +:+ render rest)
      with (String "{" (name +:+ String "}" (render rest))).
    cbn [escapeSpecial]. change (isEscaped "{") with true. cbv iota.
    rewrite escapeSpecial_plain by exact Hname. cbn [escapeSpecial].
    change (isEscaped "}") with true. cbv iota. rewrite IH by exact Hrest. reflexivity.
Qed.

Lemma replaceBraces_plain (text rest : string) :
  allPlain text = true -> replaceBraces O (text +:+ rest) = text +:+ replaceBraces O rest.
Proof.
  induction text as [|c text IH]; [reflexivity|].
  cbn [allPlain]. rewrite andb_true_iff. intros [Hc Htext].
  rewrite append_cons. cbn [replaceBraces].
  destruct (isPlain_chars c Hc) as (-> & _). rewrite IH by exact Htext. reflexivity.
Qed.

Lemma replaceBraces_skip (passed rest : string) :
  replaceBraces (String.length passed) (passed +:+ rest) = replaceBraces O rest.
Proof.
  induction passed as [|c passed IH]; [reflexivity|].
  rewrite append_cons. cbn [String.length replaceBraces]. exact IH.
Qed.

Lemma parameterRun_name (name rest : string) :
  allPlain name = true -> noSlash name = true ->
  parameterRun (name +:+ String "\" (String "}" rest))
  = (S (String.length name), String "}" rest).
Proof.
  induction name as [|c name IH]; [reflexivity|].
  cbn [allPlain noSlash]. rewrite !andb_true_iff, negb_true_iff.
  intros [Hc Hname] [Hslash Hrest].
  rewrite append_cons. cbn [parameterRun String.length].
  destruct (isPlain_chars c Hc) as (_ & -> & _). rewrite Hslash. cbn [orb].
  rewrite IH by assumption. reflexivity.
Qed.

Lemma replaceBraces_escaped (segments : list Segment) :
  forallb wellFormed segments = true ->
  replaceBraces O (escaped segments) = replaced segments.
Proof.
  induction segments as [|[text|name] rest IH]; [reflexivity| |];
    cbn [forallb wellFormed escaped replaced]; rewrite andb_true_iff.
  - intros [Htext Hrest]. rewrite replaceBraces_plain by exact Htext.
    rewrite IH by exact Hrest. reflexivity.
  - rewrite andb_true_iff. intros [[Hname Hslash] Hrest].
    change ("\{" +:+ name +:+ "\}" +:+ escaped rest)
      with (String "\" (String "{" (name +:+ String "\" (String "}" (escaped rest))))).
    cbn [replaceBraces]. change (Ascii.eqb "\" "{") with false. cbv iota.
    change (Ascii.eqb "{" "{") with true. cbv iota.
    rewrite parameterRun_name by assumption.
    cbn [Nat.ltb Nat.leb startsWith andb]. change (Ascii.eqb "}" "}") with true. cbv iota.
    change (String "\" (String "}" (escaped rest))) with ("\}" +:+ escaped rest).
    rewrite <- append_assoc.
    replace (S (String.length name)) with (Nat.pred (String.length (name +:+ "\}"))).
    2:{ rewrite length_append. cbn [String.length]. lia. }
    assert (Hskip : forall passed tail,
               passed <> "" ->
               replaceBraces (S (Nat.pred (String.length passed))) (passed +:+ tail)
               = replaceBraces O tail).
    { intros passed tail Hne. destruct passed as [|c passed]; [contradiction|].
      cbn [String.length Nat.pred]. apply (replaceBraces_skip (String c passed)). }
    rewrite Hskip; [|destruct name; discriminate].
    rewrite IH by exact Hrest. reflexivity.
Qed.

Lemma replaceColons_plain (text rest : string) :
  allPlain text = true ->
  replaceColons false (text +:+ rest) = text +:+ replaceColons false rest.
Proof.
  induction text as [|c text IH]; [reflexivity|].
  cbn [allPlain]. rewrite andb_true_iff. intros [Hc Htext].
  rewrite append_cons. cbn [replaceColons].
  destruct (isPlain_chars c Hc) as (_ & _ & -> & _). cbn [andb].
  rewrite IH by exact Htext. reflexivity.
Qed.

Lemma replaceColons_replaced (segments : list Segment) (tail : string) :
  forallb wellFormed segments = true ->
  replaceColons false tail = tail ->
  replaceColons false (replaced segments +:+ tail) = replaced segments +:+ tail.
Proof.
  intros Hwf Htail.
  induction segments as [|[text|name] rest IH]; [exact Htail| |];
    cbn [forallb wellFormed replaced] in *; apply andb_true_iff in Hwf as [Hseg Hrest].
  - rewrite append_assoc, replaceColons_plain by exact Hseg. rewrite IH by exact Hrest.
    reflexivity.
  - rewrite append_assoc.
    change ("\[^/]+" +:+ (replaced rest +:+ tail))
      with (String "\" (String "[" (String "^" (String "/" (String "]"
              (String "+" (replaced rest +:+ tail))))))).
    cbn [replaceColons]. cbn. rewrite IH by exact Hrest. reflexivity.
Qed.

(** The source of the expression of a path of texts and parameters in
    braces. *)
Lemma pathSource_render (segments : list Segment) :
  forallb wellFormed segments = true ->
  pathSource (render segments) = "^" +:+ replaced segments +:+ "$".
Proof.
  intros Hwf. unfold pathSource.
  rewrite escapeSpecial_render, replaceBraces_escaped by exact Hwf.
  rewrite <- (append_nil_r (replaced segments)) at 1.
  rewrite replaceColons_replaced by (exact Hwf || reflexivity).
  rewrite append_nil_r. reflexivity.
Qed.

Lemma flush_flush (pending : option Atom) (a : Atom) (ps : list Piece) :
  flush pending (flush (Some a) (Some (Ok ps))) = flush pending (Some (Ok (One a :: ps))).
Proof. reflexivity. Qed.

Lemma parse_plain (pending : option Atom) (c : ascii) (rest : string) :
  isPlain c = true ->
  parse pending (String c rest) = flush pending (parse (Some (Literal c)) rest).
Proof.
  intros Hc. cbn [parse].
  destruct (isPlain_chars c Hc) as (_ & _ & _ & -> & -> & -> & -> & -> & -> & -> & ->).
  reflexivity.
Qed.

Lemma parse_literals (text rest : string) (ps : list Piece) :
  allPlain text = true ->
  (forall pending, parse pending rest = flush pending (Some (Ok ps))) ->
  forall pending,
    parse pending (text +:+ rest) = flush pending (Some (Ok (literals text ++ ps))).
Proof.
  intros Htext Hrest. induction text as [|c text IH]; [exact Hrest|].
  cbn [allPlain] in Htext. apply andb_true_iff in Htext as [Hc Htext].
  intros pending. rewrite append_cons, parse_plain by exact Hc.
  rewrite IH by exact Htext. reflexivity.
Qed.

Lemma parse_replaced (segments : list Segment) :
  forallb wellFormed segments = true ->
  forall pending,
    parse pending (replaced segments +:+ "$")
    = flush pending (Some (Ok (pieces segments ++ [AssertEnd]))).
Proof.
  induction segments as [|[text|name] rest IH]; intros Hwf.
  - intros pending. reflexivity.
  - cbn [forallb wellFormed] in Hwf. apply andb_true_iff in Hwf as [Htext Hrest].
    intros pending. cbn [replaced pieces]. rewrite append_assoc, <- app_assoc.
    apply parse_literals; [exact Htext|]. apply IH, Hrest.
  - cbn [forallb wellFormed] in Hwf. apply andb_true_iff in Hwf as [_ Hrest].
    intros pending. cbn [replaced pieces]. rewrite append_assoc.
    change ("\[^/]+" +:+ (replaced rest +:+ "$"))
      with (String "\" (String "[" (String "^" (String "/" (String "]"
              (String "+" (replaced rest +:+ "$"))))))).
    cbn [parse]. cbn. rewrite (IH Hrest None). destruct pending; reflexivity.
Qed.

Lemma parse_pathSource (segments : list Segment) :
  forallb wellFormed segments = true ->
  parse None (pathSource (render segments))
  = Some (Ok (AssertStart :: pieces segments ++ [AssertEnd])).
Proof.
  intros Hwf. rewrite pathSource_render by exact Hwf.
  change ("^" +:+ replaced segments +:+ "$") with (String "^" (replaced segments +:+ "$")).
  cbn [parse]. cbn. rewrite (parse_replaced segments Hwf None). reflexivity.
Qed.

(** Nothing matches an expression that asserts the start of the input
    after a character. *)
Lemma repeat_never (a : Atom) (continue : bool -> string -> bool) :
  (forall atStart s, continue atStart s = false) ->
  forall atStart s, repeat a continue atStart s = false.
Proof.
  intros Hnever atStart s. revert atStart.
  induction s as [|c s IH]; intros atStart; cbn [repeat]; rewrite Hnever; [reflexivity|].
  rewrite IH. apply andb_false_r.
Qed.

Lemma matchHere_never (before after : list Piece) (a : Atom) :
  forall atStart s, matchHere (before ++ One a :: AssertStart :: after) atStart s = false.
Proof.
  induction before as [|piece before IH]; intros atStart s.
  - cbn [app matchHere]. destruct s as [|c s]; [reflexivity|]. apply andb_false_r.
  - cbn [app]. destruct piece as [| |b|b|b]; cbn [matchHere].
    + rewrite IH. apply andb_false_r.
    + rewrite IH. apply andb_false_r.
    + destruct s as [|c s]; [reflexivity|]. rewrite IH. apply andb_false_r.
    + destruct s as [|c s]; [reflexivity|].
      rewrite (repeat_never b _ IH). apply andb_false_r.
    + apply (repeat_never b _ IH).
Qed.

Lemma test_never (before after : list Piece) (a : Atom) (s : string) :
  test (before ++ One a :: AssertStart :: after) s = false.
Proof.
  unfold test. rewrite matchHere_never. cbn [orb].
  induction s as [|c s IH]; [reflexivity|].
  cbn [matchLater]. rewrite matchHere_never. exact IH.
Qed.

Lemma pieces_braces (segments : list Segment) :
  existsb isParameter segments = true ->
  exists before after,
    pieces segments = before ++ One (Literal "[") :: AssertStart :: after.
Proof.
  induction segments as [|[text|name] rest IH]; [discriminate| |]; cbn [existsb isParameter].
  - intros Hrest. cbn [pieces]. destruct (IH Hrest) as (before & after & ->).
    exists (literals text ++ before), after. rewrite app_assoc. reflexivity.
  - intros _. exists [], (One (Literal "/") :: OneOrMore (Literal "]") :: pieces rest).
    reflexivity.
Qed.

Lemma compile_agrees (codec : Eip3009.Platform) (encode : SettlementInfo -> string) :
  agrees {| Gateway.codec := codec; RegExp := compile; encodeSettlement := encode |}.
Proof.
  intros source ps Hparse. cbn [RegExp]. unfold compile. rewrite Hparse.
  eexists. split; reflexivity.
Qed.

End Paths.

(** A priced endpoint whose path has a parameter in braces, as the paths
    of an OpenAPI document have them, is matched by no request.  The
    expression that [pathToRegex] builds for such a path compiles, but it
    asserts the start of the input after a literal bracket: the first
    replacement puts a backslash before each brace, and the second takes
    the parameter for all that stands between the opening brace and the
    closing one, the backslash of the latter included, which leaves the
    backslash of the former before the class it writes.  The loaded
    endpoint is as good as absent from the list that [findEndpoint]
    searches. *)
Theorem braces_parameter_matches_no_request :
  forall (js : Gateway.Platform) (configured : Gateway.ConfiguredEndpoint.t)
         (segments : list PathExpression.Segment),
    PathExpression.agrees js ->
    forallb PathExpression.wellFormed segments = true ->
    existsb PathExpression.isParameter segments = true ->
    Gateway.ConfiguredEndpoint.path configured = PathExpression.render segments ->
    exists endpoint,
      Gateway.buildMatcher js configured = Ok endpoint /\
      (forall requestPath, Gateway.LoadedEndpoint.matcher endpoint requestPath = false) /\
      forall before after method requestPath,
        Gateway.findEndpoint (before ++ endpoint :: after) method requestPath
        = Gateway.findEndpoint (before ++ after) method requestPath.
Proof.
  intros js configured segments Hjs Hwf Hbraces Hpath.
  destruct (Hjs _ _ (parse_pathSource segments Hwf)) as (matcher & Hcompiled & Hmatcher).
  assert (Hnever : forall requestPath, matcher requestPath = false).
  { intros requestPath. rewrite Hmatcher.
    destruct (pieces_braces segments Hbraces) as (before & after & ->).
    rewrite <- app_assoc. cbn [app].
    apply (test_never (PathExpression.AssertStart :: before)). }
  unfold Gateway.buildMatcher, Gateway.pathToRegex. rewrite Hpath, Hcompiled. cbn [bind].
  eexists. split; [reflexivity|]. cbn [Gateway.LoadedEndpoint.matcher].
  split; [exact Hnever|].
  intros before after method requestPath. unfold Gateway.findEndpoint.
  induction before as [|other before IH]; cbn [app List.find].
  - cbn [Gateway.LoadedEndpoint.matcher]. rewrite Hnever, andb_false_r. reflexivity.
  - destruct (_ && _); [reflexivity|exact IH].
Qed.

Lemma braces_parameter_matches_no_request_witness :
  let segments := [PathExpression.Text "/orders/"; PathExpression.Braces "id"] in
  (PathExpression.agrees GatewayScenario.platform /\
   forallb PathExpression.wellFormed segments = true /\
   existsb PathExpression.isParameter segments = true /\
   Gateway.ConfiguredEndpoint.path GatewayScenario.configuredOrders
     = PathExpression.render segments) /\
  exists endpoint,
    Gateway.buildMatcher GatewayScenario.platform GatewayScenario.configuredOrders
      = Ok endpoint /\
    Gateway.LoadedEndpoint.matcher endpoint "/orders/7" = false.
Proof.
  assert (Hjs : PathExpression.agrees GatewayScenario.platform)
    by apply compile_agrees.
  split; [repeat split; (exact Hjs || reflexivity)|].
  destruct (braces_parameter_matches_no_request GatewayScenario.platform
              GatewayScenario.configuredOrders
              [PathExpression.Text "/orders/"; PathExpression.Braces "id"]
              Hjs eq_refl eq_refl eq_refl) as (endpoint & Hbuilt & Hnever & _).
  exists endpoint. split; [exact Hbuilt|apply Hnever].
Defined.

(** The two ways to write a parameter: after a colon it stands for a
    segment that is not empty; in braces it makes the path match nothing,
    not even itself. *)
Example pathToRegex_parameters :
  Gateway.pathSource "/quotes/:id" = "^/quotes/[^/]+$" /\
  Gateway.pathSource "/orders/{id}" = "^/orders/\[^/]+$" /\
  match Gateway.pathToRegex GatewayScenario.platform "/quotes/:id",
        Gateway.pathToRegex GatewayScenario.platform "/orders/{id}" with
  | Ok quotes, Ok orders =>
      quotes "/quotes/7" = true /\ quotes "/quotes/" = false /\
      quotes "/quotes/7/history" = false /\
      orders "/orders/7" = false /\ orders "/orders/{id}" = false /\
      orders "/orders/[/]" = false
  | _, _ => False
  end.
Proof. vm_compute. repeat split. Qed.

(** * Native gas for a contract execution *)

Section NativeAmounts.
Import JS GatewayService Prefunding.

Lemma allDigits_zeros (n : nat) : allDigits (zeros n) = true.
Proof. induction n as [|n IH]; [reflexivity|exact IH]. Qed.

(** The parse of a native amount never throws, and is never negative. *)
Lemma parseNativeAmountToBaseUnits_value (amount : string) (decimals : nat) :
  exists units, parseNativeAmountToBaseUnits amount decimals = Ok units /\ 0 <= units.
Proof.
  unfold parseNativeAmountToBaseUnits.
  destruct (isEmpty (trim amount)); [exists 0; split; [reflexivity|lia]|].
  set (intPart := orElse (keepDigits (piece 0 (trim amount))) "0").
  set (fraction := slice 0 decimals (keepDigits (piece 1 (trim amount)) +:+ zeros decimals)).
  assert (Hint : allDigits intPart = true /\ isEmpty intPart = false).
  { unfold intPart, orElse.
    destruct (isEmpty (keepDigits (piece 0 (trim amount)))) eqn:E; [split; reflexivity|].
    split; [apply allDigits_keepDigits|exact E]. }
  assert (Hfraction : allDigits fraction = true).
  { unfold fraction, slice. apply allDigits_substring0.
    rewrite allDigits_append, allDigits_keepDigits, allDigits_zeros. reflexivity. }
  destruct Hint as [Hdigits Hne].
  rewrite BigInt_allDigits.
  - eexists. split; [reflexivity|].
    apply decimalValue_range. rewrite allDigits_append, Hdigits, Hfraction. reflexivity.
  - rewrite allDigits_append, Hdigits, Hfraction. reflexivity.
  - destruct intPart; [discriminate|reflexivity].
Qed.

End NativeAmounts.

(** [prefundForContractExecution] moves native gas at most once, and only
    on AVAX-FUJI and HYPEREVM-TESTNET, with a relayer key configured, after
    Circle gave the address of the wallet and an estimate of the fee that
    parses to a positive amount.  What it sends to the wallet is fifteen
    times the estimated fee, [10 * (fee * 3) / 2], not the fee and a half
    that the comment on the buffer announces.  It returns normally after a
    transfer only when the receipt says [success]. *)
Theorem prefundForContractExecution_sends_fifteen_times_the_estimate :
  forall (w : Prefunding.World) (relayerPrivateKey : option string)
         (walletId blockchain : string) (opts : Prefunding.Execution)
         (h : list Prefunding.Call),
    let run :=
      Prefunding.prefundForContractExecution w relayerPrivateKey walletId blockchain opts h in
    let h' := snd run in
    Prefunding.sends h' = Prefunding.sends h \/
    exists walletAddress medium feeStr estimatedFee,
      let hw := Prefunding.GetWallet walletId :: h in
      let he := Prefunding.EstimateContractExecutionFee walletId opts :: hw in
      let send := Prefunding.SendTransaction blockchain walletAddress (15 * estimatedFee) in
      (blockchain = "AVAX-FUJI" \/ blockchain = "HYPEREVM-TESTNET") /\
      Eip3009.missing relayerPrivateKey = false /\
      Prefunding.getWallet w hw = Ok (Some walletAddress) /\
      Prefunding.estimateContractExecutionFee w he = Ok medium /\
      Prefunding.feeOf medium = Some feeStr /\
      Prefunding.parseNativeAmountToBaseUnits feeStr 18 = Ok estimatedFee /\
      0 < estimatedFee /\
      Prefunding.sends h' = send :: Prefunding.sends h /\
      (h' = send :: he \/
       exists hash, h' = Prefunding.WaitForTransactionReceipt hash :: send :: he) /\
      (fst run = Ok tt -> Prefunding.waitForTransactionReceipt w h' = Ok "success").
Proof.
  intros w relayerPrivateKey walletId blockchain opts h. cbn zeta.
  destruct (Prefunding.prefundForContractExecution w relayerPrivateKey walletId blockchain
              opts h) as [r h'] eqn:Hrun.
  cbn [fst snd]. unfold Prefunding.prefundForContractExecution in Hrun.
  destruct (negb (String.eqb blockchain "AVAX-FUJI")
            && negb (String.eqb blockchain "HYPEREVM-TESTNET")) eqn:Hchain;
    [left; injection Hrun as <- <-; reflexivity|].
  assert (Hblockchain : blockchain = "AVAX-FUJI" \/ blockchain = "HYPEREVM-TESTNET").
  { apply andb_false_iff in Hchain as [H | H]; apply negb_false_iff, String.eqb_eq in H;
      [left|right]; exact H. }
  destruct (GatewayService.getDomainConfigByBlockchain blockchain);
    [|left; injection Hrun as <- <-; reflexivity].
  destruct (Eip3009.missing relayerPrivateKey) eqn:Hkey;
    [left; injection Hrun as <- <-; reflexivity|].
  unfold andThen at 1, call at 1 in Hrun.
  destruct (Prefunding.getWallet w _) as [walletAddress|m] eqn:Hwallet;
    [|left; injection Hrun as <- <-; reflexivity].
  destruct (Eip3009.missing walletAddress) eqn:Haddress;
    [left; injection Hrun as <- <-; reflexivity|].
  destruct walletAddress as [walletAddress|]; [|discriminate].
  cbn [default from_option id] in Hrun.
  unfold andThen at 1, Prefunding.estimateFee, tryCatch, andThen at 1, call at 1 in Hrun.
  destruct (Prefunding.estimateContractExecutionFee w _) as [medium|m] eqn:Hestimate;
    [|left; injection Hrun as <- <-; reflexivity].
  destruct (Prefunding.feeOf medium) as [feeStr|] eqn:Hfee;
    [|left; injection Hrun as <- <-; reflexivity].
  destruct (JS.isEmpty feeStr); [left; injection Hrun as <- <-; reflexivity|].
  destruct (parseNativeAmountToBaseUnits_value feeStr 18) as (fee & Hparse & Hnonneg).
  unfold andThen at 1, lift at 1 in Hrun. rewrite Hparse in Hrun. unfold ret at 1 2 in Hrun.
  destruct (Z.eqb_spec fee 0) as [Hzero|Hpositive];
    [left; injection Hrun as <- <-; reflexivity|].
  replace (10 * (fee * 3) / 2) with (15 * fee) in Hrun
    by (apply Z.div_unique_exact; lia).
  unfold andThen at 1, lift at 1 in Hrun.
  destruct (Prefunding.privateKeyToAccount w _) as [account|m];
    [|left; injection Hrun as <- <-; reflexivity].
  right. exists walletAddress, medium, feeStr, fee. cbn zeta.
  split; [exact Hblockchain|]. split; [reflexivity|]. split; [reflexivity|].
  split; [reflexivity|]. split; [exact Hfee|]. split; [exact Hparse|]. split; [lia|].
  unfold andThen, call in Hrun.
  destruct (Prefunding.sendTransaction w _) as [hash|m].
  2:{ injection Hrun as <- <-. split; [reflexivity|]. split; [left; reflexivity|discriminate]. }
  destruct (Prefunding.waitForTransactionReceipt w _) as [status|m] eqn:Hreceipt.
  2:{ injection Hrun as <- <-. split; [reflexivity|].
      split; [right; eexists; reflexivity|discriminate]. }
  destruct (String.eqb_spec status "success") as [->|Hfailed]; cbn [negb] in Hrun;
    unfold raise, ret in Hrun; injection Hrun as <- <-; (split; [reflexivity|]);
    (split; [right; eexists; reflexivity|]).
  - intros _. exact Hreceipt.
  - discriminate.
Qed.

(** An estimate of 0.002 of the native token ends in a transfer of 0.03. *)
Example prefundForContractExecution_scenario :
  let run walletId blockchain :=
    Prefunding.prefundForContractExecution Prefunding.relayerWorld (Some "0xkey") walletId
      blockchain (Prefunding.mkExecution "0xtoken" "approve(address,uint256)" []) [] in
  Prefunding.parseNativeAmountToBaseUnits "0.002" 18 = Ok 2000000000000000 /\
  Prefunding.sends (snd (run "wallet-1" "AVAX-FUJI"))
    = [Prefunding.SendTransaction "AVAX-FUJI" "0x70997970C51812dc3A010C7d01b50e0d17dc79C8"
         30000000000000000] /\
  fst (run "wallet-1" "AVAX-FUJI") = Ok tt /\
  snd (run "wallet-1" "ARC-TESTNET") = [].
Proof. vm_compute. repeat split. Qed.

(** * The proxy and the facilitator that published its networks *)

Section Published.
Import JS Eip3009 FacilitatorCommon MultiNetworkFacilitator MultiNetworkSettlement.
Import FacilitatorNetworks.

Lemma property_assign_eq {V : Type} (key : string) (value : V)
    (properties : list (string * V)) :
  Gateway.property key (Gateway.assign key value properties) = Some value.
Proof.
  induction properties as [|[k v] rest IH]; cbn.
  - rewrite String.eqb_refl. reflexivity.
  - destruct (String.eqb k key) eqn:E; cbn; rewrite E; [reflexivity|exact IH].
Qed.

Lemma property_assign_ne {V : Type} (key other : string) (value : V)
    (properties : list (string * V)) :
  other <> key ->
  Gateway.property key (Gateway.assign other value properties)
  = Gateway.property key properties.
Proof.
  intros Hne. induction properties as [|[k v] rest IH]; cbn.
  - destruct (String.eqb_spec other key); [contradiction|reflexivity].
  - destruct (String.eqb_spec k other) as [->|Hk]; cbn.
    + destruct (String.eqb_spec other key); [contradiction|reflexivity].
    + destruct (String.eqb k key); [reflexivity|exact IH].
Qed.

(** The metadata that the proxy keeps of an item. *)
Lemma networkMap_property (d : Gateway.Defaults) (network : string)
    (metadata : Gateway.FacilitatorNetworkMetadata.t) (items : list Gateway.NetworkItem) :
  network <> "__proto__" ->
  (forall i, In i items -> Gateway.itemNetwork i = network ->
     {| Gateway.FacilitatorNetworkMetadata.network := network;
        Gateway.FacilitatorNetworkMetadata.token := Gateway.itemToken i;
        Gateway.FacilitatorNetworkMetadata.recipient := Gateway.itemRecipient i;
        Gateway.FacilitatorNetworkMetadata.chainId :=
          default (Gateway.DEFAULT_CHAIN_ID d) (Gateway.itemChainId i);
        Gateway.FacilitatorNetworkMetadata.tokenName :=
          orElse (default "" (Gateway.itemUsdcName i)) (Gateway.DEFAULT_TOKEN_NAME d);
        Gateway.FacilitatorNetworkMetadata.tokenVersion :=
          orElse (default "" (Gateway.itemUsdcVersion i)) (Gateway.DEFAULT_TOKEN_VERSION d) |}
     = metadata) ->
  (exists i, In i items /\ Gateway.itemNetwork i = network) ->
  Gateway.property network (Gateway.own (Gateway.networkMap d items)) = Some metadata.
Proof.
  intros Hproto. unfold Gateway.networkMap.
  assert (Hgen : forall map,
    (forall i, In i items -> Gateway.itemNetwork i = network ->
       {| Gateway.FacilitatorNetworkMetadata.network := network;
          Gateway.FacilitatorNetworkMetadata.token := Gateway.itemToken i;
          Gateway.FacilitatorNetworkMetadata.recipient := Gateway.itemRecipient i;
          Gateway.FacilitatorNetworkMetadata.chainId :=
            default (Gateway.DEFAULT_CHAIN_ID d) (Gateway.itemChainId i);
          Gateway.FacilitatorNetworkMetadata.tokenName :=
            orElse (default "" (Gateway.itemUsdcName i)) (Gateway.DEFAULT_TOKEN_NAME d);
          Gateway.FacilitatorNetworkMetadata.tokenVersion :=
            orElse (default "" (Gateway.itemUsdcVersion i))
              (Gateway.DEFAULT_TOKEN_VERSION d) |}
       = metadata) ->
    (Gateway.property network (Gateway.own map) = Some metadata
     \/ exists i, In i items /\ Gateway.itemNetwork i = network) ->
    Gateway.property network
      (Gateway.own
         (fold_left
            (fun map item =>
               let key := Gateway.itemNetwork item in
               Gateway.setNetwork key
                 {| Gateway.FacilitatorNetworkMetadata.network := key;
                    Gateway.FacilitatorNetworkMetadata.token := Gateway.itemToken item;
                    Gateway.FacilitatorNetworkMetadata.recipient :=
                      Gateway.itemRecipient item;
                    Gateway.FacilitatorNetworkMetadata.chainId :=
                      default (Gateway.DEFAULT_CHAIN_ID d) (Gateway.itemChainId item);
                    Gateway.FacilitatorNetworkMetadata.tokenName :=
                      orElse (default "" (Gateway.itemUsdcName item))
                        (Gateway.DEFAULT_TOKEN_NAME d);
                    Gateway.FacilitatorNetworkMetadata.tokenVersion :=
                      orElse (default "" (Gateway.itemUsdcVersion item))
                        (Gateway.DEFAULT_TOKEN_VERSION d) |}
                 map)
            items map))
    = Some metadata).
  { induction items as [|item rest IH]; intros map Hsame Hsome.
    - destruct Hsome as [Hmap|(i & [] & _)]. exact Hmap.
    - cbn [fold_left]. apply IH.
      + intros i Hin. apply Hsame. right. exact Hin.
      + cbn zeta. unfold Gateway.setNetwork.
        destruct (String.eqb_spec (Gateway.itemNetwork item) network) as [Hkey|Hkey].
        * left. rewrite Hkey. destruct (String.eqb_spec network "__proto__"); [contradiction|].
          cbn [Gateway.own]. rewrite property_assign_eq. f_equal.
          rewrite <- (Hsame item (or_introl eq_refl) Hkey). reflexivity.
        * destruct Hsome as [Hmap|(i & [<-|Hin] & Hi)].
          -- left. destruct (String.eqb (Gateway.itemNetwork item) "__proto__");
               cbn [Gateway.own]; [exact Hmap|].
             rewrite property_assign_ne; [exact Hmap|exact Hkey].
          -- contradiction.
          -- right. exists i. split; assumption. }
  intros Hsame Hsome. apply Hgen; [exact Hsame|right; exact Hsome].
Qed.

(** Every item of the answer tells a context of the facilitator, and every
    available network with a context has an item. *)
Lemma networks_items (availableNetworks : list string) (networkContexts : NetworkContexts)
    (entries : list NetworkEntry) :
  networks availableNetworks networkContexts = Ok entries ->
  (forall entry, In entry entries ->
     exists context,
       networkContexts !! entryNetwork entry = Some context /\
       entryToken entry = usdcAddress (chain context) /\
       entryRecipient entry = address (circleWallet context) /\
       entryUsdcName entry = usdcName (chain context) /\
       entryUsdcVersion entry = usdcVersion (chain context) /\
       entryChainId entry = chainId (chain context)) /\
  (forall network, In network availableNetworks ->
     is_Some (networkContexts !! network) ->
     exists entry, In entry entries /\ entryNetwork entry = network).
Proof.
  revert entries. induction availableNetworks as [|network rest IH]; intros entries.
  - intros [= <-]. split; [intros entry []|intros network []].
  - cbn [networks]. unfold lookupContext.
    destruct (networkContexts !! network) as [context|] eqn:Hcontext.
    + destruct (networks rest networkContexts) as [items|message]; [|discriminate].
      cbn [bind]. intros [= <-]. destruct (IH items eq_refl) as [Hitems Hall]. split.
      * intros entry [<-|Hin]; [|apply Hitems; exact Hin].
        exists context. cbn. repeat split. exact Hcontext.
      * intros n [<-|Hin] Hsome.
        -- eexists. split; [left; reflexivity|reflexivity].
        -- destruct (Hall n Hin Hsome) as (entry & Hentry & Hname).
           exists entry. split; [right; exact Hentry|exact Hname].
    + destruct (bool_decide (network ∈ objectPrototypeKeys)); [discriminate|].
      intros Hrest. destruct (IH entries Hrest) as [Hitems Hall]. split; [exact Hitems|].
      intros n [<-|Hin] Hsome.
      * rewrite Hcontext in Hsome. destruct Hsome as [x Hx]. discriminate.
      * apply Hall; assumption.
Qed.

(** The networks are asked for when none are kept, and the answer is
    kept. *)
Lemma ensureFacilitatorNetworks_fetched (d : Gateway.Defaults) (w : Gateway.World)
    (baseUrl : string) (st : Gateway.Store) (items : list Gateway.NetworkItem) :
  let normalized := Gateway.normalizeFacilitatorUrl d (Some baseUrl) in
  let h := Gateway.FetchNetworks (normalized +:+ "/networks") :: Gateway.calls st in
  Gateway.facilitatorNetworkCache st !! normalized = None ->
  Gateway.fetchNetworks w h
    = Ok {| Gateway.networksOk := true; Gateway.networksJson := Ok (Some items) |} ->
  Gateway.ensureFacilitatorNetworks d w baseUrl st =
    (Gateway.Returned tt,
     {| Gateway.pendingNonces := Gateway.pendingNonces st;
        Gateway.facilitatorNetworkCache :=
          <[normalized := Gateway.networkMap d items]> (Gateway.facilitatorNetworkCache st);
        Gateway.responseHeaders := Gateway.responseHeaders st;
        Gateway.calls := h |}).
Proof.
  cbn zeta. intros Hcache Hfetch.
  unfold Gateway.ensureFacilitatorNetworks, Gateway.next, Gateway.getStore.
  rewrite Hcache. unfold Gateway.await. rewrite Hfetch. reflexivity.
Qed.

End Published.

(** A proxy that keeps no networks of its facilitator yet asks for them,
    and, when the answer is what [/networks] of the multi-network
    facilitator gives, the requirements it builds for a network that the
    facilitator serves name that network, the token of its chain and the
    address of its Circle wallet.  The facilitator's [ensureRequirements]
    accepts them exactly when the scheme of the endpoint is [exact] (or
    none) and its price reads as a positive integer of base units; the
    chain id that the proxy offers for the signature is the one the
    facilitator verifies with, and so are the name and the version of the
    token unless the facilitator has an empty one. *)
Theorem proxy_requirements_pass_the_facilitator_that_published_them :
  forall (d : Gateway.Defaults) (w : Gateway.World) (endpoint : Gateway.LoadedEndpoint.t)
         (st : Gateway.Store) (availableNetworks : list string)
         (networkContexts : MultiNetworkFacilitator.NetworkContexts)
         (entries : list FacilitatorNetworks.NetworkEntry) (network : string)
         (context : MultiNetworkFacilitator.NetworkContext),
    let configured := Gateway.LoadedEndpoint.configured endpoint in
    let url :=
      Gateway.normalizeFacilitatorUrl d
        (Some (Gateway.ConfiguredEndpoint.facilitatorUrl configured)) in
    let normalized := Gateway.normalizeFacilitatorUrl d (Some url) in
    let h := Gateway.FetchNetworks (normalized +:+ "/networks") :: Gateway.calls st in
    Gateway.facilitatorNetworkCache st !! normalized = None ->
    FacilitatorNetworks.networks availableNetworks networkContexts = Ok entries ->
    Gateway.fetchNetworks w h = Ok (FacilitatorNetworks.answered entries) ->
    In network availableNetworks ->
    networkContexts !! network = Some context ->
    network <> "__proto__" ->
    exists metadata requirements st',
      Gateway.buildPaymentRequirement d w endpoint network st
        = (Gateway.Returned (Gateway.createRequirementForNetwork endpoint (Some metadata)),
           st') /\
      Gateway.calls st' = h /\
      Gateway.paymentRequirements (Gateway.createRequirementForNetwork endpoint (Some metadata))
        = Some requirements /\
      Eip3009.PaymentRequirements.network requirements = network /\
      Eip3009.PaymentRequirements.token requirements
        = MultiNetworkFacilitator.usdcAddress (MultiNetworkFacilitator.chain context) /\
      Eip3009.PaymentRequirements.recipient requirements
        = MultiNetworkFacilitator.address (MultiNetworkFacilitator.circleWallet context) /\
      Gateway.FacilitatorNetworkMetadata.chainId metadata
        = MultiNetworkFacilitator.chainId (MultiNetworkFacilitator.chain context) /\
      Gateway.FacilitatorNetworkMetadata.tokenName metadata
        = JS.orElse (MultiNetworkFacilitator.usdcName (MultiNetworkFacilitator.chain context))
            (Gateway.DEFAULT_TOKEN_NAME d) /\
      Gateway.FacilitatorNetworkMetadata.tokenVersion metadata
        = JS.orElse
            (MultiNetworkFacilitator.usdcVersion (MultiNetworkFacilitator.chain context))
            (Gateway.DEFAULT_TOKEN_VERSION d) /\
      (MultiNetworkFacilitator.ensureRequirements networkContexts requirements context
         = Ok None
       <-> (Gateway.ConfiguredEndpoint.scheme configured = ""
            \/ Gateway.ConfiguredEndpoint.scheme configured = "exact") /\
           exists amount,
             JS.BigInt (Gateway.ConfiguredEndpoint.price configured) = Ok amount /\
             0 < amount).
Proof.
  intros d w endpoint st availableNetworks networkContexts entries network context.
  cbn zeta. intros Hcache Hnetworks Hfetch Hin Hcontext Hproto.
  destruct (networks_items _ _ _ Hnetworks) as [Hitems Hall].
  set (metadata :=
    {| Gateway.FacilitatorNetworkMetadata.network := network;
       Gateway.FacilitatorNetworkMetadata.token :=
         MultiNetworkFacilitator.usdcAddress (MultiNetworkFacilitator.chain context);
       Gateway.FacilitatorNetworkMetadata.recipient :=
         MultiNetworkFacilitator.address (MultiNetworkFacilitator.circleWallet context);
       Gateway.FacilitatorNetworkMetadata.chainId :=
         MultiNetworkFacilitator.chainId (MultiNetworkFacilitator.chain context);
       Gateway.FacilitatorNetworkMetadata.tokenName :=
         JS.orElse (MultiNetworkFacilitator.usdcName (MultiNetworkFacilitator.chain context))
           (Gateway.DEFAULT_TOKEN_NAME d);
       Gateway.FacilitatorNetworkMetadata.tokenVersion :=
         JS.orElse
           (MultiNetworkFacilitator.usdcVersion (MultiNetworkFacilitator.chain context))
           (Gateway.DEFAULT_TOKEN_VERSION d) |}).
  assert (Hproperty :
    Gateway.property network
      (Gateway.own (Gateway.networkMap d (List.map FacilitatorNetworks.item entries)))
    = Some metadata).
  { apply networkMap_property; [exact Hproto| |].
    - intros i Hi Hname. apply in_map_iff in Hi as (entry & <- & Hentry).
      destruct (Hitems entry Hentry)
        as (context' & Hcontext' & Htoken & Hrecipient & Hname' & Hversion & Hchain).
      cbn in Hname. rewrite Hname, Hcontext in Hcontext'. injection Hcontext' as <-.
      unfold metadata. cbn. rewrite Htoken, Hrecipient, Hname', Hversion, Hchain.
      reflexivity.
    - destruct (Hall network Hin (ex_intro _ context Hcontext)) as (entry & Hentry & Hname).
      exists (FacilitatorNetworks.item entry). split; [|exact Hname].
      apply in_map. exact Hentry. }
  eexists metadata, _, _. split.
  { unfold Gateway.buildPaymentRequirement, Gateway.next.
    rewrite (ensureFacilitatorNetworks_fetched d w _ st _ Hcache Hfetch).
    rewrite getFacilitatorNetworkMetadata_run.
    cbn [Gateway.facilitatorNetworkCache]. rewrite lookup_insert_eq.
    unfold Gateway.lookupNetwork. rewrite Hproperty. reflexivity. }
  split; [reflexivity|]. split; [reflexivity|].
  split; [reflexivity|]. split; [reflexivity|]. split; [reflexivity|].
  split; [reflexivity|]. split; [reflexivity|]. split; [reflexivity|].
  unfold MultiNetworkFacilitator.ensureRequirements.
  cbn [Gateway.paymentRequirements Gateway.createRequirementForNetwork
       Gateway.requiredScheme Gateway.requiredAmount
       Eip3009.PaymentRequirements.scheme Eip3009.PaymentRequirements.network
       Eip3009.PaymentRequirements.token Eip3009.PaymentRequirements.recipient
       Eip3009.PaymentRequirements.amount
       Gateway.FacilitatorNetworkMetadata.network Gateway.FacilitatorNetworkMetadata.token
       Gateway.FacilitatorNetworkMetadata.recipient metadata].
  unfold MultiNetworkFacilitator.lookupContext. rewrite Hcontext, !differs_same.
  unfold JS.orElse at 1.
  destruct (JS.isEmpty (Gateway.ConfiguredEndpoint.scheme
                          (Gateway.LoadedEndpoint.configured endpoint))) eqn:Hempty.
  - cbn [String.eqb Ascii.eqb Bool.eqb negb].
    rewrite positive_amount_passes. split.
    + intros Hamount. split; [|exact Hamount]. left.
      destruct (Gateway.ConfiguredEndpoint.scheme
                  (Gateway.LoadedEndpoint.configured endpoint)); [reflexivity|discriminate].
    + intros [_ Hamount]. exact Hamount.
  - destruct (String.eqb_spec
                (Gateway.ConfiguredEndpoint.scheme (Gateway.LoadedEndpoint.configured endpoint))
                "exact") as [Hexact|Hother]; cbn [negb].
    + rewrite positive_amount_passes. split.
      * intros Hamount. split; [right; exact Hexact|exact Hamount].
      * intros [_ Hamount]. exact Hamount.
    + split; [discriminate|]. intros [[Hnone|Hexact] _]; [|contradiction].
      rewrite Hnone in Hempty. discriminate.
Qed.

(** The proxy of the examples and a facilitator that serves arc-testnet. *)
Lemma proxy_requirements_pass_the_facilitator_that_published_them_witness :
  exists entries metadata requirements st',
    (Gateway.facilitatorNetworkCache GatewayScenario.started !! "http://localhost:3002" = None /\
     FacilitatorNetworks.networks ["arc-testnet"] FacilitatorNetworks.contexts = Ok entries /\
     Gateway.fetchNetworks FacilitatorNetworks.world
       [Gateway.FetchNetworks "http://localhost:3002/networks"]
       = Ok (FacilitatorNetworks.answered entries) /\
     FacilitatorNetworks.contexts !! "arc-testnet" = Some FacilitatorNetworks.arcContext) /\
    Gateway.buildPaymentRequirement GatewayScenario.defaults FacilitatorNetworks.world
      GatewayScenario.quotes "arc-testnet" GatewayScenario.started
      = (Gateway.Returned
           (Gateway.createRequirementForNetwork GatewayScenario.quotes (Some metadata)), st') /\
    Gateway.paymentRequirements
      (Gateway.createRequirementForNetwork GatewayScenario.quotes (Some metadata))
      = Some requirements /\
    MultiNetworkFacilitator.ensureRequirements FacilitatorNetworks.contexts requirements
      FacilitatorNetworks.arcContext = Ok None.
Proof.
  assert (Hcache :
    Gateway.facilitatorNetworkCache GatewayScenario.started !! "http://localhost:3002" = None)
    by (vm_compute; reflexivity).
  destruct (FacilitatorNetworks.networks ["arc-testnet"] FacilitatorNetworks.contexts)
    as [entries|message] eqn:Hnetworks; [|vm_compute in Hnetworks; discriminate].
  assert (Hfetch :
    Gateway.fetchNetworks FacilitatorNetworks.world
      [Gateway.FetchNetworks "http://localhost:3002/networks"]
    = Ok (FacilitatorNetworks.answered entries)).
  { cbn [FacilitatorNetworks.world Gateway.fetchNetworks]. rewrite Hnetworks. reflexivity. }
  assert (Hcontext :
    FacilitatorNetworks.contexts !! "arc-testnet" = Some FacilitatorNetworks.arcContext)
    by (vm_compute; reflexivity).
  destruct (proxy_requirements_pass_the_facilitator_that_published_them
              GatewayScenario.defaults FacilitatorNetworks.world GatewayScenario.quotes
              GatewayScenario.started ["arc-testnet"] FacilitatorNetworks.contexts
              entries "arc-testnet" FacilitatorNetworks.arcContext
              Hcache Hnetworks Hfetch (or_introl eq_refl) Hcontext)
    as (metadata & requirements & st' & Hrun & _ & Hrequirements & _ & _ & _ & _ & _ & _
        & Hpasses); [discriminate|].
  exists entries, metadata, requirements, st'.
  split; [split; [exact Hcache|split; [reflexivity|split; [exact Hfetch|exact Hcontext]]]|].
  split; [exact Hrun|]. split; [exact Hrequirements|].
  apply Hpasses. split; [right; vm_compute; reflexivity|].
  exists 1000000. split; [vm_compute; reflexivity|lia].
Defined.

(** * The nonces that [generateNonce] draws *)

Section RandomBytes.
Import JS.

(** A byte goes out as two digits, and [parseInt] reads it back. *)
Lemma padStart2_toStringHex_byte (b : Z) :
  0 <= b < 256 ->
  String.length (padStart2 (toStringHex b)) = 2%nat /\
  hexPrefix None (padStart2 (toStringHex b)) = Some b.
Proof.
  intros Hb.
  assert (Htable :
    forallb
      (fun n =>
         let text := padStart2 (toStringHex (Z.of_nat n)) in
         (String.length text =? 2)%nat
         && match hexPrefix None text with
            | Some v => v =? Z.of_nat n
            | None => false
            end)
      (seq 0 256) = true) by (vm_compute; reflexivity).
  rewrite forallb_forall in Htable.
  assert (Hn : In (Z.to_nat b) (seq 0 256)) by (apply in_seq; lia).
  specialize (Htable (Z.to_nat b) Hn). rewrite Z2Nat.id in Htable by lia.
  cbn zeta in Htable. apply andb_true_iff in Htable as [Hlength Hvalue].
  split; [apply Nat.eqb_eq; exact Hlength|].
  destruct (hexPrefix None _) as [v|]; [|discriminate].
  apply Z.eqb_eq in Hvalue. rewrite Hvalue. reflexivity.
Qed.

Lemma append_same_length (a a' r r' : string) :
  String.length a = String.length a' ->
  a +:+ r = a' +:+ r' ->
  a = a' /\ r = r'.
Proof.
  revert a'. induction a as [|c a IH]; intros [|c' a'] Hlength Heq; try discriminate.
  - split; [reflexivity|exact Heq].
  - rewrite !append_cons in Heq. injection Heq as -> Hrest.
    destruct (IH a' ltac:(simpl in Hlength; lia) Hrest) as [-> ->]. split; reflexivity.
Qed.

End RandomBytes.

(** The nonce of 32 bytes has 66 characters, [0x] and two for every byte,
    and it tells the bytes: two draws give the same nonce only when they
    gave the same bytes. *)
Theorem generateNonce_tells_the_bytes_apart :
  forall (randomBytes otherBytes : list Z),
    Forall (fun b => 0 <= b < 256) randomBytes ->
    Forall (fun b => 0 <= b < 256) otherBytes ->
    String.length (Gateway.generateNonce randomBytes) = (2 + 2 * length randomBytes)%nat /\
    (Gateway.generateNonce randomBytes = Gateway.generateNonce otherBytes ->
     randomBytes = otherBytes).
Proof.
  intros randomBytes otherBytes Hbytes Hothers. unfold Gateway.generateNonce. split.
  - assert (Hlength :
      String.length
        (fold_right (fun b hex => JS.padStart2 (JS.toStringHex b) +:+ hex) "" randomBytes)
      = (2 * length randomBytes)%nat).
    { induction Hbytes as [|b bs Hb _ IH]; [reflexivity|].
      cbn [fold_right length]. rewrite length_append, IH.
      destruct (padStart2_toStringHex_byte b Hb) as [-> _]. lia. }
    rewrite length_append, Hlength. reflexivity.
  - intros Heq. apply append_same_length in Heq as [_ Heq]; [|reflexivity].
    revert otherBytes Hothers Heq.
    induction Hbytes as [|b bs Hb _ IH]; intros otherBytes Hothers Heq.
    + destruct Hothers as [|b' bs' Hb' _]; [reflexivity|].
      cbn [fold_right] in Heq. apply (f_equal String.length) in Heq.
      rewrite length_append in Heq.
      destruct (padStart2_toStringHex_byte b' Hb') as [Hlength _].
      rewrite Hlength in Heq. discriminate.
    + destruct Hothers as [|b' bs' Hb' Hbs'].
      * cbn [fold_right] in Heq. apply (f_equal String.length) in Heq.
        rewrite length_append in Heq.
        destruct (padStart2_toStringHex_byte b Hb) as [Hlength _].
        rewrite Hlength in Heq. discriminate.
      * cbn [fold_right] in Heq.
        destruct (padStart2_toStringHex_byte b Hb) as [Hlength Hvalue].
        destruct (padStart2_toStringHex_byte b' Hb') as [Hlength' Hvalue'].
        apply append_same_length in Heq as [Hhead Hrest]; [|congruence].
        rewrite Hhead, Hvalue' in Hvalue. injection Hvalue as ->.
        f_equal. apply IH; assumption.
Qed.

(** Two draws of two bytes. *)
Lemma generateNonce_tells_the_bytes_apart_witness :
  (Forall (fun b => 0 <= b < 256) [1; 171] /\ Forall (fun b => 0 <= b < 256) [26; 11]) /\
  String.length (Gateway.generateNonce [1; 171]) = 6%nat /\
  (Gateway.generateNonce [1; 171] = Gateway.generateNonce [26; 11] -> [1; 171] = [26; 11]).
Proof.
  assert (Hbytes : Forall (fun b => 0 <= b < 256) [1; 171])
    by (repeat constructor; lia).
  assert (Hothers : Forall (fun b => 0 <= b < 256) [26; 11])
    by (repeat constructor; lia).
  split; [split; [exact Hbytes|exact Hothers]|].
  exact (generateNonce_tells_the_bytes_apart [1; 171] [26; 11] Hbytes Hothers).
Defined.

(** * Who reads the configuration of the proxy *)

Section Bearer.
Import JS Gateway.

Lemma startsWith_bearer (value : string) :
  startsWith "bearer " (toLowerCase value) = true ->
  exists scheme, value = scheme +:+ drop 7 value /\ toLowerCase scheme = "bearer ".
Proof.
  destruct value as [|c1 [|c2 [|c3 [|c4 [|c5 [|c6 [|c7 rest]]]]]]];
    cbn [toLowerCase startsWith]; rewrite ?andb_false_r; try discriminate.
  intros H. repeat (apply andb_true_iff in H as [?%Ascii.eqb_eq H]).
  exists (String c1 (String c2 (String c3 (String c4 (String c5 (String c6
            (String c7 EmptyString))))))).
  split; [reflexivity|]. cbn [toLowerCase]. congruence.
Qed.

Lemma bearer_startsWith (scheme token : string) :
  toLowerCase scheme = "bearer " ->
  isEmpty (scheme +:+ token) = false /\
  startsWith "bearer " (toLowerCase (scheme +:+ token)) = true /\
  drop 7 (scheme +:+ token) = token.
Proof.
  destruct scheme as [|c1 [|c2 [|c3 [|c4 [|c5 [|c6 [|c7 [|c8 rest]]]]]]]];
    cbn [toLowerCase]; try discriminate.
  intros [= H1 H2 H3 H4 H5 H6 H7]. split; [reflexivity|]. split; [|reflexivity].
  rewrite !append_cons. cbn [toLowerCase startsWith].
  rewrite H1, H2, H3, H4, H5, H6, H7. reflexivity.
Qed.

End Bearer.

(** [GET /config] gives the whole configuration to every request whose
    Authorization header is one text that begins with the word bearer, in
    small or capital letters, and a space, and goes on with anything that
    is not blank; every other request is answered 401.  What comes after
    the word is never compared with anything. *)
Theorem getConfig_is_open_to_every_bearer_token :
  forall (config : Gateway.ProxyConfig) (req : Gateway.Request),
    (ConfigGuard.getConfig config req = ConfigGuard.Next config \/
     ConfigGuard.getConfig config req = ConfigGuard.Unauthorized) /\
    (ConfigGuard.getConfig config req = ConfigGuard.Next config <->
     exists scheme token,
       ConfigGuard.authorization req = Some (Gateway.Single (scheme +:+ token)) /\
       JS.toLowerCase scheme = "bearer " /\
       JS.trim token <> "").
Proof.
  intros config req. unfold ConfigGuard.getConfig, ConfigGuard.requireBearerOnly.
  split; [destruct (ConfigGuard.hasBearerAuthorization req); [left|right]; reflexivity|].
  unfold ConfigGuard.hasBearerAuthorization.
  destruct (ConfigGuard.authorization req) as [[value|values]|].
  - destruct (JS.isEmpty value) eqn:Hempty.
    { split; [discriminate|]. intros (scheme & token & [= ->] & Hscheme & _).
      destruct (bearer_startsWith scheme token Hscheme) as [Hne _]. congruence. }
    destruct (JS.startsWith "bearer " (JS.toLowerCase value)) eqn:Hstarts; cbn [negb].
    + cbn zeta. destruct (startsWith_bearer value Hstarts) as (scheme & Hvalue & Hscheme).
      destruct (JS.trim (JS.drop 7 value)) as [|c rest] eqn:Htoken; cbn.
      * split; [discriminate|]. intros (scheme' & token & [= Hvalue'] & Hscheme' & Hblank).
        destruct (bearer_startsWith scheme' token Hscheme') as (_ & _ & Hdrop).
        rewrite Hvalue', Hdrop in Htoken. contradiction.
      * split; [|reflexivity]. intros _. exists scheme, (JS.drop 7 value).
        split; [rewrite <- Hvalue; reflexivity|]. split; [exact Hscheme|].
        rewrite Htoken. discriminate.
    + split; [discriminate|]. intros (scheme & token & [= ->] & Hscheme & _).
      destruct (bearer_startsWith scheme token Hscheme) as (_ & Hstarts' & _). congruence.
  - split; [discriminate|]. intros (scheme & token & [=] & _).
  - split; [discriminate|]. intros (scheme & token & [=] & _).
Qed.
